(** * SmartRent scraper: job orchestration engine

    A shallow embedding of the orchestration core of the scraper service
    (retry executor, rate limiter, job store, registries, export fan-out,
    database exporter and the job processing routine), of the BSD scraper
    with its readers of numbers, prices and addresses, and of the CSV
    writer, together with the properties its design document states about
    it (C1 to C10) and further properties read off the code (X1 to X29).

    Conventions.
    - JavaScript numbers that the code computes with are page indices,
      attempt counters, item counts and millisecond values: they are modelled
      by [Z].  Dates are epoch milliseconds, also [Z].
    - A value thrown by the code is any JavaScript value, held as its
      truth value and its text; [mkError] builds an [Error] object.
    - Text that the code scans for ASCII characters only (digits, commas,
      quotes) is held as the bytes of its UTF-8 encoding, none of which
      inside a multi-byte character equals an ASCII character; text that
      the code trims is held as its UTF-16 code units.  An integer read
      from text by [parseInt] is the Number nearest to its decimal value:
      the value itself below 2^53, [Infinity] from 2^1024 on.
    - An asynchronous routine is a state transformer that returns either a
      value or a thrown error, the successor state, and the list of runtime
      events (timer sleeps, process-logger lines, calls made to pluggable
      collaborators) it produced, in order.
    - The clock and the database behind the log table belong to the
      external world.  [Date_now] reads the time off the state of the
      world, which only calls to collaborators change: a timer sleep is an
      event of the run and does not move that clock, and no statement
      below gives a time that is read after a sleep.  A write to the log
      table may be refused by the database; an update of a job succeeds
      for a job that is in the job table and throws otherwise.
    - What a collaborator is called with is read off recording wrappers
      ([recording_scraper], [recording_exporter]) that behave as the
      wrapped collaborator does and note each call with its arguments and
      outcome in the world. *)

From Stdlib Require Import ZArith List Lia Bool Ascii.
From stdpp Require Import base strings gmap list pretty.

Open Scope Z_scope.

(** ** Thrown values and results *)

(** A thrown value.  A promise may be rejected with any JavaScript value;
    what the code does with a caught one is test it for truth ([lastError
    || ...] in [withRetry]) and read its text ([error instanceof Error ?
    error.message : String(error)]).  An [Error] object is truthy, and its
    text is its message; [undefined], [null], [0] and the empty string are
    among the values that are not. *)
Record Error := mkThrown { truthy : bool; message : string }.

(** [new Error(message)] *)
Abbreviation mkError msg := (mkThrown true msg).

Inductive Res (A : Type) : Type :=
| Ok (a : A)
| Throw (e : Error).
Arguments Ok {A} a.
Arguments Throw {A} e.

Definition failure_of {A} (r : Res A) : option Error :=
  match r with
  | Ok _ => None
  | Throw e => Some e
  end.

(** ** Runtime events *)

Inductive LogLevel := error | warn | info | debug.

(** Calls the orchestrator makes to its pluggable collaborators. *)
Inductive Call :=
| CInitialize
| CGetTotalPages (url : string)
| CGetPageUrl (url : string) (page : Z)
| CScrapePropertyList (pageUrl : string)
| CCleanup
| CExportProperties (exporterType : string) (count : nat).

Inductive Event :=
| EvSleep (ms : Z)
| EvLog (level : LogLevel) (context : string) (msg : string) (err : option Error)
| EvCall (c : Call) (failure : option Error).

(** ** The effect monad: state, exceptions, event output *)

Definition M (S A : Type) : Type := S -> Res A * S * list Event.

Definition ret {S A} (a : A) : M S A := fun s => (Ok a, s, []).

Definition throw {S A} (e : Error) : M S A := fun s => (Throw e, s, []).

Definition bind {S A B} (m : M S A) (k : A -> M S B) : M S B :=
  fun s =>
    match m s with
    | (Ok a, s1, ev1) => let '(r, s2, ev2) := k a s1 in (r, s2, ev1 ++ ev2)
    | (Throw e, s1, ev1) => (Throw e, s1, ev1)
    end.

Declare Scope eff_scope.
Delimit Scope eff_scope with eff.
Notation "x <- c1 ;; c2" := (bind c1 (fun x => c2))
  (at level 100, c1 at next level, right associativity) : eff_scope.
Notation "c1 ;; c2" := (bind c1 (fun _ => c2))
  (at level 100, right associativity) : eff_scope.
Open Scope eff_scope.

(** [try { body } catch (error) { handler error }] *)
Definition try_catch {S A} (body : M S A) (handler : Error -> M S A) : M S A :=
  fun s =>
    match body s with
    | (Ok a, s1, ev1) => (Ok a, s1, ev1)
    | (Throw e, s1, ev1) => let '(r, s2, ev2) := handler e s1 in (r, s2, ev1 ++ ev2)
    end.

(** [try { body } finally { finalizer }]: the finalizer always runs; when it
    throws, its error replaces the outcome of the body. *)
Definition try_finally {S A} (body : M S A) (finalizer : M S unit) : M S A :=
  fun s =>
    let '(r, s1, ev1) := body s in
    match finalizer s1 with
    | (Ok _, s2, ev2) => (r, s2, ev1 ++ ev2)
    | (Throw e, s2, ev2) => (Throw e, s2, ev1 ++ ev2)
    end.

Definition emit {S} (ev : Event) : M S unit := fun s => (Ok tt, s, [ev]).

Definition when {S} (b : bool) (m : M S unit) : M S unit :=
  if b then m else ret tt.

(** Run a routine over a component of the state. *)
Definition zoom {S P A} (get : S -> P) (set : P -> S -> S) (m : M P A) : M S A :=
  fun s => let '(r, p', evs) := m (get s) in (r, set p' s, evs).

(** [xs.map(f)] for an [f] that may throw: left to right, stops at the
    first throw. *)
Fixpoint mapM {S A B} (f : A -> M S B) (xs : list A) : M S (list B) :=
  match xs with
  | [] => ret []
  | x :: rest => y <- f x;; ys <- mapM f rest;; ret (y :: ys)
  end.

(** The process logger ([utils/logger.ts]): a line with a level, the context
    of the logger instance, and an optional error object. *)
Definition logger_error {S} (context msg : string) (err : option Error) : M S unit :=
  emit (EvLog error context msg err).
Definition logger_warn {S} (context msg : string) : M S unit :=
  emit (EvLog warn context msg None).
Definition logger_info {S} (context msg : string) : M S unit :=
  emit (EvLog info context msg None).
Definition logger_debug {S} (context msg : string) : M S unit :=
  emit (EvLog debug context msg None).

(** ** ScraperUtils ([utils/scraper-utils.ts]) *)

Module ScraperUtils.

(** [sleep(ms)]: a timer of [ms] milliseconds.  The timer is an event of
    the run; the state is left as it is, and so is the clock that a state
    of the service process carries in its world. *)
Definition sleep {S} (ms : Z) : M S unit := emit (EvSleep ms).

(** [Math.min(1000 * Math.pow(2, attempt - 1), 10000)] *)
Definition backoff (attempt : Z) : Z := Z.min (1000 * 2 ^ (attempt - 1)) 10000.

(** [lastError || new Error(`${operationName} failed after ${maxRetries}
    attempts`)]: the last caught value when there is one and it is truthy. *)
Definition lastError_or_new (lastError : option Error) (operationName : string)
    (maxRetries : Z) : Error :=
  match lastError with
  | Some e =>
      if truthy e then e
      else mkError (operationName +:+ " failed after " +:+ pretty maxRetries +:+ " attempts")
  | None => mkError (operationName +:+ " failed after " +:+ pretty maxRetries +:+ " attempts")
  end.

(** The [for (attempt = ...; attempt <= maxRetries; attempt++)] loop of
    [withRetry], entered with the current [attempt] and [lastError].
    [fuel] bounds the number of iterations; [withRetry] supplies
    [maxRetries] of it, which the loop never exhausts. *)
Fixpoint withRetry_from {S T} (fuel : nat) (operation : M S T)
    (maxRetries : Z) (operationName : string)
    (attempt : Z) (lastError : option Error) : M S T :=
  let raise_last : M S T :=
    throw (lastError_or_new lastError operationName maxRetries) in
  if attempt <=? maxRetries then
    match fuel with
    | O => raise_last
    | S fuel' =>
        try_catch operation
          (fun error =>
             when (attempt <? maxRetries) (sleep (backoff attempt));;
             withRetry_from fuel' operation maxRetries operationName
               (attempt + 1) (Some error))
    end
  else raise_last.

Definition withRetry {S T} (operation : M S T) (maxRetries : Z)
    (operationName : string) : M S T :=
  withRetry_from (Z.to_nat maxRetries) operation maxRetries operationName 1 None.

(** A number as [parseInt] gives it: [NaN], an integer that a Number
    holds exactly, or [Infinity]. *)
Inductive jsnumber := NaN | Num (z : Z) | Infinity.

(** The Number for a non-negative integer [z]: the nearest integer with at
    most 53 significant bits, the even one of two that are equally near;
    [z] itself when it has no more bits than that, and [Infinity] when the
    nearest one is [2^1024]. *)
Definition Number_of_integer (z : Z) : jsnumber :=
  let shift := Z.log2 z + 1 - 53 in
  if shift <=? 0 then Num z
  else
    let quotient := Z.shiftr z shift in
    let remainder := z - Z.shiftl quotient shift in
    let half := Z.shiftl 1 (shift - 1) in
    let rounded :=
      if (half <? remainder) || ((remainder =? half) && Z.odd quotient)
      then quotient + 1 else quotient in
    let nearest := Z.shiftl rounded shift in
    if nearest <? 2 ^ 1024 then Num nearest else Infinity.

(** [\d] *)
Definition is_digit (c : ascii) : bool :=
  (48 <=? Z.of_nat (nat_of_ascii c)) && (Z.of_nat (nat_of_ascii c) <=? 57).

(** [[\d,]] *)
Definition is_digit_or_comma (c : ascii) : bool :=
  is_digit c || Ascii.eqb c ","%char.

(** The longest prefix of characters in a class, and what follows it. *)
Fixpoint take_while (p : ascii -> bool) (text : string) : string :=
  match text with
  | String c rest => if p c then String c (take_while p rest) else EmptyString
  | EmptyString => EmptyString
  end.
Fixpoint drop_while (p : ascii -> bool) (text : string) : string :=
  match text with
  | String c rest => if p c then drop_while p rest else text
  | EmptyString => EmptyString
  end.

(** [text.match(/[\d,]+/)]: the leftmost run of digits and commas, taken
    as far as it goes; [None] for [null]. *)
Definition match_digits_commas (text : string) : option string :=
  match drop_while (fun c => negb (is_digit_or_comma c)) text with
  | EmptyString => None
  | rest => Some (take_while is_digit_or_comma rest)
  end.

(** [s.replace(/,/g, '')] *)
Fixpoint remove_commas (s : string) : string :=
  match s with
  | String c rest =>
      if Ascii.eqb c ","%char then remove_commas rest else String c (remove_commas rest)
  | EmptyString => EmptyString
  end.

(** The value of the leading decimal digits of [s], after the digits read
    so far, whose value is [acc]. *)
Fixpoint digits_value (acc : Z) (s : string) : Z :=
  match s with
  | String c rest =>
      if is_digit c then digits_value (10 * acc + (Z.of_nat (nat_of_ascii c) - 48)) rest
      else acc
  | EmptyString => acc
  end.

(** [parseInt(s, 10)] for an [s] that starts with neither white space nor a
    sign: the Number for the value of its leading digits, all of them read,
    and [NaN] when it has none.  The Number is the one the Node runtime
    gives, which rounds the whole numeral to the nearest Number (the
    language leaves the digits after the 20th to the implementation). *)
Definition parseInt10 (s : string) : jsnumber :=
  match s with
  | String c _ => if is_digit c then Number_of_integer (digits_value 0 s) else NaN
  | EmptyString => NaN
  end.

Definition extractNumber (text : string) : jsnumber :=
  match match_digits_commas text with
  | Some matched => parseInt10 (remove_commas matched)
  | None => Num 0
  end.

End ScraperUtils.

(** An operation that fails on every invocation, whatever the state. *)
Definition always_fails {S T} (operation : M S T) : Prop :=
  forall s, exists e s' evs, operation s = (Throw e, s', evs).

(** Ghost instrumentation: the same operation, counting its invocations. *)
Definition counting {S T} (operation : M S T) : M (S * nat) T :=
  fun '(s, n) => let '(r, s', evs) := operation s in (r, (s', Datatypes.S n), evs).

(** ** RateLimiter ([utils/rate-limiter.ts]) *)

Module RateLimiter.

Record RateLimitConfig := { requestsPerMinute : Z; burstLimit : Z }.

(** A JavaScript number that may be [+Infinity] ([Math.min()] of no
    arguments). *)
Inductive jsnum := Fin (z : Z) | PosInf.

(** [Math.min(...xs)] *)
Definition Math_min (xs : list Z) : jsnum :=
  fold_right (fun x acc => match acc with
                           | PosInf => Fin x
                           | Fin m => Fin (Z.min x m)
                           end) PosInf xs.

Definition jsnum_add (a : jsnum) (b : Z) : jsnum :=
  match a with
  | Fin z => Fin (z + b)
  | PosInf => PosInf
  end.

Definition jsnum_pos (a : jsnum) : bool :=
  match a with
  | Fin z => 0 <? z
  | PosInf => true
  end.

(** [waitIfNeeded] up to its only suspension point: the purged window and
    the sleep the caller awaits, if any. *)
Definition waitIfNeeded_enter (config : RateLimitConfig) (now : Z)
    (requests : list Z) : list Z * option jsnum :=
  let oneMinuteAgo := now - 60000 in
  let requests := List.filter (fun timestamp => oneMinuteAgo <? timestamp) requests in
  if requestsPerMinute config <=? Z.of_nat (length requests) then
    let oldestRequest := Math_min requests in
    let waitTime := jsnum_add oldestRequest (60000 - now) in
    if jsnum_pos waitTime then (requests, Some waitTime) else (requests, None)
  else (requests, None).

(** The rest of [waitIfNeeded], run once the sleep (if any) is over:
    [this.requests.push(now)] with the [now] read on entry. *)
Definition waitIfNeeded_resume (now : Z) (requests : list Z) : list Z :=
  requests ++ [now].

(** [getRequestCount()] evaluated at time [at_time]. *)
Definition getRequestCount (at_time : Z) (requests : list Z) : nat :=
  let oneMinuteAgo := at_time - 60000 in
  length (List.filter (fun timestamp => oneMinuteAgo <? timestamp) requests).

(** The timer delay of [setTimeout]: Node clamps a delay that does not fit
    32 bits (such as [Infinity]) to 1 ms. *)
Definition timer_delay (ms : jsnum) : Z :=
  match ms with
  | Fin z => z
  | PosInf => 1
  end.

(** A limiter shared by several callers on one event loop: the window, the
    callers suspended inside [sleep] (the [now] each read on entry and the
    time its timer is due), and the clock. *)
Record Limiter := mkLimiter {
  requests : list Z;
  suspended : list (Z * Z);
  clock : Z }.

Definition fresh (t0 : Z) : Limiter := mkLimiter [] [] t0.

Inductive Action :=
| Call (now : Z)               (* a caller invokes [waitIfNeeded] at [now] *)
| Wake (k : nat) (now : Z).    (* the timer of the k-th suspended caller fires at [now] *)

(** One scheduling step; [None] when the action cannot happen (time going
    backwards, a timer firing early, no such suspended caller). *)
Definition step (config : RateLimitConfig) (a : Action) (l : Limiter) : option Limiter :=
  match a with
  | Call now =>
      if clock l <=? now then
        match waitIfNeeded_enter config now (requests l) with
        | (reqs, None) => Some (mkLimiter (waitIfNeeded_resume now reqs) (suspended l) now)
        | (reqs, Some ms) =>
            Some (mkLimiter reqs (suspended l ++ [(now, now + timer_delay ms)]) now)
        end
      else None
  | Wake k now =>
      match nth_error (suspended l) k with
      | Some (entered, due) =>
          if (clock l <=? now) && (due <=? now) then
            Some (mkLimiter (waitIfNeeded_resume entered (requests l))
                    (firstn k (suspended l) ++ skipn (Datatypes.S k) (suspended l)) now)
          else None
      | None => None
      end
  end.

Fixpoint run (config : RateLimitConfig) (acts : list Action) (l : Limiter) : option Limiter :=
  match acts with
  | [] => Some l
  | a :: rest =>
      match step config a l with
      | Some l' => run config rest l'
      | None => None
      end
  end.

(** Callers that do not overlap: nobody calls while another caller is
    suspended. *)
Definition step_awaited (config : RateLimitConfig) (a : Action) (l : Limiter) : option Limiter :=
  match a, suspended l with
  | Call _, _ :: _ => None
  | _, _ => step config a l
  end.

Fixpoint run_awaited (config : RateLimitConfig) (acts : list Action) (l : Limiter) : option Limiter :=
  match acts with
  | [] => Some l
  | a :: rest =>
      match step_awaited config a l with
      | Some l' => run_awaited config rest l'
      | None => None
      end
  end.


(** The invariant of a limiter used by callers that do not overlap. *)
Definition window_bounded (config : RateLimitConfig) (l : Limiter) : Prop :=
  (forall T, clock l <= T ->
     Z.of_nat (getRequestCount T (requests l)) <= requestsPerMinute config) /\
  match suspended l with
  | [] => True
  | [(entered, due)] =>
      forall T, due <= T ->
        Z.of_nat (getRequestCount T (requests l)) < requestsPerMinute config
  | _ => False
  end.

(** Call times that do not go backwards from [t0] on. *)
Fixpoint nondecreasing_from (t0 : Z) (times : list Z) : Prop :=
  match times with
  | [] => True
  | t :: rest => t0 <= t /\ nondecreasing_from t rest
  end.

(** A burst: calls in order, any two of them less than 60 s apart. *)
Definition rapid_succession (t0 : Z) (times : list Z) : Prop :=
  nondecreasing_from t0 times /\
  forall a x, In a times -> In x times -> x - a < 60000.

End RateLimiter.

(** ** Records flowing through the pipeline ([dto/export/property.dto.ts]) *)

Module PropertyDto.
Record t := mk {
  (* Core identification *)
  id : string;
  title : string;
  description : option string;
  (* Pricing information *)
  price : Z;
  priceUnit : string;
  currency : string;
  pricePerPerson : option Z;
  deposit : option Z;
  (* Additional fees *)
  parkingMotorcycleFee : option Z;
  parkingScooterFee : option Z;
  electricityRate : option Z;
  electricityAllowanceAC : option Z;
  electricityAllowanceFan : option Z;
  (* Price variations *)
  regularRoomPrice : option Z;
  airConditionedRoomPrice : option Z;
  (* Location details *)
  address : string;
  city : string;
  district : string;
  ward : string;
  street : string;
  country : string;
  (* Vietnamese location IDs *)
  cityCode : option string;
  districtId : option Z;
  wardId : option Z;
  streetId : option Z;
  (* Coordinates *)
  latitude : option Z;
  longitude : option Z;
  (* Property specifications *)
  area : Z;
  bedrooms : option Z;
  bathrooms : option Z;
  direction : option string;
  furnishing : option string;
  propertyType : string;
  roomCapacity : option Z;
  (* Features and amenities (JSON strings) *)
  features : string;
  amenities : string;
  (* Media (JSON strings) *)
  images : string;
  videos : option string;
  virtualTour : option string;
  (* Listing metadata *)
  listingId : string;
  userId : string;
  postDate : Z;
  expiryDate : option Z;
  listingType : string;
  vipType : option Z;
  verified : option bool;
  expired : option bool;
  categoryId : option Z;
  productType : option Z;
  (* Scraping metadata *)
  source : string;
  sourceUrl : string;
  scrapedAt : Z;
  (* Additional Vietnamese-specific fields *)
  nearbyLandmarks : option string;
  transportationInfo : option string;
  targetAudience : option string }.
End PropertyDto.

(** ** Persisted job and log records *)

Inductive JobStatus := pending | running | completed | failed.

Definition JobStatus_to_string (st : JobStatus) : string :=
  match st with
  | pending => "pending"
  | running => "running"
  | completed => "completed"
  | failed => "failed"
  end.

(** [['completed', 'failed'].includes(status)] *)
Definition is_terminal (st : JobStatus) : bool :=
  match st with
  | completed | failed => true
  | _ => false
  end.

(** [status === 'running'] *)
Definition is_running (st : JobStatus) : bool :=
  match st with
  | running => true
  | _ => false
  end.

(** JSON payloads: the values the orchestrator puts in them. *)
Inductive MetaValue := MStr (s : string) | MList (l : list string).
Definition Metadata := list (string * MetaValue).

(** The [errors] payload the orchestrator stores on a failed job. *)
Record JobErrors := mkJobErrors { errors_message : string; errors_timestamp : Z }.

Record Job := mkJob {
  job_source : string;
  job_status : JobStatus;
  job_config : option Metadata;
  itemsFound : Z;
  itemsProcessed : Z;
  job_errors : option JobErrors;
  startedAt : option Z;
  completedAt : option Z;
  duration : option Z }.

Record JobResult := mkJobResult {
  res_itemsFound : option Z;
  res_itemsProcessed : option Z;
  res_errors : option JobErrors;
  res_duration : option Z }.

Record JobUpdateData := mkJobUpdateData {
  upd_status : option JobStatus;
  upd_itemsFound : option Z;
  upd_itemsProcessed : option Z;
  upd_errors : option JobErrors;
  upd_duration : option Z }.

Record ScrapingLog := mkScrapingLog {
  log_level : LogLevel;
  log_message : string;
  log_source : string;
  log_metadata : option Metadata }.

(** ** Pluggable collaborators *)

(** A call into a collaborator: a routine over the external world [W] only
    (browser, network, files, destination stores). *)
Definition Ext (W A : Type) : Type := W -> Res A * W.

(** [modules/scrapers/scraper.interface.ts], the members the job service
    uses. *)
Record IScraper (W : Type) := mkIScraper {
  initialize : Ext W unit;
  scrapePropertyList : string -> Ext W (list PropertyDto.t);
  getPageUrl : string -> Z -> Res string;
  getTotalPages : string -> Ext W Z;
  cleanup : Ext W unit;
  getScraperType : string }.
Arguments initialize {W}.
Arguments scrapePropertyList {W}.
Arguments getPageUrl {W}.
Arguments getTotalPages {W}.
Arguments cleanup {W}.
Arguments getScraperType {W}.

(** A registered scraper template: all the factory asks of it is [copy()]. *)
Record ScraperTemplate (W : Type) := mkScraperTemplate { copy : IScraper W }.
Arguments copy {W}.

(** [modules/exporters/exporter.interface.ts] *)
Record IExporter (W : Type) := mkIExporter {
  exportProperty : PropertyDto.t -> Ext W string;
  exportProperties : list PropertyDto.t -> Ext W (list string);
  getExporterType : string }.
Arguments exportProperty {W}.
Arguments exportProperties {W}.
Arguments getExporterType {W}.

(** What the service process reads off the external world besides calling
    its collaborators: the clock ([new Date()]), and whether the database
    takes a row for the log table: [scrapingLogs_refusal w] is the error
    with which [prisma.scrapingLogs.create] rejects in the state [w] of the
    world, if it does. *)
Class World (W : Type) := {
  Date_now : W -> Z;
  scrapingLogs_refusal : W -> option Error }.

(** ** State of the service process *)

Record Sys (W : Type) := mkSys {
  scrapingJobs : gmap string Job;               (* table scraping_jobs, by id *)
  scrapingLogs : list ScrapingLog;              (* table scraping_logs *)
  nextJobId : nat;                              (* id generator of the job table *)
  scrapers : gmap string (ScraperTemplate W);   (* ScraperFactory.scrapers *)
  exporters : gmap string (IExporter W);        (* ExporterFactory.exporters *)
  runningJobs : gset string;                    (* keys of ScrapingJobService.runningJobs *)
  ext : W }.
Arguments mkSys {W}.
Arguments scrapingJobs {W}.
Arguments scrapingLogs {W}.
Arguments nextJobId {W}.
Arguments scrapers {W}.
Arguments exporters {W}.
Arguments runningJobs {W}.
Arguments ext {W}.

Section SysAccess.
Context {W : Type}.

Definition set_scrapingJobs (jobs : gmap string Job) (s : Sys W) : Sys W :=
  mkSys jobs (scrapingLogs s) (nextJobId s) (scrapers s) (exporters s) (runningJobs s) (ext s).
Definition set_scrapingLogs (logs : list ScrapingLog) (s : Sys W) : Sys W :=
  mkSys (scrapingJobs s) logs (nextJobId s) (scrapers s) (exporters s) (runningJobs s) (ext s).
Definition set_nextJobId (n : nat) (s : Sys W) : Sys W :=
  mkSys (scrapingJobs s) (scrapingLogs s) n (scrapers s) (exporters s) (runningJobs s) (ext s).
Definition set_scrapers (m : gmap string (ScraperTemplate W)) (s : Sys W) : Sys W :=
  mkSys (scrapingJobs s) (scrapingLogs s) (nextJobId s) m (exporters s) (runningJobs s) (ext s).
Definition set_exporters (m : gmap string (IExporter W)) (s : Sys W) : Sys W :=
  mkSys (scrapingJobs s) (scrapingLogs s) (nextJobId s) (scrapers s) m (runningJobs s) (ext s).
Definition set_runningJobs (r : gset string) (s : Sys W) : Sys W :=
  mkSys (scrapingJobs s) (scrapingLogs s) (nextJobId s) (scrapers s) (exporters s) r (ext s).
Definition set_ext (w : W) (s : Sys W) : Sys W :=
  mkSys (scrapingJobs s) (scrapingLogs s) (nextJobId s) (scrapers s) (exporters s) (runningJobs s) w.

(** A call to a collaborator, recorded with its outcome. *)
Definition call {A} (c : Call) (m : Ext W A) : M (Sys W) A :=
  fun s => let '(r, w) := m (ext s) in (r, set_ext w s, [EvCall c (failure_of r)]).

(** [new Date()] *)
Definition Date_new `{World W} : M (Sys W) Z :=
  fun s => (Ok (Date_now (ext s)), s, []).

End SysAccess.

(** ** JobManagementService ([service/job-management.service.ts]) *)

Module JobManagementService.
Section Defs.
Context {W : Type} `{World W}.

Definition context : string := "JobManagementService".

(** [x || 0] and [x || null] on an optional number *)
Definition or_zero (x : option Z) : Z :=
  match x with
  | Some z => z
  | None => 0
  end.
Definition num_or_null (x : option Z) : option Z :=
  match x with
  | Some z => if z =? 0 then None else Some z
  | None => None
  end.

(** [prisma.scrapingJobs.create({ data })]: stores the row under a fresh
    id and returns that id. *)
Definition prisma_scrapingJobs_create (data : Job) : M (Sys W) string :=
  fun s =>
    let id := pretty (nextJobId s) in
    (Ok id,
     set_nextJobId (Datatypes.S (nextJobId s))
       (set_scrapingJobs (<[id := data]> (scrapingJobs s)) s),
     []).

Definition createScrapingJob (source : string) (status : JobStatus)
    (config : option Metadata) (results : option JobResult) : M (Sys W) string :=
  try_catch
    (started <- (if is_running status then now <- Date_new;; ret (Some now)
                 else ret None);;
     finished <- (if is_terminal status then now <- Date_new;; ret (Some now)
                  else ret None);;
     jobId <- prisma_scrapingJobs_create
       {| job_source := source;
          job_status := status;
          job_config := config;
          itemsFound := or_zero (results ≫= res_itemsFound);
          itemsProcessed := or_zero (results ≫= res_itemsProcessed);
          job_errors := results ≫= res_errors;
          startedAt := started;
          completedAt := finished;
          duration := num_or_null (results ≫= res_duration) |};;
     logger_info context ("Created scraping job " +:+ jobId +:+ " for source: " +:+ source);;
     ret jobId)
    (fun error =>
       logger_error context "Failed to create scraping job" (Some error);;
       throw error).

(** The row after [prisma.scrapingJobs.update({ data })]: the fields
    present in [data] are overwritten, the others kept. *)
Definition apply_update (updates : JobUpdateData) (started finished : option Z)
    (j : Job) : Job :=
  {| job_source := job_source j;
     job_status := default (job_status j) (upd_status updates);
     job_config := job_config j;
     itemsFound := default (itemsFound j) (upd_itemsFound updates);
     itemsProcessed := default (itemsProcessed j) (upd_itemsProcessed updates);
     job_errors := match upd_errors updates with
                   | Some e => Some e
                   | None => job_errors j
                   end;
     startedAt := match started with
                  | Some t => Some t
                  | None => startedAt j
                  end;
     completedAt := match finished with
                    | Some t => Some t
                    | None => completedAt j
                    end;
     duration := match upd_duration updates with
                 | Some d => Some d
                 | None => duration j
                 end |}.

(** [prisma.scrapingJobs.update({ where: { id }, data })]: throws when no
    row has this id. *)
Definition prisma_scrapingJobs_update (jobId : string) (updates : JobUpdateData)
    (started finished : option Z) : M (Sys W) unit :=
  fun s =>
    match scrapingJobs s !! jobId with
    | Some j =>
        (Ok tt,
         set_scrapingJobs (<[jobId := apply_update updates started finished j]> (scrapingJobs s)) s,
         [])
    | None => (Throw (mkError "Record to update not found."), s, [])
    end.

Definition status_text (st : option JobStatus) : string :=
  match st with
  | Some st => JobStatus_to_string st
  | None => "undefined"
  end.

Definition updateScrapingJob (jobId : string) (updates : JobUpdateData) : M (Sys W) unit :=
  try_catch
    ((* updateData = { ...updates } carries no startedAt of its own *)
     started <- (match upd_status updates with
                 | Some st => if is_running st then now <- Date_new;; ret (Some now)
                              else ret None
                 | None => ret None
                 end);;
     finished <- (match upd_status updates with
                  | Some st => if is_terminal st then now <- Date_new;; ret (Some now)
                               else ret None
                  | None => ret None
                  end);;
     prisma_scrapingJobs_update jobId updates started finished;;
     logger_info context
       ("Updated scraping job " +:+ jobId +:+ " with status: " +:+ status_text (upd_status updates)))
    (fun error =>
       logger_error context ("Failed to update scraping job " +:+ jobId) (Some error);;
       throw error).

(** The timestamps [updateScrapingJob] adds to the update, read off the
    requested status and the clock. *)
Definition update_started (updates : JobUpdateData) (s : Sys W) : option Z :=
  match upd_status updates with
  | Some st => if is_running st then Some (Date_now (ext s)) else None
  | None => None
  end.
Definition update_finished (updates : JobUpdateData) (s : Sys W) : option Z :=
  match upd_status updates with
  | Some st => if is_terminal st then Some (Date_now (ext s)) else None
  | None => None
  end.

(** [prisma.scrapingJobs.findUnique({ where: { id } })] *)
Definition prisma_scrapingJobs_findUnique (jobId : string) : M (Sys W) (option Job) :=
  fun s => (Ok (scrapingJobs s !! jobId), s, []).

Definition getScrapingJob (jobId : string) : M (Sys W) (option Job) :=
  try_catch (prisma_scrapingJobs_findUnique jobId)
    (fun error =>
       logger_error context ("Failed to get scraping job " +:+ jobId) (Some error);;
       throw error).

(** The [where] clause of [cleanupOldJobs]: [status] in [completed],
    [failed] and [completedAt] before the cutoff; a row without
    [completedAt] does not match. *)
Definition is_old (cutoffDate : Z) (j : Job) : bool :=
  is_terminal (job_status j) &&
  match completedAt j with
  | Some t => t <? cutoffDate
  | None => false
  end.

(** [prisma.scrapingJobs.deleteMany({ where })]: removes the rows that
    match and returns their number. *)
Definition prisma_scrapingJobs_deleteMany (matches : Job -> bool) : M (Sys W) Z :=
  fun s =>
    (Ok (Z.of_nat (size (filter (fun kv => Is_true (matches kv.2)) (scrapingJobs s)))),
     set_scrapingJobs (filter (fun kv => ~ Is_true (matches kv.2)) (scrapingJobs s)) s,
     []).

Definition cleanupOldJobs (daysToKeep : Z) : M (Sys W) Z :=
  try_catch
    (now <- Date_new;;
     let cutoffDate := now - daysToKeep * 24 * 60 * 60 * 1000 in
     count <- prisma_scrapingJobs_deleteMany (is_old cutoffDate);;
     logger_info context ("Cleaned up " +:+ pretty count +:+ " old job records");;
     ret count)
    (fun error =>
       logger_error context "Failed to cleanup old jobs" (Some error);;
       throw error).

End Defs.
End JobManagementService.

(** ** ScrapingLogService ([service/scraping-log.service.ts]) *)

Module ScrapingLogService.
Section Defs.
Context {W : Type} `{World W}.

Definition context : string := "ScrapingLogService".

(** [prisma.scrapingLogs.create({ data })]: adds the row to the log table,
    or throws when the database refuses it. *)
Definition prisma_scrapingLogs_create (data : ScrapingLog) : M (Sys W) unit :=
  fun s =>
    match scrapingLogs_refusal (ext s) with
    | Some e => (Throw e, s, [])
    | None => (Ok tt, set_scrapingLogs (scrapingLogs s ++ [data]) s, [])
    end.

(** The write is inside a try/catch that only logs: the routine never
    throws. *)
Definition logScrapingEvent (level : LogLevel) (msg source : string)
    (metadata : option Metadata) : M (Sys W) unit :=
  try_catch (prisma_scrapingLogs_create (mkScrapingLog level msg source metadata))
    (fun error => logger_error context "Failed to log scraping event" (Some error)).

End Defs.
End ScrapingLogService.

(** ** ScraperFactory ([modules/scrapers/scraper-factory.ts]) *)

Module ScraperFactory.
Section Defs.
Context {W : Type}.

Definition context : string := "ScraperFactory".

Definition register (websiteCode : string) (scraper : ScraperTemplate W) : M (Sys W) unit :=
  fun s =>
    (Ok tt, set_scrapers (<[websiteCode := scraper]> (scrapers s)) s,
     [EvLog info context ("Registered scraper template for " +:+ websiteCode) None]).

Definition getScraper (websiteCode : string) : M (Sys W) (IScraper W) :=
  fun s =>
    match scrapers s !! websiteCode with
    | None =>
        let text := "No scraper registered for website code: " +:+ websiteCode in
        (Throw (mkError text), s, [EvLog error context text None])
    | Some scraperTemplate => (Ok (copy scraperTemplate), s, [])
    end.

Definition clear : M (Sys W) unit :=
  fun s => (Ok tt, set_scrapers ∅ s, []).

End Defs.
End ScraperFactory.

(** ** ExporterFactory ([modules/exporters/exporter-factory.ts]) *)

Module ExporterFactory.
Section Defs.
Context {W : Type}.

Definition context : string := "ExporterFactory".

Definition register (exporterType : string) (exporter : IExporter W) : M (Sys W) unit :=
  fun s => (Ok tt, set_exporters (<[exporterType := exporter]> (exporters s)) s, []).

Definition getExporter (exporterType : string) : M (Sys W) (IExporter W) :=
  fun s =>
    match exporters s !! exporterType with
    | None =>
        let text := "No exporter registered for type: " +:+ exporterType in
        (Throw (mkError text), s, [EvLog error context text None])
    | Some exporter => (Ok exporter, s, [])
    end.

Definition getExporters (exporterTypes : list string) : M (Sys W) (list (IExporter W)) :=
  mapM getExporter exporterTypes.

End Defs.
End ExporterFactory.

(** ** Constants ([utils/constants.ts]) and start-up registration ([index.ts]) *)

Module Constants.
Definition WebsiteCode_BSD : string := "bsd".
Definition SUPPORTED_WEBSITES : list string := [WebsiteCode_BSD].
Definition ExporterType_DATABASE : string := "database".
Definition ExporterType_JSON : string := "json".
Definition ExporterType_CSV : string := "csv".
Definition SUPPORTED_EXPORTERS : list string :=
  [ExporterType_DATABASE; ExporterType_JSON; ExporterType_CSV].
End Constants.

(** [registerComponents], given the objects it constructs. *)
Definition registerComponents {W} (bsdScraper : ScraperTemplate W)
    (databaseExporter jsonExporter csvExporter : IExporter W) : M (Sys W) unit :=
  ScraperFactory.register Constants.WebsiteCode_BSD bsdScraper;;
  ExporterFactory.register Constants.ExporterType_DATABASE databaseExporter;;
  ExporterFactory.register Constants.ExporterType_JSON jsonExporter;;
  ExporterFactory.register Constants.ExporterType_CSV csvExporter.

(** ** CsvExporter ([modules/exporters/csv-exporter.ts]) *)

Module CsvExporter.

Definition quote : ascii := "034"%char.
Definition newline : ascii := "010"%char.
Definition comma : ascii := ","%char.

(** [value.includes(',') || value.includes(quote) || value.includes('\n')] *)
Fixpoint needs_quoting (value : string) : bool :=
  match value with
  | String c rest =>
      Ascii.eqb c comma || Ascii.eqb c quote || Ascii.eqb c newline || needs_quoting rest
  | EmptyString => false
  end.

(** [value.replace(/quote/g, quote + quote)] *)
Fixpoint double_quotes (value : string) : string :=
  match value with
  | String c rest =>
      if Ascii.eqb c quote then String quote (String quote (double_quotes rest))
      else String c (double_quotes rest)
  | EmptyString => EmptyString
  end.

Definition escapeCsvValue (value : string) : string :=
  match value with
  | EmptyString => EmptyString
  | _ =>
      if needs_quoting value
      then String quote (double_quotes value +:+ String quote EmptyString)
      else value
  end.

(** [row.join(',')] on the escaped values of a row. *)
Definition csvLine (row : list string) : string :=
  String.concat (String comma EmptyString) (map escapeCsvValue row).

End CsvExporter.

(** A reader of CSV lines, to state that [csvLine] loses nothing: fields
    are separated by commas; a field that starts with a quote runs to the
    next quote that is not doubled, and a doubled quote in it stands for
    one quote. *)
Module CsvReader.

Inductive state :=
| FieldStart
| Unquoted (field : string)
| Quoted (field : string)
| QuoteSeen (field : string).

(** Characters are accumulated in reverse. *)
Fixpoint rev_string (acc s : string) : string :=
  match s with
  | String c rest => rev_string (String c acc) rest
  | EmptyString => acc
  end.

Fixpoint read (st : state) (line : string) : list string :=
  match line with
  | EmptyString =>
      match st with
      | FieldStart => [EmptyString]
      | Unquoted field | Quoted field | QuoteSeen field => [rev_string EmptyString field]
      end
  | String c rest =>
      match st with
      | FieldStart =>
          if Ascii.eqb c CsvExporter.comma then EmptyString :: read FieldStart rest
          else if Ascii.eqb c CsvExporter.quote then read (Quoted EmptyString) rest
          else read (Unquoted (String c EmptyString)) rest
      | Unquoted field =>
          if Ascii.eqb c CsvExporter.comma
          then rev_string EmptyString field :: read FieldStart rest
          else read (Unquoted (String c field)) rest
      | Quoted field =>
          if Ascii.eqb c CsvExporter.quote then read (QuoteSeen field) rest
          else read (Quoted (String c field)) rest
      | QuoteSeen field =>
          if Ascii.eqb c CsvExporter.quote then read (Quoted (String c field)) rest
          else if Ascii.eqb c CsvExporter.comma
          then rev_string EmptyString field :: read FieldStart rest
          else read (Unquoted (String c field)) rest
      end
  end.

Definition readLine (line : string) : list string := read FieldStart line.

(** What may follow a field: the end of the line, or a comma and the
    fields [rest] of what comes after it. *)
Definition field_end (tail : string) (rest : list string) : Prop :=
  (tail = EmptyString /\ rest = []) \/
  exists line, tail = String CsvExporter.comma line /\ rest = read FieldStart line.

End CsvReader.

(** ** The scraped_properties table *)

Module ScrapedProperties.
(** The columns the database exporter writes, other than the key. *)
Record data := mkData {
  title : string;
  description : option string;
  price : option Z;
  priceUnit : option string;
  currency : string;
  pricePerPerson : option Z;
  deposit : option Z;
  parkingMotorcycleFee : option Z;
  parkingScooterFee : option Z;
  electricityRate : option Z;
  electricityAllowanceAC : option Z;
  electricityAllowanceFan : option Z;
  regularRoomPrice : option Z;
  airConditionedRoomPrice : option Z;
  address : string;
  city : string;
  district : string;
  ward : string;
  street : string;
  country : string;
  cityCode : option string;
  districtId : option Z;
  wardId : option Z;
  streetId : option Z;
  latitude : option Z;
  longitude : option Z;
  area : Z;
  bedrooms : option Z;
  bathrooms : option Z;
  direction : option string;
  furnishing : option string;
  propertyType : string;
  roomCapacity : option Z;
  features : string;
  amenities : string;
  images : string;
  videos : option string;
  virtualTour : option string;
  listingId : string;
  userId : string;
  postDate : Z;
  expiryDate : option Z;
  listingType : string;
  vipType : option Z;
  verified : option bool;
  expired : option bool;
  categoryId : option Z;
  productType : option Z;
  source : string;
  scrapedAt : Z;
  nearbyLandmarks : option string;
  transportationInfo : option string;
  targetAudience : option string;
  isActive : bool }.

Record row := mkRow { id : string; sourceUrl : string; cols : data }.

(** The table and its id generator.  [sourceUrl] carries a unique index. *)
Record table := mkTable { rows : list row; nextId : nat }.

Definition empty : table := mkTable [] 0.

(** The stored entities with a given natural key. *)
Definition with_sourceUrl (key : string) (t : table) : list row :=
  List.filter (fun r => String.eqb (sourceUrl r) key) (rows t).

(** The unique index on [sourceUrl]. *)
Definition unique_sourceUrl (t : table) : Prop := NoDup (map sourceUrl (rows t)).

(** [update] of the row found by [where: { sourceUrl: key }]. *)
Fixpoint update_where (key : string) (update : data) (rs : list row) : option (row * list row) :=
  match rs with
  | [] => None
  | r :: rest =>
      if String.eqb (sourceUrl r) key then
        let r' := mkRow (id r) (sourceUrl r) update in
        Some (r', r' :: rest)
      else
        match update_where key update rest with
        | Some (r', rest') => Some (r', r :: rest')
        | None => None
        end
  end.

(** [prisma.scrapedProperties.upsert({ where: { sourceUrl }, update, create })]:
    updates the row with that key when there is one, creates a row under
    a fresh id otherwise; returns the row. *)
Definition upsert (where_sourceUrl : string) (update : data)
    (create : string * data) : M table row :=
  fun t =>
    match update_where where_sourceUrl update (rows t) with
    | Some (r', rows') => (Ok r', mkTable rows' (nextId t), [])
    | None =>
        let r := mkRow (pretty (nextId t)) (fst create) (snd create) in
        (Ok r, mkTable (rows t ++ [r]) (Datatypes.S (nextId t)), [])
    end.
End ScrapedProperties.

(** ** DatabaseExporter ([modules/exporters/database-exporter.ts]) *)

Module DatabaseExporter.

Definition context : string := "DatabaseExporter".

(** Truthiness of the JavaScript values involved and the [x || d] forms
    the exporter uses. *)
Definition truthy_str (x : string) : bool :=
  match x with
  | EmptyString => false
  | _ => true
  end.
Definition str_or_null (x : string) : option string :=
  if truthy_str x then Some x else None.
Definition str_or (x d : string) : string :=
  if truthy_str x then x else d.
Definition num_or_null (x : Z) : option Z :=
  if x =? 0 then None else Some x.
Definition ostr_or_null (x : option string) : option string := x ≫= str_or_null.
Definition onum_or_null (x : option Z) : option Z := x ≫= num_or_null.
Definition obool_or_null (x : option bool) : option bool :=
  match x with
  | Some true => Some true
  | _ => None
  end.
(** a [Date] object is truthy *)
Definition odate_or_null (x : option Z) : option Z := x.

(** The [update] object of the upsert. *)
Definition update_data (propertyData : PropertyDto.t) : ScrapedProperties.data :=
  {| ScrapedProperties.title := PropertyDto.title propertyData;
     ScrapedProperties.description := ostr_or_null (PropertyDto.description propertyData);
     ScrapedProperties.price := num_or_null (PropertyDto.price propertyData);
     ScrapedProperties.priceUnit := str_or_null (PropertyDto.priceUnit propertyData);
     ScrapedProperties.currency := str_or (PropertyDto.currency propertyData) "VND";
     ScrapedProperties.pricePerPerson := onum_or_null (PropertyDto.pricePerPerson propertyData);
     ScrapedProperties.deposit := onum_or_null (PropertyDto.deposit propertyData);
     ScrapedProperties.parkingMotorcycleFee := onum_or_null (PropertyDto.parkingMotorcycleFee propertyData);
     ScrapedProperties.parkingScooterFee := onum_or_null (PropertyDto.parkingScooterFee propertyData);
     ScrapedProperties.electricityRate := onum_or_null (PropertyDto.electricityRate propertyData);
     ScrapedProperties.electricityAllowanceAC := onum_or_null (PropertyDto.electricityAllowanceAC propertyData);
     ScrapedProperties.electricityAllowanceFan := onum_or_null (PropertyDto.electricityAllowanceFan propertyData);
     ScrapedProperties.regularRoomPrice := onum_or_null (PropertyDto.regularRoomPrice propertyData);
     ScrapedProperties.airConditionedRoomPrice := onum_or_null (PropertyDto.airConditionedRoomPrice propertyData);
     ScrapedProperties.address := PropertyDto.address propertyData;
     ScrapedProperties.city := PropertyDto.city propertyData;
     ScrapedProperties.district := PropertyDto.district propertyData;
     ScrapedProperties.ward := PropertyDto.ward propertyData;
     ScrapedProperties.street := PropertyDto.street propertyData;
     ScrapedProperties.country := PropertyDto.country propertyData;
     ScrapedProperties.cityCode := ostr_or_null (PropertyDto.cityCode propertyData);
     ScrapedProperties.districtId := onum_or_null (PropertyDto.districtId propertyData);
     ScrapedProperties.wardId := onum_or_null (PropertyDto.wardId propertyData);
     ScrapedProperties.streetId := onum_or_null (PropertyDto.streetId propertyData);
     ScrapedProperties.latitude := onum_or_null (PropertyDto.latitude propertyData);
     ScrapedProperties.longitude := onum_or_null (PropertyDto.longitude propertyData);
     ScrapedProperties.area := PropertyDto.area propertyData;
     ScrapedProperties.bedrooms := onum_or_null (PropertyDto.bedrooms propertyData);
     ScrapedProperties.bathrooms := onum_or_null (PropertyDto.bathrooms propertyData);
     ScrapedProperties.direction := ostr_or_null (PropertyDto.direction propertyData);
     ScrapedProperties.furnishing := ostr_or_null (PropertyDto.furnishing propertyData);
     ScrapedProperties.propertyType := PropertyDto.propertyType propertyData;
     ScrapedProperties.roomCapacity := onum_or_null (PropertyDto.roomCapacity propertyData);
     ScrapedProperties.features := PropertyDto.features propertyData;
     ScrapedProperties.amenities := PropertyDto.amenities propertyData;
     ScrapedProperties.images := PropertyDto.images propertyData;
     ScrapedProperties.videos := ostr_or_null (PropertyDto.videos propertyData);
     ScrapedProperties.virtualTour := ostr_or_null (PropertyDto.virtualTour propertyData);
     ScrapedProperties.listingId := PropertyDto.listingId propertyData;
     ScrapedProperties.userId := PropertyDto.userId propertyData;
     ScrapedProperties.postDate := PropertyDto.postDate propertyData;
     ScrapedProperties.expiryDate := odate_or_null (PropertyDto.expiryDate propertyData);
     ScrapedProperties.listingType := PropertyDto.listingType propertyData;
     ScrapedProperties.vipType := onum_or_null (PropertyDto.vipType propertyData);
     ScrapedProperties.verified := obool_or_null (PropertyDto.verified propertyData);
     ScrapedProperties.expired := obool_or_null (PropertyDto.expired propertyData);
     ScrapedProperties.categoryId := onum_or_null (PropertyDto.categoryId propertyData);
     ScrapedProperties.productType := onum_or_null (PropertyDto.productType propertyData);
     ScrapedProperties.source := PropertyDto.source propertyData;
     ScrapedProperties.scrapedAt := PropertyDto.scrapedAt propertyData;
     ScrapedProperties.nearbyLandmarks := ostr_or_null (PropertyDto.nearbyLandmarks propertyData);
     ScrapedProperties.transportationInfo := ostr_or_null (PropertyDto.transportationInfo propertyData);
     ScrapedProperties.targetAudience := ostr_or_null (PropertyDto.targetAudience propertyData);
     ScrapedProperties.isActive := true |}.

(** The [create] object of the upsert: the key and the other columns. *)
Definition create_data (propertyData : PropertyDto.t) : string * ScrapedProperties.data :=
  (PropertyDto.sourceUrl propertyData,
   {| ScrapedProperties.title := PropertyDto.title propertyData;
      ScrapedProperties.description := ostr_or_null (PropertyDto.description propertyData);
      ScrapedProperties.price := num_or_null (PropertyDto.price propertyData);
      ScrapedProperties.priceUnit := str_or_null (PropertyDto.priceUnit propertyData);
      ScrapedProperties.currency := str_or (PropertyDto.currency propertyData) "VND";
      ScrapedProperties.pricePerPerson := onum_or_null (PropertyDto.pricePerPerson propertyData);
      ScrapedProperties.deposit := onum_or_null (PropertyDto.deposit propertyData);
      ScrapedProperties.parkingMotorcycleFee := onum_or_null (PropertyDto.parkingMotorcycleFee propertyData);
      ScrapedProperties.parkingScooterFee := onum_or_null (PropertyDto.parkingScooterFee propertyData);
      ScrapedProperties.electricityRate := onum_or_null (PropertyDto.electricityRate propertyData);
      ScrapedProperties.electricityAllowanceAC := onum_or_null (PropertyDto.electricityAllowanceAC propertyData);
      ScrapedProperties.electricityAllowanceFan := onum_or_null (PropertyDto.electricityAllowanceFan propertyData);
      ScrapedProperties.regularRoomPrice := onum_or_null (PropertyDto.regularRoomPrice propertyData);
      ScrapedProperties.airConditionedRoomPrice := onum_or_null (PropertyDto.airConditionedRoomPrice propertyData);
      ScrapedProperties.address := PropertyDto.address propertyData;
      ScrapedProperties.city := PropertyDto.city propertyData;
      ScrapedProperties.district := PropertyDto.district propertyData;
      ScrapedProperties.ward := PropertyDto.ward propertyData;
      ScrapedProperties.street := PropertyDto.street propertyData;
      ScrapedProperties.country := PropertyDto.country propertyData;
      ScrapedProperties.cityCode := ostr_or_null (PropertyDto.cityCode propertyData);
      ScrapedProperties.districtId := onum_or_null (PropertyDto.districtId propertyData);
      ScrapedProperties.wardId := onum_or_null (PropertyDto.wardId propertyData);
      ScrapedProperties.streetId := onum_or_null (PropertyDto.streetId propertyData);
      ScrapedProperties.latitude := onum_or_null (PropertyDto.latitude propertyData);
      ScrapedProperties.longitude := onum_or_null (PropertyDto.longitude propertyData);
      ScrapedProperties.area := PropertyDto.area propertyData;
      ScrapedProperties.bedrooms := onum_or_null (PropertyDto.bedrooms propertyData);
      ScrapedProperties.bathrooms := onum_or_null (PropertyDto.bathrooms propertyData);
      ScrapedProperties.direction := ostr_or_null (PropertyDto.direction propertyData);
      ScrapedProperties.furnishing := ostr_or_null (PropertyDto.furnishing propertyData);
      ScrapedProperties.propertyType := PropertyDto.propertyType propertyData;
      ScrapedProperties.roomCapacity := onum_or_null (PropertyDto.roomCapacity propertyData);
      ScrapedProperties.features := PropertyDto.features propertyData;
      ScrapedProperties.amenities := PropertyDto.amenities propertyData;
      ScrapedProperties.images := PropertyDto.images propertyData;
      ScrapedProperties.videos := ostr_or_null (PropertyDto.videos propertyData);
      ScrapedProperties.virtualTour := ostr_or_null (PropertyDto.virtualTour propertyData);
      ScrapedProperties.listingId := PropertyDto.listingId propertyData;
      ScrapedProperties.userId := PropertyDto.userId propertyData;
      ScrapedProperties.postDate := PropertyDto.postDate propertyData;
      ScrapedProperties.expiryDate := odate_or_null (PropertyDto.expiryDate propertyData);
      ScrapedProperties.listingType := PropertyDto.listingType propertyData;
      ScrapedProperties.vipType := onum_or_null (PropertyDto.vipType propertyData);
      ScrapedProperties.verified := obool_or_null (PropertyDto.verified propertyData);
      ScrapedProperties.expired := obool_or_null (PropertyDto.expired propertyData);
      ScrapedProperties.categoryId := onum_or_null (PropertyDto.categoryId propertyData);
      ScrapedProperties.productType := onum_or_null (PropertyDto.productType propertyData);
      ScrapedProperties.source := PropertyDto.source propertyData;
      ScrapedProperties.scrapedAt := PropertyDto.scrapedAt propertyData;
      ScrapedProperties.nearbyLandmarks := ostr_or_null (PropertyDto.nearbyLandmarks propertyData);
      ScrapedProperties.transportationInfo := ostr_or_null (PropertyDto.transportationInfo propertyData);
      ScrapedProperties.targetAudience := ostr_or_null (PropertyDto.targetAudience propertyData);
      ScrapedProperties.isActive := true |}).

(** [!title || !address || !sourceUrl] *)
Definition missing_required_fields (propertyData : PropertyDto.t) : bool :=
  negb (truthy_str (PropertyDto.title propertyData))
  || negb (truthy_str (PropertyDto.address propertyData))
  || negb (truthy_str (PropertyDto.sourceUrl propertyData)).

Definition exportProperty (propertyData : PropertyDto.t) : M ScrapedProperties.table string :=
  if missing_required_fields propertyData then
    let errorMessage := "Property missing required fields: title, address, or sourceUrl" in
    logger_error context errorMessage None;;
    throw (mkError errorMessage)
  else
    try_catch
      (property <- ScrapedProperties.upsert (PropertyDto.sourceUrl propertyData)
                     (update_data propertyData) (create_data propertyData);;
       ret (ScrapedProperties.id property))
      (fun error =>
         logger_error context "Failed to export property to database" (Some error);;
         throw error).

(** The batch export: a record that fails is logged and skipped. *)
Fixpoint exportProperties_from (properties : list PropertyDto.t) (propertyIds : list string)
    : M ScrapedProperties.table (list string) :=
  match properties with
  | [] => ret propertyIds
  | property :: rest =>
      propertyIds' <-
        try_catch
          (id <- exportProperty property;;
           ret (propertyIds ++ [id]))
          (fun error =>
             logger_error context
               ("Failed to export property " +:+ PropertyDto.id property) (Some error);;
             ret propertyIds);;
      exportProperties_from rest propertyIds'
  end.

Definition exportProperties (properties : list PropertyDto.t)
    : M ScrapedProperties.table (list string) :=
  exportProperties_from properties [].

Definition getExporterType : string := "database".

End DatabaseExporter.

(** A routine with its events dropped: how a collaborator's routine looks
    from the job service, which only sees the call and its outcome. *)
Definition silent {P A} (m : M P A) : Ext P A :=
  fun p => let '(r, p', _) := m p in (r, p').

(** The outcome of a routine, reified ([Promise.allSettled] style). *)
Definition attempt {S A} (m : M S A) : M S (Res A) :=
  fun s => let '(r, s', evs) := m s in (Ok r, s', evs).

(** ** BSDScraper ([modules/scrapers/bsd-scraper.ts]) *)

Module BSDScraper.

(** The browser-automation operations the scraper relies on, over the
    state [P] of the browser side.  [createPage] is
    [ScraperUtils.createPage]; [page_evaluate_totalPages] is the
    [page.evaluate] call that reads the last pagination number (1 when
    there is none). *)
Record Puppeteer (P Browser Page : Type) := mkPuppeteer {
  puppeteer_launch : M P Browser;
  browser_close : Browser -> M P unit;
  createPage : Browser -> M P Page;
  page_goto : Page -> string -> M P unit;
  page_waitForSelector : Page -> string -> M P unit;
  page_evaluate_totalPages : Page -> M P Z;
  page_close : Page -> M P unit }.
Arguments puppeteer_launch {P Browser Page}.
Arguments browser_close {P Browser Page}.
Arguments createPage {P Browser Page}.
Arguments page_goto {P Browser Page}.
Arguments page_waitForSelector {P Browser Page}.
Arguments page_evaluate_totalPages {P Browser Page}.
Arguments page_close {P Browser Page}.

(** A scraper instance: its [browser] field and the browser side. *)
Record t (P Browser : Type) := mk { browser : option Browser; remote : P }.
Arguments mk {P Browser}.
Arguments browser {P Browser}.
Arguments remote {P Browser}.

Section Defs.
Context {P Browser Page : Type}.
Variable pptr : Puppeteer P Browser Page.
(** [this.scrapePropertyList], the per-page extraction. *)
Variable scrapePropertyList : string -> M (t P Browser) (list PropertyDto.t).

Definition context : string := "BSDScraper".

Definition lift {A} (m : M P A) : M (t P Browser) A :=
  zoom remote (fun p s => mk (browser s) p) m.

Definition set_browser (b : option Browser) : M (t P Browser) unit :=
  fun s => (Ok tt, mk b (remote s), []).

Definition get_browser : M (t P Browser) (option Browser) :=
  fun s => (Ok (browser s), s, []).

(** [ScraperUtils.createBrowser] *)
Definition createBrowser : M (t P Browser) Browser :=
  try_catch (lift (puppeteer_launch pptr))
    (fun error =>
       logger_error "ScraperUtils" "Failed to launch browser" (Some error);;
       throw error).

Definition initialize : M (t P Browser) unit :=
  b <- createBrowser;;
  set_browser (Some b).

Definition cleanup : M (t P Browser) unit :=
  this_browser <- get_browser;;
  match this_browser with
  | Some b =>
      lift (browser_close pptr b);;
      set_browser None
  | None => ret tt
  end.

Definition getScraperType : string := "bsd".

Definition getTotalPages (listUrl : string) : M (t P Browser) Z :=
  this_browser <- get_browser;;
  match this_browser with
  | None => throw (mkError "Browser not initialized")
  | Some b =>
      page <- lift (createPage pptr b);;
      try_finally
        (try_catch
           (ScraperUtils.withRetry
              (lift (page_goto pptr page listUrl);;
               lift (page_waitForSelector pptr page "body");;
               ScraperUtils.sleep 2000)
              3 "page loading";;
            totalPages <- lift (page_evaluate_totalPages pptr page);;
            ret totalPages)
           (fun error =>
              logger_error context ("Failed to get total pages from " +:+ listUrl) (Some error);;
              ret 1))
        (lift (page_close pptr page))
  end.

(** The body of the page loop of [scrapeAllPropertiesFromFirstPage]; it
    returns [allProperties] as the iteration leaves it.  The catch clause
    sees [allProperties] as the statements run so far left it, so the
    statements before and after the [push] are guarded separately. *)
Definition scrapeListPage (firstListUrl : string) (totalPages pageNum : Z)
    (allProperties : list PropertyDto.t) : M (t P Browser) (list PropertyDto.t) :=
  let on_pageError (pageError : Error) : M (t P Browser) unit :=
    logger_error context ("Failed to scrape page " +:+ pretty pageNum) (Some pageError) in
  let pageUrl := firstListUrl +:+ "/p" +:+ pretty pageNum in
  fetched <-
    try_catch
      (logger_info context
         ("Scraping page " +:+ pretty pageNum +:+ "/" +:+ pretty totalPages +:+ ": " +:+ pageUrl);;
       emit (EvCall (CScrapePropertyList pageUrl) None);;
       pageProperties <- scrapePropertyList pageUrl;;
       ret (Some pageProperties))
      (fun pageError => on_pageError pageError;; ret None);;
  match fetched with
  | None => ret allProperties
  | Some pageProperties =>
      let allProperties := allProperties ++ pageProperties in
      try_catch
        (logger_info context
           ("Page " +:+ pretty pageNum +:+ " completed: "
            +:+ pretty (length pageProperties) +:+ " properties found");;
         when (pageNum <? totalPages) (ScraperUtils.sleep 3000))
        on_pageError;;
      ret allProperties
  end.

(** [for (let pageNum = start; pageNum <= totalPages &&
    (pageNum - start + 1 <= limit); pageNum++)], entered at [pageNum], with
    [fuel] as in [ScrapingJobService.crawl_from]. *)
Fixpoint scrapePages_from (fuel : nat) (firstListUrl : string)
    (start limit totalPages pageNum : Z) (allProperties : list PropertyDto.t)
    : M (t P Browser) (list PropertyDto.t) :=
  if (pageNum <=? totalPages) && (pageNum - start + 1 <=? limit) then
    match fuel with
    | O => ret allProperties
    | S fuel' =>
        allProperties <- scrapeListPage firstListUrl totalPages pageNum allProperties;;
        scrapePages_from fuel' firstListUrl start limit totalPages (pageNum + 1) allProperties
    end
  else ret allProperties.

Definition scrapeAllPropertiesFromFirstPage (firstListUrl : string) (start limit : Z)
    : M (t P Browser) (list PropertyDto.t) :=
  try_catch
    (logger_info context ("Starting to scrape all properties from: " +:+ firstListUrl);;
     totalPages <- getTotalPages firstListUrl;;
     logger_info context ("Found " +:+ pretty totalPages +:+ " pages to scrape");;
     allProperties <-
       scrapePages_from (Z.to_nat (totalPages - start + 1)) firstListUrl
         start limit totalPages start [];;
     logger_info context
       ("Completed scraping all pages. Total properties found: "
        +:+ pretty (length allProperties));;
     ret allProperties)
    (fun error =>
       logger_error context "Failed to scrape all properties from first page" (Some error);;
       scrapePropertyList firstListUrl).

(** The instance as the job service sees it.  [getPageUrl] appends
    [/p<page>] to the path of the parsed listing URL and throws on a
    malformed URL; URL parsing is left to the parameter. *)
Definition as_IScraper (getPageUrl : string -> Z -> Res string) : IScraper (t P Browser) :=
  mkIScraper _
    (silent initialize)
    (fun u => silent (scrapePropertyList u))
    getPageUrl
    (fun u => silent (getTotalPages u))
    (silent cleanup)
    getScraperType.

End Defs.

(** *** Reading a listing page *)

(** A number that may be [NaN], given by its decimal value: the number
    nearest to [mantissa / 10 ^ scale]. *)
Inductive jsfloat := FNaN | FDec (mantissa : Z) (scale : nat).

(** [parseFloat(s)] for an [s] made of digits with at most one dot in it:
    the value of the digits before the dot and of those after it, [NaN]
    when there is no digit to read. *)
Definition parseFloat (s : string) : jsfloat :=
  let int := ScraperUtils.take_while ScraperUtils.is_digit s in
  let frac :=
    match ScraperUtils.drop_while ScraperUtils.is_digit s with
    | String c rest =>
        if Ascii.eqb c "."%char then ScraperUtils.take_while ScraperUtils.is_digit rest
        else EmptyString
    | EmptyString => EmptyString
    end in
  match int +:+ frac with
  | EmptyString => FNaN
  | digits => FDec (ScraperUtils.digits_value 0 digits) (String.length frac)
  end.

(** [priceText.match(/([\d,]+(?:\.\d+)?)/)]: the leftmost run of digits and
    commas, with the dot and the digits that follow it when there are
    some. *)
Definition match_price (priceText : string) : option string :=
  match ScraperUtils.drop_while (fun c => negb (ScraperUtils.is_digit_or_comma c)) priceText with
  | EmptyString => None
  | rest =>
      let run := ScraperUtils.take_while ScraperUtils.is_digit_or_comma rest in
      match ScraperUtils.drop_while ScraperUtils.is_digit_or_comma rest with
      | String c after =>
          if Ascii.eqb c "."%char then
            match ScraperUtils.take_while ScraperUtils.is_digit after with
            | EmptyString => Some run
            | frac => Some (run +:+ "." +:+ frac)
            end
          else Some run
      | EmptyString => Some run
      end
  end.

Definition extractPriceNumber (priceText : string) : jsfloat :=
  match match_price priceText with
  | Some matched => parseFloat (ScraperUtils.remove_commas matched)
  | None => FDec 0 0
  end.

(** *** Addresses *)

(** Text as UTF-16 code units. *)
Definition text : Type := list Z.

(** The code units that [String.prototype.trim] strips (WhiteSpace and
    LineTerminator of ECMAScript). *)
Definition is_white_space (c : Z) : bool :=
  (c =? 9) || (c =? 10) || (c =? 11) || (c =? 12) || (c =? 13) || (c =? 32)
  || (c =? 160) || (c =? 5760) || ((8192 <=? c) && (c <=? 8202))
  || (c =? 8232) || (c =? 8233) || (c =? 8239) || (c =? 8287) || (c =? 12288)
  || (c =? 65279).

Fixpoint trimStart (s : text) : text :=
  match s with
  | c :: rest => if is_white_space c then trimStart rest else s
  | [] => []
  end.

Definition trim (s : text) : text := rev (trimStart (rev (trimStart s))).

Definition comma_unit : Z := 44.

(** [s.split(',')] *)
Fixpoint split_commas (s : text) : list text :=
  match s with
  | [] => [[]]
  | c :: rest =>
      if c =? comma_unit then [] :: split_commas rest
      else match split_commas rest with
           | part :: parts => (c :: part) :: parts
           | [] => [[c]]
           end
  end.

(** [parts[i]]: [undefined] outside the array. *)
Definition at_index (parts : list text) (i : Z) : option text :=
  if i <? 0 then None else parts !! Z.to_nat i.

(** [part || fallback] *)
Definition or_else (part : option text) (fallback : text) : text :=
  match part with
  | Some (c :: rest) => c :: rest
  | _ => fallback
  end.

Record ParsedAddress := mkParsedAddress {
  address : text;
  city : text;
  district : text;
  ward : text;
  street : text }.

(** ['Hồ Chí Minh'] *)
Definition default_city : text := [72; 7891; 32; 67; 104; 237; 32; 77; 105; 110; 104].

Definition parseAddress (address : text) : ParsedAddress :=
  let parts := map trim (split_commas address) in
  let length := Z.of_nat (length parts) in
  {| address := address;
     city := or_else (at_index parts (length - 1)) default_city;
     district := or_else (at_index parts (length - 2)) [];
     ward := or_else (at_index parts (length - 3)) [];
     street := or_else (at_index parts 1) (or_else (at_index parts 0) []) |}.

Section Pages.
Context {P Browser Page : Type}.
Variable pptr : Puppeteer P Browser Page.
(** [page.$eval(selector, el => el.textContent?.trim() || '')] *)
Variable page_eval_text : Page -> string -> M P string.
(** The [page.evaluate] call of [scrapePropertyList] that collects the
    links of the listing. *)
Variable page_evaluate_propertyUrls : Page -> M P (list string).
(** [this.extractPropertyData(page, url)] *)
Variable extractPropertyData : Page -> string -> M P (option PropertyDto.t).
(** [Promise.allSettled(batch.map(url => this.scrapeProperty(url)))]: the
    scrapes of a batch run concurrently; the loop sees the step as a whole,
    with one settled result per URL. *)
Variable allSettled_scrapeProperty :
  list string -> t P Browser -> list (Res (option PropertyDto.t)) * t P Browser.

Definition extractText (page : Page) (selector : string) : M (t P Browser) string :=
  try_catch (lift (page_eval_text page selector)) (fun _ => ret EmptyString).

(** [number > 0] *)
Definition is_positive (number : ScraperUtils.jsnumber) : bool :=
  match number with
  | ScraperUtils.Num z => 0 <? z
  | ScraperUtils.Infinity => true
  | ScraperUtils.NaN => false
  end.

Definition extractNumber (page : Page) (selector : string)
    : M (t P Browser) (option ScraperUtils.jsnumber) :=
  try_catch
    (text <- extractText page selector;;
     let number := ScraperUtils.extractNumber text in
     ret (if is_positive number then Some number else None))
    (fun _ => ret None).

Definition scrapeProperty (url : string) : M (t P Browser) (option PropertyDto.t) :=
  this_browser <- get_browser;;
  match this_browser with
  | None => throw (mkError "Browser not initialized")
  | Some b =>
      page <- lift (createPage pptr b);;
      try_finally
        (try_catch
           (logger_info context ("Scraping property: " +:+ url);;
            ScraperUtils.withRetry
              (lift (page_goto pptr page url);;
               lift (page_waitForSelector pptr page "body");;
               ScraperUtils.sleep 1000)
              3 "property page loading";;
            propertyData <- lift (extractPropertyData page url);;
            match propertyData with
            | Some property =>
                logger_info context
                  ("Successfully scraped property: " +:+ PropertyDto.title property)
            | None => ret tt
            end;;
            ret propertyData)
           (fun error =>
              logger_error context ("Failed to scrape property " +:+ url) (Some error);;
              ret None))
        (lift (page_close pptr page))
  end.

(** [results.forEach((result, index) => ...)] on the results from [index]
    on: a fulfilled result with a record is pushed, any other is reported
    with its position [i + index] in the listing. *)
Fixpoint collectResults (i index : nat) (results : list (Res (option PropertyDto.t)))
    (properties : list PropertyDto.t) : M (t P Browser) (list PropertyDto.t) :=
  match results with
  | [] => ret properties
  | result :: rest =>
      properties <-
        match result with
        | Ok (Some value) => ret (properties ++ [value])
        | _ =>
            logger_warn context
              ("Failed to scrape property at index " +:+ pretty (i + index)%nat);;
            ret properties
        end;;
      collectResults i (Datatypes.S index) rest properties
  end.

(** [for (let i = 0; i < propertyUrls.length; i += maxConcurrent)] with
    [maxConcurrent = 3], entered at [i]; [fuel] bounds the number of
    iterations, and the length of the listing is enough of it. *)
Fixpoint scrapeBatches_from (fuel : nat) (propertyUrls : list string) (i : nat)
    (properties : list PropertyDto.t) : M (t P Browser) (list PropertyDto.t) :=
  if (i <? length propertyUrls)%nat then
    match fuel with
    | O => ret properties
    | Datatypes.S fuel' =>
        let batch := take 3 (drop i propertyUrls) in
        results <- (fun s => let '(results, s') := allSettled_scrapeProperty batch s in
                             (Ok results, s', []));;
        properties <- collectResults i 0 results properties;;
        when (i + 3 <? length propertyUrls)%nat (ScraperUtils.sleep 2000);;
        scrapeBatches_from fuel' propertyUrls (i + 3) properties
    end
  else ret properties.

(** Nothing in the batch loop throws, so an error reaches the catch clause
    with [properties] still empty. *)
Definition scrapePropertyList (url : string) : M (t P Browser) (list PropertyDto.t) :=
  this_browser <- get_browser;;
  match this_browser with
  | None => throw (mkError "Browser not initialized")
  | Some b =>
      page <- lift (createPage pptr b);;
      try_finally
        (try_catch
           (logger_info context ("Scraping property list: " +:+ url);;
            ScraperUtils.withRetry
              (lift (page_goto pptr page url);;
               lift (page_waitForSelector pptr page "body");;
               ScraperUtils.sleep 2000)
              3 "property list page loading";;
            propertyUrls <- lift (page_evaluate_propertyUrls page);;
            logger_info context
              ("Found " +:+ pretty (length propertyUrls) +:+ " property URLs");;
            scrapeBatches_from (length propertyUrls) propertyUrls 0 [])
           (fun error =>
              logger_error context ("Failed to scrape property list " +:+ url) (Some error);;
              ret []))
        (lift (page_close pptr page))
  end.

End Pages.
End BSDScraper.

(** ** ScrapingJobService ([service/scraping-job.service.ts]) *)

Module ScrapingJobRequest.
Record t := mk {
  url : string;
  websiteCode : string;
  exporters : list string;
  start : Z;
  limit : Z }.
End ScrapingJobRequest.

(** What [getJobStatus] answers for a stored job. *)
Record JobStatusView := mkJobStatusView {
  view_job : Job;
  isCurrentlyRunning : bool;
  view_config : Metadata }.

Module ScrapingJobService.
Section Defs.
Context {W : Type} `{World W}.

Definition context : string := "ScrapingJobService".

Definition join (sep : string) (xs : list string) : string := String.concat sep xs.

Definition job_metadata (jobId : string) (scrapingJob : ScrapingJobRequest.t) : Metadata :=
  [("jobId", MStr jobId);
   ("url", MStr (ScrapingJobRequest.url scrapingJob));
   ("websiteCode", MStr (ScrapingJobRequest.websiteCode scrapingJob));
   ("exporters", MList (ScrapingJobRequest.exporters scrapingJob))].

Definition export_failure_metadata (jobId exporterType : string) (e : Error) : Metadata :=
  [("jobId", MStr jobId); ("exporter", MStr exporterType); ("error", MStr (message e))].

(** One turn of the loop of [exportData]: the call to one exporter, with
    its try/catch. *)
Definition exportWith (jobId : string) (properties : list PropertyDto.t)
    (exporter : IExporter W) : M (Sys W) unit :=
  try_catch
    (call (CExportProperties (getExporterType exporter) (length properties))
       (exportProperties exporter properties);;
     logger_info context
       ("Successfully exported " +:+ pretty (length properties)
        +:+ " properties using " +:+ getExporterType exporter))
    (fun e =>
       logger_error context (getExporterType exporter +:+ " export failed:") (Some e);;
       ScrapingLogService.logScrapingEvent error
         ("Export failed for " +:+ getExporterType exporter) "job-service"
         (Some (export_failure_metadata jobId (getExporterType exporter) e))).

(** [exportData]: the fan-out of one page's records. *)
Fixpoint exportData (jobId : string) (properties : list PropertyDto.t)
    (exporters : list (IExporter W)) : M (Sys W) unit :=
  match exporters with
  | [] => ret tt
  | exporter :: rest =>
      exportWith jobId properties exporter;;
      exportData jobId properties rest
  end.

(** The body of the page loop of [processScrapingJob]; it returns
    [totalProperties] as the iteration leaves it.  The catch clause sees
    [totalProperties] as the statements run so far left it, so the
    statements before and after the [+=] are guarded separately. *)
Definition scrapePage (jobId : string) (scraper : IScraper W)
    (exporters : list (IExporter W)) (url : string)
    (totalPages pageNum totalProperties : Z) : M (Sys W) Z :=
  let on_pageError (pageError : Error) : M (Sys W) unit :=
    logger_error context ("Failed to scrape page " +:+ pretty pageNum) (Some pageError) in
  fetched <-
    try_catch
      (pageUrl <- call (CGetPageUrl url pageNum) (fun w => (getPageUrl scraper url pageNum, w));;
       logger_info context
         ("Scraping page " +:+ pretty pageNum +:+ "/" +:+ pretty totalPages +:+ ": " +:+ pageUrl);;
       pageProperties <- call (CScrapePropertyList pageUrl) (scrapePropertyList scraper pageUrl);;
       logger_info context
         ("Page " +:+ pretty pageNum +:+ " completed: "
          +:+ pretty (length pageProperties) +:+ " properties found");;
       ret (Some pageProperties))
      (fun pageError => on_pageError pageError;; ret None);;
  match fetched with
  | None => ret totalProperties
  | Some pageProperties =>
      let totalProperties := totalProperties + Z.of_nat (length pageProperties) in
      try_catch
        (exportData jobId pageProperties exporters;;
         when (pageNum <? totalPages) (ScraperUtils.sleep 3000))
        on_pageError;;
      ret totalProperties
  end.

(** [for (let pageNum = start; pageNum <= totalPages &&
    (pageNum - start + 1 <= limit); pageNum++)], entered at [pageNum].
    [fuel] bounds the number of iterations; [crawl] supplies
    [totalPages - start + 1] of it, which the loop never exhausts. *)
Fixpoint crawl_from (fuel : nat) (jobId : string) (scraper : IScraper W)
    (exporters : list (IExporter W)) (url : string)
    (start limit totalPages pageNum totalProperties : Z) : M (Sys W) Z :=
  if (pageNum <=? totalPages) && (pageNum - start + 1 <=? limit) then
    match fuel with
    | O => ret totalProperties
    | S fuel' =>
        totalProperties <-
          scrapePage jobId scraper exporters url totalPages pageNum totalProperties;;
        crawl_from fuel' jobId scraper exporters url start limit totalPages
          (pageNum + 1) totalProperties
    end
  else ret totalProperties.

(** [let totalProperties = 0; for (let pageNum = start; ...) { ... }] *)
Definition crawl (jobId : string) (scraper : IScraper W) (exporters : list (IExporter W))
    (url : string) (start limit totalPages : Z) : M (Sys W) Z :=
  crawl_from (Z.to_nat (totalPages - start + 1)) jobId scraper exporters url
    start limit totalPages start 0.

Definition status_update (st : JobStatus) : JobUpdateData :=
  mkJobUpdateData (Some st) None None None None.

(** The statements of the [try] block once [totalPages] is known. *)
Definition processPages (jobId : string) (scrapingJob : ScrapingJobRequest.t)
    (exporters : list (IExporter W)) (scraper : IScraper W) (totalPages : Z)
    : M (Sys W) unit :=
  let url := ScrapingJobRequest.url scrapingJob in
  let websiteCode := ScrapingJobRequest.websiteCode scrapingJob in
  let exporterNames := join ", " (ScrapingJobRequest.exporters scrapingJob) in
  logger_info context ("Found " +:+ pretty totalPages +:+ " pages to scrape");;
  totalProperties <-
    crawl jobId scraper exporters url
      (ScrapingJobRequest.start scrapingJob) (ScrapingJobRequest.limit scrapingJob)
      totalPages;;
  logger_info context
    ("Completed scraping all pages. Total properties found: " +:+ pretty totalProperties);;
  JobManagementService.updateScrapingJob jobId
    (mkJobUpdateData (Some completed) (Some totalProperties) (Some totalProperties) None None);;
  ScrapingLogService.logScrapingEvent info "Scraping job completed successfully"
    "job-service" (Some (job_metadata jobId scrapingJob));;
  logger_info context
    ("Job " +:+ jobId +:+ " for " +:+ websiteCode
     +:+ " completed successfully with exporters: " +:+ exporterNames).

(** The [try] block of [processScrapingJob]. *)
Definition processAttempt (jobId : string) (scrapingJob : ScrapingJobRequest.t)
    (exporters : list (IExporter W)) (scraper : IScraper W) : M (Sys W) unit :=
  let url := ScrapingJobRequest.url scrapingJob in
  JobManagementService.updateScrapingJob jobId (status_update running);;
  ScrapingLogService.logScrapingEvent info "Starting scraping job" "job-service"
    (Some (job_metadata jobId scrapingJob));;
  call CInitialize (initialize scraper);;
  logger_info context ("Starting to scrape all properties from: " +:+ url);;
  totalPages <- call (CGetTotalPages url) (getTotalPages scraper url);;
  processPages jobId scrapingJob exporters scraper totalPages.

(** The [catch] clause of [processScrapingJob]. *)
Definition processFailure (jobId : string) (scrapingJob : ScrapingJobRequest.t)
    (e : Error) : M (Sys W) unit :=
  let websiteCode := ScrapingJobRequest.websiteCode scrapingJob in
  logger_error context ("Job " +:+ jobId +:+ " for " +:+ websiteCode +:+ " failed:") (Some e);;
  timestamp <- Date_new;;
  JobManagementService.updateScrapingJob jobId
    (mkJobUpdateData (Some failed) None None
       (Some (mkJobErrors (message e) timestamp)) None);;
  ScrapingLogService.logScrapingEvent error "Scraping job failed" "job-service"
    (Some (job_metadata jobId scrapingJob ++ [("error", MStr (message e))])).

(** The [finally] clause of [processScrapingJob]. *)
Definition processCleanup (jobId : string) (scrapingJob : ScrapingJobRequest.t)
    (scraper : IScraper W) : M (Sys W) unit :=
  call CCleanup (cleanup scraper);;
  logger_debug context
    ("Job " +:+ jobId +:+ " for " +:+ ScrapingJobRequest.websiteCode scrapingJob
     +:+ " processing completed").

Definition processGuarded (jobId : string) (scrapingJob : ScrapingJobRequest.t)
    (exporters : list (IExporter W)) (scraper : IScraper W) : M (Sys W) unit :=
  try_catch (processAttempt jobId scrapingJob exporters scraper)
    (processFailure jobId scrapingJob).

(** [processScrapingJob] from its [try] statement on. *)
Definition processResolved (jobId : string) (scrapingJob : ScrapingJobRequest.t)
    (exporters : list (IExporter W)) (scraper : IScraper W) : M (Sys W) unit :=
  try_finally (processGuarded jobId scrapingJob exporters scraper)
    (processCleanup jobId scrapingJob scraper).

(** The statements of [processScrapingJob] before its [try]: registry
    resolution of the exporters, then of the scraper. *)
Definition resolveCollaborators (scrapingJob : ScrapingJobRequest.t)
    : M (Sys W) (list (IExporter W) * IScraper W) :=
  exporters <- ExporterFactory.getExporters (ScrapingJobRequest.exporters scrapingJob);;
  scraper <- ScraperFactory.getScraper (ScrapingJobRequest.websiteCode scrapingJob);;
  ret (exporters, scraper).

Definition processScrapingJob (jobId : string) (scrapingJob : ScrapingJobRequest.t)
    : M (Sys W) unit :=
  resolved <- resolveCollaborators scrapingJob;;
  processResolved jobId scrapingJob (fst resolved) (snd resolved).

(** [startBackgroundJob].  Calling the async [processScrapingJob] runs it
    up to its first [await], that is through registry resolution; what is
    left is the pending promise, which the routine returns here together
    with its [finally] callback, to be run by the event loop. *)
Definition startBackgroundJob (jobId : string) (scrapingJob : ScrapingJobRequest.t)
    : M (Sys W) (M (Sys W) unit) :=
  resolved <- attempt (resolveCollaborators scrapingJob);;
  let jobPromise : M (Sys W) unit :=
    match resolved with
    | Throw e => throw e
    | Ok (exporters, scraper) => processResolved jobId scrapingJob exporters scraper
    end in
  (fun s => (Ok tt, set_runningJobs ({[jobId]} ∪ runningJobs s) s, []));;
  let settled : M (Sys W) unit :=
    try_finally jobPromise
      (fun s => (Ok tt, set_runningJobs (runningJobs s ∖ {[jobId]}) s, [])) in
  logger_info context
    ("Started background job: " +:+ jobId +:+ " for " +:+ ScrapingJobRequest.websiteCode scrapingJob
     +:+ " URL: " +:+ ScrapingJobRequest.url scrapingJob
     +:+ " with exporters: " +:+ join ", " (ScrapingJobRequest.exporters scrapingJob));;
  ret settled.

(** The [config] stored with a job. *)
Definition request_config (scrapingJob : ScrapingJobRequest.t) : Metadata :=
  [("url", MStr (ScrapingJobRequest.url scrapingJob));
   ("websiteCode", MStr (ScrapingJobRequest.websiteCode scrapingJob));
   ("exporters", MList (ScrapingJobRequest.exporters scrapingJob));
   ("createdBy", MStr "api")].

Definition createScrapingJob (scrapingJob : ScrapingJobRequest.t)
    : M (Sys W) (string * M (Sys W) unit) :=
  try_catch
    (jobId <- JobManagementService.createScrapingJob
                (ScrapingJobRequest.websiteCode scrapingJob) pending
                (Some (request_config scrapingJob)) None;;
     background <- startBackgroundJob jobId scrapingJob;;
     ret (jobId, background))
    (fun e =>
       logger_error context "Failed to create scraping job:" (Some e);;
       throw e).

(** A job request followed through to the end of its background task; a
    rejection of the background promise has no handler. *)
Definition createScrapingJob_settled (scrapingJob : ScrapingJobRequest.t)
    : M (Sys W) string :=
  created <- createScrapingJob scrapingJob;;
  attempt (snd created);;
  ret (fst created).

(** [this.runningJobs.has(jobId)] *)
Definition runningJobs_has (jobId : string) : M (Sys W) bool :=
  fun s => (Ok (bool_decide (jobId ∈ runningJobs s)), s, []).

(** [getJobStatus]: [null] for an unknown job, otherwise the stored job
    with [isCurrentlyRunning] and with [config] defaulted to the empty
    object. *)
Definition getJobStatus (jobId : string) : M (Sys W) (option JobStatusView) :=
  try_catch
    (job <- JobManagementService.getScrapingJob jobId;;
     match job with
     | None => ret None
     | Some job =>
         isRunning <- runningJobs_has jobId;;
         ret (Some (mkJobStatusView job isRunning (default [] (job_config job))))
     end)
    (fun e =>
       logger_error context "Failed to get job status:" (Some e);;
       throw e).

End Defs.
End ScrapingJobService.

(** ** Reading runs *)

(** A property of steps (state before, state after, events in between) that
    holds of the empty step and is kept by sequencing. *)
Record Compositional {S} (R : S -> S -> list Event -> Prop) : Prop := mkCompositional {
  comp_nil : forall s, R s s [];
  comp_app : forall s s1 s2 ev1 ev2, R s s1 ev1 -> R s1 s2 ev2 -> R s s2 (ev1 ++ ev2) }.

(** Every run of [m] is a step in [R]. *)
Definition respects {S A} (R : S -> S -> list Event -> Prop) (m : M S A) : Prop :=
  forall s, R s (m s).1.2 (m s).2.

(** [m] returns normally from every state. *)
Definition never_throws {S A} (m : M S A) : Prop :=
  forall s, exists a, (m s).1.1 = Ok a.

(** The pages for which an iteration of the page loop was started, in
    order. *)
Definition page_visits (evs : list Event) : list Z :=
  omap (fun ev => match ev with
                  | EvCall (CGetPageUrl _ page) _ => Some page
                  | _ => None
                  end) evs.

(** The page URLs handed to [scrapePropertyList], in order. *)
Definition page_fetches (evs : list Event) : list string :=
  omap (fun ev => match ev with
                  | EvCall (CScrapePropertyList pageUrl) _ => Some pageUrl
                  | _ => None
                  end) evs.

(** The exporters called, by type, in order. *)
Definition export_calls (evs : list Event) : list string :=
  omap (fun ev => match ev with
                  | EvCall (CExportProperties exporterType _) _ => Some exporterType
                  | _ => None
                  end) evs.

(** The calls to the scraper's [cleanup]. *)
Definition cleanup_calls (evs : list Event) : list (option Error) :=
  omap (fun ev => match ev with
                  | EvCall CCleanup failure => Some failure
                  | _ => None
                  end) evs.

(** Page visits and timer sleeps, in order. *)
Inductive Pace := Visit (page : Z) | Sleep (ms : Z).
Definition pacing (evs : list Event) : list Pace :=
  omap (fun ev => match ev with
                  | EvCall (CGetPageUrl _ page) _ => Some (Visit page)
                  | EvSleep ms => Some (Sleep ms)
                  | _ => None
                  end) evs.

(** The calls and sleeps of a run, in order. *)
Definition calls_and_sleeps (evs : list Event) : list Event :=
  List.filter (fun ev => match ev with
                         | EvLog _ _ _ _ => false
                         | _ => true
                         end) evs.

(** The pages [first, first + 1, ...], [count] of them. *)
Fixpoint pages_from (first : Z) (count : nat) : list Z :=
  match count with
  | O => []
  | S count' => first :: pages_from (first + 1) count'
  end.

(** Steps of the service process that every property read off a run below
    tolerates: log lines, sleeps, rows added to the log table, and calls to
    collaborators of the kinds [allowed]. *)
Record Ambient {W} (allowed : Call -> Prop)
    (R : Sys W -> Sys W -> list Event -> Prop) : Prop := mkAmbient {
  amb_comp : Compositional R;
  amb_log : forall s level context msg err, R s s [EvLog level context msg err];
  amb_sleep : forall s ms, R s s [EvSleep ms];
  amb_persist : forall s entry, R s (set_scrapingLogs (scrapingLogs s ++ [entry]) s) [];
  amb_call : forall s c w failure, allowed c -> R s (set_ext w s) [EvCall c failure] }.

(** What [logScrapingEvent] logs when the database refuses the row. *)
Definition log_refusal_line (refusal : Error) : Event :=
  EvLog error ScrapingLogService.context "Failed to log scraping event" (Some refusal).
Definition refusal_lines (refusal : option Error) : list Event :=
  match refusal with
  | Some e => [log_refusal_line e]
  | None => []
  end.

(** What [exportData] logs about an export call that threw: a line of the
    process logger that names the exporter, and a row of the log table that
    carries the job id, the exporter and the message. *)
Definition export_failure_line (exporterType : string) (e : Error) : Event :=
  EvLog error ScrapingJobService.context (exporterType +:+ " export failed:") (Some e).
Definition export_failure_row (jobId exporterType : string) (e : Error) : ScrapingLog :=
  mkScrapingLog error ("Export failed for " +:+ exporterType) "job-service"
    (Some [("jobId", MStr jobId); ("exporter", MStr exporterType); ("error", MStr (message e))]).

Definition is_cleanup_call (c : Call) : Prop :=
  match c with
  | CCleanup => True
  | _ => False
  end.

(** A website code or an exporter identifier without a registered
    implementation. *)
Definition unresolved {W} (scrapingJob : ScrapingJobRequest.t) (s : Sys W) : Prop :=
  scrapers s !! ScrapingJobRequest.websiteCode scrapingJob = None \/
  exists x, In x (ScrapingJobRequest.exporters scrapingJob) /\ exporters s !! x = None.

(** The timer sleeps of a run, in order. *)
Definition sleeps (evs : list Event) : list Z :=
  omap (fun ev => match ev with
                  | EvSleep ms => Some ms
                  | _ => None
                  end) evs.

(** [n] invocations of [operation] in a row that all throw, from state [s]
    to state [s']; the events of each. *)
Inductive failing_run {S T} (operation : M S T) : nat -> S -> S -> list (list Event) -> Prop :=
| failing_run_nil s : failing_run operation 0 s s []
| failing_run_cons n s e s1 ev1 s' evss :
    operation s = (Throw e, s1, ev1) ->
    failing_run operation n s1 s' evss ->
    failing_run operation (Datatypes.S n) s s' (ev1 :: evss).

(** The events of failed attempts [attempt], [attempt + 1], ..., each
    followed by its backoff sleep. *)
Fixpoint retry_trace (attempt : Z) (evss : list (list Event)) : list Event :=
  match evss with
  | [] => []
  | evs :: rest => evs ++ EvSleep (ScraperUtils.backoff attempt) :: retry_trace (attempt + 1) rest
  end.

(** Every character of a text is in a class. *)
Fixpoint all_chars (p : ascii -> bool) (text : string) : bool :=
  match text with
  | String c rest => p c && all_chars p rest
  | EmptyString => true
  end.

(** The characters a price numeral is made of: digits, commas and the dot. *)
Definition is_numeral_char (c : ascii) : bool :=
  ScraperUtils.is_digit_or_comma c || Ascii.eqb c "."%char.

(** A text does not start with a character of a class. *)
Definition not_starting_with (p : ascii -> bool) (text : string) : bool :=
  match text with
  | String c _ => negb (p c)
  | EmptyString => true
  end.

(** The first of the requested exporter types that has no registered
    exporter. *)
Definition first_unregistered {W} (s : Sys W) (exporterTypes : list string) : option string :=
  List.find (fun x => match exporters s !! x with
                      | None => true
                      | Some _ => false
                      end) exporterTypes.

(** The parts of an address written with commas between them. *)
Fixpoint with_commas (parts : list BSDScraper.text) : BSDScraper.text :=
  match parts with
  | [] => []
  | [part] => part
  | part :: rest => part ++ BSDScraper.comma_unit :: with_commas rest
  end.

(** Text without a comma in it. *)
Definition comma_free (part : BSDScraper.text) : Prop := ~ In BSDScraper.comma_unit part.

(** The warnings of the batch loop of [scrapePropertyList]. *)
Definition warnings (evs : list Event) : list string :=
  omap (fun ev => match ev with
                  | EvLog warn _ msg _ => Some msg
                  | _ => None
                  end) evs.

(** How a run of the job routine leaves a stored job [j] that it started
    at [now]: started, finished, and either [completed] with both counters
    equal, or [failed] with the message of an error and the counters as
    they were; the duration, the source and the config are not touched. *)
Definition job_settled (now : Z) (j j' : Job) : Prop :=
  startedAt j' = Some now /\
  (exists t, completedAt j' = Some t) /\
  duration j' = duration j /\
  job_source j' = job_source j /\
  job_config j' = job_config j /\
  ((job_status j' = completed /\
    itemsProcessed j' = itemsFound j' /\
    job_errors j' = job_errors j) \/
   (job_status j' = failed /\
    (exists e t, job_errors j' = Some (mkJobErrors (message e) t)) /\
    itemsFound j' = itemsFound j /\
    itemsProcessed j' = itemsProcessed j)).

(** ** Observing collaborators *)

(** What a collaborator was asked to do: the page URL handed to
    [scrapePropertyList] with what the call produced, and the records
    handed to an exporter's [exportProperties] with the error it threw, if
    any. *)
Inductive Invocation :=
| Fetched (pageUrl : string) (outcome : Res (list PropertyDto.t))
| Exported (exporterType : string) (properties : list PropertyDto.t) (failure : option Error).

(** A world together with the invocations its collaborators have seen, in
    order. *)
Definition Recorded (W : Type) : Type := W * list Invocation.

Definition unrecorded {W A} (m : Ext W A) : Ext (Recorded W) A :=
  fun observed => let '(r, w) := m observed.1 in (r, (w, observed.2)).

Definition recorded {W A} (m : Ext W A) (entry : Res A -> Invocation) : Ext (Recorded W) A :=
  fun observed => let '(r, w) := m observed.1 in (r, (w, observed.2 ++ [entry r])).

(** A scraper that behaves as [scraper] does, and notes every page fetch
    it is asked for. *)
Definition recording_scraper {W} (scraper : IScraper W) : IScraper (Recorded W) :=
  mkIScraper (Recorded W)
    (unrecorded (initialize scraper))
    (fun pageUrl => recorded (scrapePropertyList scraper pageUrl) (Fetched pageUrl))
    (getPageUrl scraper)
    (fun url => unrecorded (getTotalPages scraper url))
    (unrecorded (cleanup scraper))
    (getScraperType scraper).

(** An exporter that behaves as [exporter] does, and notes every batch it
    is handed. *)
Definition recording_exporter {W} (exporter : IExporter W) : IExporter (Recorded W) :=
  mkIExporter (Recorded W)
    (fun property => unrecorded (exportProperty exporter property))
    (fun properties =>
       recorded (exportProperties exporter properties)
         (fun r => Exported (getExporterType exporter) properties (failure_of r)))
    (getExporterType exporter).

(** The clock and the database of an observed world are those of the
    world. *)
#[global] Instance recorded_world {W} `{World W} : World (Recorded W) :=
  {| Date_now := fun observed => Date_now observed.1;
     scrapingLogs_refusal := fun observed => scrapingLogs_refusal observed.1 |}.

Definition invocations {W} (s : Sys (Recorded W)) : list Invocation := (ext s).2.

(** One batch handed to each exporter in turn: the call to the exporter of
    type [t] is noted with the failure it ended with. *)
Definition exports_of (exporterTypes : list string) (properties : list PropertyDto.t)
    (failures : list (option Error)) : list Invocation :=
  zip_with (fun exporterType failure => Exported exporterType properties failure)
    exporterTypes failures.

(** One turn of the page loop as the collaborators see it: the fetch of
    the page and, when it returned, its records handed to the exporters. *)
Record Round := mkRound {
  round_url : string;
  round_outcome : Res (list PropertyDto.t);
  round_failures : list (option Error) }.

Definition round_invocations (exporterTypes : list string) (round : Round) : list Invocation :=
  Fetched (round_url round) (round_outcome round)
  :: match round_outcome round with
     | Ok properties => exports_of exporterTypes properties (round_failures round)
     | Throw _ => []
     end.

(** In a whole round every exporter was called: there is one failure or
    success for each. *)
Definition whole_round (exporterTypes : list string) (round : Round) : Prop :=
  match round_outcome round with
  | Ok _ => length (round_failures round) = length exporterTypes
  | Throw _ => round_failures round = []
  end.

(** The number of records the rounds fetched. *)
Definition round_count (round : Round) : Z :=
  match round_outcome round with
  | Ok properties => Z.of_nat (length properties)
  | Throw _ => 0
  end.
Definition records_found (rounds : list Round) : Z :=
  foldr (fun round total => round_count round + total) 0 rounds.

(** [scraper.getPageUrl(url, page)], when it returns. *)
Definition page_url {W} (scraper : IScraper W) (url : string) (page : Z) : option string :=
  match getPageUrl scraper url page with
  | Ok pageUrl => Some pageUrl
  | Throw _ => None
  end.

(** Every call to an exporter in [block] that threw is reported: by a line
    of the process logger that names the exporter, and by a row among
    [added] that carries the job id, the exporter and the message, unless
    the database refused a row, which is then logged. *)
Definition failures_reported {W} `{World W} (jobId : string) (block : list Invocation)
    (added : list ScrapingLog) (evs : list Event) : Prop :=
  forall exporterType properties e,
    In (Exported exporterType properties (Some e)) block ->
    In (export_failure_line exporterType e) evs /\
    (In (export_failure_row jobId exporterType e) added \/
     exists (w : W) refusal,
       scrapingLogs_refusal w = Some refusal /\ In (log_refusal_line refusal) evs).

(** Steps of the service process that change nothing a collaborator sees:
    log lines, sleeps, rows added to the log table and writes to the job
    table. *)
Record Quiet {W} (R : Sys W -> Sys W -> list Event -> Prop) : Prop := mkQuiet {
  quiet_comp : Compositional R;
  quiet_log : forall s level context msg err, R s s [EvLog level context msg err];
  quiet_sleep : forall s ms, R s s [EvSleep ms];
  quiet_persist : forall s entry, R s (set_scrapingLogs (scrapingLogs s ++ [entry]) s) [];
  quiet_jobs : forall s jobs, R s (set_scrapingJobs jobs s) [] }.

(** A step of an observed process, as its collaborators and its log table
    tell it: whole rounds of the page loop, with every failed export
    reported. *)
Definition fanned_out {W} `{World W} (jobId : string) (exporterTypes : list string)
    : Sys (Recorded W) -> Sys (Recorded W) -> list Event -> Prop :=
  fun s s' evs =>
    exists rounds added,
      invocations s' = invocations s ++ flat_map (round_invocations exporterTypes) rounds /\
      Forall (whole_round exporterTypes) rounds /\
      scrapingLogs s' = scrapingLogs s ++ added /\
      failures_reported jobId (flat_map (round_invocations exporterTypes) rounds) added evs.

(** ** Test doubles *)

(** An operation that counts its invocations in its state, and fails each
    time with an error naming the invocation. *)
Definition flaky_forever : M nat unit :=
  fun n => (Throw (mkError ("attempt " +:+ pretty (Datatypes.S n))), Datatypes.S n, []).

(** An operation that always rejects with [undefined], as
    [Promise.reject()] does, counting its invocations in its state. *)
Definition rejects_with_undefined : M nat unit :=
  fun n => (Throw (mkThrown false "undefined"), Datatypes.S n, []).

(** An operation that fails on its first two invocations and loads on the
    third, counting its invocations in its state. *)
Definition flaky_twice : M nat string :=
  fun n =>
    if (n <? 2)%nat then (Throw (mkError ("attempt " +:+ pretty (Datatypes.S n))), Datatypes.S n, [])
    else (Ok "loaded", Datatypes.S n, []).

(** Jobs of several ages, for the clean-up of the job table: two that
    finished long ago, one that finished recently, one still running since
    long ago, and one marked failed that carries no completion time. *)
Definition job_aged (st : JobStatus) (finished : option Z) : Job :=
  {| job_source := "bsd"; job_status := st; job_config := None;
     itemsFound := 0; itemsProcessed := 0; job_errors := None;
     startedAt := Some 0; completedAt := finished; duration := None |}.

Definition aged_store (now : Z) : Sys Z :=
  mkSys {[ "0" := job_aged completed (Some 1000);
           "1" := job_aged failed (Some 2000);
           "2" := job_aged completed (Some (now - 1000));
           "3" := job_aged running None;
           "4" := job_aged failed None ]} [] 5 ∅ ∅ ∅ now.

(** Rate-limiter configurations. *)
Definition one_per_minute : RateLimiter.RateLimitConfig :=
  {| RateLimiter.requestsPerMinute := 1; RateLimiter.burstLimit := 10 |}.
Definition two_per_minute : RateLimiter.RateLimitConfig :=
  {| RateLimiter.requestsPerMinute := 2; RateLimiter.burstLimit := 10 |}.

(** A world that is only a clock, with a database that takes every row. *)
#[global] Instance clock_world : World Z :=
  {| Date_now := fun now => now; scrapingLogs_refusal := fun _ => None |}.

(** A world that is only a clock, whose database refuses every row for
    the log table. *)
Definition full_log_table : World Z :=
  {| Date_now := fun now => now;
     scrapingLogs_refusal := fun _ => Some (mkError "No space left on device") |}.

(** A job that finished with 12 items. *)
Definition finished_job : Job :=
  {| job_source := "bsd"; job_status := completed; job_config := None;
     itemsFound := 12; itemsProcessed := 12; job_errors := None;
     startedAt := Some 1000; completedAt := Some 2000; duration := None |}.

Definition store_with (jobId : string) (j : Job) (now : Z) : Sys Z :=
  mkSys {[ jobId := j ]} [] 1 ∅ ∅ ∅ now.

(** A listing as the scraper produces it, and the same listing scraped
    again later at another price. *)
Definition sample_listing : PropertyDto.t :=
  {| PropertyDto.id := "a1b2c3d4";
     PropertyDto.title := "Phong tro Nguyen Trai";
     PropertyDto.description := Some "Quiet room near the university";
     PropertyDto.price := 3500000;
     PropertyDto.priceUnit := "triệu/tháng";
     PropertyDto.currency := "VND";
     PropertyDto.pricePerPerson := None;
     PropertyDto.deposit := Some 1000000;
     PropertyDto.parkingMotorcycleFee := None;
     PropertyDto.parkingScooterFee := None;
     PropertyDto.electricityRate := Some 3500;
     PropertyDto.electricityAllowanceAC := None;
     PropertyDto.electricityAllowanceFan := None;
     PropertyDto.regularRoomPrice := None;
     PropertyDto.airConditionedRoomPrice := None;
     PropertyDto.address := "12 Nguyen Trai";
     PropertyDto.city := "Ho Chi Minh";
     PropertyDto.district := "Quan 5";
     PropertyDto.ward := "Phuong 2";
     PropertyDto.street := "Nguyen Trai";
     PropertyDto.country := "Vietnam";
     PropertyDto.cityCode := Some "SG";
     PropertyDto.districtId := Some 55;
     PropertyDto.wardId := None;
     PropertyDto.streetId := None;
     PropertyDto.latitude := None;
     PropertyDto.longitude := None;
     PropertyDto.area := 20;
     PropertyDto.bedrooms := Some 1;
     PropertyDto.bathrooms := Some 0;
     PropertyDto.direction := None;
     PropertyDto.furnishing := Some EmptyString;
     PropertyDto.propertyType := "room";
     PropertyDto.roomCapacity := None;
     PropertyDto.features := "[]";
     PropertyDto.amenities := "[]";
     PropertyDto.images := "[]";
     PropertyDto.videos := None;
     PropertyDto.virtualTour := None;
     PropertyDto.listingId := "123";
     PropertyDto.userId := "u9";
     PropertyDto.postDate := 1700000000000;
     PropertyDto.expiryDate := None;
     PropertyDto.listingType := "Tin thuong";
     PropertyDto.vipType := None;
     PropertyDto.verified := Some false;
     PropertyDto.expired := None;
     PropertyDto.categoryId := None;
     PropertyDto.productType := None;
     PropertyDto.source := "batdongsan.com.vn";
     PropertyDto.sourceUrl := "https://batdongsan.com.vn/phong-tro-123";
     PropertyDto.scrapedAt := 1700000100000;
     PropertyDto.nearbyLandmarks := None;
     PropertyDto.transportationInfo := None;
     PropertyDto.targetAudience := None |}.

Definition sample_listing_repriced : PropertyDto.t :=
  {| PropertyDto.id := "a1b2c3d4";
     PropertyDto.title := "Phong tro Nguyen Trai (gia moi)";
     PropertyDto.description := Some "Quiet room near the university";
     PropertyDto.price := 3200000;
     PropertyDto.priceUnit := "triệu/tháng";
     PropertyDto.currency := "VND";
     PropertyDto.pricePerPerson := None;
     PropertyDto.deposit := Some 1000000;
     PropertyDto.parkingMotorcycleFee := None;
     PropertyDto.parkingScooterFee := None;
     PropertyDto.electricityRate := Some 3500;
     PropertyDto.electricityAllowanceAC := None;
     PropertyDto.electricityAllowanceFan := None;
     PropertyDto.regularRoomPrice := None;
     PropertyDto.airConditionedRoomPrice := None;
     PropertyDto.address := "12 Nguyen Trai";
     PropertyDto.city := "Ho Chi Minh";
     PropertyDto.district := "Quan 5";
     PropertyDto.ward := "Phuong 2";
     PropertyDto.street := "Nguyen Trai";
     PropertyDto.country := "Vietnam";
     PropertyDto.cityCode := Some "SG";
     PropertyDto.districtId := Some 55;
     PropertyDto.wardId := None;
     PropertyDto.streetId := None;
     PropertyDto.latitude := None;
     PropertyDto.longitude := None;
     PropertyDto.area := 20;
     PropertyDto.bedrooms := Some 1;
     PropertyDto.bathrooms := Some 0;
     PropertyDto.direction := None;
     PropertyDto.furnishing := Some EmptyString;
     PropertyDto.propertyType := "room";
     PropertyDto.roomCapacity := None;
     PropertyDto.features := "[]";
     PropertyDto.amenities := "[]";
     PropertyDto.images := "[]";
     PropertyDto.videos := None;
     PropertyDto.virtualTour := None;
     PropertyDto.listingId := "123";
     PropertyDto.userId := "u9";
     PropertyDto.postDate := 1700000000000;
     PropertyDto.expiryDate := None;
     PropertyDto.listingType := "Tin thuong";
     PropertyDto.vipType := None;
     PropertyDto.verified := Some false;
     PropertyDto.expired := None;
     PropertyDto.categoryId := None;
     PropertyDto.productType := None;
     PropertyDto.source := "batdongsan.com.vn";
     PropertyDto.sourceUrl := "https://batdongsan.com.vn/phong-tro-123";
     PropertyDto.scrapedAt := 1700000900000;
     PropertyDto.nearbyLandmarks := None;
     PropertyDto.transportationInfo := None;
     PropertyDto.targetAudience := None |}.

(** The same listing with its title missing. *)
Definition untitled_listing : PropertyDto.t :=
  {| PropertyDto.id := "a1b2c3d4";
     PropertyDto.title := EmptyString;
     PropertyDto.description := Some "Quiet room near the university";
     PropertyDto.price := 3500000;
     PropertyDto.priceUnit := "triệu/tháng";
     PropertyDto.currency := "VND";
     PropertyDto.pricePerPerson := None;
     PropertyDto.deposit := Some 1000000;
     PropertyDto.parkingMotorcycleFee := None;
     PropertyDto.parkingScooterFee := None;
     PropertyDto.electricityRate := Some 3500;
     PropertyDto.electricityAllowanceAC := None;
     PropertyDto.electricityAllowanceFan := None;
     PropertyDto.regularRoomPrice := None;
     PropertyDto.airConditionedRoomPrice := None;
     PropertyDto.address := "12 Nguyen Trai";
     PropertyDto.city := "Ho Chi Minh";
     PropertyDto.district := "Quan 5";
     PropertyDto.ward := "Phuong 2";
     PropertyDto.street := "Nguyen Trai";
     PropertyDto.country := "Vietnam";
     PropertyDto.cityCode := Some "SG";
     PropertyDto.districtId := Some 55;
     PropertyDto.wardId := None;
     PropertyDto.streetId := None;
     PropertyDto.latitude := None;
     PropertyDto.longitude := None;
     PropertyDto.area := 20;
     PropertyDto.bedrooms := Some 1;
     PropertyDto.bathrooms := Some 0;
     PropertyDto.direction := None;
     PropertyDto.furnishing := Some EmptyString;
     PropertyDto.propertyType := "room";
     PropertyDto.roomCapacity := None;
     PropertyDto.features := "[]";
     PropertyDto.amenities := "[]";
     PropertyDto.images := "[]";
     PropertyDto.videos := None;
     PropertyDto.virtualTour := None;
     PropertyDto.listingId := "123";
     PropertyDto.userId := "u9";
     PropertyDto.postDate := 1700000000000;
     PropertyDto.expiryDate := None;
     PropertyDto.listingType := "Tin thuong";
     PropertyDto.vipType := None;
     PropertyDto.verified := Some false;
     PropertyDto.expired := None;
     PropertyDto.categoryId := None;
     PropertyDto.productType := None;
     PropertyDto.source := "batdongsan.com.vn";
     PropertyDto.sourceUrl := "https://batdongsan.com.vn/phong-tro-123";
     PropertyDto.scrapedAt := 1700000100000;
     PropertyDto.nearbyLandmarks := None;
     PropertyDto.transportationInfo := None;
     PropertyDto.targetAudience := None |}.

(** The listing as the scraper emits it for a page without an address
    element: [extractPropertyData] has a fallback for the title only. *)
Definition unaddressed_listing : PropertyDto.t :=
  {| PropertyDto.id := "a1b2c3d4";
     PropertyDto.title := "Untitled Property";
     PropertyDto.description := Some "Quiet room near the university";
     PropertyDto.price := 3500000;
     PropertyDto.priceUnit := "triệu/tháng";
     PropertyDto.currency := "VND";
     PropertyDto.pricePerPerson := None;
     PropertyDto.deposit := Some 1000000;
     PropertyDto.parkingMotorcycleFee := None;
     PropertyDto.parkingScooterFee := None;
     PropertyDto.electricityRate := Some 3500;
     PropertyDto.electricityAllowanceAC := None;
     PropertyDto.electricityAllowanceFan := None;
     PropertyDto.regularRoomPrice := None;
     PropertyDto.airConditionedRoomPrice := None;
     PropertyDto.address := EmptyString;
     PropertyDto.city := "Hồ Chí Minh";
     PropertyDto.district := EmptyString;
     PropertyDto.ward := EmptyString;
     PropertyDto.street := EmptyString;
     PropertyDto.country := "Vietnam";
     PropertyDto.cityCode := Some "SG";
     PropertyDto.districtId := Some 55;
     PropertyDto.wardId := None;
     PropertyDto.streetId := None;
     PropertyDto.latitude := None;
     PropertyDto.longitude := None;
     PropertyDto.area := 20;
     PropertyDto.bedrooms := Some 1;
     PropertyDto.bathrooms := Some 0;
     PropertyDto.direction := None;
     PropertyDto.furnishing := Some EmptyString;
     PropertyDto.propertyType := "room";
     PropertyDto.roomCapacity := None;
     PropertyDto.features := "[]";
     PropertyDto.amenities := "[]";
     PropertyDto.images := "[]";
     PropertyDto.videos := None;
     PropertyDto.virtualTour := None;
     PropertyDto.listingId := "123";
     PropertyDto.userId := "u9";
     PropertyDto.postDate := 1700000000000;
     PropertyDto.expiryDate := None;
     PropertyDto.listingType := "Tin thuong";
     PropertyDto.vipType := None;
     PropertyDto.verified := Some false;
     PropertyDto.expired := None;
     PropertyDto.categoryId := None;
     PropertyDto.productType := None;
     PropertyDto.source := "batdongsan.com.vn";
     PropertyDto.sourceUrl := "https://batdongsan.com.vn/phong-tro-123";
     PropertyDto.scrapedAt := 1700000100000;
     PropertyDto.nearbyLandmarks := None;
     PropertyDto.transportationInfo := None;
     PropertyDto.targetAudience := None |}.

(** Collaborators for tests, over the clock-only world: a scraper with
    [pages] pages of one listing each, whose page fetch takes one tick; an
    exporter that succeeds and one that always throws. *)
Definition stub_scraper (pages : Z) : IScraper Z :=
  mkIScraper Z
    (fun w => (Ok tt, w))
    (fun pageUrl w => (Ok [sample_listing], w + 1))
    (fun url page => Ok (url +:+ "/p" +:+ pretty page))
    (fun url w => (Ok pages, w))
    (fun w => (Ok tt, w))
    "bsd".

Definition json_stub : IExporter Z :=
  mkIExporter Z
    (fun property w => (Ok "properties.json", w))
    (fun properties w => (Ok (map (fun _ => "properties.json") properties), w))
    "json".

Definition failing_csv_stub : IExporter Z :=
  mkIExporter Z
    (fun property w => (Throw (mkError "disk full"), w))
    (fun properties w => (Throw (mkError "disk full"), w))
    "csv".

(** A scraper like [stub_scraper] whose [cleanup] throws. *)
Definition stuck_browser_scraper (pages : Z) : IScraper Z :=
  mkIScraper Z
    (fun w => (Ok tt, w))
    (fun pageUrl w => (Ok [sample_listing], w + 1))
    (fun url page => Ok (url +:+ "/p" +:+ pretty page))
    (fun url w => (Ok pages, w))
    (fun w => (Throw (mkError "Protocol error: target closed"), w))
    "bsd".

(** A scraper whose total-page discovery throws. *)
Definition offline_scraper : IScraper Z :=
  mkIScraper Z
    (fun w => (Ok tt, w))
    (fun pageUrl w => (Ok [sample_listing], w + 1))
    (fun url page => Ok (url +:+ "/p" +:+ pretty page))
    (fun url w => (Throw (mkError "net::ERR_CONNECTION_REFUSED"), w + 7))
    (fun w => (Ok tt, w))
    "bsd".

Definition pending_job : Job :=
  {| job_source := "bsd"; job_status := pending; job_config := None;
     itemsFound := 0; itemsProcessed := 0; job_errors := None;
     startedAt := None; completedAt := None; duration := None |}.

Definition listing_url : string := "https://batdongsan.com.vn/cho-thue-phong-tro".

Definition sample_request (start limit : Z) : ScrapingJobRequest.t :=
  ScrapingJobRequest.mk listing_url "bsd" ["json"; "csv"] start limit.

(** A process with job "0" pending and the given scraper and exporters
    registered. *)
Definition process_with (scraper : IScraper Z) (registered : list (IExporter Z)) (now : Z) : Sys Z :=
  mkSys {[ "0" := pending_job ]} [] 1
    {[ "bsd" := mkScraperTemplate Z scraper ]}
    (list_to_map (map (fun exporter => (getExporterType exporter, exporter)) registered))
    ∅ now.

(** A process like [process_with] whose collaborators are observed. *)
Definition observed_process (scraper : IScraper Z) (registered : list (IExporter Z)) (now : Z)
    : Sys (Recorded Z) :=
  mkSys {[ "0" := pending_job ]} [] 1
    {[ "bsd" := mkScraperTemplate (Recorded Z) (recording_scraper scraper) ]}
    (list_to_map (map (fun exporter => (getExporterType exporter, recording_exporter exporter))
                    registered))
    ∅ (now, []).

(** A process with nothing registered and no job yet. *)
Definition bare_process : Sys Z := mkSys ∅ [] 0 ∅ ∅ ∅ 0.

(** Browser sides for tests, over a counter of navigations.  On
    [unreachable_site] every navigation times out; on [healthy_site] the
    listing has [pages] pages; [crashed_browser] is healthy until the
    browser is closed, which throws. *)
Definition unreachable_site : BSDScraper.Puppeteer nat unit unit :=
  BSDScraper.mkPuppeteer nat unit unit
    (fun n => (Ok tt, n, []))
    (fun _ n => (Ok tt, n, []))
    (fun _ n => (Ok tt, n, []))
    (fun _ _ n => (Throw (mkError "Navigation timeout of 30000 ms exceeded"), Datatypes.S n, []))
    (fun _ _ n => (Ok tt, n, []))
    (fun _ n => (Ok 7, n, []))
    (fun _ n => (Ok tt, n, [])).

Definition healthy_site (pages : Z) : BSDScraper.Puppeteer nat unit unit :=
  BSDScraper.mkPuppeteer nat unit unit
    (fun n => (Ok tt, n, []))
    (fun _ n => (Ok tt, n, []))
    (fun _ n => (Ok tt, n, []))
    (fun _ _ n => (Ok tt, Datatypes.S n, []))
    (fun _ _ n => (Ok tt, n, []))
    (fun _ n => (Ok pages, n, []))
    (fun _ n => (Ok tt, n, [])).

Definition crashed_browser (pages : Z) : BSDScraper.Puppeteer nat unit unit :=
  BSDScraper.mkPuppeteer nat unit unit
    (fun n => (Ok tt, n, []))
    (fun _ n => (Throw (mkError "Protocol error: target closed"), n, []))
    (fun _ n => (Ok tt, n, []))
    (fun _ _ n => (Ok tt, Datatypes.S n, []))
    (fun _ _ n => (Ok tt, n, []))
    (fun _ n => (Ok pages, n, []))
    (fun _ n => (Ok tt, n, [])).

(** A per-page extraction that finds one listing on every page. *)
Definition one_listing_per_page : string -> M (BSDScraper.t nat unit) (list PropertyDto.t) :=
  fun pageUrl s => (Ok [sample_listing], s, []).

Definition page_url_stub (listUrl : string) (page : Z) : Res string :=
  Ok (listUrl +:+ "/p" +:+ pretty page).

(** The clock of a scraper-only world. *)
#[global] Instance navigation_world : World (BSDScraper.t nat unit) :=
  {| Date_now := fun s => Z.of_nat (BSDScraper.remote s);
     scrapingLogs_refusal := fun _ => None |}.

(** A process whose world is a [BSDScraper] instance on the given browser
    side, registered under "bsd", with job "0" pending. *)
Definition bsd_process (pptr : BSDScraper.Puppeteer nat unit unit)
    (registered : list (IExporter (BSDScraper.t nat unit))) : Sys (BSDScraper.t nat unit) :=
  mkSys {[ "0" := pending_job ]} [] 1
    {[ "bsd" := mkScraperTemplate _
                  (BSDScraper.as_IScraper pptr one_listing_per_page page_url_stub) ]}
    (list_to_map (map (fun exporter => (getExporterType exporter, exporter)) registered))
    ∅ (BSDScraper.mk None 0%nat).

Definition bsd_json_stub : IExporter (BSDScraper.t nat unit) :=
  mkIExporter _
    (fun property w => (Ok "properties.json", w))
    (fun properties w => (Ok (map (fun _ => "properties.json") properties), w))
    "json".

Definition json_only_request (start limit : Z) : ScrapingJobRequest.t :=
  ScrapingJobRequest.mk listing_url "bsd" ["json"] start limit.

(** What the pages of the test sites hold: a text for every selector, three
    links on a listing page, the sample listing on a detail page. *)
Definition text_stub : unit -> string -> M nat string :=
  fun _ selector n => (Ok "2 phong ngu", n, []).
Definition missing_element : unit -> string -> M nat string :=
  fun _ selector n => (Throw (mkError ("failed to find element matching selector " +:+ selector)), n, []).
Definition three_links : unit -> M nat (list string) :=
  fun _ n => (Ok [listing_url +:+ "/a"; listing_url +:+ "/b"; listing_url +:+ "/c"], n, []).
Definition detail_stub : unit -> string -> M nat (option PropertyDto.t) :=
  fun _ url n => (Ok (Some sample_listing), n, []).

(** A batch in which every scrape but the first of each batch succeeds. *)
Definition first_of_batch_fails
    : list string -> BSDScraper.t nat unit -> list (Res (option PropertyDto.t)) * BSDScraper.t nat unit :=
  fun batch s =>
    (match batch with
     | [] => []
     | _ :: rest => Ok None :: map (fun _ => Ok (Some sample_listing)) rest
     end, s).

(** The code units of a text written in ASCII. *)
Definition ascii_units (s : string) : BSDScraper.text :=
  map (fun c => Z.of_nat (nat_of_ascii c)) (String.list_ascii_of_string s).

(** * Properties *)

(** ** Retry executor *)

Section RetryFacts.
Context {S T : Type}.
Implicit Types (operation : M S T) (s : S).

(** Fuel beyond the number of remaining attempts is never consumed. *)
Lemma withRetry_from_fuel_stable operation maxRetries name :
  forall fuel extra attempt lastError s,
    maxRetries - attempt + 1 <= Z.of_nat fuel ->
    ScraperUtils.withRetry_from (fuel + extra) operation maxRetries name attempt lastError s
    = ScraperUtils.withRetry_from fuel operation maxRetries name attempt lastError s.
Proof.
  induction fuel as [|fuel IH]; intros extra attempt lastError s Hfuel.
  - destruct extra as [|extra]; [reflexivity|].
    simpl. destruct (attempt <=? maxRetries) eqn:Hle; [|reflexivity].
    apply Z.leb_le in Hle. lia.
  - simpl. destruct (attempt <=? maxRetries) eqn:Hle; [|reflexivity].
    unfold try_catch.
    destruct (operation s) as [[[v|e] s1] ev1]; [reflexivity|].
    unfold bind. destruct (when _ _ s1) as [[[u|e'] s2] ev2]; [|reflexivity].
    rewrite IH by lia. reflexivity.
Qed.

(** One iteration of the loop on a failing attempt that is not the last. *)
Lemma withRetry_from_retry operation maxRetries name fuel attempt lastError s e s1 ev1 :
  attempt < maxRetries ->
  operation s = (Throw e, s1, ev1) ->
  ScraperUtils.withRetry_from (Datatypes.S fuel) operation maxRetries name attempt lastError s
  = let '(r, s2, ev2) :=
      ScraperUtils.withRetry_from fuel operation maxRetries name (attempt + 1) (Some e) s1 in
    (r, s2, ev1 ++ EvSleep (ScraperUtils.backoff attempt) :: ev2).
Proof.
  intros Hlt Hop. simpl.
  replace (attempt <=? maxRetries) with true by (symmetry; apply Z.leb_le; lia).
  unfold try_catch. rewrite Hop. unfold bind, when.
  replace (attempt <? maxRetries) with true by (symmetry; apply Z.ltb_lt; lia).
  simpl.
  destruct (ScraperUtils.withRetry_from fuel operation maxRetries name (attempt + 1) (Some e) s1)
    as [[r s2] ev2].
  reflexivity.
Qed.

(** What is raised after a last attempt that threw [e]. *)
Lemma lastError_or_new_cases e name maxRetries :
  (truthy e = true -> ScraperUtils.lastError_or_new (Some e) name maxRetries = e) /\
  (truthy e = false ->
   ScraperUtils.lastError_or_new (Some e) name maxRetries
   = mkError (name +:+ " failed after " +:+ pretty maxRetries +:+ " attempts")).
Proof. unfold ScraperUtils.lastError_or_new. split; intros ->; reflexivity. Qed.

(** The last attempt failing: the value it threw is raised when it is
    truthy and a new error otherwise, and nothing is slept. *)
Lemma withRetry_from_last operation maxRetries name fuel lastError s e s1 ev1 :
  operation s = (Throw e, s1, ev1) ->
  ScraperUtils.withRetry_from (Datatypes.S fuel) operation maxRetries name maxRetries lastError s
  = (Throw (ScraperUtils.lastError_or_new (Some e) name maxRetries), s1, ev1).
Proof.
  intros Hop. simpl. rewrite Z.leb_refl.
  unfold try_catch. rewrite Hop. unfold bind, when. rewrite Z.ltb_irrefl. simpl.
  destruct fuel; simpl;
    (replace (maxRetries + 1 <=? maxRetries) with false by (symmetry; apply Z.leb_gt; lia));
    unfold throw; simpl; rewrite app_nil_r; reflexivity.
Qed.

(** A successful attempt ends the loop with its value. *)
Lemma withRetry_from_success operation maxRetries name fuel attempt lastError s v s1 ev1 :
  attempt <= maxRetries ->
  operation s = (Ok v, s1, ev1) ->
  ScraperUtils.withRetry_from (Datatypes.S fuel) operation maxRetries name attempt lastError s
  = (Ok v, s1, ev1).
Proof.
  intros Hle Hop. simpl.
  replace (attempt <=? maxRetries) with true by (symmetry; apply Z.leb_le; lia).
  unfold try_catch. rewrite Hop. reflexivity.
Qed.

(** Erasing the invocation counter gives back the run of the operation
    itself. *)
Lemma withRetry_from_counting operation maxRetries name :
  forall fuel attempt lastError s n,
    exists n',
      ScraperUtils.withRetry_from fuel (counting operation) maxRetries name attempt lastError (s, n)
      = let '(r, s', evs) :=
          ScraperUtils.withRetry_from fuel operation maxRetries name attempt lastError s in
        (r, (s', n'), evs).
Proof.
  induction fuel as [|fuel IH]; intros attempt lastError s n.
  - exists n. simpl. destruct (attempt <=? maxRetries); reflexivity.
  - simpl. destruct (attempt <=? maxRetries); [|exists n; reflexivity].
    unfold try_catch, counting at 1.
    destruct (operation s) as [[[v|e] s1] ev1]; [exists (Datatypes.S n); reflexivity|].
    unfold bind.
    destruct (attempt <? maxRetries); simpl.
    + destruct (IH (attempt + 1) (Some e) s1 (Datatypes.S n)) as [n' Hn']. exists n'.
      rewrite Hn'.
      destruct (ScraperUtils.withRetry_from fuel operation maxRetries name (attempt + 1) (Some e) s1)
        as [[r s2] ev2]. reflexivity.
    + destruct (IH (attempt + 1) (Some e) s1 (Datatypes.S n)) as [n' Hn']. exists n'.
      rewrite Hn'.
      destruct (ScraperUtils.withRetry_from fuel operation maxRetries name (attempt + 1) (Some e) s1)
        as [[r s2] ev2]. reflexivity.
Qed.

End RetryFacts.

Section RetryExhaustion.
Context {S T : Type}.
Implicit Types (operation : M S T) (s : S).

(** C2.  With [maxRetries = 3], an operation that fails on every invocation,
    whatever the values it throws, is invoked exactly three times (the
    invocation counter goes from 0 to 3, on the states [s0], [s1], [s2] in
    turn); the delay slept after the failure of attempt [k] is
    [min(1000 * 2^(k-1), 10000)] ms, that is 1000 ms after the first failure
    and 2000 ms after the second; nothing is slept after the third attempt.
    What is raised is the value the third attempt threw when that value is
    truthy, as every [Error] object is; when it is falsy, what is raised is
    a new error that names the operation and the three attempts. *)
Theorem withRetry_three_failing_attempts operation name s0 :
  always_fails operation ->
  exists e1 s1 ev1 e2 s2 ev2 e3 s3 ev3 raised,
    operation s0 = (Throw e1, s1, ev1) /\
    operation s1 = (Throw e2, s2, ev2) /\
    operation s2 = (Throw e3, s3, ev3) /\
    ScraperUtils.withRetry operation 3 name s0
    = (Throw raised, s3,
       ev1 ++ EvSleep (Z.min (1000 * 2 ^ (1 - 1)) 10000)
           :: ev2 ++ EvSleep (Z.min (1000 * 2 ^ (2 - 1)) 10000) :: ev3) /\
    Z.min (1000 * 2 ^ (1 - 1)) 10000 = 1000 /\
    Z.min (1000 * 2 ^ (2 - 1)) 10000 = 2000 /\
    ScraperUtils.withRetry (counting operation) 3 name (s0, 0%nat)
    = (Throw raised, (s3, 3%nat),
       ev1 ++ EvSleep 1000 :: ev2 ++ EvSleep 2000 :: ev3) /\
    (truthy e3 = true -> raised = e3) /\
    (truthy e3 = false -> raised = mkError (name +:+ " failed after 3 attempts")).
Proof.
  intros Hfail.
  destruct (Hfail s0) as (e1 & s1 & ev1 & H1).
  destruct (Hfail s1) as (e2 & s2 & ev2 & H2).
  destruct (Hfail s2) as (e3 & s3 & ev3 & H3).
  exists e1, s1, ev1, e2, s2, ev2, e3, s3, ev3, (ScraperUtils.lastError_or_new (Some e3) name 3).
  assert (Hrun : ScraperUtils.withRetry operation 3 name s0
                 = (Throw (ScraperUtils.lastError_or_new (Some e3) name 3), s3,
                    ev1 ++ EvSleep 1000 :: ev2 ++ EvSleep 2000 :: ev3)).
  { unfold ScraperUtils.withRetry. change (Z.to_nat 3) with 3%nat.
    rewrite (withRetry_from_retry _ 3 _ _ 1 _ _ _ _ _ eq_refl H1).
    change (1 + 1) with 2.
    rewrite (withRetry_from_retry _ 3 _ _ 2 _ _ _ _ _ eq_refl H2).
    change (2 + 1) with 3.
    rewrite (withRetry_from_last _ _ _ _ _ _ _ _ _ H3).
    reflexivity. }
  split; [exact H1|]. split; [exact H2|]. split; [exact H3|]. split; [exact Hrun|].
  split; [reflexivity|]. split; [reflexivity|].
  split; [|exact (lastError_or_new_cases e3 name 3)].
  unfold ScraperUtils.withRetry. change (Z.to_nat 3) with 3%nat.
  assert (C1 : counting operation (s0, 0%nat) = (Throw e1, (s1, 1%nat), ev1))
    by (unfold counting; rewrite H1; reflexivity).
  assert (C2 : counting operation (s1, 1%nat) = (Throw e2, (s2, 2%nat), ev2))
    by (unfold counting; rewrite H2; reflexivity).
  assert (C3 : counting operation (s2, 2%nat) = (Throw e3, (s3, 3%nat), ev3))
    by (unfold counting; rewrite H3; reflexivity).
  rewrite (withRetry_from_retry _ 3 _ _ 1 _ _ _ _ _ eq_refl C1).
  change (1 + 1) with 2.
  rewrite (withRetry_from_retry _ 3 _ _ 2 _ _ _ _ _ eq_refl C2).
  change (2 + 1) with 3.
  rewrite (withRetry_from_last _ _ _ _ _ _ _ _ _ C3).
  reflexivity.
Qed.

End RetryExhaustion.

Lemma flaky_forever_always_fails : always_fails flaky_forever.
Proof. intros n. eexists _, _, _. reflexivity. Qed.

Example withRetry_flaky_forever :
  ScraperUtils.withRetry flaky_forever 3 "page loading" 0%nat
  = (Throw (mkError "attempt 3"), 3%nat, [EvSleep 1000; EvSleep 2000]).
Proof. reflexivity. Qed.

Lemma withRetry_three_failing_attempts_witness :
  always_fails flaky_forever /\
  exists e1 s1 ev1 e2 s2 ev2 e3 s3 ev3 raised,
    flaky_forever 0%nat = (Throw e1, s1, ev1) /\
    flaky_forever s1 = (Throw e2, s2, ev2) /\
    flaky_forever s2 = (Throw e3, s3, ev3) /\
    ScraperUtils.withRetry flaky_forever 3 "page loading" 0%nat
    = (Throw raised, s3,
       ev1 ++ EvSleep (Z.min (1000 * 2 ^ (1 - 1)) 10000)
           :: ev2 ++ EvSleep (Z.min (1000 * 2 ^ (2 - 1)) 10000) :: ev3) /\
    Z.min (1000 * 2 ^ (1 - 1)) 10000 = 1000 /\
    Z.min (1000 * 2 ^ (2 - 1)) 10000 = 2000 /\
    ScraperUtils.withRetry (counting flaky_forever) 3 "page loading" (0%nat, 0%nat)
    = (Throw raised, (s3, 3%nat), ev1 ++ EvSleep 1000 :: ev2 ++ EvSleep 2000 :: ev3) /\
    (truthy e3 = true -> raised = e3) /\
    (truthy e3 = false -> raised = mkError ("page loading" +:+ " failed after 3 attempts")).
Proof.
  split.
  - intros n. eexists _, _, _. reflexivity.
  - apply (withRetry_three_failing_attempts flaky_forever "page loading" 0%nat).
    intros n. eexists _, _, _. reflexivity.
Defined.

(** C2 as stated fails where it says that the error finally raised is the
    one observed on the last attempt: [throw lastError || new Error(...)]
    raises the value the last attempt threw only when that value is truthy.
    An operation that rejects with [undefined] is invoked three times, with
    the two delays, and what comes out is a new error, not the value
    observed on the third attempt. *)
Lemma falsy_rejection_is_replaced_by_a_new_error :
  rejects_with_undefined 2%nat = (Throw (mkThrown false "undefined"), 3%nat, []) /\
  ScraperUtils.withRetry rejects_with_undefined 3 "page loading" 0%nat
  = (Throw (mkError "page loading failed after 3 attempts"), 3%nat,
     [EvSleep 1000; EvSleep 2000]) /\
  mkError "page loading failed after 3 attempts" <> mkThrown false "undefined".
Proof. split; [reflexivity|]. split; [reflexivity|]. discriminate. Qed.

(** ** Rate limiter *)

Section RateLimiterFacts.
Import RateLimiter.
Implicit Types (config : RateLimitConfig) (l : Limiter).

Lemma Math_min_nonempty x xs : exists m, Math_min (x :: xs) = Fin m.
Proof. simpl. destruct (Math_min xs); eauto. Qed.

(** [Math.min] returns an element of the list that is below all others. *)
Lemma Math_min_spec xs m :
  Math_min xs = Fin m -> In m xs /\ forall y, In y xs -> m <= y.
Proof.
  revert m. induction xs as [|x xs IH]; intros m; simpl; [discriminate|].
  destruct (Math_min xs) as [m'|] eqn:Hm; intros [= <-].
  - destruct (IH m' eq_refl) as [Hin Hle]. split.
    + destruct (Z.min_spec x m') as [[_ ->]|[_ ->]]; auto.
    + intros y [<-|Hy]; [lia|]. specialize (Hle y Hy). lia.
  - destruct xs; [|destruct (Math_min_nonempty z xs); congruence].
    split; [auto|]. intros y [<-|[]]. lia.
Qed.

Lemma getRequestCount_le_length T reqs :
  (getRequestCount T reqs <= length reqs)%nat.
Proof. apply filter_length_le. Qed.

Lemma getRequestCount_push T reqs now :
  (getRequestCount T (waitIfNeeded_resume now reqs) <= Datatypes.S (getRequestCount T reqs))%nat.
Proof.
  unfold getRequestCount, waitIfNeeded_resume. rewrite List.filter_app, length_app.
  simpl. destruct (T - 60000 <? now); simpl; lia.
Qed.

(** A timestamp that has left the window is not counted. *)
Lemma getRequestCount_expired T reqs x :
  In x reqs -> x + 60000 <= T ->
  (getRequestCount T reqs < length reqs)%nat.
Proof.
  intros Hin Hold. unfold getRequestCount.
  pose proof (filter_length (fun timestamp => T - 60000 <? timestamp) reqs) as Hlen.
  set (gone := List.filter (fun timestamp => negb (T - 60000 <? timestamp)) reqs) in *.
  assert (Hx : In x gone).
  { apply filter_In. split; [assumption|].
    apply negb_true_iff, Z.ltb_ge. lia. }
  destruct gone; [destruct Hx|]. simpl in Hlen.
  lia.
Qed.

(** What [waitIfNeeded] does up to its suspension point, for a positive
    limit. *)
Lemma waitIfNeeded_enter_spec config now reqs :
  1 <= requestsPerMinute config ->
  let window := List.filter (fun timestamp => now - 60000 <? timestamp) reqs in
  fst (waitIfNeeded_enter config now reqs) = window /\
  (Z.of_nat (length window) < requestsPerMinute config ->
   snd (waitIfNeeded_enter config now reqs) = None) /\
  (requestsPerMinute config <= Z.of_nat (length window) ->
   exists oldestTimestamp,
     Math_min window = Fin oldestTimestamp /\
     0 < oldestTimestamp + 60000 - now /\
     snd (waitIfNeeded_enter config now reqs) = Some (Fin (oldestTimestamp + 60000 - now))).
Proof.
  intros HN window. unfold waitIfNeeded_enter. fold window.
  destruct (requestsPerMinute config <=? Z.of_nat (length window)) eqn:Hfull.
  - apply Z.leb_le in Hfull.
    destruct window as [|x xs] eqn:Hw; [simpl in Hfull; lia|].
    destruct (Math_min_nonempty x xs) as [m Hm]. rewrite Hm.
    destruct (Math_min_spec _ _ Hm) as [Hin _].
    assert (Hfresh : now - 60000 < m).
    { rewrite <- Hw in Hin. apply filter_In in Hin. destruct Hin as [_ Hin].
      apply Z.ltb_lt in Hin. exact Hin. }
    simpl. replace (0 <? m + (60000 - now)) with true by (symmetry; apply Z.ltb_lt; lia).
    simpl in *. split; [reflexivity|]. split; [intros; lia|].
    intros _. exists m. repeat split; try lia.
    f_equal. f_equal. lia.
  - apply Z.leb_gt in Hfull. simpl. split; [reflexivity|]. split; [reflexivity|]. lia.
Qed.

Lemma window_bounded_step config a l l' :
  1 <= requestsPerMinute config ->
  window_bounded config l ->
  step_awaited config a l = Some l' ->
  window_bounded config l'.
Proof.
  intros HN [Hwin Hsusp] Hstep. unfold step_awaited in Hstep.
  destruct a as [now|k now].
  - (* a call, nobody suspended *)
    destruct (suspended l) as [|? ?] eqn:Hs; [|discriminate].
    simpl in Hstep. destruct (clock l <=? now) eqn:Hclk; [|discriminate].
    apply Z.leb_le in Hclk.
    destruct (waitIfNeeded_enter_spec config now (requests l) HN) as (Hfst & Hfree & Hfull).
    set (window := List.filter (fun timestamp => now - 60000 <? timestamp) (requests l)) in *.
    assert (Hsize : Z.of_nat (length window) <= requestsPerMinute config)
      by (apply (Hwin now Hclk)).
    destruct (waitIfNeeded_enter config now (requests l)) as [reqs [ms|]] eqn:Henter;
      simpl in Hfst; subst reqs; injection Hstep as <-.
    + (* suspended *)
      destruct (Z.lt_ge_cases (Z.of_nat (length window)) (requestsPerMinute config)) as [Hlt|Hge].
      { specialize (Hfree Hlt). simpl in Hfree. discriminate. }
      destruct (Hfull Hge) as (oldest & Hmin & Hpos & Hsnd). simpl in Hsnd.
      injection Hsnd as ->.
      destruct (Math_min_spec _ _ Hmin) as [Hin _].
      split; simpl.
      * intros T HT. pose proof (getRequestCount_le_length T window). lia.
      * rewrite Hs. simpl. intros T HT.
        pose proof (getRequestCount_expired T window oldest Hin ltac:(lia)). lia.
    + (* admitted at once *)
      destruct (Z.lt_ge_cases (Z.of_nat (length window)) (requestsPerMinute config)) as [Hlt|Hge].
      2:{ destruct (Hfull Hge) as (? & _ & _ & Hsnd). simpl in Hsnd. discriminate. }
      split; simpl; [|rewrite Hs; exact I].
      intros T HT.
      pose proof (getRequestCount_push T window now).
      pose proof (getRequestCount_le_length T window). lia.
  - (* a timer fires *)
    assert (Hstep' : step config (Wake k now) l = Some l')
      by (destruct (suspended l); exact Hstep).
    clear Hstep. simpl in Hstep'.
    destruct (suspended l) as [|[entered due] [|? ?]] eqn:Hs; try contradiction.
    + destruct k; discriminate.
    + destruct k as [|k]; simpl in Hstep'; [|destruct k; discriminate].
      destruct ((clock l <=? now) && (due <=? now)) eqn:Hok; [|discriminate].
      apply andb_true_iff in Hok. destruct Hok as [Hclk Hdue].
      apply Z.leb_le in Hclk, Hdue. injection Hstep' as <-.
      split; simpl; [|exact I].
      intros T HT.
      pose proof (getRequestCount_push T (requests l) entered).
      specialize (Hsusp T ltac:(lia)). lia.
Qed.

Lemma window_bounded_run config :
  1 <= requestsPerMinute config ->
  forall acts l l',
    window_bounded config l ->
    run_awaited config acts l = Some l' ->
    window_bounded config l'.
Proof.
  intros HN. induction acts as [|a acts IH]; intros l l' Hinv Hrun; simpl in Hrun.
  - injection Hrun as <-. exact Hinv.
  - destruct (step_awaited config a l) as [l1|] eqn:Hstep; [|discriminate].
    eapply IH; [|exact Hrun]. eapply window_bounded_step; eauto.
Qed.

Lemma window_bounded_fresh config t0 :
  0 <= requestsPerMinute config -> window_bounded config (fresh t0).
Proof. intros HN. split; simpl; [intros; unfold getRequestCount; simpl; lia|exact I]. Qed.

Lemma run_awaited_run config :
  forall acts l l', run_awaited config acts l = Some l' -> run config acts l = Some l'.
Proof.
  induction acts as [|a acts IH]; intros l l'; simpl; [auto|].
  destruct (step_awaited config a l) as [l1|] eqn:Hstep; [|discriminate].
  assert (Hs : step config a l = Some l1).
  { unfold step_awaited in Hstep. destruct a, (suspended l); auto; discriminate. }
  rewrite Hs. apply IH.
Qed.

Lemma run_awaited_app config acts1 acts2 l l1 :
  run_awaited config acts1 l = Some l1 ->
  run_awaited config (acts1 ++ acts2) l = run_awaited config acts2 l1.
Proof.
  revert l. induction acts1 as [|a acts1 IH]; intros l; simpl.
  - intros [= ->]. reflexivity.
  - destruct (step_awaited config a l) as [l'|]; [apply IH|discriminate].
Qed.

Lemma filter_all_kept now reqs :
  (forall a, In a reqs -> now - a < 60000) ->
  List.filter (fun timestamp => now - 60000 <? timestamp) reqs = reqs.
Proof.
  intros Hall. induction reqs as [|a reqs IH]; simpl; [reflexivity|].
  replace (now - 60000 <? a) with true
    by (symmetry; apply Z.ltb_lt; specialize (Hall a (or_introl eq_refl)); lia).
  rewrite IH; [reflexivity|]. intros b Hb. apply Hall. right. exact Hb.
Qed.

Lemma last_cons_default (x : Z) xs d : List.last (x :: xs) d = List.last xs x.
Proof.
  revert x d. induction xs as [|y ys IH]; intros x d; [reflexivity|].
  change (List.last (x :: y :: ys) d) with (List.last (y :: ys) d).
  rewrite (IH y d), (IH y x). reflexivity.
Qed.

(** Calls that find room in the window are admitted at once and recorded
    in order. *)
Lemma burst_admitted config :
  forall times recorded t0,
    nondecreasing_from t0 times ->
    (forall a x, In a (recorded ++ times) -> In x times -> x - a < 60000) ->
    Z.of_nat (length recorded + length times) <= requestsPerMinute config ->
    run_awaited config (map Call times) (mkLimiter recorded [] t0)
    = Some (mkLimiter (recorded ++ times) [] (List.last times t0)).
Proof.
  induction times as [|t times IH]; intros recorded t0 Hmono Hnear Hroom.
  - simpl. rewrite app_nil_r. reflexivity.
  - destruct Hmono as [Ht0 Hmono]. cbn [map run_awaited].
    unfold step_awaited. cbn [suspended step clock requests].
    replace (t0 <=? t) with true by (symmetry; apply Z.leb_le; exact Ht0).
    unfold waitIfNeeded_enter.
    rewrite filter_all_kept.
    2:{ intros a Ha. apply Hnear; [apply in_or_app; left; exact Ha|left; reflexivity]. }
    replace (requestsPerMinute config <=? Z.of_nat (length recorded)) with false
      by (symmetry; apply Z.leb_gt; simpl in Hroom; lia).
    unfold waitIfNeeded_resume.
    rewrite (IH (recorded ++ [t]) t Hmono).
    + rewrite <- app_assoc, last_cons_default. reflexivity.
    + intros a x Ha Hx. apply Hnear; [|right; exact Hx].
      rewrite <- app_assoc in Ha. exact Ha.
    + rewrite length_app. simpl in *. lia.
Qed.

Lemma nondecreasing_from_app t0 xs ys :
  nondecreasing_from t0 (xs ++ ys) ->
  nondecreasing_from t0 xs /\ nondecreasing_from (List.last xs t0) ys.
Proof.
  revert t0. induction xs as [|x xs IH]; intros t0; [simpl; auto|].
  rewrite last_cons_default. cbn [app nondecreasing_from].
  intros [Hx Hrest]. destruct (IH x Hrest) as [H1 H2]. auto.
Qed.

(** The call that finds the window full. *)
Lemma burst_blocked config times t t0 :
  1 <= requestsPerMinute config ->
  Z.of_nat (length times) = requestsPerMinute config ->
  rapid_succession t0 (times ++ [t]) ->
  exists oldestTimestamp,
    Math_min times = Fin oldestTimestamp /\
    run_awaited config (map Call (times ++ [t])) (fresh t0)
    = Some (mkLimiter times [(t, oldestTimestamp + 60000)] t) /\
    (forall T, T < oldestTimestamp + 60000 ->
       step config (Wake 0 T) (mkLimiter times [(t, oldestTimestamp + 60000)] t) = None) /\
    (forall T, oldestTimestamp + 60000 <= T -> t <= T ->
       step config (Wake 0 T) (mkLimiter times [(t, oldestTimestamp + 60000)] t)
       = Some (mkLimiter (times ++ [t]) [] T)).
Proof.
  intros HN Hlen [Hmono Hnear].
  destruct (nondecreasing_from_app _ _ _ Hmono) as [Hmono1 Hmono2].
  destruct Hmono2 as [Hlast _].
  assert (Hkept : List.filter (fun timestamp => t - 60000 <? timestamp) times = times).
  { apply filter_all_kept. intros a Ha.
    apply Hnear; apply in_or_app; [left; exact Ha|right; left; reflexivity]. }
  destruct (waitIfNeeded_enter_spec config t times HN) as (Hfst & _ & Hfull).
  rewrite Hkept in Hfst, Hfull.
  destruct (Hfull ltac:(lia)) as (oldest & Hmin & Hpos & Hsnd).
  exists oldest. split; [exact Hmin|]. split; [|split].
  - rewrite map_app.
    rewrite (run_awaited_app config _ _ _ (mkLimiter times [] (List.last times t0))).
    2:{ apply (burst_admitted config times [] t0 Hmono1).
        - intros a x Ha Hx. apply Hnear; apply in_or_app; left; assumption.
        - simpl. lia. }
    cbn [map run_awaited]. unfold step_awaited. cbn [suspended step clock requests].
    replace (List.last times t0 <=? t) with true by (symmetry; apply Z.leb_le; exact Hlast).
    destruct (waitIfNeeded_enter config t times) as [reqs ms].
    simpl in Hfst, Hsnd. subst reqs ms. simpl. do 4 f_equal. lia.
  - intros T HT. simpl.
    replace (oldest + 60000 <=? T) with false by (symmetry; apply Z.leb_gt; lia).
    rewrite andb_false_r. reflexivity.
  - intros T HT1 HT2. simpl.
    replace (oldest + 60000 <=? T) with true by (symmetry; apply Z.leb_le; lia).
    replace (t <=? T) with true by (symmetry; apply Z.leb_le; lia).
    reflexivity.
Qed.

End RateLimiterFacts.

Section RateLimiterWindow.
Import RateLimiter.

(** C3, for callers that do not overlap and a limit [N >= 1].  Every call
    first purges the timestamps that are 60 s old or older; when [N] or
    more remain the caller is suspended for [(oldest + 60 s) - now], a
    positive duration, and its timestamp is recorded only when the timer
    has fired; in a burst of [N + 1] calls on a new limiter the first [N]
    are admitted at once and the last one cannot resume before the oldest
    of their timestamps is 60 s old; and at every moment from the end of
    a step on, the trailing 60 s window holds at most [N] recorded
    timestamps. *)
Theorem awaited_calls_respect_the_window config :
  1 <= requestsPerMinute config ->
  (forall now reqs,
     let window := List.filter (fun timestamp => now - 60000 <? timestamp) reqs in
     fst (waitIfNeeded_enter config now reqs) = window /\
     (Z.of_nat (length window) < requestsPerMinute config ->
      snd (waitIfNeeded_enter config now reqs) = None) /\
     (requestsPerMinute config <= Z.of_nat (length window) ->
      exists oldestTimestamp,
        Math_min window = Fin oldestTimestamp /\
        0 < oldestTimestamp + 60000 - now /\
        snd (waitIfNeeded_enter config now reqs)
        = Some (Fin (oldestTimestamp + 60000 - now)))) /\
  (forall t0 times t,
     Z.of_nat (length times) = requestsPerMinute config ->
     rapid_succession t0 (times ++ [t]) ->
     exists oldestTimestamp,
       Math_min times = Fin oldestTimestamp /\
       run_awaited config (map Call (times ++ [t])) (fresh t0)
       = Some (mkLimiter times [(t, oldestTimestamp + 60000)] t) /\
       (forall T, T < oldestTimestamp + 60000 ->
          step config (Wake 0 T) (mkLimiter times [(t, oldestTimestamp + 60000)] t) = None) /\
       (forall T, oldestTimestamp + 60000 <= T -> t <= T ->
          step config (Wake 0 T) (mkLimiter times [(t, oldestTimestamp + 60000)] t)
          = Some (mkLimiter (times ++ [t]) [] T))) /\
  (forall t0 acts l,
     run_awaited config acts (fresh t0) = Some l ->
     forall T, clock l <= T ->
       Z.of_nat (getRequestCount T (requests l)) <= requestsPerMinute config).
Proof.
  intros HN. split; [|split].
  - intros now reqs. apply waitIfNeeded_enter_spec. exact HN.
  - intros t0 times t Hlen Hburst. apply burst_blocked; assumption.
  - intros t0 acts l Hrun.
    apply (window_bounded_run config HN acts (fresh t0) l); [|exact Hrun].
    apply window_bounded_fresh. lia.
Qed.

End RateLimiterWindow.

Lemma awaited_calls_respect_the_window_witness :
  1 <= RateLimiter.requestsPerMinute two_per_minute /\
  (forall t0 acts l,
     RateLimiter.run_awaited two_per_minute acts (RateLimiter.fresh t0) = Some l ->
     forall T, RateLimiter.clock l <= T ->
       Z.of_nat (RateLimiter.getRequestCount T (RateLimiter.requests l)) <= 2).
Proof.
  split; [vm_compute; discriminate|].
  apply (awaited_calls_respect_the_window two_per_minute). vm_compute. discriminate.
Defined.

(** Three awaited calls at a limit of two per minute: the third waits for
    the first timestamp to leave the window. *)
Example awaited_burst_of_three :
  RateLimiter.run_awaited two_per_minute
    [RateLimiter.Call 0; RateLimiter.Call 5; RateLimiter.Call 9]
    (RateLimiter.fresh 0)
  = Some (RateLimiter.mkLimiter [0; 5] [(9, 60000)] 9).
Proof. reflexivity. Qed.

(** C3 as stated fails when calls overlap.  With a limit of one request per
    minute, a call at 0 ms is admitted; calls at 1 ms and 2 ms both find the
    window full and both sleep until 60000 ms; each then records its own
    timestamp, and at 60000 ms the trailing window holds two recorded
    timestamps. *)
Lemma overlapping_calls_exceed_the_window :
  RateLimiter.run one_per_minute
    [RateLimiter.Call 0; RateLimiter.Call 1; RateLimiter.Call 2;
     RateLimiter.Wake 0 60000; RateLimiter.Wake 0 60000]
    (RateLimiter.fresh 0)
  = Some (RateLimiter.mkLimiter [0; 1; 2] [] 60000) /\
  RateLimiter.getRequestCount 60000 [0; 1; 2] = 2%nat /\
  RateLimiter.requestsPerMinute one_per_minute = 1.
Proof. repeat split. Qed.

(** ** Job store *)

Section JobStoreFacts.
Context {W : Type} `{World W}.
Implicit Types (s : Sys W) (j : Job) (updates : JobUpdateData).

Lemma updateScrapingJob_found jobId updates s j :
  scrapingJobs s !! jobId = Some j ->
  JobManagementService.updateScrapingJob jobId updates s
  = (Ok tt,
     set_scrapingJobs
       (<[jobId := JobManagementService.apply_update updates
                     (JobManagementService.update_started updates s)
                     (JobManagementService.update_finished updates s) j]>
          (scrapingJobs s)) s,
     [EvLog info JobManagementService.context
        ("Updated scraping job " +:+ jobId +:+ " with status: "
         +:+ JobManagementService.status_text (upd_status updates)) None]).
Proof.
  intros Hj.
  unfold JobManagementService.updateScrapingJob, JobManagementService.update_started,
    JobManagementService.update_finished, try_catch, bind,
    JobManagementService.prisma_scrapingJobs_update.
  destruct (upd_status updates) as [[]|]; simpl; rewrite Hj; reflexivity.
Qed.

Lemma updateScrapingJob_missing jobId updates s :
  scrapingJobs s !! jobId = None ->
  JobManagementService.updateScrapingJob jobId updates s
  = (Throw (mkError "Record to update not found."), s,
     [EvLog error JobManagementService.context
        ("Failed to update scraping job " +:+ jobId)
        (Some (mkError "Record to update not found."))]).
Proof.
  intros Hj.
  unfold JobManagementService.updateScrapingJob, try_catch, bind,
    JobManagementService.prisma_scrapingJobs_update.
  destruct (upd_status updates) as [[]|]; simpl; rewrite Hj; reflexivity.
Qed.

(** C5, as the store implements it.  [updateScrapingJob] has no
    terminal-state guard: on a stored job, whatever its status, the update
    is written as given.  The stored status becomes the status the update
    carries and stays as it was only when the update carries none; the
    call does not throw, and its only log line is the usual "Updated
    scraping job" line. *)
Theorem updateScrapingJob_writes_any_status jobId updates s j :
  scrapingJobs s !! jobId = Some j ->
  exists s' j',
    JobManagementService.updateScrapingJob jobId updates s
    = (Ok tt, s',
       [EvLog info JobManagementService.context
          ("Updated scraping job " +:+ jobId +:+ " with status: "
           +:+ JobManagementService.status_text (upd_status updates)) None]) /\
    scrapingJobs s' !! jobId = Some j' /\
    job_status j' = default (job_status j) (upd_status updates) /\
    (forall other, other <> jobId -> scrapingJobs s' !! other = scrapingJobs s !! other).
Proof.
  intros Hj. eexists _, _. split; [apply updateScrapingJob_found; exact Hj|].
  simpl. split; [apply lookup_insert_eq|]. split; [reflexivity|].
  intros other Hne. apply lookup_insert_ne. congruence.
Qed.

End JobStoreFacts.

Lemma updateScrapingJob_writes_any_status_witness :
  scrapingJobs (store_with "0" finished_job 5000) !! "0" = Some finished_job /\
  exists s' j',
    JobManagementService.updateScrapingJob (H := clock_world) "0"
      (mkJobUpdateData (Some running) None None None None) (store_with "0" finished_job 5000)
    = (Ok tt, s',
       [EvLog info JobManagementService.context
          "Updated scraping job 0 with status: running" None]) /\
    scrapingJobs s' !! "0" = Some j' /\
    job_status j' = running /\
    (forall other, other <> "0" ->
       scrapingJobs s' !! other = scrapingJobs (store_with "0" finished_job 5000) !! other).
Proof.
  split; [reflexivity|].
  apply (updateScrapingJob_writes_any_status (H := clock_world) "0"
           (mkJobUpdateData (Some running) None None None None)
           (store_with "0" finished_job 5000) finished_job).
  reflexivity.
Defined.

(** C5 as stated fails: a job stored as [completed] is moved back to
    [running] by an ordinary update, which returns normally. *)
Lemma completed_job_can_be_restarted :
  let s := store_with "0" finished_job 5000 in
  let '(r, s', _) :=
    JobManagementService.updateScrapingJob (H := clock_world) "0"
      (mkJobUpdateData (Some running) None None None None) s in
  job_status <$> (scrapingJobs s !! "0") = Some completed /\
  r = Ok tt /\
  job_status <$> (scrapingJobs s' !! "0") = Some running.
Proof. vm_compute. repeat split. Qed.

(** ** Database exporter *)

Section UpsertFacts.
Import ScrapedProperties.
Implicit Types (rs : list row) (t : table).

Lemma filter_key_absent key rs :
  key ∉ map sourceUrl rs ->
  List.filter (fun r => String.eqb (sourceUrl r) key) rs = [].
Proof.
  induction rs as [|r rs IH]; simpl; [reflexivity|]. intros [Hne Hnot]%not_elem_of_cons.
  destruct (String.eqb_spec (sourceUrl r) key) as [Heq|_]; [congruence|].
  apply IH. exact Hnot.
Qed.

(** No row with the key: [update_where] finds nothing to update. *)
Lemma update_where_absent key update rs :
  update_where key update rs = None <-> key ∉ map sourceUrl rs.
Proof.
  induction rs as [|r rs IH]; simpl.
  - split; [intros _; apply not_elem_of_nil|reflexivity].
  - rewrite not_elem_of_cons.
    destruct (String.eqb_spec (sourceUrl r) key) as [Heq|Hne].
    + split; [discriminate|]. intros [Hne _]. congruence.
    + destruct (update_where key update rs) as [[r' rs']|].
      * split; [discriminate|]. intros [_ Hnot]. apply IH in Hnot. discriminate.
      * split; [|reflexivity]. intros _. split; [congruence|]. apply IH. reflexivity.
Qed.

(** A row with the key, under the unique index: that row gets the new
    columns, keeps its id and its key, and no row is added. *)
Lemma update_where_present key update rs r' rs' :
  NoDup (map sourceUrl rs) ->
  update_where key update rs = Some (r', rs') ->
  exists r0,
    List.filter (fun r => String.eqb (sourceUrl r) key) rs = [r0] /\
    r' = mkRow (id r0) key update /\
    List.filter (fun r => String.eqb (sourceUrl r) key) rs' = [r'] /\
    map sourceUrl rs' = map sourceUrl rs.
Proof.
  revert r' rs'. induction rs as [|r rs IH]; intros r' rs' Hnd; simpl; [discriminate|].
  inversion Hnd as [|? ? Hnotin Hnd']; subst.
  destruct (String.eqb_spec (sourceUrl r) key) as [Heq|Hne].
  - intros [= <- <-]. exists r. subst key.
    rewrite (filter_key_absent _ _ Hnotin). simpl.
    rewrite String.eqb_refl, (filter_key_absent _ _ Hnotin). auto.
  - destruct (update_where key update rs) as [[r1 rs1]|] eqn:Hup; [|discriminate].
    intros [= <- <-]. destruct (IH r1 rs1 Hnd' eq_refl) as (r0 & Hf & Hr & Hf' & Hmap).
    exists r0. simpl.
    destruct (String.eqb_spec (sourceUrl r) key) as [Heq|_]; [contradiction|].
    rewrite Hmap. auto.
Qed.

(** The upsert, under the unique index: afterwards exactly one row carries
    the key; it holds the [update] columns when the key was present and the
    [create] columns otherwise. *)
Lemma upsert_spec key update create t :
  unique_sourceUrl t ->
  fst create = key ->
  exists r t',
    upsert key update create t = (Ok r, t', []) /\
    with_sourceUrl key t' = [r] /\
    sourceUrl r = key /\
    unique_sourceUrl t' /\
    match with_sourceUrl key t with
    | [] => cols r = snd create /\ length (rows t') = Datatypes.S (length (rows t))
    | r0 :: _ => cols r = update /\ id r = id r0 /\ length (rows t') = length (rows t)
    end.
Proof.
  intros Hnd Hkey. unfold upsert, with_sourceUrl, unique_sourceUrl in *.
  destruct (update_where key update (rows t)) as [[r' rs']|] eqn:Hup.
  - destruct (update_where_present _ _ _ _ _ Hnd Hup) as (r0 & Hf & Hr & Hf' & Hmap).
    exists r', (mkTable rs' (nextId t)). simpl. rewrite Hf, Hmap.
    repeat split; auto; subst r'; try reflexivity.
    rewrite <- (length_map sourceUrl rs'), Hmap, length_map. reflexivity.
  - apply update_where_absent in Hup.
    eexists _, _. split; [reflexivity|]. simpl.
    rewrite List.filter_app, (filter_key_absent _ _ Hup). simpl.
    rewrite Hkey, String.eqb_refl. repeat split; auto.
    + rewrite map_app. simpl.
      apply NoDup_app. repeat split; auto.
      * intros x Hx ->%list_elem_of_singleton. apply Hup. exact Hx.
      * apply NoDup_singleton.
    + rewrite length_app. simpl. lia.
Qed.

End UpsertFacts.

Section DatabaseExporterFacts.
Import ScrapedProperties.
Implicit Types (p : PropertyDto.t) (t : table).

(** The two objects handed to the upsert write the same columns. *)
Lemma update_data_create_data p :
  DatabaseExporter.update_data p = snd (DatabaseExporter.create_data p).
Proof. reflexivity. Qed.

(** A record without a required field is rejected and nothing is stored. *)
Lemma exportProperty_rejects p t :
  DatabaseExporter.missing_required_fields p = true ->
  DatabaseExporter.exportProperty p t
  = (Throw (mkError "Property missing required fields: title, address, or sourceUrl"), t,
     [EvLog error DatabaseExporter.context
        "Property missing required fields: title, address, or sourceUrl" None]).
Proof. intros Hm. unfold DatabaseExporter.exportProperty. rewrite Hm. reflexivity. Qed.

(** One export of a record that has its required fields. *)
Lemma exportProperty_upserts p t :
  DatabaseExporter.missing_required_fields p = false ->
  unique_sourceUrl t ->
  exists r t',
    DatabaseExporter.exportProperty p t = (Ok (id r), t', []) /\
    with_sourceUrl (PropertyDto.sourceUrl p) t' = [r] /\
    r = mkRow (id r) (PropertyDto.sourceUrl p) (DatabaseExporter.update_data p) /\
    unique_sourceUrl t' /\
    match with_sourceUrl (PropertyDto.sourceUrl p) t with
    | [] => length (rows t') = Datatypes.S (length (rows t))
    | r0 :: _ => id r = id r0 /\ length (rows t') = length (rows t)
    end.
Proof.
  intros Hvalid Hnd. unfold DatabaseExporter.exportProperty. rewrite Hvalid.
  destruct (upsert_spec (PropertyDto.sourceUrl p) (DatabaseExporter.update_data p)
              (DatabaseExporter.create_data p) t Hnd eq_refl)
    as (r & t' & Hrun & Hone & Hkey & Hnd' & Hcase).
  exists r, t'. unfold try_catch, bind. rewrite Hrun. simpl.
  repeat split; auto.
  - destruct r as [rid rkey rcols]. simpl in *. subst rkey. f_equal.
    destruct (with_sourceUrl (PropertyDto.sourceUrl p) t); tauto.
  - destruct (with_sourceUrl (PropertyDto.sourceUrl p) t); tauto.
Qed.

(** C9, for the records the exporter takes.  A record that lacks its
    title, its address or its [sourceUrl] is rejected: [exportProperty]
    logs, throws and stores nothing, so no export of it leaves an entity.
    Two exports to the database destination of records that have these
    fields and share their natural key [sourceUrl] leave exactly one stored
    entity with that key: the second export returns the id the first one
    returned, adds no row, and the entity carries the columns of the later
    record. *)
Theorem exportProperty_twice_is_one_entity p1 p2 t :
  PropertyDto.sourceUrl p1 = PropertyDto.sourceUrl p2 ->
  unique_sourceUrl t ->
  (forall p t0,
     DatabaseExporter.missing_required_fields p = true ->
     DatabaseExporter.exportProperty p t0
     = (Throw (mkError "Property missing required fields: title, address, or sourceUrl"), t0,
        [EvLog error DatabaseExporter.context
           "Property missing required fields: title, address, or sourceUrl" None])) /\
  (DatabaseExporter.missing_required_fields p1 = false ->
   DatabaseExporter.missing_required_fields p2 = false ->
   exists entityId t1 t2,
     DatabaseExporter.exportProperty p1 t = (Ok entityId, t1, []) /\
     DatabaseExporter.exportProperty p2 t1 = (Ok entityId, t2, []) /\
     with_sourceUrl (PropertyDto.sourceUrl p1) t2
     = [mkRow entityId (PropertyDto.sourceUrl p1) (snd (DatabaseExporter.create_data p2))] /\
     length (rows t2) = length (rows t1) /\
     unique_sourceUrl t2).
Proof.
  intros Hkey Hnd. split; [exact exportProperty_rejects|]. intros Hv1 Hv2.
  destruct (exportProperty_upserts p1 t Hv1 Hnd) as (r1 & t1 & Hrun1 & Hone1 & Hr1 & Hnd1 & _).
  destruct (exportProperty_upserts p2 t1 Hv2 Hnd1) as (r2 & t2 & Hrun2 & Hone2 & Hr2 & Hnd2 & Hcase).
  rewrite <- Hkey in Hone2, Hr2, Hcase. rewrite Hone1 in Hcase. destruct Hcase as [Hid Hlen].
  exists (id r1), t1, t2.
  split; [exact Hrun1|]. split; [rewrite <- Hid; exact Hrun2|].
  split; [|auto].
  rewrite Hone2. f_equal. rewrite <- Hid. exact Hr2.
Qed.

End DatabaseExporterFacts.

Lemma exportProperty_twice_is_one_entity_witness :
  PropertyDto.sourceUrl sample_listing = PropertyDto.sourceUrl sample_listing_repriced /\
  ScrapedProperties.unique_sourceUrl ScrapedProperties.empty /\
  DatabaseExporter.missing_required_fields sample_listing = false /\
  DatabaseExporter.missing_required_fields sample_listing_repriced = false /\
  exists entityId t1 t2,
    DatabaseExporter.exportProperty sample_listing ScrapedProperties.empty
    = (Ok entityId, t1, []) /\
    DatabaseExporter.exportProperty sample_listing_repriced t1 = (Ok entityId, t2, []) /\
    ScrapedProperties.with_sourceUrl (PropertyDto.sourceUrl sample_listing) t2
    = [ScrapedProperties.mkRow entityId (PropertyDto.sourceUrl sample_listing)
         (snd (DatabaseExporter.create_data sample_listing_repriced))] /\
    length (ScrapedProperties.rows t2) = length (ScrapedProperties.rows t1) /\
    ScrapedProperties.unique_sourceUrl t2.
Proof.
  split; [reflexivity|]. split; [apply NoDup_nil_2|].
  split; [reflexivity|]. split; [reflexivity|].
  apply (exportProperty_twice_is_one_entity sample_listing sample_listing_repriced
           ScrapedProperties.empty); [reflexivity|apply NoDup_nil_2|reflexivity|reflexivity].
Defined.

(** C9 as stated fails for a record without an address, which the scraper
    emits for a page that has no address element: each of the two exports
    is rejected, and the table holds no entity for the key afterwards, not
    one. *)
Lemma listing_without_address_is_never_stored :
  let first := DatabaseExporter.exportProperty unaddressed_listing ScrapedProperties.empty in
  let second := DatabaseExporter.exportProperty unaddressed_listing first.1.2 in
  PropertyDto.address unaddressed_listing = EmptyString /\
  first.1.1 = Throw (mkError "Property missing required fields: title, address, or sourceUrl") /\
  second.1.1 = Throw (mkError "Property missing required fields: title, address, or sourceUrl") /\
  ScrapedProperties.with_sourceUrl (PropertyDto.sourceUrl unaddressed_listing) second.1.2 = [] /\
  ScrapedProperties.rows second.1.2 = [].
Proof. vm_compute. repeat split. Qed.

(** The two exports run on an empty table: one row, under the id of the
    first export, with the later title and price. *)
Example exportProperty_twice_on_empty_table :
  let '(r1, t1, _) := DatabaseExporter.exportProperty sample_listing ScrapedProperties.empty in
  let '(r2, t2, _) := DatabaseExporter.exportProperty sample_listing_repriced t1 in
  r1 = Ok "0" /\ r2 = Ok "0" /\
  map (fun r => (ScrapedProperties.id r,
                 ScrapedProperties.title (ScrapedProperties.cols r),
                 ScrapedProperties.price (ScrapedProperties.cols r)))
      (ScrapedProperties.rows t2)
  = [("0", "Phong tro Nguyen Trai (gia moi)", Some 3200000)].
Proof. vm_compute. repeat split. Qed.

(** A record that lacks a required field is not exported at all. *)
Example exportProperty_untitled_listing :
  DatabaseExporter.exportProperty untitled_listing ScrapedProperties.empty
  = (Throw (mkError "Property missing required fields: title, address, or sourceUrl"),
     ScrapedProperties.empty,
     [EvLog error DatabaseExporter.context
        "Property missing required fields: title, address, or sourceUrl" None]).
Proof. reflexivity. Qed.

(** ** Reasoning about runs *)

Section EffectFacts.
Context {S : Type} (R : S -> S -> list Event -> Prop) (HR : Compositional R).

Lemma respects_ret {A} (a : A) : respects R (ret a).
Proof. intros s. apply (comp_nil R HR). Qed.

Lemma respects_throw {A} (e : Error) : respects R (@throw S A e).
Proof. intros s. apply (comp_nil R HR). Qed.

Lemma respects_bind {A B} (m : M S A) (k : A -> M S B) :
  respects R m -> (forall a, respects R (k a)) -> respects R (bind m k).
Proof.
  intros Hm Hk s. unfold bind. specialize (Hm s).
  destruct (m s) as [[[a|e] s1] ev1]; simpl in *; [|exact Hm].
  specialize (Hk a s1). destruct (k a s1) as [[r s2] ev2]; simpl in *.
  eapply (comp_app R HR); eauto.
Qed.

Lemma respects_try_catch {A} (body : M S A) (handler : Error -> M S A) :
  respects R body -> (forall e, respects R (handler e)) -> respects R (try_catch body handler).
Proof.
  intros Hm Hk s. unfold try_catch. specialize (Hm s).
  destruct (body s) as [[[a|e] s1] ev1]; simpl in *; [exact Hm|].
  specialize (Hk e s1). destruct (handler e s1) as [[r s2] ev2]; simpl in *.
  eapply (comp_app R HR); eauto.
Qed.

Lemma respects_try_finally {A} (body : M S A) (finalizer : M S unit) :
  respects R body -> respects R finalizer -> respects R (try_finally body finalizer).
Proof.
  intros Hm Hk s. unfold try_finally. specialize (Hm s).
  destruct (body s) as [[r s1] ev1]; simpl in *.
  specialize (Hk s1). destruct (finalizer s1) as [[[u|e] s2] ev2]; simpl in *;
    eapply (comp_app R HR); eauto.
Qed.

Lemma respects_when (b : bool) (m : M S unit) : respects R m -> respects R (when b m).
Proof. intros Hm. destruct b; [exact Hm|apply respects_ret]. Qed.

Lemma respects_attempt {A} (m : M S A) : respects R m -> respects R (attempt m).
Proof. intros Hm s. unfold attempt. specialize (Hm s). destruct (m s) as [[r s1] ev1]. exact Hm. Qed.

End EffectFacts.

Section NeverThrows.
Context {S : Type}.

Lemma never_throws_ret {A} (a : A) : never_throws (@ret S A a).
Proof. intros s. exists a. reflexivity. Qed.

Lemma never_throws_emit (ev : Event) : never_throws (@emit S ev).
Proof. intros s. exists tt. reflexivity. Qed.

Lemma never_throws_bind {A B} (m : M S A) (k : A -> M S B) :
  never_throws m -> (forall a, never_throws (k a)) -> never_throws (bind m k).
Proof.
  intros Hm Hk s. unfold bind. destruct (Hm s) as [a Ha].
  destruct (m s) as [[r s1] ev1]; simpl in Ha; subst r.
  destruct (Hk a s1) as [b Hb]. destruct (k a s1) as [[r s2] ev2]; simpl in *.
  eauto.
Qed.

Lemma never_throws_try_catch {A} (body : M S A) (handler : Error -> M S A) :
  (forall e, never_throws (handler e)) -> never_throws (try_catch body handler).
Proof.
  intros Hk s. unfold try_catch.
  destruct (body s) as [[[a|e] s1] ev1]; simpl; [eauto|].
  destruct (Hk e s1) as [b Hb]. destruct (handler e s1) as [[r s2] ev2]; simpl in *.
  eauto.
Qed.

Lemma never_throws_when (b : bool) (m : M S unit) : never_throws m -> never_throws (when b m).
Proof. intros Hm. destruct b; [exact Hm|apply never_throws_ret]. Qed.

End NeverThrows.

(** Properties that ask a projection of the events to be empty. *)
Lemma omap_app_nil {A} (f : Event -> option A) (ev1 ev2 : list Event) :
  omap f ev1 = [] -> omap f ev2 = [] -> omap f (ev1 ++ ev2) = [].
Proof. intros H1 H2. rewrite omap_app, H1, H2. reflexivity. Qed.

(** The two runs of [logScrapingEvent]: the row is added, or the refusal of
    the database is logged and swallowed. *)
Lemma logScrapingEvent_run {W} `{World W} level msg source metadata (s : Sys W) :
  ScrapingLogService.logScrapingEvent level msg source metadata s
  = (Ok tt,
     match scrapingLogs_refusal (ext s) with
     | Some _ => s
     | None => set_scrapingLogs (scrapingLogs s ++ [mkScrapingLog level msg source metadata]) s
     end,
     refusal_lines (scrapingLogs_refusal (ext s))).
Proof.
  unfold ScrapingLogService.logScrapingEvent, try_catch,
    ScrapingLogService.prisma_scrapingLogs_create.
  destruct (scrapingLogs_refusal (ext s)); reflexivity.
Qed.

Section AmbientFacts.
Context {W : Type} `{World W}.
Context (allowed : Call -> Prop) (R : Sys W -> Sys W -> list Event -> Prop).
Context (HR : Ambient allowed R).

Lemma respects_logger_info context msg : respects R (logger_info context msg).
Proof. intros s. apply (amb_log allowed R HR). Qed.

Lemma respects_logger_error context msg err : respects R (logger_error context msg err).
Proof. intros s. apply (amb_log allowed R HR). Qed.

Lemma respects_logger_debug context msg : respects R (logger_debug context msg).
Proof. intros s. apply (amb_log allowed R HR). Qed.

Lemma respects_sleep ms : respects R (ScraperUtils.sleep ms).
Proof. intros s. apply (amb_sleep allowed R HR). Qed.

Lemma respects_logScrapingEvent level msg source metadata :
  respects R (ScrapingLogService.logScrapingEvent level msg source metadata).
Proof.
  intros s. rewrite logScrapingEvent_run.
  destruct (scrapingLogs_refusal (ext s)); simpl;
    [apply (amb_log allowed R HR)|apply (amb_persist allowed R HR)].
Qed.

Lemma respects_call {A} c (m : Ext W A) : allowed c -> respects R (call c m).
Proof.
  intros Hc s. unfold call. destruct (m (ext s)) as [r w]. simpl.
  apply (amb_call allowed R HR). exact Hc.
Qed.

Lemma respects_exportWith jobId properties exporter :
  allowed (CExportProperties (getExporterType exporter) (length properties)) ->
  respects R (ScrapingJobService.exportWith jobId properties exporter).
Proof.
  intros Hc. unfold ScrapingJobService.exportWith.
  apply respects_try_catch; [exact (amb_comp allowed R HR)| |intros e].
  - apply respects_bind; [exact (amb_comp allowed R HR)|apply respects_call; exact Hc|intros _].
    apply respects_logger_info.
  - apply respects_bind; [exact (amb_comp allowed R HR)|apply respects_logger_error|intros _].
    apply respects_logScrapingEvent.
Qed.

Lemma respects_exportData_gen jobId properties exporters :
  (forall exporter, In exporter exporters ->
     respects R (ScrapingJobService.exportWith jobId properties exporter)) ->
  respects R (ScrapingJobService.exportData jobId properties exporters).
Proof.
  induction exporters as [|exporter rest IH]; intros Hc; simpl.
  - apply respects_ret. exact (amb_comp allowed R HR).
  - apply respects_bind; [exact (amb_comp allowed R HR)|apply Hc; left; reflexivity|intros _].
    apply IH. intros x Hx. apply Hc. right. exact Hx.
Qed.

Lemma respects_exportData jobId properties exporters :
  (forall x n, allowed (CExportProperties x n)) ->
  respects R (ScrapingJobService.exportData jobId properties exporters).
Proof.
  intros Hc. apply respects_exportData_gen. intros exporter _.
  apply respects_exportWith. apply Hc.
Qed.

Lemma respects_scrapePage_gen jobId scraper exporters url totalPages pageNum totalProperties :
  allowed (CGetPageUrl url pageNum) ->
  (forall pageUrl, allowed (CScrapePropertyList pageUrl)) ->
  (forall properties, respects R (ScrapingJobService.exportData jobId properties exporters)) ->
  respects R (ScrapingJobService.scrapePage jobId scraper exporters url
                totalPages pageNum totalProperties).
Proof.
  intros Hg Hs He. unfold ScrapingJobService.scrapePage.
  apply respects_bind; [exact (amb_comp allowed R HR)| |intros [pageProperties|]].
  - apply respects_try_catch; [exact (amb_comp allowed R HR)| |intros e].
    + apply respects_bind; [exact (amb_comp allowed R HR)|apply respects_call; exact Hg|intros pageUrl].
      apply respects_bind; [exact (amb_comp allowed R HR)|apply respects_logger_info|intros _].
      apply respects_bind; [exact (amb_comp allowed R HR)|apply respects_call; apply Hs|intros pageProperties].
      apply respects_bind; [exact (amb_comp allowed R HR)|apply respects_logger_info|intros _].
      apply respects_ret. exact (amb_comp allowed R HR).
    + apply respects_bind; [exact (amb_comp allowed R HR)|apply respects_logger_error|intros _].
      apply respects_ret. exact (amb_comp allowed R HR).
  - apply respects_bind; [exact (amb_comp allowed R HR)| |intros _; apply respects_ret; exact (amb_comp allowed R HR)].
    apply respects_try_catch; [exact (amb_comp allowed R HR)| |intros e; apply respects_logger_error].
    apply respects_bind; [exact (amb_comp allowed R HR)|apply He|intros _].
    apply respects_when; [exact (amb_comp allowed R HR)|apply respects_sleep].
  - apply respects_ret. exact (amb_comp allowed R HR).
Qed.

Lemma respects_crawl_from_gen jobId scraper exporters url start limit totalPages :
  (forall page, allowed (CGetPageUrl url page)) ->
  (forall pageUrl, allowed (CScrapePropertyList pageUrl)) ->
  (forall properties, respects R (ScrapingJobService.exportData jobId properties exporters)) ->
  forall fuel pageNum totalProperties,
    respects R (ScrapingJobService.crawl_from fuel jobId scraper exporters url
                  start limit totalPages pageNum totalProperties).
Proof.
  intros Hg Hs He. induction fuel as [|fuel IH]; intros pageNum totalProperties; simpl;
    destruct ((pageNum <=? totalPages) && (pageNum - start + 1 <=? limit));
    try (apply respects_ret; exact (amb_comp allowed R HR)).
  apply respects_bind; [exact (amb_comp allowed R HR)| |intros total'; apply IH].
  apply respects_scrapePage_gen; auto.
Qed.

(** Steps that also tolerate writes to the job table. *)
Hypothesis Hjobs : forall s jobs, R s (set_scrapingJobs jobs s) [].

Lemma respects_updateScrapingJob jobId updates :
  respects R (JobManagementService.updateScrapingJob jobId updates).
Proof.
  intros s. destruct (scrapingJobs s !! jobId) as [j|] eqn:Hj.
  - rewrite (updateScrapingJob_found jobId updates s j Hj). simpl.
    eapply (comp_app R (amb_comp allowed R HR) _ _ _ [] [_]); [apply Hjobs|apply (amb_log allowed R HR)].
  - rewrite (updateScrapingJob_missing jobId updates s Hj). simpl.
    apply (amb_log allowed R HR).
Qed.

Lemma respects_processPages_gen jobId scrapingJob exporters scraper totalPages :
  (forall page, allowed (CGetPageUrl (ScrapingJobRequest.url scrapingJob) page)) ->
  (forall pageUrl, allowed (CScrapePropertyList pageUrl)) ->
  (forall properties, respects R (ScrapingJobService.exportData jobId properties exporters)) ->
  respects R (ScrapingJobService.processPages jobId scrapingJob exporters scraper totalPages).
Proof.
  intros Hg Hs He. unfold ScrapingJobService.processPages.
  apply respects_bind; [exact (amb_comp allowed R HR)|apply respects_logger_info|intros _].
  apply respects_bind; [exact (amb_comp allowed R HR)|apply respects_crawl_from_gen; auto|intros total].
  apply respects_bind; [exact (amb_comp allowed R HR)|apply respects_logger_info|intros _].
  apply respects_bind; [exact (amb_comp allowed R HR)|apply respects_updateScrapingJob|intros _].
  apply respects_bind; [exact (amb_comp allowed R HR)|apply respects_logScrapingEvent|intros _].
  apply respects_logger_info.
Qed.

Lemma respects_processFailure jobId scrapingJob e :
  respects R (ScrapingJobService.processFailure jobId scrapingJob e).
Proof.
  unfold ScrapingJobService.processFailure.
  apply respects_bind; [exact (amb_comp allowed R HR)|apply respects_logger_error|intros _].
  apply respects_bind; [exact (amb_comp allowed R HR)|intros s; apply (comp_nil R (amb_comp allowed R HR))|intros timestamp].
  apply respects_bind; [exact (amb_comp allowed R HR)|apply respects_updateScrapingJob|intros _].
  apply respects_logScrapingEvent.
Qed.

Lemma respects_processGuarded_gen jobId scrapingJob exporters scraper :
  allowed CInitialize ->
  allowed (CGetTotalPages (ScrapingJobRequest.url scrapingJob)) ->
  (forall page, allowed (CGetPageUrl (ScrapingJobRequest.url scrapingJob) page)) ->
  (forall pageUrl, allowed (CScrapePropertyList pageUrl)) ->
  (forall properties, respects R (ScrapingJobService.exportData jobId properties exporters)) ->
  respects R (ScrapingJobService.processGuarded jobId scrapingJob exporters scraper).
Proof.
  intros Hi Ht Hg Hs He. unfold ScrapingJobService.processGuarded.
  apply respects_try_catch; [exact (amb_comp allowed R HR)| |intros e; apply respects_processFailure].
  unfold ScrapingJobService.processAttempt.
  apply respects_bind; [exact (amb_comp allowed R HR)|apply respects_updateScrapingJob|intros _].
  apply respects_bind; [exact (amb_comp allowed R HR)|apply respects_logScrapingEvent|intros _].
  apply respects_bind; [exact (amb_comp allowed R HR)|apply respects_call; exact Hi|intros _].
  apply respects_bind; [exact (amb_comp allowed R HR)|apply respects_logger_info|intros _].
  apply respects_bind; [exact (amb_comp allowed R HR)|apply respects_call; exact Ht|intros totalPages].
  apply respects_processPages_gen; auto.
Qed.

End AmbientFacts.

(** ** The page loop *)

Section CrawlFacts.
Context {W : Type} `{World W}.
Implicit Types (s : Sys W) (scraper : IScraper W) (exporters : list (IExporter W)).

Lemma never_throws_logScrapingEvent level msg source metadata :
  never_throws (ScrapingLogService.logScrapingEvent (W := W) level msg source metadata).
Proof.
  intros s. exists tt. rewrite logScrapingEvent_run.
  destruct (scrapingLogs_refusal (ext s)); reflexivity.
Qed.

Lemma never_throws_exportWith jobId properties (exporter : IExporter W) :
  never_throws (ScrapingJobService.exportWith jobId properties exporter).
Proof.
  apply never_throws_try_catch. intros e.
  apply never_throws_bind; [apply never_throws_emit|intros _].
  apply never_throws_logScrapingEvent.
Qed.

(** The fan-out returns normally whatever the exporters do. *)
Lemma never_throws_exportData jobId properties exporters :
  never_throws (ScrapingJobService.exportData jobId properties exporters).
Proof.
  induction exporters as [|exporter rest IH]; simpl.
  - apply never_throws_ret.
  - apply never_throws_bind; [apply never_throws_exportWith|intros _; exact IH].
Qed.

Lemma never_throws_scrapePage jobId scraper exporters url totalPages pageNum totalProperties :
  never_throws (ScrapingJobService.scrapePage jobId scraper exporters url
                  totalPages pageNum totalProperties).
Proof.
  unfold ScrapingJobService.scrapePage.
  apply never_throws_bind; [|intros [pageProperties|]].
  - apply never_throws_try_catch. intros e.
    apply never_throws_bind; [apply never_throws_emit|intros _; apply never_throws_ret].
  - apply never_throws_bind; [|intros _; apply never_throws_ret].
    apply never_throws_try_catch. intros e. apply never_throws_emit.
  - apply never_throws_ret.
Qed.

(** The page loop returns normally whatever the pages and exporters do. *)
Lemma never_throws_crawl_from jobId scraper exporters url start limit totalPages :
  forall fuel pageNum totalProperties,
    never_throws (ScrapingJobService.crawl_from fuel jobId scraper exporters url
                    start limit totalPages pageNum totalProperties).
Proof.
  induction fuel as [|fuel IH]; intros pageNum totalProperties; simpl;
    destruct ((pageNum <=? totalPages) && (pageNum - start + 1 <=? limit));
    try apply never_throws_ret.
  apply never_throws_bind; [apply never_throws_scrapePage|intros total'; apply IH].
Qed.

(** A guarded block that starts with a call: the call is the first event,
    and what follows is made of the steps of the rest of the block. *)
Lemma run_guarded_call {A B C} (R : Sys W -> Sys W -> list Event -> Prop)
    c (m : Ext W A) (k : A -> M (Sys W) B) (h : Error -> M (Sys W) B)
    (K : B -> M (Sys W) C) s :
  Compositional R ->
  (forall a, respects R (k a)) ->
  (forall e, respects R (h e)) ->
  (forall b, respects R (K b)) ->
  exists r s' evs,
    bind (try_catch (bind (call c m) k) h) K s
    = (r, s', EvCall c (failure_of (m (ext s)).1) :: evs) /\
    R (set_ext (m (ext s)).2 s) s' evs.
Proof.
  intros HC Hk Hh HK. unfold bind at 1, try_catch, bind at 1, call.
  destruct (m (ext s)) as [[a|e] w]; simpl.
  - specialize (Hk a (set_ext w s)).
    destruct (k a (set_ext w s)) as [[[b|e] s1] ev1]; simpl in *.
    + specialize (HK b s1). destruct (K b s1) as [[r s2] ev2]; simpl in *.
      eexists _, _, _. split; [reflexivity|]. eapply (comp_app R HC); eauto.
    + specialize (Hh e s1). destruct (h e s1) as [[[b|e'] s2] ev2]; simpl in *.
      * specialize (HK b s2). destruct (K b s2) as [[r s3] ev3]; simpl in *.
        exists r, s3, (ev1 ++ ev2 ++ ev3). split; [rewrite <- app_assoc; reflexivity|].
        eapply (comp_app R HC); [exact Hk|]. eapply (comp_app R HC); eauto.
      * eexists _, _, _. split; [reflexivity|]. eapply (comp_app R HC); eauto.
  - specialize (Hh e (set_ext w s)).
    destruct (h e (set_ext w s)) as [[[b|e'] s2] ev2]; simpl in *.
    + specialize (HK b s2). destruct (K b s2) as [[r s3] ev3]; simpl in *.
      eexists _, _, _. split; [reflexivity|]. eapply (comp_app R HC); eauto.
    + eexists _, _, _. split; [reflexivity|]. exact Hh.
Qed.

(** An iteration starts with the call to [getPageUrl] for its page; the
    rest of it is made of log lines, the fetch of the page, export calls
    and a sleep. *)
Lemma scrapePage_head (R : Sys W -> Sys W -> list Event -> Prop)
    jobId scraper exporters url totalPages pageNum totalProperties s :
  Ambient (fun c => forall u page, c <> CGetPageUrl u page) R ->
  exists r s' evs,
    ScrapingJobService.scrapePage jobId scraper exporters url
      totalPages pageNum totalProperties s
    = (r, s', EvCall (CGetPageUrl url pageNum)
                (failure_of (getPageUrl scraper url pageNum)) :: evs) /\
    R (set_ext (ext s) s) s' evs.
Proof.
  intros HR. pose proof (amb_comp _ R HR) as HC.
  unfold ScrapingJobService.scrapePage.
  apply (run_guarded_call R (CGetPageUrl url pageNum)
           (fun w => (getPageUrl scraper url pageNum, w))); [exact HC|intros pageUrl|intros e|intros [pageProperties|]].
  - apply respects_bind; [exact HC|eapply respects_logger_info; exact HR|intros _].
    apply respects_bind; [exact HC|eapply respects_call; [exact HR|discriminate]|intros pageProperties].
    apply respects_bind; [exact HC|eapply respects_logger_info; exact HR|intros _].
    apply respects_ret. exact HC.
  - apply respects_bind; [exact HC|eapply respects_logger_error; exact HR|intros _].
    apply respects_ret. exact HC.
  - apply respects_bind; [exact HC| |intros _; apply respects_ret; exact HC].
    apply respects_try_catch; [exact HC| |intros e; eapply respects_logger_error; exact HR].
    apply respects_bind; [exact HC| |intros _].
    + eapply respects_exportData; [exact HR|discriminate].
    + apply respects_when; [exact HC|eapply respects_sleep; exact HR].
  - apply respects_ret. exact HC.
Qed.

Lemma set_ext_same s : set_ext (ext s) s = s.
Proof. destruct s. reflexivity. Qed.

(** Events other than [getPageUrl] calls start no page visit. *)
Lemma no_page_visits_ambient :
  Ambient (W := W) (fun c => forall u page, c <> CGetPageUrl u page)
    (fun _ _ evs => page_visits evs = []).
Proof.
  split; try reflexivity.
  - split; [reflexivity|]. intros. apply omap_app_nil; assumption.
  - intros s c w failure Hc. destruct c; try reflexivity. exfalso. eapply Hc. reflexivity.
Qed.

Lemma scrapePage_page_visits jobId scraper exporters url totalPages pageNum totalProperties s :
  page_visits (ScrapingJobService.scrapePage jobId scraper exporters url
                 totalPages pageNum totalProperties s).2 = [pageNum].
Proof.
  destruct (scrapePage_head _ jobId scraper exporters url totalPages pageNum
              totalProperties s no_page_visits_ambient) as (r & s' & evs & -> & Hevs).
  simpl. unfold page_visits in *. simpl. rewrite Hevs. reflexivity.
Qed.

(** The pages the loop visits from [pageNum] on. *)
Lemma crawl_from_page_visits jobId scraper exporters url start limit totalPages :
  forall fuel pageNum totalProperties s,
    Z.min totalPages (start + limit - 1) - pageNum + 1 <= Z.of_nat fuel ->
    page_visits (ScrapingJobService.crawl_from fuel jobId scraper exporters url
                   start limit totalPages pageNum totalProperties s).2
    = pages_from pageNum (Z.to_nat (Z.min totalPages (start + limit - 1) - pageNum + 1)).
Proof.
  induction fuel as [|fuel IH]; intros pageNum totalProperties s Hfuel; simpl;
    destruct ((pageNum <=? totalPages) && (pageNum - start + 1 <=? limit)) eqn:Hcond.
  - apply andb_true_iff in Hcond. destruct Hcond as [H1 H2].
    apply Z.leb_le in H1, H2. simpl in Hfuel. lia.
  - apply andb_false_iff in Hcond.
    replace (Z.to_nat _) with 0%nat; [reflexivity|].
    destruct Hcond as [Hc|Hc]; apply Z.leb_gt in Hc; lia.
  - apply andb_true_iff in Hcond. destruct Hcond as [H1 H2].
    apply Z.leb_le in H1, H2.
    replace (Z.to_nat (Z.min totalPages (start + limit - 1) - pageNum + 1))
      with (Datatypes.S (Z.to_nat (Z.min totalPages (start + limit - 1) - (pageNum + 1) + 1)))
      by lia.
    unfold bind.
    pose proof (scrapePage_page_visits jobId scraper exporters url totalPages pageNum
                  totalProperties s) as Hhead.
    destruct (never_throws_scrapePage jobId scraper exporters url totalPages pageNum
                totalProperties s) as [total' Hok].
    destruct (ScrapingJobService.scrapePage jobId scraper exporters url totalPages pageNum
                totalProperties s) as [[r s1] ev1]. simpl in Hhead, Hok. subst r.
    specialize (IH (pageNum + 1) total' s1 ltac:(lia)).
    destruct (ScrapingJobService.crawl_from fuel jobId scraper exporters url start limit
                totalPages (pageNum + 1) total' s1) as [[r2 s2] ev2]. simpl in *.
    unfold page_visits in *. rewrite omap_app, Hhead, IH. reflexivity.
  - apply andb_false_iff in Hcond.
    replace (Z.to_nat _) with 0%nat; [reflexivity|].
    destruct Hcond as [Hc|Hc]; apply Z.leb_gt in Hc; lia.
Qed.

Lemma pages_from_length first count : length (pages_from first count) = count.
Proof. revert first. induction count; intros; simpl; [reflexivity|]. rewrite IHcount. reflexivity. Qed.

Lemma pages_from_lookup count : forall first i page,
  pages_from first count !! i = Some page -> page = first + Z.of_nat i.
Proof.
  induction count as [|count IH]; intros first i page; simpl; [discriminate|].
  destruct i as [|i]; simpl.
  - intros [= <-]. lia.
  - intros Hi. apply IH in Hi. lia.
Qed.

End CrawlFacts.

(** ** The page loop as the collaborators see it *)

Section ExportRuns.
Context {W : Type} `{World W}.
Implicit Types (s : Sys W).

(** One exporter call: either it returns and a success line is logged, or
    it throws and the failure is logged on the process logger and, when
    the database takes the row, in the log table; in both cases the fan-out
    goes on. *)
Lemma exportWith_run jobId properties (exporter : IExporter W) s :
  (exists ids w line,
     exportProperties exporter properties (ext s) = (Ok ids, w) /\
     ScrapingJobService.exportWith jobId properties exporter s
     = (Ok tt, set_ext w s,
        [EvCall (CExportProperties (getExporterType exporter) (length properties)) None;
         EvLog info ScrapingJobService.context line None])) \/
  (exists e w,
     exportProperties exporter properties (ext s) = (Throw e, w) /\
     ScrapingJobService.exportWith jobId properties exporter s
     = (Ok tt,
        match scrapingLogs_refusal w with
        | Some _ => set_ext w s
        | None =>
            set_scrapingLogs
              (scrapingLogs s ++ [export_failure_row jobId (getExporterType exporter) e])
              (set_ext w s)
        end,
        [EvCall (CExportProperties (getExporterType exporter) (length properties)) (Some e);
         export_failure_line (getExporterType exporter) e]
        ++ refusal_lines (scrapingLogs_refusal w))).
Proof.
  unfold ScrapingJobService.exportWith, try_catch, bind, call, logger_error, emit.
  destruct (exportProperties exporter properties (ext s)) as [[ids|e] w].
  - left. eexists ids, w, _. split; reflexivity.
  - right. exists e, w. split; [reflexivity|].
    rewrite logScrapingEvent_run.
    cbn [ext set_ext]. destruct (scrapingLogs_refusal w); reflexivity.
Qed.

End ExportRuns.

Section ObservedCrawlFacts.
Context {W : Type} `{World W}.
Implicit Types (o : Sys (Recorded W)) (scraper : IScraper W) (exporters : list (IExporter W)).

Lemma failures_reported_nil jobId added evs : failures_reported (W := W) jobId [] added evs.
Proof. intros t ps e []. Qed.

Lemma failures_reported_frame jobId block added evs added0 added1 evs0 evs1 :
  failures_reported (W := W) jobId block added evs ->
  failures_reported (W := W) jobId block (added0 ++ added ++ added1) (evs0 ++ evs ++ evs1).
Proof.
  intros Hr t ps e Hin. destruct (Hr t ps e Hin) as [Hline Hrow].
  rewrite !in_app_iff. split; [tauto|].
  destruct Hrow as [Hrow|(w & refusal & Hw & Hlog)]; [tauto|].
  right. exists w, refusal. rewrite !in_app_iff. tauto.
Qed.

Lemma failures_reported_app jobId block1 block2 added1 added2 evs1 evs2 :
  failures_reported (W := W) jobId block1 added1 evs1 ->
  failures_reported (W := W) jobId block2 added2 evs2 ->
  failures_reported (W := W) jobId (block1 ++ block2) (added1 ++ added2) (evs1 ++ evs2).
Proof.
  intros H1 H2 t ps e [Hin|Hin]%in_app_or.
  - pose proof (failures_reported_frame jobId block1 added1 evs1 [] added2 [] evs2 H1) as Hr.
    exact (Hr t ps e Hin).
  - pose proof (failures_reported_frame jobId block2 added2 evs2 added1 [] evs1 [] H2) as Hr.
    rewrite !app_nil_r in Hr. exact (Hr t ps e Hin).
Qed.

Lemma failures_reported_fetched jobId pageUrl outcome block added evs :
  failures_reported (W := W) jobId block added evs ->
  failures_reported (W := W) jobId (Fetched pageUrl outcome :: block) added evs.
Proof. intros Hr t ps e [Heq|Hin]; [discriminate|exact (Hr t ps e Hin)]. Qed.

(** One exporter call as the exporter sees it. *)
Lemma exportWith_observed jobId properties (exporter : IExporter W) o :
  exists failure o' evs added,
    ScrapingJobService.exportWith jobId properties (recording_exporter exporter) o
    = (Ok tt, o', evs) /\
    invocations o' = invocations o ++ [Exported (getExporterType exporter) properties failure] /\
    scrapingLogs o' = scrapingLogs o ++ added /\
    failures_reported (W := W) jobId
      [Exported (getExporterType exporter) properties failure] added evs.
Proof.
  destruct (exportWith_run jobId properties (recording_exporter exporter) o)
    as [(ids & w & line & Hcall & ->)|(e & w & Hcall & ->)];
    cbn [exportProperties recording_exporter] in Hcall; unfold recorded in Hcall;
    destruct (exportProperties exporter properties (ext o).1) as [r w0];
    injection Hcall as -> <-.
  - exists None. eexists _, _, []. split; [reflexivity|].
    split; [reflexivity|]. split; [rewrite app_nil_r; reflexivity|].
    intros t ps e [Heq|[]]. discriminate.
  - exists (Some e).
    eexists _, _, (match scrapingLogs_refusal w0 with
                   | Some _ => []
                   | None => [export_failure_row jobId (getExporterType exporter) e]
                   end).
    split; [reflexivity|].
    cbn [scrapingLogs_refusal recorded_world fst snd getExporterType recording_exporter].
    destruct (scrapingLogs_refusal w0) as [refusal|] eqn:Hrefusal.
    + split; [reflexivity|]. split; [rewrite app_nil_r; reflexivity|].
      intros t ps e' [[= <- <- <-]|[]]. split; [right; left; reflexivity|].
      right. exists w0, refusal. split; [exact Hrefusal|]. right. right. left. reflexivity.
    + split; [reflexivity|]. split; [reflexivity|].
      intros t ps e' [[= <- <- <-]|[]]. split; [right; left; reflexivity|].
      left. left. reflexivity.
Qed.

(** The fan-out as the exporters see it: each is handed the batch, once,
    in list order, whatever the others did. *)
Lemma exportData_observed jobId properties exporters : forall o,
  exists failures o' evs added,
    ScrapingJobService.exportData jobId properties (map recording_exporter exporters) o
    = (Ok tt, o', evs) /\
    length failures = length exporters /\
    invocations o'
    = invocations o ++ exports_of (map getExporterType exporters) properties failures /\
    scrapingLogs o' = scrapingLogs o ++ added /\
    failures_reported (W := W) jobId
      (exports_of (map getExporterType exporters) properties failures) added evs.
Proof.
  induction exporters as [|exporter rest IH]; intros o.
  - exists [], o, [], []. split; [reflexivity|]. split; [reflexivity|].
    split; [simpl; rewrite app_nil_r; reflexivity|].
    split; [rewrite app_nil_r; reflexivity|]. apply failures_reported_nil.
  - destruct (exportWith_observed jobId properties exporter o)
      as (failure & o1 & ev1 & added1 & Hrun1 & Hinv1 & Hlogs1 & Hrep1).
    destruct (IH o1) as (failures & o2 & ev2 & added2 & Hrun2 & Hlen & Hinv2 & Hlogs2 & Hrep2).
    exists (failure :: failures), o2, (ev1 ++ ev2), (added1 ++ added2).
    split; [|split; [|split; [|split]]].
    + cbn [map ScrapingJobService.exportData]. unfold bind. rewrite Hrun1, Hrun2. reflexivity.
    + simpl. rewrite Hlen. reflexivity.
    + rewrite Hinv2, Hinv1, <- app_assoc. reflexivity.
    + rewrite Hlogs2, Hlogs1, <- app_assoc. reflexivity.
    + exact (failures_reported_app jobId [_] _ _ _ _ _ Hrep1 Hrep2).
Qed.

Lemma records_found_app rounds1 rounds2 :
  records_found (rounds1 ++ rounds2) = records_found rounds1 + records_found rounds2.
Proof.
  induction rounds1 as [|round rest IH]; [reflexivity|].
  cbn [app records_found foldr] in *. fold (records_found (rest ++ rounds2)).
  fold (records_found rest). lia.
Qed.

(** One turn of the page loop as the collaborators see it: at most one
    round, for the URL that [getPageUrl] gave for the page. *)
Lemma scrapePage_observed jobId scraper exporters url totalPages pageNum totalProperties o :
  exists total o' evs rounds added,
    ScrapingJobService.scrapePage jobId (recording_scraper scraper)
      (map recording_exporter exporters) url totalPages pageNum totalProperties o
    = (Ok total, o', evs) /\
    total = totalProperties + records_found rounds /\
    invocations o'
    = invocations o ++ flat_map (round_invocations (map getExporterType exporters)) rounds /\
    Forall (whole_round (map getExporterType exporters)) rounds /\
    map round_url rounds = option_list (page_url scraper url pageNum) /\
    scrapingLogs o' = scrapingLogs o ++ added /\
    failures_reported (W := W) jobId
      (flat_map (round_invocations (map getExporterType exporters)) rounds) added evs.
Proof.
  unfold ScrapingJobService.scrapePage, page_url.
  unfold bind at 1, try_catch at 1, bind at 1, call at 1.
  cbn [getPageUrl recording_scraper].
  destruct (getPageUrl scraper url pageNum) as [pageUrl|e].
  - cbn [failure_of]. unfold bind at 1, logger_info at 1, emit at 1.
    unfold bind at 1, call at 1. cbn [scrapePropertyList recording_scraper ext set_ext].
    unfold recorded.
    destruct (scrapePropertyList scraper pageUrl (ext o).1) as [[pageProperties|e] w].
    + unfold bind at 1, logger_info at 1, emit at 1, ret at 1.
      cbn [failure_of]. unfold bind at 1, try_catch at 1, bind at 1.
      match goal with
      | |- context [ScrapingJobService.exportData ?a ?b ?c ?st] =>
          destruct (exportData_observed a b exporters st)
            as (failures & o2 & ev2 & added & Hrun & Hlen & Hinv & Hlogs & Hrep);
          rewrite Hrun
      end.
      unfold when, ScraperUtils.sleep, bind, emit, ret.
      destruct (pageNum <? totalPages);
        (exists (totalProperties + Z.of_nat (length pageProperties)), o2;
         eexists _, [mkRound pageUrl (Ok pageProperties) failures], added;
         split; [reflexivity|];
         split; [cbn; lia|];
         split; [rewrite Hinv; cbn; rewrite app_nil_r, <- app_assoc; reflexivity|];
         split; [constructor; [unfold whole_round; cbn [round_outcome round_failures]; rewrite length_map; exact Hlen|constructor]|];
         split; [reflexivity|]; split; [exact Hlogs|];
         cbn [flat_map round_invocations round_url round_outcome round_failures];
         rewrite app_nil_r; apply failures_reported_fetched;
         intros t ps e Hin; destruct (Hrep t ps e Hin) as [Hline Hrow];
         split; [cbn; rewrite ?in_app_iff; tauto|];
         destruct Hrow as [Hrow|(w0 & refusal & Hw & Hlog)]; [left; exact Hrow|];
         right; exists w0, refusal; split; [exact Hw|];
         cbn; rewrite ?in_app_iff; tauto).
    + cbn [failure_of]. unfold bind, logger_error, emit, ret.
      exists totalProperties. eexists _, _, [mkRound pageUrl (Throw e) []], [].
      split; [reflexivity|]. split; [cbn; lia|]. split; [reflexivity|].
      split; [constructor; [reflexivity|constructor]|].
      split; [reflexivity|]. split; [rewrite app_nil_r; reflexivity|].
      intros t ps e' [Heq|[]]. discriminate.
  - unfold bind, logger_error, emit, ret. cbn.
    exists totalProperties. eexists _, _, [], [].
    split; [reflexivity|]. split; [cbn; lia|].
    split; [cbn; rewrite app_nil_r; reflexivity|].
    split; [constructor|]. split; [reflexivity|].
    split; [rewrite app_nil_r; reflexivity|]. apply failures_reported_nil.
Qed.

(** The page loop as the collaborators see it: one round for each page of
    the range whose URL [getPageUrl] gives, in page order. *)
Lemma crawl_from_observed jobId scraper exporters url start limit totalPages :
  forall fuel pageNum totalProperties o,
    Z.min totalPages (start + limit - 1) - pageNum + 1 <= Z.of_nat fuel ->
    exists total o' evs rounds added,
      ScrapingJobService.crawl_from fuel jobId (recording_scraper scraper)
        (map recording_exporter exporters) url start limit totalPages pageNum totalProperties o
      = (Ok total, o', evs) /\
      total = totalProperties + records_found rounds /\
      invocations o'
      = invocations o ++ flat_map (round_invocations (map getExporterType exporters)) rounds /\
      Forall (whole_round (map getExporterType exporters)) rounds /\
      map round_url rounds
      = omap (page_url scraper url)
          (pages_from pageNum (Z.to_nat (Z.min totalPages (start + limit - 1) - pageNum + 1))) /\
      scrapingLogs o' = scrapingLogs o ++ added /\
      failures_reported (W := W) jobId
        (flat_map (round_invocations (map getExporterType exporters)) rounds) added evs.
Proof.
  assert (Hstop : forall pageNum o,
            (pageNum <=? totalPages) && (pageNum - start + 1 <=? limit) = false ->
            invocations o
            = invocations o ++ flat_map (round_invocations (map getExporterType exporters)) [] /\
            Forall (whole_round (map getExporterType exporters)) [] /\
            map round_url []
            = omap (page_url scraper url)
                (pages_from pageNum
                   (Z.to_nat (Z.min totalPages (start + limit - 1) - pageNum + 1))) /\
            scrapingLogs o = scrapingLogs o ++ [] /\
            failures_reported (W := W) jobId
              (flat_map (round_invocations (map getExporterType exporters)) []) [] []).
  { intros pageNum o Hcond.
    apply andb_false_iff in Hcond.
    replace (Z.to_nat _) with 0%nat
      by (destruct Hcond as [Hc|Hc]; apply Z.leb_gt in Hc; lia).
    split; [cbn; rewrite app_nil_r; reflexivity|]. split; [constructor|].
    split; [reflexivity|]. split; [rewrite app_nil_r; reflexivity|].
    apply failures_reported_nil. }
  induction fuel as [|fuel IH]; intros pageNum totalProperties o Hfuel; simpl;
    destruct ((pageNum <=? totalPages) && (pageNum - start + 1 <=? limit)) eqn:Hcond;
    try (exists totalProperties, o, [], [], [];
         destruct (Hstop pageNum o Hcond) as (Hinv & Hwhole & Hurl & Hlogs & Hrep);
         split; [reflexivity|]; split; [cbn; lia|]; auto).
  - apply andb_true_iff in Hcond. destruct Hcond as [H1 H2].
    apply Z.leb_le in H1, H2. simpl in Hfuel. lia.
  - apply andb_true_iff in Hcond. destruct Hcond as [H1 H2].
    apply Z.leb_le in H1, H2.
    replace (Z.to_nat (Z.min totalPages (start + limit - 1) - pageNum + 1))
      with (Datatypes.S (Z.to_nat (Z.min totalPages (start + limit - 1) - (pageNum + 1) + 1)))
      by lia.
    destruct (scrapePage_observed jobId scraper exporters url totalPages pageNum
                totalProperties o)
      as (total1 & o1 & ev1 & rounds1 & added1
          & Hrun1 & Htotal1 & Hinv1 & Hwhole1 & Hurl1 & Hlogs1 & Hrep1).
    destruct (IH (pageNum + 1) total1 o1 ltac:(lia))
      as (total2 & o2 & ev2 & rounds2 & added2
          & Hrun2 & Htotal2 & Hinv2 & Hwhole2 & Hurl2 & Hlogs2 & Hrep2).
    exists total2, o2, (ev1 ++ ev2), (rounds1 ++ rounds2), (added1 ++ added2).
    split; [unfold bind; rewrite Hrun1, Hrun2; reflexivity|].
    split; [rewrite Htotal2, Htotal1, records_found_app; lia|].
    split; [rewrite Hinv2, Hinv1, flat_map_app, <- app_assoc; reflexivity|].
    split; [apply Forall_app; split; assumption|].
    split; [|split].
    + rewrite map_app, Hurl1, Hurl2. cbn [pages_from].
      destruct (page_url scraper url pageNum) eqn:Hpage; simpl; rewrite Hpage; reflexivity.
    + rewrite Hlogs2, Hlogs1, <- app_assoc. reflexivity.
    + rewrite flat_map_app. apply failures_reported_app; assumption.
Qed.

(** The fuel [crawl] gives its loop is enough. *)
Lemma crawl_observed jobId scraper exporters url start limit totalPages o :
  exists total o' evs rounds added,
    ScrapingJobService.crawl jobId (recording_scraper scraper)
      (map recording_exporter exporters) url start limit totalPages o
    = (Ok total, o', evs) /\
    total = records_found rounds /\
    invocations o'
    = invocations o ++ flat_map (round_invocations (map getExporterType exporters)) rounds /\
    Forall (whole_round (map getExporterType exporters)) rounds /\
    map round_url rounds
    = omap (page_url scraper url)
        (pages_from start (Z.to_nat (Z.min totalPages (start + limit - 1) - start + 1))) /\
    scrapingLogs o' = scrapingLogs o ++ added /\
    failures_reported (W := W) jobId
      (flat_map (round_invocations (map getExporterType exporters)) rounds) added evs.
Proof.
  destruct (crawl_from_observed jobId scraper exporters url start limit totalPages
              (Z.to_nat (totalPages - start + 1)) start 0 o ltac:(lia))
    as (total & o' & evs & rounds & added & Hrun & Htotal & Hrest).
  exists total, o', evs, rounds, added. split; [exact Hrun|]. split; [lia|exact Hrest].
Qed.

(** C1.  With [start >= 1], [limit >= 1] and [start <= totalPages], the
    page loop returns normally and the pages it visits are [start],
    [start + 1], ... : exactly
    [min(totalPages, start + limit - 1) - start + 1] of them, in strictly
    ascending order, whatever the scraper and the exporters do.  Seen from
    the collaborators: what the scraper and the exporters are asked for
    during the loop is a sequence of whole rounds, one for each of these
    pages whose URL [getPageUrl] gives, in page order; in a round
    [scrapePropertyList] is called on the URL of the page and, when it
    returns, every exporter is handed the records it returned.  No other
    page is fetched. *)
Theorem crawl_visits_the_page_range jobId scraper exporters url start limit totalPages
    (s : Sys W) :
  1 <= start -> 1 <= limit -> start <= totalPages ->
  let pages := pages_from start (Z.to_nat (Z.min totalPages (start + limit - 1) - start + 1)) in
  let run := ScrapingJobService.crawl jobId scraper exporters url start limit totalPages s in
  (exists totalProperties, run.1.1 = Ok totalProperties) /\
  page_visits run.2 = pages /\
  Z.of_nat (length (page_visits run.2)) = Z.min totalPages (start + limit - 1) - start + 1 /\
  (forall i j p q, (i < j)%nat ->
     page_visits run.2 !! i = Some p -> page_visits run.2 !! j = Some q -> p < q) /\
  (forall p, In p (page_visits run.2) ->
     start <= p <= Z.min totalPages (start + limit - 1)) /\
  forall o,
    let observed := ScrapingJobService.crawl jobId (recording_scraper scraper)
                      (map recording_exporter exporters) url start limit totalPages o in
    exists rounds,
      invocations observed.1.2
      = invocations o ++ flat_map (round_invocations (map getExporterType exporters)) rounds /\
      Forall (whole_round (map getExporterType exporters)) rounds /\
      map round_url rounds = omap (page_url scraper url) pages /\
      observed.1.1 = Ok (records_found rounds).
Proof.
  intros Hstart Hlimit Hle pages run.
  assert (Hvisits : page_visits run.2 = pages).
  { apply crawl_from_page_visits. lia. }
  split; [apply never_throws_crawl_from|]. split; [exact Hvisits|].
  rewrite Hvisits. unfold pages. rewrite pages_from_length.
  split; [lia|]. split; [|split].
  - intros i j p q Hij Hi Hj. apply pages_from_lookup in Hi, Hj. lia.
  - intros p [i Hi]%list_elem_of_In%list_elem_of_lookup.
    pose proof (lookup_lt_Some _ _ _ Hi) as Hlt. rewrite pages_from_length in Hlt.
    apply pages_from_lookup in Hi. lia.
  - intros o.
    destruct (crawl_observed jobId scraper exporters url start limit totalPages o)
      as (total & o' & evs & rounds & added & -> & -> & Hinv & Hwhole & Hurls & _).
    exists rounds. auto.
Qed.

End ObservedCrawlFacts.

Lemma crawl_visits_the_page_range_witness :
  1 <= 2 /\ 1 <= 2 /\ 2 <= 5 /\
  let run := ScrapingJobService.crawl "0" (stub_scraper 5) [json_stub; failing_csv_stub]
               listing_url 2 2 5 (process_with (stub_scraper 5) [json_stub; failing_csv_stub] 0) in
  (exists totalProperties, run.1.1 = Ok totalProperties) /\
  page_visits run.2 = pages_from 2 (Z.to_nat (Z.min 5 (2 + 2 - 1) - 2 + 1)) /\
  Z.of_nat (length (page_visits run.2)) = Z.min 5 (2 + 2 - 1) - 2 + 1 /\
  (forall i j p q, (i < j)%nat ->
     page_visits run.2 !! i = Some p -> page_visits run.2 !! j = Some q -> p < q) /\
  (forall p, In p (page_visits run.2) -> 2 <= p <= Z.min 5 (2 + 2 - 1)) /\
  forall o : Sys (Recorded Z),
    let observed := ScrapingJobService.crawl "0" (recording_scraper (stub_scraper 5))
                      (map recording_exporter [json_stub; failing_csv_stub])
                      listing_url 2 2 5 o in
    exists rounds,
      invocations observed.1.2
      = invocations o ++ flat_map (round_invocations ["json"; "csv"]) rounds /\
      Forall (whole_round ["json"; "csv"]) rounds /\
      map round_url rounds
      = ["https://batdongsan.com.vn/cho-thue-phong-tro/p2";
         "https://batdongsan.com.vn/cho-thue-phong-tro/p3"] /\
      observed.1.1 = Ok (records_found rounds).
Proof.
  split; [lia|]. split; [lia|]. split; [lia|].
  apply (crawl_visits_the_page_range "0" (stub_scraper 5) [json_stub; failing_csv_stub]
           listing_url 2 2 5 (process_with (stub_scraper 5) [json_stub; failing_csv_stub] 0));
    lia.
Defined.

(** The scenario of the design document: five pages, start at 2, at most 2
    pages.  Pages 2 and 3 are visited and fetched; pages 4 and 5 are not:
    the scraper is asked for the URLs of pages 2 and 3 and for nothing
    else, and both exporters are handed the listing of each. *)
Example crawl_five_pages_from_two_limit_two :
  let run := ScrapingJobService.crawl "0" (stub_scraper 5) [json_stub; failing_csv_stub]
               listing_url 2 2 5 (process_with (stub_scraper 5) [json_stub; failing_csv_stub] 0) in
  let observed := ScrapingJobService.crawl "0" (recording_scraper (stub_scraper 5))
                    (map recording_exporter [json_stub; failing_csv_stub]) listing_url 2 2 5
                    (observed_process (stub_scraper 5) [json_stub; failing_csv_stub] 0) in
  run.1.1 = Ok 2 /\
  page_visits run.2 = [2; 3] /\
  page_fetches run.2
  = ["https://batdongsan.com.vn/cho-thue-phong-tro/p2";
     "https://batdongsan.com.vn/cho-thue-phong-tro/p3"] /\
  invocations observed.1.2
  = [Fetched "https://batdongsan.com.vn/cho-thue-phong-tro/p2" (Ok [sample_listing]);
     Exported "json" [sample_listing] None;
     Exported "csv" [sample_listing] (Some (mkError "disk full"));
     Fetched "https://batdongsan.com.vn/cho-thue-phong-tro/p3" (Ok [sample_listing]);
     Exported "json" [sample_listing] None;
     Exported "csv" [sample_listing] (Some (mkError "disk full"))].
Proof. vm_compute. repeat split. Qed.

(** C7: the claim holds of the design, not of the code.  With five pages,
    start at 2 and a limit of 2 pages, page 3 is the last page the job
    visits, and the loop still sleeps the 3000 ms inter-page delay after it:
    the guard of the sleep compares the page with [totalPages] only. *)
Theorem crawl_sleeps_after_the_last_page_of_a_limited_job :
  pacing (ScrapingJobService.crawl "0" (stub_scraper 5) [json_stub]
            listing_url 2 2 5 (process_with (stub_scraper 5) [json_stub] 0)).2
  = [Visit 2; Sleep 3000; Visit 3; Sleep 3000].
Proof. vm_compute. reflexivity. Qed.

(** When the loop ends at [totalPages], no delay follows the last page. *)
Example crawl_does_not_sleep_after_the_final_page :
  pacing (ScrapingJobService.crawl "0" (stub_scraper 3) [json_stub]
            listing_url 2 2 3 (process_with (stub_scraper 3) [json_stub] 0)).2
  = [Visit 2; Sleep 3000; Visit 3].
Proof. vm_compute. reflexivity. Qed.

(** ** The job processing routine *)

Section ProcessFacts.
Context {W : Type} `{World W}.
Implicit Types (s : Sys W) (scraper : IScraper W) (exporters : list (IExporter W)).
Implicit Types (scrapingJob : ScrapingJobRequest.t) (j : Job).

(** Steps that leave the job table alone. *)
Lemma keeps_jobs_ambient :
  Ambient (W := W) (fun _ => True) (fun s s' _ => scrapingJobs s' = scrapingJobs s).
Proof.
  split; try reflexivity.
  split; [reflexivity|]. intros s s1 s2 _ _ H1 H2. congruence.
Qed.

Lemma crawl_keeps_jobs jobId scraper exporters url start limit totalPages s :
  scrapingJobs (ScrapingJobService.crawl jobId scraper exporters url
                  start limit totalPages s).1.2 = scrapingJobs s.
Proof.
  apply (respects_crawl_from_gen _ _ keeps_jobs_ambient); auto.
  intros properties. apply (respects_exportData _ _ keeps_jobs_ambient). auto.
Qed.

Lemma never_throws_crawl jobId scraper exporters url start limit totalPages :
  never_throws (ScrapingJobService.crawl jobId scraper exporters url start limit totalPages).
Proof. apply never_throws_crawl_from. Qed.

(** The [catch] clause on a stored job: the job is marked [failed] with
    the message of the error and the time of the failure. *)
Lemma processFailure_run jobId scrapingJob e s j :
  scrapingJobs s !! jobId = Some j ->
  exists s' line1 line2,
    ScrapingJobService.processFailure jobId scrapingJob e s
    = (Ok tt, s', [EvLog error ScrapingJobService.context line1 (Some e);
                   EvLog info JobManagementService.context line2 None]
                  ++ refusal_lines (scrapingLogs_refusal (ext s))) /\
    ext s' = ext s /\
    scrapingJobs s'
    = <[jobId := JobManagementService.apply_update
                   (mkJobUpdateData (Some failed) None None
                      (Some (mkJobErrors (message e) (Date_now (ext s)))) None)
                   None (Some (Date_now (ext s))) j]> (scrapingJobs s).
Proof.
  intros Hj. unfold ScrapingJobService.processFailure.
  unfold bind at 1, logger_error at 1, emit at 1. unfold bind at 1, Date_new at 1.
  unfold bind at 1. rewrite (updateScrapingJob_found jobId _ s j Hj).
  rewrite logScrapingEvent_run. cbn [ext set_scrapingJobs].
  eexists _, _, _. split; [reflexivity|].
  destruct (scrapingLogs_refusal (ext s)); split; reflexivity.
Qed.

(** The state once the job is marked [running] and the start is logged. *)
Lemma processAttempt_started jobId scrapingJob exporters scraper s j :
  scrapingJobs s !! jobId = Some j ->
  exists s1 line,
    ext s1 = ext s /\
    scrapingJobs s1
    = <[jobId := JobManagementService.apply_update
                   (ScrapingJobService.status_update running)
                   (Some (Date_now (ext s))) None j]> (scrapingJobs s) /\
    ScrapingJobService.processAttempt jobId scrapingJob exporters scraper s
    = match initialize scraper (ext s) with
      | (Throw e, w1) =>
          (Throw e, set_ext w1 s1,
           EvLog info JobManagementService.context line None
             :: refusal_lines (scrapingLogs_refusal (ext s))
             ++ [EvCall CInitialize (Some e)])
      | (Ok _, w1) =>
          match getTotalPages scraper (ScrapingJobRequest.url scrapingJob) w1 with
          | (Throw e, w2) =>
              (Throw e, set_ext w2 (set_ext w1 s1),
               EvLog info JobManagementService.context line None
                 :: refusal_lines (scrapingLogs_refusal (ext s))
                 ++ [EvCall CInitialize None;
                     EvLog info ScrapingJobService.context
                       ("Starting to scrape all properties from: "
                        +:+ ScrapingJobRequest.url scrapingJob) None;
                     EvCall (CGetTotalPages (ScrapingJobRequest.url scrapingJob)) (Some e)])
          | (Ok totalPages, w2) =>
              let '(r, s', evs) :=
                ScrapingJobService.processPages jobId scrapingJob exporters scraper
                  totalPages (set_ext w2 (set_ext w1 s1)) in
              (r, s',
               EvLog info JobManagementService.context line None
                 :: refusal_lines (scrapingLogs_refusal (ext s))
                 ++ [EvCall CInitialize None;
                     EvLog info ScrapingJobService.context
                       ("Starting to scrape all properties from: "
                        +:+ ScrapingJobRequest.url scrapingJob) None;
                     EvCall (CGetTotalPages (ScrapingJobRequest.url scrapingJob)) None]
                 ++ evs)
          end
      end.
Proof.
  intros Hj.
  pose proof (updateScrapingJob_found jobId (ScrapingJobService.status_update running) s j Hj)
    as Hupdate.
  match type of Hupdate with
  | _ = (_, ?s0, _) =>
      exists (ScrapingLogService.logScrapingEvent info "Starting scraping job" "job-service"
                (Some (ScrapingJobService.job_metadata jobId scrapingJob)) s0).1.2
  end.
  eexists. rewrite logScrapingEvent_run. cbn [fst snd ext set_scrapingJobs].
  split; [destruct (scrapingLogs_refusal (ext s)); reflexivity|].
  split; [destruct (scrapingLogs_refusal (ext s)); reflexivity|].
  unfold ScrapingJobService.processAttempt. unfold bind at 1. rewrite Hupdate.
  unfold bind at 1. rewrite logScrapingEvent_run. cbn [ext set_scrapingJobs].
  unfold bind at 1, call at 1.
  replace (ext (match scrapingLogs_refusal (ext s) with
                | Some _ => _
                | None => _
                end)) with (ext s) by (destruct (scrapingLogs_refusal (ext s)); reflexivity).
  destruct (initialize scraper (ext s)) as [[[]|e] w1]; [|reflexivity].
  unfold bind at 1, logger_info at 1, emit at 1.
  unfold bind at 1, call at 1. cbn [ext set_ext failure_of].
  destruct (getTotalPages scraper (ScrapingJobRequest.url scrapingJob) w1)
    as [[totalPages|e] w2]; [|cbn; rewrite <- ?app_assoc; reflexivity].
  cbn [failure_of].
  match goal with
  | |- context [ScrapingJobService.processPages ?a ?b ?c ?d ?e ?f] =>
      destruct (ScrapingJobService.processPages a b c d e f) as [[r s'] evs]
  end.
  cbn. rewrite <- ?app_assoc. reflexivity.
Qed.

(** Once [totalPages] is known, the rest of the [try] block runs to its
    end on a stored job: the loop returns, and the job is marked
    [completed] with the count of the loop. *)
Lemma processPages_run jobId scrapingJob exporters scraper totalPages s j :
  scrapingJobs s !! jobId = Some j ->
  exists totalProperties s3 ev3 s' line1 line2 line3 line4,
    ScrapingJobService.crawl jobId scraper exporters (ScrapingJobRequest.url scrapingJob)
      (ScrapingJobRequest.start scrapingJob) (ScrapingJobRequest.limit scrapingJob)
      totalPages s = (Ok totalProperties, s3, ev3) /\
    ScrapingJobService.processPages jobId scrapingJob exporters scraper totalPages s
    = (Ok tt, s',
       EvLog info ScrapingJobService.context line1 None
         :: ev3 ++ [EvLog info ScrapingJobService.context line2 None;
                    EvLog info JobManagementService.context line3 None]
                ++ refusal_lines (scrapingLogs_refusal (ext s3))
                ++ [EvLog info ScrapingJobService.context line4 None]) /\
    ext s' = ext s3 /\
    scrapingJobs s'
    = <[jobId := JobManagementService.apply_update
                   (mkJobUpdateData (Some completed) (Some totalProperties)
                      (Some totalProperties) None None)
                   None (Some (Date_now (ext s3))) j]> (scrapingJobs s).
Proof.
  intros Hj.
  pose proof (crawl_keeps_jobs jobId scraper exporters (ScrapingJobRequest.url scrapingJob)
                (ScrapingJobRequest.start scrapingJob) (ScrapingJobRequest.limit scrapingJob)
                totalPages s) as Hkeep.
  destruct (never_throws_crawl jobId scraper exporters (ScrapingJobRequest.url scrapingJob)
              (ScrapingJobRequest.start scrapingJob) (ScrapingJobRequest.limit scrapingJob)
              totalPages s) as [total Hok].
  unfold ScrapingJobService.processPages. unfold bind at 1, logger_info at 1, emit at 1.
  unfold bind at 1.
  destruct (ScrapingJobService.crawl jobId scraper exporters (ScrapingJobRequest.url scrapingJob)
              (ScrapingJobRequest.start scrapingJob) (ScrapingJobRequest.limit scrapingJob)
              totalPages s) as [[r s3] ev3].
  simpl in Hkeep, Hok. subst r.
  unfold bind at 1, logger_info at 1, emit at 1. unfold bind at 1.
  assert (Hj3 : scrapingJobs s3 !! jobId = Some j) by (rewrite Hkeep; exact Hj).
  rewrite (updateScrapingJob_found jobId _ s3 j Hj3).
  unfold bind at 1. rewrite logScrapingEvent_run. cbn [ext set_scrapingJobs].
  unfold logger_info, emit.
  eexists total, s3, ev3, _, _, _, _, _. split; [reflexivity|]. split.
  - cbn. rewrite <- ?app_assoc. reflexivity.
  - cbn [fst snd]. rewrite <- Hkeep.
    destruct (scrapingLogs_refusal (ext s3)); split; reflexivity.
Qed.

(** The guarded part of the routine on a stored job: either it reaches
    the page loop and marks the job [completed] without touching its
    [errors], or the last thing the world saw is the call to [initialize]
    or the call to [getTotalPages]. *)
Lemma processGuarded_cases jobId scrapingJob exporters scraper s j :
  scrapingJobs s !! jobId = Some j ->
  let run := ScrapingJobService.processGuarded jobId scrapingJob exporters scraper s in
  (exists j',
     scrapingJobs run.1.2 !! jobId = Some j' /\
     job_status j' = completed /\
     job_errors j' = job_errors j) \/
  ext run.1.2 = (initialize scraper (ext s)).2 \/
  ext run.1.2
  = (getTotalPages scraper (ScrapingJobRequest.url scrapingJob) (initialize scraper (ext s)).2).2.
Proof.
  intros Hj run. subst run.
  destruct (processAttempt_started jobId scrapingJob exporters scraper s j Hj)
    as (s1 & line & Hext1 & Hjobs1 & Hattempt).
  set (j1 := JobManagementService.apply_update (ScrapingJobService.status_update running)
               (Some (Date_now (ext s))) None j) in *.
  assert (Hj1 : forall w w', scrapingJobs (set_ext w' (set_ext w s1)) !! jobId = Some j1).
  { intros w w'. cbn [scrapingJobs set_ext]. rewrite Hjobs1. apply lookup_insert_eq. }
  assert (Hj1' : forall w, scrapingJobs (set_ext w s1) !! jobId = Some j1).
  { intros w. cbn [scrapingJobs set_ext]. rewrite Hjobs1. apply lookup_insert_eq. }
  unfold ScrapingJobService.processGuarded, try_catch. rewrite Hattempt.
  destruct (initialize scraper (ext s)) as [[[]|e] w1]; cbn [fst snd].
  - destruct (getTotalPages scraper (ScrapingJobRequest.url scrapingJob) w1)
      as [[totalPages|e] w2]; cbn [fst snd].
    + destruct (processPages_run jobId scrapingJob exporters scraper totalPages
                  (set_ext w2 (set_ext w1 s1)) j1 (Hj1 w1 w2))
        as (total & s3 & ev3 & s' & l1 & l2 & l3 & l4 & _ & Hpages & _ & Hjobs').
      rewrite Hpages. cbn [fst snd]. left.
      eexists. split; [rewrite Hjobs'; apply lookup_insert_eq|]. split; reflexivity.
    + destruct (processFailure_run jobId scrapingJob e (set_ext w2 (set_ext w1 s1)) j1 (Hj1 w1 w2))
        as (s' & line1 & line2 & Hfail & Hext' & _).
      rewrite Hfail. cbn [fst snd]. right. right. exact Hext'.
  - destruct (processFailure_run jobId scrapingJob e (set_ext w1 s1) j1 (Hj1' w1))
      as (s' & line1 & line2 & Hfail & Hext' & _).
    rewrite Hfail. cbn [fst snd]. right. left. exact Hext'.
Qed.

Lemma processScrapingJob_resolved jobId scrapingJob exporters scraper s :
  ScrapingJobService.resolveCollaborators scrapingJob s = (Ok (exporters, scraper), s, []) ->
  ScrapingJobService.processScrapingJob jobId scrapingJob s
  = ScrapingJobService.processResolved jobId scrapingJob exporters scraper s.
Proof.
  intros Hres. unfold ScrapingJobService.processScrapingJob, bind. rewrite Hres.
  cbn [fst snd].
  destruct (ScrapingJobService.processResolved jobId scrapingJob exporters scraper s)
    as [[r s'] evs].
  reflexivity.
Qed.

(** The [finally] clause does not write to the job table. *)
Lemma processResolved_jobs jobId scrapingJob exporters scraper s :
  scrapingJobs (ScrapingJobService.processResolved jobId scrapingJob exporters scraper s).1.2
  = scrapingJobs (ScrapingJobService.processGuarded jobId scrapingJob exporters scraper s).1.2.
Proof.
  unfold ScrapingJobService.processResolved, try_finally.
  destruct (ScrapingJobService.processGuarded jobId scrapingJob exporters scraper s)
    as [[r0 s0] ev0].
  unfold ScrapingJobService.processCleanup, bind, call, logger_debug, emit.
  destruct (cleanup scraper (ext s0)) as [[[]|e] w]; reflexivity.
Qed.

(** After the guarded part the world sees the call to [cleanup] and nothing
    else. *)
Lemma processResolved_ext jobId scrapingJob exporters scraper s :
  ext (ScrapingJobService.processResolved jobId scrapingJob exporters scraper s).1.2
  = (cleanup scraper
       (ext (ScrapingJobService.processGuarded jobId scrapingJob exporters scraper s).1.2)).2.
Proof.
  unfold ScrapingJobService.processResolved, try_finally.
  destruct (ScrapingJobService.processGuarded jobId scrapingJob exporters scraper s)
    as [[r0 s0] ev0].
  unfold ScrapingJobService.processCleanup, bind, call, logger_debug, emit. cbn [fst snd].
  destruct (cleanup scraper (ext s0)) as [[[]|e] w]; reflexivity.
Qed.

(** The guarded part of the routine on a stored job: it returns, and the
    job is settled. *)
Lemma processGuarded_outcome jobId scrapingJob exporters scraper s j :
  scrapingJobs s !! jobId = Some j ->
  let run := ScrapingJobService.processGuarded jobId scrapingJob exporters scraper s in
  run.1.1 = Ok tt /\
  exists j',
    scrapingJobs run.1.2 !! jobId = Some j' /\
    job_settled (Date_now (ext s)) j j' /\
    forall other, other <> jobId -> scrapingJobs run.1.2 !! other = scrapingJobs s !! other.
Proof.
  intros Hj run. subst run.
  destruct (processAttempt_started jobId scrapingJob exporters scraper s j Hj)
    as (s1 & line & Hext1 & Hjobs1 & Hattempt).
  set (j1 := JobManagementService.apply_update (ScrapingJobService.status_update running)
               (Some (Date_now (ext s))) None j) in *.
  assert (Hj1 : forall w w', scrapingJobs (set_ext w' (set_ext w s1)) !! jobId = Some j1).
  { intros w w'. cbn [scrapingJobs set_ext]. rewrite Hjobs1. apply lookup_insert_eq. }
  assert (Hj1' : forall w, scrapingJobs (set_ext w s1) !! jobId = Some j1).
  { intros w. cbn [scrapingJobs set_ext]. rewrite Hjobs1. apply lookup_insert_eq. }
  unfold ScrapingJobService.processGuarded, try_catch. rewrite Hattempt.
  destruct (initialize scraper (ext s)) as [[[]|e] w1].
  - destruct (getTotalPages scraper (ScrapingJobRequest.url scrapingJob) w1)
      as [[totalPages|e] w2].
    + destruct (processPages_run jobId scrapingJob exporters scraper totalPages
                  (set_ext w2 (set_ext w1 s1)) j1 (Hj1 w1 w2))
        as (total & s3 & ev3 & s' & l1 & l2 & l3 & l4 & _ & Hpages & _ & Hjobs').
      rewrite Hpages. cbn [fst snd]. split; [reflexivity|].
      eexists. split; [rewrite Hjobs'; apply lookup_insert_eq|]. split.
      * unfold job_settled. cbn. repeat split; eauto.
      * intros other Hne. rewrite Hjobs'. rewrite lookup_insert_ne by congruence.
        cbn [scrapingJobs set_ext]. rewrite Hjobs1. apply lookup_insert_ne. congruence.
    + destruct (processFailure_run jobId scrapingJob e (set_ext w2 (set_ext w1 s1)) j1 (Hj1 w1 w2))
        as (s' & line1 & line2 & Hfail & _ & Hjobs').
      rewrite Hfail. cbn [fst snd]. split; [reflexivity|].
      eexists. split; [rewrite Hjobs'; apply lookup_insert_eq|]. split.
      * unfold job_settled. cbn. repeat split; eauto. right. repeat split; eauto.
      * intros other Hne. rewrite Hjobs'. rewrite lookup_insert_ne by congruence.
        cbn [scrapingJobs set_ext]. rewrite Hjobs1. apply lookup_insert_ne. congruence.
  - destruct (processFailure_run jobId scrapingJob e (set_ext w1 s1) j1 (Hj1' w1))
      as (s' & line1 & line2 & Hfail & _ & Hjobs').
    rewrite Hfail. cbn [fst snd]. split; [reflexivity|].
    eexists. split; [rewrite Hjobs'; apply lookup_insert_eq|]. split.
    + unfold job_settled. cbn. repeat split; eauto. right. repeat split; eauto.
    + intros other Hne. rewrite Hjobs'. rewrite lookup_insert_ne by congruence.
      cbn [scrapingJobs set_ext]. rewrite Hjobs1. apply lookup_insert_ne. congruence.
Qed.

Lemma processResolved_outcome jobId scrapingJob exporters scraper s j :
  scrapingJobs s !! jobId = Some j ->
  let run := ScrapingJobService.processResolved jobId scrapingJob exporters scraper s in
  exists j',
    scrapingJobs run.1.2 !! jobId = Some j' /\
    job_settled (Date_now (ext s)) j j' /\
    forall other, other <> jobId -> scrapingJobs run.1.2 !! other = scrapingJobs s !! other.
Proof.
  intros Hj run. subst run. rewrite processResolved_jobs.
  destruct (processGuarded_outcome jobId scrapingJob exporters scraper s j Hj) as [_ Hout].
  exact Hout.
Qed.

(** The guarded part of the routine on a job that is not in the table:
    both updates throw. *)
Lemma processGuarded_missing jobId scrapingJob exporters scraper s :
  scrapingJobs s !! jobId = None ->
  exists e line1 line2 line3,
    ScrapingJobService.processGuarded jobId scrapingJob exporters scraper s
    = (Throw e, s,
       [EvLog error JobManagementService.context line1 (Some e);
        EvLog error ScrapingJobService.context line2 (Some e);
        EvLog error JobManagementService.context line3 (Some e)]).
Proof.
  intros Hj.
  unfold ScrapingJobService.processGuarded, try_catch, ScrapingJobService.processAttempt.
  unfold bind at 1. rewrite (updateScrapingJob_missing jobId _ s Hj).
  unfold ScrapingJobService.processFailure.
  unfold bind at 1, logger_error at 1, emit at 1. unfold bind at 1, Date_new at 1.
  unfold bind at 1. rewrite (updateScrapingJob_missing jobId _ s Hj).
  eexists _, _, _, _. reflexivity.
Qed.

End ProcessFacts.

(** ** Resource cleanup *)

Section CleanupFacts.
Context {W : Type} `{World W}.
Implicit Types (s : Sys W) (scraper : IScraper W) (exporters : list (IExporter W)).

Lemma no_cleanup_ambient :
  Ambient (W := W) (fun c => ~ is_cleanup_call c) (fun _ _ evs => cleanup_calls evs = []).
Proof.
  split; try reflexivity.
  - split; [reflexivity|]. intros. apply omap_app_nil; assumption.
  - intros s c w failure Hc. destruct c; try reflexivity. exfalso. apply Hc. exact I.
Qed.

(** The guarded part of the routine never calls [cleanup]. *)
Lemma processGuarded_no_cleanup jobId scrapingJob exporters scraper s :
  cleanup_calls (ScrapingJobService.processGuarded jobId scrapingJob exporters scraper s).2 = [].
Proof.
  apply (respects_processGuarded_gen _ _ no_cleanup_ambient);
    try (intros; simpl; tauto); try reflexivity.
  intros properties. apply (respects_exportData _ _ no_cleanup_ambient).
  intros; simpl; tauto.
Qed.

(** C6, as the routine implements it.  In every execution that has
    resolved its collaborators, whatever the guarded part does and however
    it ends, the scraper's [cleanup] is called exactly once, after the
    guarded part, in the [finally] clause.  When [cleanup] returns, the
    outcome of the guarded part is the outcome of the routine.  When
    [cleanup] throws, nothing catches or logs the error: it replaces the
    outcome of the routine, the closing debug line is skipped and no row
    is added to the log table.  For a job that is in the job table, the
    guarded part has returned and the job is stored [completed] or [failed]
    by then, and stays so whatever [cleanup] does.  For a job that is not
    in the table the updates themselves throw: the guarded part throws,
    nothing is stored, and [cleanup] is still called. *)
Theorem cleanup_runs_once_and_its_error_escapes jobId scrapingJob exporters scraper s :
  let guarded := ScrapingJobService.processGuarded jobId scrapingJob exporters scraper s in
  let run := ScrapingJobService.processResolved jobId scrapingJob exporters scraper s in
  cleanup_calls guarded.2 = [] /\
  (exists failure, cleanup_calls run.2 = [failure]) /\
  (forall w,
     cleanup scraper (ext guarded.1.2) = (Ok tt, w) ->
     run = (guarded.1.1, set_ext w guarded.1.2,
            guarded.2 ++ [EvCall CCleanup None;
                          EvLog debug ScrapingJobService.context
                            ("Job " +:+ jobId +:+ " for "
                             +:+ ScrapingJobRequest.websiteCode scrapingJob
                             +:+ " processing completed") None])) /\
  (forall e w,
     cleanup scraper (ext guarded.1.2) = (Throw e, w) ->
     run = (Throw e, set_ext w guarded.1.2, guarded.2 ++ [EvCall CCleanup (Some e)])) /\
  (forall j,
     scrapingJobs s !! jobId = Some j ->
     guarded.1.1 = Ok tt /\
     exists j',
       scrapingJobs run.1.2 !! jobId = Some j' /\
       (job_status j' = completed \/ job_status j' = failed) /\
       job_settled (Date_now (ext s)) j j') /\
  (scrapingJobs s !! jobId = None ->
   (exists e, guarded.1.1 = Throw e) /\
   scrapingJobs run.1.2 = scrapingJobs s).
Proof.
  intros guarded run.
  pose proof (processGuarded_no_cleanup jobId scrapingJob exporters scraper s) as Hnone.
  pose proof (processResolved_jobs jobId scrapingJob exporters scraper s) as Hjobs.
  pose proof (processGuarded_outcome jobId scrapingJob exporters scraper s) as Hstored.
  pose proof (processGuarded_missing jobId scrapingJob exporters scraper s) as Hmissing.
  cbv zeta in Hstored. fold guarded in Hnone, Hjobs, Hstored, Hmissing. fold run in Hjobs.
  assert (Hlast :
    (forall j,
       scrapingJobs s !! jobId = Some j ->
       guarded.1.1 = Ok tt /\
       exists j',
         scrapingJobs run.1.2 !! jobId = Some j' /\
         (job_status j' = completed \/ job_status j' = failed) /\
         job_settled (Date_now (ext s)) j j') /\
    (scrapingJobs s !! jobId = None ->
     (exists e, guarded.1.1 = Throw e) /\
     scrapingJobs run.1.2 = scrapingJobs s)).
  { split.
    - intros j Hj. destruct (Hstored j Hj) as (Hok & j' & Hj' & Hsettled & _).
      split; [exact Hok|]. exists j'. rewrite Hjobs. split; [exact Hj'|].
      split; [|exact Hsettled].
      destruct Hsettled as (_ & _ & _ & _ & _ & [[Hst _]|[Hst _]]); [left|right]; exact Hst.
    - intros Hj. destruct (Hmissing Hj) as (e & line1 & line2 & line3 & Hguarded).
      rewrite Hjobs, Hguarded. split; [exists e; reflexivity|reflexivity]. }
  clear Hjobs Hstored Hmissing.
  subst run. unfold ScrapingJobService.processResolved, try_finally in *.
  fold guarded in Hlast |- *. destruct guarded as [[r0 s0] ev0]. simpl in Hnone |- *.
  unfold ScrapingJobService.processCleanup, bind, call, logger_debug, emit in *.
  destruct (cleanup scraper (ext s0)) as [[[]|e] w] eqn:Hc; simpl in *.
  - split; [exact Hnone|]. split; [|split; [|split; [|exact Hlast]]].
    + exists None. unfold cleanup_calls in *. rewrite omap_app, Hnone. reflexivity.
    + intros w' [= <-]. reflexivity.
    + intros e w' [=].
  - split; [exact Hnone|]. split; [|split; [|split; [|exact Hlast]]].
    + exists (Some e). unfold cleanup_calls in *. rewrite omap_app, Hnone. reflexivity.
    + intros w' [=].
    + intros e' w' [= <- <-]. reflexivity.
Qed.

End CleanupFacts.

(** C6 as stated fails: a scraper whose [cleanup] throws.  The job itself
    completes (status [completed], 2 items), and then the error of
    [cleanup] comes out of the job processing routine; no event and no row
    of the log table mentions it other than the record of the call. *)
Lemma cleanup_error_is_raised_out_of_the_job :
  let s := process_with (stuck_browser_scraper 2) [json_stub; failing_csv_stub] 0 in
  let run := ScrapingJobService.processScrapingJob (H := clock_world) "0" (sample_request 1 5) s in
  run.1.1 = Throw (mkError "Protocol error: target closed") /\
  (job_status <$> scrapingJobs run.1.2 !! "0") = Some completed /\
  (itemsFound <$> scrapingJobs run.1.2 !! "0") = Some 2 /\
  List.last run.2 (EvSleep 0) = EvCall CCleanup (Some (mkError "Protocol error: target closed")) /\
  List.filter (fun ev => match ev with
                         | EvLog _ _ _ (Some e) =>
                             String.eqb (message e) "Protocol error: target closed"
                         | _ => false
                         end) run.2 = [] /\
  map log_message (scrapingLogs run.1.2)
  = ["Starting scraping job"; "Export failed for csv"; "Export failed for csv";
     "Scraping job completed successfully"].
Proof. vm_compute. repeat split. Qed.

(** ** Registry resolution *)

Section ResolutionFacts.
Context {W : Type} `{World W}.
Implicit Types (s : Sys W) (scrapingJob : ScrapingJobRequest.t).

Lemma getExporter_run x s :
  ExporterFactory.getExporter x s
  = match exporters s !! x with
    | Some exporter => (Ok exporter, s, [])
    | None =>
        (Throw (mkError ("No exporter registered for type: " +:+ x)), s,
         [EvLog error ExporterFactory.context ("No exporter registered for type: " +:+ x) None])
    end.
Proof. unfold ExporterFactory.getExporter. destruct (exporters s !! x); reflexivity. Qed.

(** Resolving exporters changes nothing; it either returns them all or
    throws with one error line. *)
Lemma getExporters_run exporterTypes s :
  (exists found, ExporterFactory.getExporters exporterTypes s = (Ok found, s, [])) \/
  (exists e, ExporterFactory.getExporters exporterTypes s
             = (Throw e, s, [EvLog error ExporterFactory.context (message e) None])).
Proof.
  unfold ExporterFactory.getExporters.
  induction exporterTypes as [|x rest IH]; simpl.
  - left. eexists. reflexivity.
  - destruct (exporters s !! x) as [exporter|] eqn:Hx.
    + destruct IH as [[found Hf]|[e He]].
      * left. exists (exporter :: found).
        unfold bind. rewrite getExporter_run, Hx. simpl. rewrite Hf. reflexivity.
      * right. exists e.
        unfold bind. rewrite getExporter_run, Hx. simpl. rewrite He. reflexivity.
    + right. exists (mkError ("No exporter registered for type: " +:+ x)).
      unfold bind. rewrite getExporter_run, Hx. reflexivity.
Qed.

Lemma getExporters_missing exporterTypes s x :
  In x exporterTypes -> exporters s !! x = None ->
  exists e, ExporterFactory.getExporters exporterTypes s
            = (Throw e, s, [EvLog error ExporterFactory.context (message e) None]).
Proof.
  unfold ExporterFactory.getExporters.
  induction exporterTypes as [|y rest IH]; simpl; [tauto|]. intros Hin Hx.
  destruct (exporters s !! y) as [exporter|] eqn:Hy.
  - destruct Hin as [->|Hin]; [congruence|].
    destruct (IH Hin Hx) as [e He]. exists e.
    unfold bind. rewrite getExporter_run, Hy. simpl. rewrite He. reflexivity.
  - exists (mkError ("No exporter registered for type: " +:+ y)).
    unfold bind. rewrite getExporter_run, Hy. reflexivity.
Qed.

Lemma resolveCollaborators_unresolved scrapingJob s :
  unresolved scrapingJob s ->
  exists e factory,
    ScrapingJobService.resolveCollaborators scrapingJob s
    = (Throw e, s, [EvLog error factory (message e) None]).
Proof.
  intros Hun. unfold ScrapingJobService.resolveCollaborators. unfold bind at 1.
  destruct Hun as [Hs|(x & Hin & Hx)].
  - destruct (getExporters_run (ScrapingJobRequest.exporters scrapingJob) s)
      as [[found ->]|[e ->]]; [|eexists _, _; reflexivity].
    unfold bind, ScraperFactory.getScraper. rewrite Hs.
    exists (mkError ("No scraper registered for website code: "
                     +:+ ScrapingJobRequest.websiteCode scrapingJob)), ScraperFactory.context.
    reflexivity.
  - destruct (getExporters_missing _ s x Hin Hx) as [e ->]. eexists _, _. reflexivity.
Qed.

(** Creating a job stores it as [pending] under a fresh id. *)
Lemma createScrapingJob_pending_run source config s :
  JobManagementService.createScrapingJob source pending config None s
  = (Ok (pretty (nextJobId s)),
     set_nextJobId (Datatypes.S (nextJobId s))
       (set_scrapingJobs
          (<[pretty (nextJobId s) :=
               mkJob source pending config 0 0 None None None None]> (scrapingJobs s)) s),
     [EvLog info JobManagementService.context
        ("Created scraping job " +:+ pretty (nextJobId s) +:+ " for source: " +:+ source)
        None]).
Proof. reflexivity. Qed.

(** Starting the background task of an unresolved job: the promise is
    already rejected when it is put in the running-job table, and its
    [finally] callback takes it out again. *)
Lemma startBackgroundJob_unresolved jobId scrapingJob s :
  unresolved scrapingJob s ->
  exists background e factory line,
    ScrapingJobService.startBackgroundJob jobId scrapingJob s
    = (Ok background, set_runningJobs ({[jobId]} ∪ runningJobs s) s,
       [EvLog error factory (message e) None;
        EvLog info ScrapingJobService.context line None]) /\
    forall s0, background s0
               = (Throw e, set_runningJobs (runningJobs s0 ∖ {[jobId]}) s0, []).
Proof.
  intros Hun.
  destruct (resolveCollaborators_unresolved scrapingJob s Hun) as (e & factory & Hres).
  unfold ScrapingJobService.startBackgroundJob. unfold bind at 1, attempt.
  rewrite Hres. unfold bind, logger_info, emit, ret. simpl.
  eexists _, e, factory, _. split; [reflexivity|].
  intros s0. reflexivity.
Qed.

Lemma createScrapingJob_unresolved scrapingJob s :
  unresolved scrapingJob s ->
  exists background e factory line1 line2,
    ScrapingJobService.createScrapingJob scrapingJob s
    = (Ok (pretty (nextJobId s), background),
       set_runningJobs ({[pretty (nextJobId s)]} ∪ runningJobs s)
         (set_nextJobId (Datatypes.S (nextJobId s))
            (set_scrapingJobs
               (<[pretty (nextJobId s) :=
                    mkJob (ScrapingJobRequest.websiteCode scrapingJob) pending
                      (Some (ScrapingJobService.request_config scrapingJob))
                      0 0 None None None None]> (scrapingJobs s)) s)),
       [EvLog info JobManagementService.context line1 None;
        EvLog error factory (message e) None;
        EvLog info ScrapingJobService.context line2 None]) /\
    forall s0, background s0
               = (Throw e, set_runningJobs (runningJobs s0 ∖ {[pretty (nextJobId s)]}) s0, []).
Proof.
  intros Hun.
  pose proof (createScrapingJob_pending_run (ScrapingJobRequest.websiteCode scrapingJob)
                (Some (ScrapingJobService.request_config scrapingJob)) s) as Hcreate.
  match type of Hcreate with
  | _ = (_, ?s1, _) =>
      destruct (startBackgroundJob_unresolved (pretty (nextJobId s)) scrapingJob s1 Hun)
        as (background & e & factory & line & Hstart & Hbackground)
  end.
  eexists background, e, factory, _, line. split; [|exact Hbackground].
  unfold ScrapingJobService.createScrapingJob, try_catch.
  unfold bind at 1. rewrite Hcreate. unfold bind. rewrite Hstart. reflexivity.
Qed.

(** C10.  When the website code or one of the exporter identifiers of a
    job request has no registered implementation, [processScrapingJob]
    throws during registry resolution with the state untouched and one
    error line as its only event; and a request followed from
    [createScrapingJob] to the end of its background task leaves the job
    stored exactly as it was created, in the [pending] state and never
    started or finished, while its id is no longer in the running-job
    table.  No call to a collaborator and no job update appear among the
    events. *)
Theorem unresolved_job_stays_pending scrapingJob s :
  unresolved scrapingJob s ->
  let jobId := pretty (nextJobId s) in
  (exists e factory,
     ScrapingJobService.processScrapingJob jobId scrapingJob s
     = (Throw e, s, [EvLog error factory (message e) None])) /\
  exists s' j e factory line1 line2,
    ScrapingJobService.createScrapingJob_settled scrapingJob s
    = (Ok jobId, s',
       [EvLog info JobManagementService.context line1 None;
        EvLog error factory (message e) None;
        EvLog info ScrapingJobService.context line2 None]) /\
    scrapingJobs s' = <[jobId := j]> (scrapingJobs s) /\
    job_status j = pending /\
    startedAt j = None /\ completedAt j = None /\ job_errors j = None /\
    jobId ∉ runningJobs s'.
Proof.
  intros Hun jobId. split.
  - destruct (resolveCollaborators_unresolved scrapingJob s Hun) as (e & factory & Hres).
    exists e, factory. unfold ScrapingJobService.processScrapingJob, bind.
    rewrite Hres. reflexivity.
  - destruct (createScrapingJob_unresolved scrapingJob s Hun)
      as (background & e & factory & line1 & line2 & Hcreate & Hbackground).
    unfold ScrapingJobService.createScrapingJob_settled, bind, attempt.
    rewrite Hcreate. cbn [fst snd]. rewrite Hbackground. simpl.
    eexists _, _, e, factory, line1, line2. split; [reflexivity|]. simpl.
    split; [reflexivity|]. do 4 (split; [reflexivity|]).
    apply not_elem_of_difference. right. apply elem_of_singleton. reflexivity.
Qed.

End ResolutionFacts.

Lemma unresolved_job_stays_pending_witness :
  unresolved (sample_request 1 5) bare_process /\
  exists s' j e factory line1 line2,
    ScrapingJobService.createScrapingJob_settled (H := clock_world) (sample_request 1 5) bare_process
    = (Ok "0", s',
       [EvLog info JobManagementService.context line1 None;
        EvLog error factory (message e) None;
        EvLog info ScrapingJobService.context line2 None]) /\
    scrapingJobs s' = <["0" := j]> (scrapingJobs bare_process) /\
    job_status j = pending /\
    startedAt j = None /\ completedAt j = None /\ job_errors j = None /\
    "0" ∉ runningJobs s'.
Proof.
  split; [left; reflexivity|].
  apply (unresolved_job_stays_pending (H := clock_world) (sample_request 1 5) bare_process).
  left. reflexivity.
Defined.

(** The scraper is registered but one of the two exporters is not: the job
    request is accepted, the background task throws on the exporter, and the
    job stays [pending]. *)
Example missing_exporter_leaves_job_pending :
  let s := mkSys ∅ [] 0 {[ "bsd" := mkScraperTemplate Z (stub_scraper 5) ]}
             {[ "json" := json_stub ]} ∅ 0 in
  let run := ScrapingJobService.createScrapingJob_settled (H := clock_world)
               (sample_request 1 5) s in
  run.1.1 = Ok "0" /\
  (job_status <$> scrapingJobs run.1.2 !! "0") = Some pending /\
  elements (runningJobs run.1.2) = [] /\
  run.2 = [EvLog info JobManagementService.context
             "Created scraping job 0 for source: bsd" None;
           EvLog error ExporterFactory.context "No exporter registered for type: csv" None;
           EvLog info ScrapingJobService.context
             "Started background job: 0 for bsd URL: https://batdongsan.com.vn/cho-thue-phong-tro with exporters: json, csv"
             None].
Proof. vm_compute. repeat split. Qed.

(** ** Fatal failures *)

Section FatalFailureFacts.
Context {W : Type} `{World W}.
Implicit Types (s : Sys W) (scraper : IScraper W) (exporters : list (IExporter W)).

(** C8.  When the scraper's total-page discovery throws, the job is marked
    [failed], with the message of the error and the time of the failure
    stored on it, and no page is attempted: there is no page visit, no page
    fetch and no export call in the run. *)
Theorem total_page_failure_fails_the_job jobId scrapingJob exporters scraper s j e w1 w2 :
  scrapingJobs s !! jobId = Some j ->
  ScrapingJobService.resolveCollaborators scrapingJob s = (Ok (exporters, scraper), s, []) ->
  initialize scraper (ext s) = (Ok tt, w1) ->
  getTotalPages scraper (ScrapingJobRequest.url scrapingJob) w1 = (Throw e, w2) ->
  let run := ScrapingJobService.processScrapingJob jobId scrapingJob s in
  exists j',
    scrapingJobs run.1.2 !! jobId = Some j' /\
    job_status j' = failed /\
    job_errors j' = Some (mkJobErrors (message e) (Date_now w2)) /\
    completedAt j' = Some (Date_now w2) /\
    page_visits run.2 = [] /\
    page_fetches run.2 = [] /\
    export_calls run.2 = [].
Proof.
  intros Hj Hres Hinit Htp run. subst run.
  unfold ScrapingJobService.processScrapingJob, bind. rewrite Hres. cbn [fst snd].
  unfold ScrapingJobService.processResolved, try_finally,
    ScrapingJobService.processGuarded, try_catch.
  destruct (processAttempt_started jobId scrapingJob exporters scraper s j Hj)
    as (s1 & line & Hext & Hjobs1 & ->).
  rewrite Hinit, Htp.
  match goal with
  | |- context [ScrapingJobService.processFailure _ _ _ ?st] =>
      destruct (processFailure_run jobId scrapingJob e st
                  (JobManagementService.apply_update
                     (ScrapingJobService.status_update running)
                     (Some (Date_now (ext s))) None j))
        as (s' & l1 & l2 & -> & Hext' & Hjobs')
  end.
  { simpl. rewrite Hjobs1. apply lookup_insert_eq. }
  unfold ScrapingJobService.processCleanup, bind, call, logger_debug, emit.
  repeat match goal with
         | |- context [refusal_lines (scrapingLogs_refusal ?w)] =>
             destruct (scrapingLogs_refusal w)
         end;
    destruct (cleanup scraper (ext s')) as [[[]|e'] w3]; simpl;
    (eexists; split; [rewrite Hjobs'; apply lookup_insert_eq|]);
    simpl; repeat split.
Qed.

End FatalFailureFacts.

Lemma total_page_failure_fails_the_job_witness :
  let s := process_with offline_scraper [json_stub; failing_csv_stub] 100 in
  scrapingJobs s !! "0" = Some pending_job /\
  ScrapingJobService.resolveCollaborators (sample_request 1 5) s
  = (Ok ([json_stub; failing_csv_stub], offline_scraper), s, []) /\
  initialize offline_scraper (ext s) = (Ok tt, 100) /\
  getTotalPages offline_scraper (ScrapingJobRequest.url (sample_request 1 5)) 100
  = (Throw (mkError "net::ERR_CONNECTION_REFUSED"), 107) /\
  let run := ScrapingJobService.processScrapingJob (H := clock_world) "0" (sample_request 1 5) s in
  exists j',
    scrapingJobs run.1.2 !! "0" = Some j' /\
    job_status j' = failed /\
    job_errors j' = Some (mkJobErrors "net::ERR_CONNECTION_REFUSED" 107) /\
    completedAt j' = Some 107 /\
    page_visits run.2 = [] /\
    page_fetches run.2 = [] /\
    export_calls run.2 = [].
Proof.
  split; [reflexivity|]. split; [reflexivity|]. split; [reflexivity|]. split; [reflexivity|].
  apply (total_page_failure_fails_the_job (H := clock_world) "0" (sample_request 1 5)
           [json_stub; failing_csv_stub] offline_scraper
           (process_with offline_scraper [json_stub; failing_csv_stub] 100)
           pending_job (mkError "net::ERR_CONNECTION_REFUSED") 100 107); reflexivity.
Defined.

(** ** Export fan-out *)

Section QuietFacts.
Context {W : Type} `{World W}.
Context (R : Sys W -> Sys W -> list Event -> Prop) (HQ : Quiet R).
Implicit Types (s : Sys W) (scraper : IScraper W) (exporters : list (IExporter W)).

Lemma quiet_logScrapingEvent level msg source metadata :
  respects R (ScrapingLogService.logScrapingEvent level msg source metadata).
Proof.
  intros s. rewrite logScrapingEvent_run.
  destruct (scrapingLogs_refusal (ext s)); simpl;
    [apply (quiet_log R HQ)|apply (quiet_persist R HQ)].
Qed.

Lemma quiet_updateScrapingJob jobId updates :
  respects R (JobManagementService.updateScrapingJob jobId updates).
Proof.
  intros s. destruct (scrapingJobs s !! jobId) as [j|] eqn:Hj.
  - rewrite (updateScrapingJob_found jobId updates s j Hj). simpl.
    eapply (comp_app R (quiet_comp R HQ) _ _ _ [] [_]);
      [apply (quiet_jobs R HQ)|apply (quiet_log R HQ)].
  - rewrite (updateScrapingJob_missing jobId updates s Hj). simpl.
    apply (quiet_log R HQ).
Qed.

Lemma quiet_emit_log level context msg err : respects R (emit (EvLog level context msg err)).
Proof. intros s. apply (quiet_log R HQ). Qed.

(** What holds of the steps of the page loop and of the calls to the
    scraper holds of the whole routine. *)
Lemma quiet_processResolved jobId scrapingJob exporters scraper :
  respects R (call CInitialize (initialize scraper)) ->
  respects R (call (CGetTotalPages (ScrapingJobRequest.url scrapingJob))
                (getTotalPages scraper (ScrapingJobRequest.url scrapingJob))) ->
  respects R (call CCleanup (cleanup scraper)) ->
  (forall totalPages,
     respects R (ScrapingJobService.crawl jobId scraper exporters
                   (ScrapingJobRequest.url scrapingJob) (ScrapingJobRequest.start scrapingJob)
                   (ScrapingJobRequest.limit scrapingJob) totalPages)) ->
  respects R (ScrapingJobService.processResolved jobId scrapingJob exporters scraper).
Proof.
  intros Hinit Htotal Hcleanup Hcrawl. pose proof (quiet_comp R HQ) as HC.
  unfold ScrapingJobService.processResolved.
  apply respects_try_finally; [exact HC| |].
  - unfold ScrapingJobService.processGuarded.
    apply respects_try_catch; [exact HC| |intros e].
    + unfold ScrapingJobService.processAttempt.
      apply respects_bind; [exact HC|apply quiet_updateScrapingJob|intros _].
      apply respects_bind; [exact HC|apply quiet_logScrapingEvent|intros _].
      apply respects_bind; [exact HC|exact Hinit|intros _].
      apply respects_bind; [exact HC|apply quiet_emit_log|intros _].
      apply respects_bind; [exact HC|exact Htotal|intros totalPages].
      unfold ScrapingJobService.processPages.
      apply respects_bind; [exact HC|apply quiet_emit_log|intros _].
      apply respects_bind; [exact HC|apply Hcrawl|intros total].
      apply respects_bind; [exact HC|apply quiet_emit_log|intros _].
      apply respects_bind; [exact HC|apply quiet_updateScrapingJob|intros _].
      apply respects_bind; [exact HC|apply quiet_logScrapingEvent|intros _].
      apply quiet_emit_log.
    + unfold ScrapingJobService.processFailure.
      apply respects_bind; [exact HC|apply quiet_emit_log|intros _].
      apply respects_bind; [exact HC|intros s; apply (comp_nil R HC)|intros timestamp].
      apply respects_bind; [exact HC|apply quiet_updateScrapingJob|intros _].
      apply quiet_logScrapingEvent.
  - unfold ScrapingJobService.processCleanup.
    apply respects_bind; [exact HC|exact Hcleanup|intros _]. apply quiet_emit_log.
Qed.

End QuietFacts.

Section FanOutFacts.
Context {W : Type} `{World W}.
Implicit Types (o : Sys (Recorded W)) (scraper : IScraper W) (exporters : list (IExporter W)).

Lemma fanned_out_quiet jobId exporterTypes :
  Quiet (W := Recorded W) (fanned_out jobId exporterTypes).
Proof.
  assert (Hsame : forall o o' evs added,
            invocations o' = invocations o ->
            scrapingLogs o' = scrapingLogs o ++ added ->
            fanned_out jobId exporterTypes o o' evs).
  { intros o o' evs added Hinv Hlogs. exists [], added.
    split; [rewrite Hinv; cbn; rewrite app_nil_r; reflexivity|]. split; [constructor|].
    split; [exact Hlogs|]. apply failures_reported_nil. }
  split.
  - split.
    + intros o. apply (Hsame o o [] []); [reflexivity|rewrite app_nil_r; reflexivity].
    + intros o o1 o2 ev1 ev2 (rounds1 & added1 & Hinv1 & Hwhole1 & Hlogs1 & Hrep1)
        (rounds2 & added2 & Hinv2 & Hwhole2 & Hlogs2 & Hrep2).
      exists (rounds1 ++ rounds2), (added1 ++ added2).
      split; [rewrite Hinv2, Hinv1, flat_map_app, <- app_assoc; reflexivity|].
      split; [apply Forall_app; split; assumption|].
      split; [rewrite Hlogs2, Hlogs1, <- app_assoc; reflexivity|].
      rewrite flat_map_app. apply failures_reported_app; assumption.
  - intros o level context msg err.
    apply (Hsame o o _ []); [reflexivity|rewrite app_nil_r; reflexivity].
  - intros o ms. apply (Hsame o o _ []); [reflexivity|rewrite app_nil_r; reflexivity].
  - intros o entry. apply (Hsame o _ _ [entry]); reflexivity.
  - intros o jobs. apply (Hsame o _ _ []); [reflexivity|simpl; rewrite app_nil_r; reflexivity].
Qed.

(** A call that is not noted changes nothing the collaborators have seen. *)
Lemma fanned_out_unrecorded {A} jobId exporterTypes c (m : Ext W A) :
  respects (fanned_out jobId exporterTypes) (call c (unrecorded m)).
Proof.
  intros o. unfold call, unrecorded. destruct (m (ext o).1) as [r w]. cbn [fst snd].
  exists [], []. split; [cbn; rewrite app_nil_r; reflexivity|]. split; [constructor|].
  split; [cbn; rewrite app_nil_r; reflexivity|]. apply failures_reported_nil.
Qed.

Lemma crawl_fanned_out jobId scraper exporters url start limit totalPages :
  respects (fanned_out jobId (map getExporterType exporters))
    (ScrapingJobService.crawl jobId (recording_scraper scraper)
       (map recording_exporter exporters) url start limit totalPages).
Proof.
  intros o.
  destruct (crawl_observed jobId scraper exporters url start limit totalPages o)
    as (total & o' & evs & rounds & added & -> & _ & Hinv & Hwhole & _ & Hlogs & Hrep).
  exists rounds, added. auto.
Qed.

(** The whole routine as the collaborators and the log table tell it. *)
Lemma processResolved_fanned_out jobId scrapingJob scraper exporters :
  respects (fanned_out jobId (map getExporterType exporters))
    (ScrapingJobService.processResolved jobId scrapingJob
       (map recording_exporter exporters) (recording_scraper scraper)).
Proof.
  apply (quiet_processResolved _ (fanned_out_quiet jobId _)).
  - apply fanned_out_unrecorded.
  - apply fanned_out_unrecorded.
  - apply fanned_out_unrecorded.
  - intros totalPages. apply crawl_fanned_out.
Qed.

Lemma unrecorded_invocations {A} (m : Ext W A) (observed : Recorded W) :
  (unrecorded m observed).2.2 = observed.2.
Proof. unfold unrecorded. destruct (m observed.1). reflexivity. Qed.

(** A run in which a collaborator saw anything went through the page loop,
    and so marked the job [completed] without touching its [errors]. *)
Lemma processResolved_completes_observed jobId scrapingJob scraper exporters o j :
  scrapingJobs o !! jobId = Some j ->
  let run := ScrapingJobService.processResolved jobId scrapingJob
               (map recording_exporter exporters) (recording_scraper scraper) o in
  invocations run.1.2 <> invocations o ->
  exists j',
    scrapingJobs run.1.2 !! jobId = Some j' /\
    job_status j' = completed /\
    job_errors j' = job_errors j.
Proof.
  intros Hj run Hseen. subst run.
  rewrite processResolved_jobs.
  destruct (processGuarded_cases jobId scrapingJob (map recording_exporter exporters)
              (recording_scraper scraper) o j Hj) as [Hdone|Hearly]; [exact Hdone|].
  exfalso. apply Hseen. unfold invocations. rewrite processResolved_ext.
  cbn [cleanup initialize getTotalPages recording_scraper] in *.
  rewrite unrecorded_invocations.
  destruct Hearly as [->| ->]; rewrite ?unrecorded_invocations; reflexivity.
Qed.


End FanOutFacts.


(** The scenario of the design document: destinations [json] (succeeds) and
    [csv] (throws), two pages.  Both exporters are handed the listing of
    both pages, in list order; the job is [completed] with both items
    counted and no [errors]; the rows added to the log table for the
    failures name [csv] and job "0". *)
Example job_with_a_failing_destination :
  let o := observed_process (stub_scraper 2) [json_stub; failing_csv_stub] 0 in
  let run := ScrapingJobService.processScrapingJob "0" (sample_request 1 5) o in
  run.1.1 = Ok tt /\
  invocations run.1.2
  = [Fetched "https://batdongsan.com.vn/cho-thue-phong-tro/p1" (Ok [sample_listing]);
     Exported "json" [sample_listing] None;
     Exported "csv" [sample_listing] (Some (mkError "disk full"));
     Fetched "https://batdongsan.com.vn/cho-thue-phong-tro/p2" (Ok [sample_listing]);
     Exported "json" [sample_listing] None;
     Exported "csv" [sample_listing] (Some (mkError "disk full"))] /\
  export_calls run.2 = ["json"; "csv"; "json"; "csv"] /\
  (job_status <$> scrapingJobs run.1.2 !! "0") = Some completed /\
  (itemsFound <$> scrapingJobs run.1.2 !! "0") = Some 2 /\
  (job_errors <$> scrapingJobs run.1.2 !! "0") = Some None /\
  List.filter (fun row => match log_level row with error => true | _ => false end)
    (scrapingLogs run.1.2)
  = [export_failure_row "0" "csv" (mkError "disk full");
     export_failure_row "0" "csv" (mkError "disk full")] /\
  cleanup_calls run.2 = [None].
Proof. vm_compute. repeat split. Qed.


(** ** The BSD scraper *)

Section BSDScraperFacts.
Context {P Browser Page : Type}.
Variable pptr : BSDScraper.Puppeteer P Browser Page.
Implicit Types (s : BSDScraper.t P Browser).

(** The retried page load fails whenever the navigation does. *)
Lemma page_load_always_fails page listUrl ms :
  always_fails (BSDScraper.page_goto pptr page listUrl) ->
  always_fails
    (BSDScraper.lift (Browser := Browser) (BSDScraper.page_goto pptr page listUrl);;
     BSDScraper.lift (BSDScraper.page_waitForSelector pptr page "body");;
     ScraperUtils.sleep ms).
Proof.
  intros Hfail s. destruct (Hfail (BSDScraper.remote s)) as (e & p' & evs & Hgo).
  exists e, (BSDScraper.mk (BSDScraper.browser s) p'), evs.
  unfold bind at 1, BSDScraper.lift at 1, zoom. rewrite Hgo. reflexivity.
Qed.

(** [cleanup] lets an error of [browser.close()] through, and the browser
    field is not cleared. *)
Lemma cleanup_lets_close_error_through s b e p' evs :
  BSDScraper.browser s = Some b ->
  BSDScraper.browser_close pptr b (BSDScraper.remote s) = (Throw e, p', evs) ->
  BSDScraper.cleanup pptr s = (Throw e, BSDScraper.mk (Some b) p', evs).
Proof.
  intros Hb Hclose. unfold BSDScraper.cleanup, bind, BSDScraper.get_browser.
  rewrite Hb. unfold BSDScraper.lift, zoom. rewrite Hclose, Hb. reflexivity.
Qed.

End BSDScraperFacts.

(** On a site where every navigation times out, total-page discovery makes
    its three attempts, with the 1000 ms and 2000 ms backoff between them,
    logs the failure and answers 1. *)
Example getTotalPages_on_unreachable_site :
  let run := BSDScraper.getTotalPages unreachable_site listing_url (BSDScraper.mk (Some tt) 0%nat) in
  run.1.1 = Ok 1 /\
  BSDScraper.remote run.1.2 = 3%nat /\
  calls_and_sleeps run.2 = [EvSleep 1000; EvSleep 2000].
Proof. vm_compute. repeat split. Qed.

(** So a job on such a site does not fail: discovery answers 1, page 1 is
    attempted, and the job is stored as [completed]. *)
Example job_on_unreachable_site_completes :
  let run := ScrapingJobService.processScrapingJob (H := navigation_world) "0"
               (json_only_request 1 5) (bsd_process unreachable_site [bsd_json_stub]) in
  run.1.1 = Ok tt /\
  (job_status <$> scrapingJobs run.1.2 !! "0") = Some completed /\
  page_visits run.2 = [1].
Proof. vm_compute. repeat split. Qed.

(** A job whose browser fails to close: the error of [browser.close()]
    comes out of [processScrapingJob] after the job was stored as
    [completed]. *)
Example job_with_crashed_browser :
  let run := ScrapingJobService.processScrapingJob (H := navigation_world) "0"
               (json_only_request 1 5) (bsd_process (crashed_browser 2) [bsd_json_stub]) in
  run.1.1 = Throw (mkError "Protocol error: target closed") /\
  (job_status <$> scrapingJobs run.1.2 !! "0") = Some completed /\
  cleanup_calls run.2 = [Some (mkError "Protocol error: target closed")].
Proof. vm_compute. repeat split. Qed.

(** The page loop of [scrapeAllPropertiesFromFirstPage] has the same header
    and the same guard on its delay as the loop of the job service: with
    five pages, start 2 and limit 2 it fetches pages 2 and 3 and sleeps
    after both. *)
Example scrapeAllPropertiesFromFirstPage_five_pages_from_two_limit_two :
  let run := BSDScraper.scrapeAllPropertiesFromFirstPage (healthy_site 5) one_listing_per_page
               listing_url 2 2 (BSDScraper.mk (Some tt) 0%nat) in
  failure_of run.1.1 = None /\
  calls_and_sleeps run.2
  = [EvSleep 2000;
     EvCall (CScrapePropertyList "https://batdongsan.com.vn/cho-thue-phong-tro/p2") None;
     EvSleep 3000;
     EvCall (CScrapePropertyList "https://batdongsan.com.vn/cho-thue-phong-tro/p3") None;
     EvSleep 3000].
Proof. vm_compute. repeat split. Qed.

(** ** Retry executor: the general case *)

Section RetryGeneral.
Context {S T : Type}.
Implicit Types (operation : M S T) (s : S).

(** The loop entered at [attempt] after failures that leave room for one
    more attempt: it runs them, sleeps after each, and goes on with the
    attempt that follows. *)
Lemma withRetry_from_failing_run operation maxRetries name :
  forall n fuel attempt lastError s s' evss,
    failing_run operation n s s' evss ->
    attempt + Z.of_nat n <= maxRetries ->
    (0 < n)%nat ->
    exists lastError',
      ScraperUtils.withRetry_from (n + fuel) operation maxRetries name attempt lastError s
      = let '(r, s2, ev2) :=
          ScraperUtils.withRetry_from fuel operation maxRetries name
            (attempt + Z.of_nat n) lastError' s' in
        (r, s2, retry_trace attempt evss ++ ev2).
Proof.
  induction n as [|n IH]; intros fuel attempt lastError s s' evss Hrun Hroom Hpos; [lia|].
  inversion Hrun as [|? ? e s1 ev1 ? evss' Hop Hrest]; subst.
  change (Datatypes.S n + fuel)%nat with (Datatypes.S (n + fuel)).
  assert (Hlt : attempt < maxRetries) by lia.
  rewrite (withRetry_from_retry operation maxRetries name _ attempt lastError s e s1 ev1 Hlt Hop).
  destruct n as [|n].
  - inversion Hrest; subst. exists (Some e). simpl.
    replace (attempt + 1) with (attempt + Z.of_nat 1) by lia.
    destruct (ScraperUtils.withRetry_from fuel operation maxRetries name
                (attempt + Z.of_nat 1) (Some e) s') as [[r s2] ev2].
    rewrite <- app_assoc. reflexivity.
  - assert (Hroom' : attempt + 1 + Z.of_nat (Datatypes.S n) <= maxRetries) by lia.
    destruct (IH fuel (attempt + 1) (Some e) s1 s' evss' Hrest Hroom' (Nat.lt_0_succ n))
      as [lastError' Heq].
    exists lastError'. rewrite Heq.
    replace (attempt + 1 + Z.of_nat (Datatypes.S n))
      with (attempt + Z.of_nat (Datatypes.S (Datatypes.S n))) by lia.
    destruct (ScraperUtils.withRetry_from fuel operation maxRetries name
                (attempt + Z.of_nat (Datatypes.S (Datatypes.S n))) lastError' s')
      as [[r s2] ev2].
    simpl. rewrite <- app_assoc. reflexivity.
Qed.

(** X1.  [withRetry] returns the value of the first attempt that succeeds.
    When the first [n] attempts throw and attempt [n + 1], still within
    [maxRetries], returns [v], the call returns [v] in the state that
    attempt left; the events are those of the attempts, with the backoff of
    attempt [k] slept after the [k]-th failure and nothing slept after the
    success. *)
Theorem withRetry_returns_first_success operation maxRetries name n s sn evss v s' ev :
  failing_run operation n s sn evss ->
  operation sn = (Ok v, s', ev) ->
  Z.of_nat n < maxRetries ->
  ScraperUtils.withRetry operation maxRetries name s
  = (Ok v, s', retry_trace 1 evss ++ ev).
Proof.
  intros Hrun Hok Hlt. unfold ScraperUtils.withRetry.
  replace (Z.to_nat maxRetries)
    with (n + Datatypes.S (Z.to_nat maxRetries - n - 1))%nat by lia.
  destruct n as [|n].
  - inversion Hrun; subst. simpl plus.
    assert (Hle : 1 <= maxRetries) by lia.
    rewrite (withRetry_from_success operation maxRetries name _ 1 None sn v s' ev Hle Hok).
    reflexivity.
  - assert (Hroom : 1 + Z.of_nat (Datatypes.S n) <= maxRetries) by lia.
    destruct (withRetry_from_failing_run operation maxRetries name (Datatypes.S n)
                (Datatypes.S (Z.to_nat maxRetries - Datatypes.S n - 1)) 1 None s sn evss
                Hrun Hroom (Nat.lt_0_succ n)) as [lastError' Heq].
    rewrite Heq.
    rewrite (withRetry_from_success operation maxRetries name _ _ lastError' sn v s' ev
               Hroom Hok).
    reflexivity.
Qed.

(** X2.  [withRetry] gives up after [maxRetries] attempts.  When the first
    [maxRetries - 1] attempts throw and attempt [maxRetries] throws [e], the
    call throws: [e] itself, the value of the last attempt, when [e] is
    truthy, as every [Error] object is, and a new error that names the
    operation and the number of attempts when [e] is falsy.  The backoff is
    slept after every failure but the last one. *)
Theorem withRetry_gives_up_with_last_error operation maxRetries name n s sn evss e s' ev :
  failing_run operation n s sn evss ->
  operation sn = (Throw e, s', ev) ->
  Z.of_nat n + 1 = maxRetries ->
  ScraperUtils.withRetry operation maxRetries name s
  = (Throw (if truthy e then e
            else mkError (name +:+ " failed after " +:+ pretty maxRetries +:+ " attempts")),
     s', retry_trace 1 evss ++ ev).
Proof.
  intros Hrun Hlast Hmax.
  change (if truthy e then e
          else mkError (name +:+ " failed after " +:+ pretty maxRetries +:+ " attempts"))
    with (ScraperUtils.lastError_or_new (Some e) name maxRetries).
  unfold ScraperUtils.withRetry.
  replace (Z.to_nat maxRetries) with (n + 1)%nat by lia.
  destruct n as [|n].
  - inversion Hrun as [s0 Hs0 Hs Hevss|]. subst s0 sn evss. simpl plus.
    simpl in Hmax. subst maxRetries.
    rewrite (withRetry_from_last operation 1 name _ None s e s' ev Hlast).
    reflexivity.
  - assert (Hroom : 1 + Z.of_nat (Datatypes.S n) <= maxRetries) by lia.
    destruct (withRetry_from_failing_run operation maxRetries name (Datatypes.S n)
                1%nat 1 None s sn evss Hrun Hroom (Nat.lt_0_succ n)) as [lastError' Heq].
    rewrite Heq.
    replace (1 + Z.of_nat (Datatypes.S n)) with maxRetries by lia.
    rewrite (withRetry_from_last operation maxRetries name _ lastError' sn e s' ev Hlast).
    reflexivity.
Qed.

(** X3.  Without attempts to make ([maxRetries <= 0]) the operation is never
    invoked: the call throws the error that names the operation, a state
    and an event list that no invocation touched. *)
Theorem withRetry_without_attempts operation maxRetries name s :
  maxRetries <= 0 ->
  ScraperUtils.withRetry operation maxRetries name s
  = (Throw (mkError (name +:+ " failed after " +:+ pretty maxRetries +:+ " attempts")), s, []).
Proof.
  intros Hle. unfold ScraperUtils.withRetry.
  replace (Z.to_nat maxRetries) with 0%nat by lia. simpl.
  replace (1 <=? maxRetries) with false by (symmetry; apply Z.leb_gt; lia).
  reflexivity.
Qed.

End RetryGeneral.

Lemma withRetry_returns_first_success_witness :
  failing_run flaky_twice 2 0%nat 2%nat [[]; []] /\
  flaky_twice 2%nat = (Ok "loaded", 3%nat, []) /\
  Z.of_nat 2 < 3 /\
  ScraperUtils.withRetry flaky_twice 3 "page loading" 0%nat
  = (Ok "loaded", 3%nat, retry_trace 1 [[]; []] ++ []).
Proof.
  assert (Hrun : failing_run flaky_twice 2 0%nat 2%nat [[]; []]).
  { eapply failing_run_cons; [reflexivity|].
    eapply failing_run_cons; [reflexivity|]. apply failing_run_nil. }
  split; [exact Hrun|]. split; [reflexivity|]. split; [lia|].
  apply (withRetry_returns_first_success flaky_twice 3 "page loading" 2 0%nat 2%nat
           [[]; []] "loaded" 3%nat [] Hrun); [reflexivity|lia].
Defined.

Lemma withRetry_gives_up_with_last_error_witness :
  failing_run flaky_forever 4 0%nat 4%nat [[]; []; []; []] /\
  flaky_forever 4%nat = (Throw (mkError "attempt 5"), 5%nat, []) /\
  Z.of_nat 4 + 1 = 5 /\
  ScraperUtils.withRetry flaky_forever 5 "page loading" 0%nat
  = (Throw (mkError "attempt 5"), 5%nat, retry_trace 1 [[]; []; []; []] ++ []).
Proof.
  assert (Hrun : failing_run flaky_forever 4 0%nat 4%nat [[]; []; []; []]).
  { do 4 (eapply failing_run_cons; [reflexivity|]). apply failing_run_nil. }
  split; [exact Hrun|]. split; [reflexivity|]. split; [reflexivity|].
  apply (withRetry_gives_up_with_last_error flaky_forever 5 "page loading" 4 0%nat 4%nat
           [[]; []; []; []] (mkError "attempt 5") 5%nat [] Hrun); reflexivity.
Defined.

(** Five failing attempts: the sleeps are 1 s, 2 s, 4 s and 8 s. *)
Example withRetry_five_failing_attempts :
  sleeps (ScraperUtils.withRetry flaky_forever 5 "page loading" 0%nat).2
  = [1000; 2000; 4000; 8000].
Proof. reflexivity. Qed.

Lemma withRetry_without_attempts_witness :
  0 <= 0 /\
  ScraperUtils.withRetry flaky_forever 0 "page loading" 7%nat
  = (Throw (mkError "page loading failed after 0 attempts"), 7%nat, []).
Proof.
  split; [lia|].
  apply (withRetry_without_attempts flaky_forever 0 "page loading" 7%nat). lia.
Defined.

(** X4.  The delay slept after a failed attempt doubles from 1 s (1 s, 2 s, 4 s,
    8 s after attempts 1 to 4) and is 10 s from the fifth attempt on; it
    never decreases from one attempt to the next. *)
Theorem backoff_doubles_up_to_ten_seconds attempt :
  1 <= attempt ->
  (attempt <= 4 -> ScraperUtils.backoff attempt = 1000 * 2 ^ (attempt - 1)) /\
  (5 <= attempt -> ScraperUtils.backoff attempt = 10000) /\
  1000 <= ScraperUtils.backoff attempt <= 10000 /\
  ScraperUtils.backoff attempt <= ScraperUtils.backoff (attempt + 1).
Proof.
  intros H1.
  assert (Hsmall : forall a, 1 <= a <= 4 -> ScraperUtils.backoff a = 1000 * 2 ^ (a - 1)
                                            /\ 1000 <= ScraperUtils.backoff a <= 8000).
  { intros a Ha.
    assert (Hcases : a = 1 \/ a = 2 \/ a = 3 \/ a = 4) by lia.
    destruct Hcases as [-> | [-> | [-> | ->]]]; vm_compute; repeat split; congruence. }
  assert (Hlarge : forall a, 5 <= a -> ScraperUtils.backoff a = 10000).
  { intros a Ha. unfold ScraperUtils.backoff.
    assert (Hpow : 2 ^ 4 <= 2 ^ (a - 1)) by (apply Z.pow_le_mono_r; lia).
    change (2 ^ 4) with 16 in Hpow. lia. }
  destruct (Z_le_gt_dec attempt 4) as [Hle|Hgt].
  - destruct (Hsmall attempt (conj H1 Hle)) as [Heq Hrange].
    split; [intros _; exact Heq|]. split; [lia|]. split; [lia|].
    destruct (Z_le_gt_dec (attempt + 1) 4) as [Hle'|Hgt'].
    + destruct (Hsmall (attempt + 1) ltac:(lia)) as [Heq' _].
      rewrite Heq, Heq'. replace (attempt + 1 - 1) with (Z.succ (attempt - 1)) by lia.
      rewrite Z.pow_succ_r by lia.
      assert (0 < 2 ^ (attempt - 1)) by (apply Z.pow_pos_nonneg; lia). lia.
    + rewrite (Hlarge (attempt + 1)) by lia. lia.
  - rewrite (Hlarge attempt) by lia. rewrite (Hlarge (attempt + 1)) by lia.
    split; [lia|]. split; [reflexivity|]. lia.
Qed.

Lemma backoff_doubles_up_to_ten_seconds_witness :
  1 <= 3 /\
  (3 <= 4 -> ScraperUtils.backoff 3 = 1000 * 2 ^ (3 - 1)) /\
  (5 <= 3 -> ScraperUtils.backoff 3 = 10000) /\
  1000 <= ScraperUtils.backoff 3 <= 10000 /\
  ScraperUtils.backoff 3 <= ScraperUtils.backoff (3 + 1).
Proof.
  split; [lia|]. apply (backoff_doubles_up_to_ten_seconds 3). lia.
Defined.

(** ** Numbers read from text *)

Section TextScans.
Import ScraperUtils.
Implicit Types (p : ascii -> bool) (text pre run post : string).

Lemma drop_while_all p pre rest :
  all_chars p pre = true -> drop_while p (pre +:+ rest) = drop_while p rest.
Proof.
  induction pre as [|c pre IH]; simpl; [reflexivity|].
  intros [Hc Hpre]%andb_true_iff. rewrite Hc. apply IH. exact Hpre.
Qed.

Lemma take_while_all p run post :
  all_chars p run = true -> not_starting_with p post = true ->
  take_while p (run +:+ post) = run.
Proof.
  intros Hrun Hpost. induction run as [|c run IH]; simpl in *.
  - destruct post as [|c post]; [reflexivity|]. simpl in *.
    apply negb_true_iff in Hpost. rewrite Hpost. reflexivity.
  - apply andb_true_iff in Hrun. destruct Hrun as [Hc Hrun]. rewrite Hc, (IH Hrun). reflexivity.
Qed.

Lemma drop_while_stops p text :
  not_starting_with p text = true -> drop_while p text = text.
Proof.
  destruct text as [|c text]; simpl; [reflexivity|].
  intros Hc%negb_true_iff. rewrite Hc. reflexivity.
Qed.

(** What [match] finds in a text whose first run of digits and commas is
    [run]. *)
Lemma match_digits_commas_run pre run post :
  all_chars (fun c => negb (is_digit_or_comma c)) pre = true ->
  run <> EmptyString ->
  all_chars is_digit_or_comma run = true ->
  not_starting_with is_digit_or_comma post = true ->
  match_digits_commas (pre +:+ run +:+ post) = Some run.
Proof.
  intros Hpre Hne Hrun Hpost. unfold match_digits_commas.
  rewrite (drop_while_all _ _ _ Hpre).
  destruct run as [|c run]; [congruence|].
  simpl in Hrun. apply andb_true_iff in Hrun. destruct Hrun as [Hc Hrun].
  change (String c run +:+ post) with (String c (run +:+ post)).
  cbn [drop_while]. rewrite Hc. cbn [negb].
  cbn [take_while]. rewrite Hc. f_equal. f_equal.
  apply take_while_all; assumption.
Qed.

Lemma remove_commas_leaves_digits run :
  all_chars is_digit_or_comma run = true -> all_chars is_digit (remove_commas run) = true.
Proof.
  induction run as [|c run IH]; [reflexivity|].
  cbn [all_chars remove_commas]. intros [Hc Hrun]%andb_true_iff.
  destruct (Ascii.eqb c ","%char) eqn:Hcomma; [exact (IH Hrun)|].
  cbn [all_chars]. unfold is_digit_or_comma in Hc. rewrite Hcomma, orb_false_r in Hc.
  rewrite Hc. exact (IH Hrun).
Qed.

Lemma digits_value_nonneg digits :
  forall acc, 0 <= acc -> 0 <= digits_value acc digits.
Proof.
  induction digits as [|c digits IH]; intros acc Hacc; cbn [digits_value]; [exact Hacc|].
  destruct (is_digit c) eqn:Hc; [|exact Hacc].
  apply IH. unfold is_digit in Hc. apply andb_true_iff in Hc. destruct Hc as [Hlo _].
  apply Z.leb_le in Hlo. lia.
Qed.

(** An integer below [2^53] is its own Number. *)
Lemma Number_of_integer_exact z :
  0 <= z < 2 ^ 53 -> Number_of_integer z = Num z.
Proof.
  intros [Hlo Hhi]. unfold Number_of_integer.
  assert (Hlog : Z.log2 z < 53).
  { destruct (Z.eq_dec z 0) as [->|Hz]; [reflexivity|].
    apply Z.log2_lt_pow2; lia. }
  replace (Z.log2 z + 1 - 53 <=? 0) with true by (symmetry; apply Z.leb_le; lia).
  reflexivity.
Qed.

(** X5.  [extractNumber] reads the first run of digits and commas of the text
    and drops the commas, whatever follows: in a text [pre ++ run ++ post]
    where [pre] holds no digit and no comma, [run] is a non-empty run of
    digits and commas and [post] does not go on with one, the result is
    what [parseInt] makes of the digits of [run]: [NaN] when [run] holds
    commas only, and otherwise the Number for the integer that the digits
    spell, which is that integer when it is below [2^53] and the nearest
    Number beyond. *)
Theorem extractNumber_reads_the_first_run pre run post :
  all_chars (fun c => negb (is_digit_or_comma c)) pre = true ->
  run <> EmptyString ->
  all_chars is_digit_or_comma run = true ->
  not_starting_with is_digit_or_comma post = true ->
  let digits := remove_commas run in
  let number := extractNumber (pre +:+ run +:+ post) in
  number = parseInt10 digits /\
  (digits = EmptyString -> number = NaN) /\
  (digits <> EmptyString ->
   number = Number_of_integer (digits_value 0 digits) /\
   (digits_value 0 digits < 2 ^ 53 -> number = Num (digits_value 0 digits))).
Proof.
  intros Hpre Hne Hrun Hpost digits number.
  assert (Hnumber : number = parseInt10 digits).
  { subst number digits. unfold extractNumber.
    rewrite (match_digits_commas_run pre run post Hpre Hne Hrun Hpost). reflexivity. }
  split; [exact Hnumber|]. split.
  - intros Hempty. rewrite Hnumber, Hempty. reflexivity.
  - intros Hdigits.
    assert (Hread : number = Number_of_integer (digits_value 0 digits)).
    { rewrite Hnumber. pose proof (remove_commas_leaves_digits run Hrun) as Hall.
      fold digits in Hall. destruct digits as [|c rest]; [congruence|].
      cbn [all_chars] in Hall. apply andb_true_iff in Hall. destruct Hall as [Hc _].
      unfold parseInt10. rewrite Hc. reflexivity. }
    split; [exact Hread|].
    intros Hsmall. rewrite Hread. apply Number_of_integer_exact.
    split; [apply digits_value_nonneg; lia|exact Hsmall].
Qed.

Lemma extractNumber_no_digits text :
  all_chars (fun c => negb (is_digit c)) text = true ->
  extractNumber text
  = if all_chars (fun c => negb (Ascii.eqb c ","%char)) text then Num 0 else NaN.
Proof.
  intros Hnd. unfold extractNumber, match_digits_commas.
  induction text as [|c text IH]; [reflexivity|].
  simpl in Hnd. apply andb_true_iff in Hnd. destruct Hnd as [Hc Hnd].
  apply negb_true_iff in Hc.
  cbn [drop_while all_chars]. unfold is_digit_or_comma at 1. rewrite Hc. cbn [orb].
  destruct (Ascii.eqb c ","%char) eqn:Hcomma; cbn [negb andb].
  - cbn [take_while]. unfold is_digit_or_comma at 1. rewrite Hc, Hcomma. cbn [orb].
    cbn [remove_commas]. rewrite Hcomma.
    assert (Hrest : remove_commas (take_while is_digit_or_comma text) = EmptyString).
    { clear IH. induction text as [|d text IH]; [reflexivity|].
      simpl in Hnd. apply andb_true_iff in Hnd. destruct Hnd as [Hd Hnd].
      apply negb_true_iff in Hd. cbn [take_while]. unfold is_digit_or_comma at 1.
      rewrite Hd. cbn [orb]. destruct (Ascii.eqb d ","%char) eqn:Hdc; [|reflexivity].
      cbn [remove_commas]. rewrite Hdc. apply IH. exact Hnd. }
    rewrite Hrest. reflexivity.
  - apply IH. exact Hnd.
Qed.

(** X6.  The two results of [extractNumber] on a text without digits: 0 when
    the text has no comma either (the pattern does not match), and [NaN],
    not 0, when it has one (the pattern matches a run of commas, which
    [parseInt] cannot read). *)
Theorem extractNumber_without_digits text :
  all_chars (fun c => negb (is_digit c)) text = true ->
  extractNumber text
  = if all_chars (fun c => negb (Ascii.eqb c ","%char)) text then Num 0 else NaN.
Proof. apply extractNumber_no_digits. Qed.

End TextScans.

Lemma extractNumber_reads_the_first_run_witness :
  all_chars (fun c => negb (ScraperUtils.is_digit_or_comma c)) "Gia: " = true /\
  "1,250,000" <> EmptyString /\
  all_chars ScraperUtils.is_digit_or_comma "1,250,000" = true /\
  not_starting_with ScraperUtils.is_digit_or_comma " dong, 2 phong" = true /\
  ScraperUtils.extractNumber ("Gia: " +:+ "1,250,000" +:+ " dong, 2 phong")
  = ScraperUtils.Num 1250000.
Proof.
  split; [reflexivity|]. split; [discriminate|]. split; [reflexivity|]. split; [reflexivity|].
  destruct (extractNumber_reads_the_first_run "Gia: " "1,250,000" " dong, 2 phong")
    as (_ & _ & Hdigits); [reflexivity|discriminate|reflexivity|reflexivity|].
  destruct Hdigits as [_ Hsmall]; [discriminate|].
  apply Hsmall. reflexivity.
Defined.

Lemma extractNumber_without_digits_witness :
  all_chars (fun c => negb (ScraperUtils.is_digit c)) "Lien he, thuong luong" = true /\
  ScraperUtils.extractNumber "Lien he, thuong luong"
  = if all_chars (fun c => negb (Ascii.eqb c ","%char)) "Lien he, thuong luong"
    then ScraperUtils.Num 0 else ScraperUtils.NaN.
Proof.
  split; [reflexivity|].
  apply (extractNumber_without_digits "Lien he, thuong luong"). reflexivity.
Defined.

Example extractNumber_examples :
  ScraperUtils.extractNumber "Gia: 1,250,000 dong, 2 phong" = ScraperUtils.Num 1250000 /\
  ScraperUtils.extractNumber "3 phong ngu" = ScraperUtils.Num 3 /\
  ScraperUtils.extractNumber "Lien he" = ScraperUtils.Num 0 /\
  ScraperUtils.extractNumber "Lien he, thuong luong" = ScraperUtils.NaN /\
  ScraperUtils.extractNumber "ma so 9007199254740993" = ScraperUtils.Num 9007199254740992 /\
  ScraperUtils.extractNumber "ma so 9007199254740995" = ScraperUtils.Num 9007199254740996 /\
  ScraperUtils.extractNumber "18,014,398,509,481,987" = ScraperUtils.Num 18014398509481988 /\
  ScraperUtils.extractNumber ("1" +:+ String.concat EmptyString (replicate 309 "0"))
  = ScraperUtils.Infinity.
Proof. vm_compute. repeat split. Qed.

(** ** CSV lines *)

Section CsvFacts.
Import CsvExporter.
Implicit Types (value field acc tail line : string) (row : list string).

Lemma string_app_cons c a b : String c a +:+ b = String c (a +:+ b).
Proof. reflexivity. Qed.

Lemma string_app_nil_l a : EmptyString +:+ a = a.
Proof. reflexivity. Qed.

Lemma string_app_nil_r a : a +:+ EmptyString = a.
Proof. induction a as [|c a IH]; [reflexivity|]. rewrite string_app_cons, IH. reflexivity. Qed.

Lemma string_app_assoc a b c : (a +:+ b) +:+ c = a +:+ (b +:+ c).
Proof.
  induction a as [|x a IH]; [reflexivity|]. rewrite !string_app_cons, IH. reflexivity.
Qed.

Lemma rev_string_acc field acc :
  CsvReader.rev_string acc field = CsvReader.rev_string EmptyString field +:+ acc.
Proof.
  revert acc. induction field as [|c field IH]; intros acc; [reflexivity|].
  cbn [CsvReader.rev_string]. rewrite (IH (String c acc)), (IH (String c EmptyString)).
  rewrite string_app_assoc. reflexivity.
Qed.

(** Reading back what was accumulated. *)
Lemma rev_string_rev_string acc value :
  CsvReader.rev_string EmptyString (CsvReader.rev_string acc value)
  = CsvReader.rev_string EmptyString acc +:+ value.
Proof.
  revert acc. induction value as [|c value IH]; intros acc.
  - cbn [CsvReader.rev_string]. rewrite string_app_nil_r. reflexivity.
  - cbn [CsvReader.rev_string]. rewrite IH. cbn [CsvReader.rev_string].
    rewrite (rev_string_acc acc (String c EmptyString)), string_app_assoc. reflexivity.
Qed.

(** The reader on a value written without quotes. *)
Lemma read_unquoted value acc tail :
  needs_quoting value = false ->
  CsvReader.read (CsvReader.Unquoted acc) (value +:+ tail)
  = CsvReader.read (CsvReader.Unquoted (CsvReader.rev_string acc value)) tail.
Proof.
  revert acc. induction value as [|c value IH]; intros acc Hplain; [reflexivity|].
  cbn [needs_quoting] in Hplain.
  apply orb_false_iff in Hplain. destruct Hplain as [Hc Hplain].
  apply orb_false_iff in Hc. destruct Hc as [Hc _].
  apply orb_false_iff in Hc. destruct Hc as [Hc _].
  rewrite string_app_cons. cbn [CsvReader.read CsvReader.rev_string]. rewrite Hc.
  apply IH. exact Hplain.
Qed.

(** The reader inside a quoted value. *)
Lemma read_quoted value acc tail :
  CsvReader.read (CsvReader.Quoted acc) (double_quotes value +:+ tail)
  = CsvReader.read (CsvReader.Quoted (CsvReader.rev_string acc value)) tail.
Proof.
  revert acc. induction value as [|c value IH]; intros acc; [reflexivity|].
  cbn [double_quotes CsvReader.rev_string].
  destruct (Ascii.eqb c quote) eqn:Hq.
  - rewrite !string_app_cons. cbn [CsvReader.read]. rewrite !Ascii.eqb_refl.
    apply Ascii.eqb_eq in Hq. subst c. apply IH.
  - rewrite string_app_cons. cbn [CsvReader.read]. rewrite Hq. apply IH.
Qed.

Lemma read_field_end_unquoted acc tail rest :
  CsvReader.field_end tail rest ->
  CsvReader.read (CsvReader.Unquoted acc) tail = CsvReader.rev_string EmptyString acc :: rest.
Proof.
  intros [[-> ->]|(line & -> & ->)]; [reflexivity|].
  cbn [CsvReader.read]. rewrite Ascii.eqb_refl. reflexivity.
Qed.

Lemma read_field_end_quote_seen acc tail rest :
  CsvReader.field_end tail rest ->
  CsvReader.read (CsvReader.QuoteSeen acc) tail = CsvReader.rev_string EmptyString acc :: rest.
Proof.
  intros [[-> ->]|(line & -> & ->)]; [reflexivity|].
  cbn [CsvReader.read]. change (Ascii.eqb comma quote) with false. cbv iota.
  rewrite Ascii.eqb_refl. reflexivity.
Qed.

(** The reader gets a value back from its escaped form. *)
Lemma read_escapeCsvValue value tail rest :
  CsvReader.field_end tail rest ->
  CsvReader.read CsvReader.FieldStart (escapeCsvValue value +:+ tail) = value :: rest.
Proof.
  intros Hend. destruct value as [|c value].
  - cbn [escapeCsvValue]. rewrite string_app_nil_l.
    destruct Hend as [[-> ->]|(line & -> & ->)]; [reflexivity|].
    cbn [CsvReader.read]. rewrite Ascii.eqb_refl. reflexivity.
  - cbn [escapeCsvValue]. destruct (needs_quoting (String c value)) eqn:Hq.
    + rewrite string_app_cons. cbn [CsvReader.read].
      change (Ascii.eqb quote comma) with false. cbv iota. rewrite Ascii.eqb_refl.
      rewrite string_app_assoc, read_quoted.
      rewrite string_app_cons, string_app_nil_l. cbn [CsvReader.read].
      rewrite Ascii.eqb_refl.
      rewrite (read_field_end_quote_seen _ tail rest Hend), rev_string_rev_string.
      reflexivity.
    + pose proof Hq as Hplain. cbn [needs_quoting] in Hq.
      apply orb_false_iff in Hq. destruct Hq as [Hc Hrest].
      apply orb_false_iff in Hc. destruct Hc as [Hc _].
      apply orb_false_iff in Hc. destruct Hc as [Hcomma Hquote].
      rewrite string_app_cons. cbn [CsvReader.read]. rewrite Hcomma, Hquote.
      rewrite (read_unquoted value _ tail Hrest).
      rewrite (read_field_end_unquoted _ tail rest Hend), rev_string_rev_string.
      reflexivity.
Qed.

(** The reference reader gets every row back from its line. *)
Lemma readLine_csvLine row :
  row <> [] -> CsvReader.readLine (csvLine row) = row.
Proof.
  unfold CsvReader.readLine, csvLine.
  induction row as [|value row IH]; intros Hne; [congruence|].
  destruct row as [|value' row].
  - cbn [map String.concat].
    rewrite <- (string_app_nil_r (escapeCsvValue value)).
    apply read_escapeCsvValue. left. split; reflexivity.
  - change (String.concat (String comma EmptyString) (map escapeCsvValue (value :: value' :: row)))
      with (escapeCsvValue value
            +:+ String comma (String.concat (String comma EmptyString)
                                (map escapeCsvValue (value' :: row)))).
    rewrite (read_escapeCsvValue value _ (value' :: row)); [reflexivity|].
    right. eexists. split; [reflexivity|]. symmetry. apply IH. discriminate.
Qed.

(** X7.  A CSV line determines the row it was written from: two rows (of at
    least one value each) that [escapeCsvValue] and the comma join turn into
    the same line hold the same values, whatever commas, quotes and line
    breaks the values contain. *)
Theorem csvLine_determines_the_row row1 row2 :
  row1 <> [] -> row2 <> [] ->
  csvLine row1 = csvLine row2 -> row1 = row2.
Proof.
  intros H1 H2 Heq.
  rewrite <- (readLine_csvLine row1 H1), <- (readLine_csvLine row2 H2), Heq. reflexivity.
Qed.

End CsvFacts.

Lemma csvLine_determines_the_row_witness :
  ["Phong tro, quan 1"; "3.5"] <> [] /\
  CsvExporter.csvLine ["Phong tro, quan 1"; "3.5"]
  = CsvExporter.csvLine ["Phong tro, quan 1"; "3.5"] /\
  ["Phong tro, quan 1"; "3.5"] = ["Phong tro, quan 1"; "3.5"].
Proof.
  split; [discriminate|]. split; [reflexivity|].
  apply (csvLine_determines_the_row ["Phong tro, quan 1"; "3.5"] ["Phong tro, quan 1"; "3.5"]);
    [discriminate|discriminate|reflexivity].
Defined.

(** A title with a comma and a quoted word: the value is written between
    quotes with the inner quotes doubled, and read back as it was. *)
Example csvLine_with_commas_and_quotes :
  let title := "Phong " +:+ String CsvExporter.quote "VIP"
               +:+ String CsvExporter.quote ", quan 1" in
  String.length (CsvExporter.csvLine [title; "3500000"; EmptyString]) = 32%nat /\
  CsvReader.readLine (CsvExporter.csvLine [title; "3500000"; EmptyString])
  = [title; "3500000"; EmptyString].
Proof. vm_compute. repeat split. Qed.

(** ** The job table *)

Section JobTableFacts.
Context {W : Type} `{World W}.
Implicit Types (s : Sys W) (j : Job).

(** X8.  A job that was created is read back as it was given: source, status
    and config as passed, the counters defaulted to 0, [startedAt] set to
    the time of creation for a job created [running] and [completedAt] for
    one created [completed] or [failed], both empty otherwise; and the jobs
    under other ids read as before. *)
Theorem created_job_is_read_back source status config results s :
  let run := JobManagementService.createScrapingJob source status config results s in
  let now := Date_now (ext s) in
  exists jobId,
    run.1.1 = Ok jobId /\
    (JobManagementService.getScrapingJob jobId run.1.2).1.1
    = Ok (Some {| job_source := source;
                  job_status := status;
                  job_config := config;
                  itemsFound := JobManagementService.or_zero (results ≫= res_itemsFound);
                  itemsProcessed := JobManagementService.or_zero (results ≫= res_itemsProcessed);
                  job_errors := results ≫= res_errors;
                  startedAt := if is_running status then Some now else None;
                  completedAt := if is_terminal status then Some now else None;
                  duration := JobManagementService.num_or_null (results ≫= res_duration) |}) /\
    forall other, other <> jobId ->
      (JobManagementService.getScrapingJob other run.1.2).1.1
      = (JobManagementService.getScrapingJob other s).1.1.
Proof.
  intros run now. exists (pretty (nextJobId s)). subst run now.
  unfold JobManagementService.getScrapingJob, JobManagementService.prisma_scrapingJobs_findUnique,
    try_catch.
  destruct status; simpl; (split; [reflexivity|]);
    (split; [rewrite lookup_insert_eq; reflexivity|]);
    intros other Hne; rewrite lookup_insert_ne by congruence; reflexivity.
Qed.

(** X9.  The timestamps an update writes on a stored job: [startedAt] is set to
    the time of the update when the new status is [running], also on a job
    that had started before, and is kept otherwise; [completedAt] is set
    when the new status is [completed] or [failed] and is kept otherwise,
    so a finished job that is set [running] again keeps its old completion
    time; [duration] is only ever what the caller passes, never computed;
    source and config are not touched. *)
Theorem updateScrapingJob_stamps_the_transition jobId updates s j :
  scrapingJobs s !! jobId = Some j ->
  let s' := (JobManagementService.updateScrapingJob jobId updates s).1.2 in
  let now := Date_now (ext s) in
  exists j',
    scrapingJobs s' !! jobId = Some j' /\
    startedAt j' = match upd_status updates with
                   | Some running => Some now
                   | _ => startedAt j
                   end /\
    completedAt j' = match upd_status updates with
                     | Some completed | Some failed => Some now
                     | _ => completedAt j
                     end /\
    duration j' = match upd_duration updates with
                  | Some d => Some d
                  | None => duration j
                  end /\
    job_source j' = job_source j /\
    job_config j' = job_config j.
Proof.
  intros Hj s' now. subst s' now.
  rewrite (updateScrapingJob_found jobId updates s j Hj). cbn [fst snd].
  eexists. split; [apply lookup_insert_eq|].
  unfold JobManagementService.update_started, JobManagementService.update_finished.
  destruct (upd_status updates) as [[]|]; simpl; repeat split; reflexivity.
Qed.

(** What the clean-up of the job table keeps. *)
Lemma cleanupOldJobs_run daysToKeep s :
  let cutoffDate := Date_now (ext s) - daysToKeep * 24 * 60 * 60 * 1000 in
  let removed := filter (fun kv => Is_true (JobManagementService.is_old cutoffDate kv.2))
                   (scrapingJobs s) in
  let kept := filter (fun kv => ~ Is_true (JobManagementService.is_old cutoffDate kv.2))
                (scrapingJobs s) in
  JobManagementService.cleanupOldJobs daysToKeep s
  = (Ok (Z.of_nat (size removed)), set_scrapingJobs kept s,
     [EvLog info JobManagementService.context
        ("Cleaned up " +:+ pretty (Z.of_nat (size removed)) +:+ " old job records") None]).
Proof. reflexivity. Qed.

(** X10.  [cleanupOldJobs] removes the jobs that are [completed] or [failed] and
    whose completion time is before the cutoff ([daysToKeep] days before
    the time of the call), and nothing else: every other job is read after
    the call as before it.  In particular a [pending] or [running] job is
    kept however old it is, and so is a job without completion time.  The
    number returned is the number of jobs removed. *)
Theorem cleanupOldJobs_removes_old_finished_jobs_only daysToKeep s :
  let run := JobManagementService.cleanupOldJobs daysToKeep s in
  let cutoffDate := Date_now (ext s) - daysToKeep * 24 * 60 * 60 * 1000 in
  exists count,
    run.1.1 = Ok count /\
    (forall jobId j,
       scrapingJobs run.1.2 !! jobId = Some j <->
       scrapingJobs s !! jobId = Some j /\
       ~ (is_terminal (job_status j) = true /\
          exists t, completedAt j = Some t /\ t < cutoffDate)) /\
    Z.of_nat (size (scrapingJobs run.1.2)) + count = Z.of_nat (size (scrapingJobs s)).
Proof.
  intros run cutoffDate. subst run. rewrite cleanupOldJobs_run. cbn [fst snd].
  fold cutoffDate. eexists. split; [reflexivity|]. split.
  - intros jobId j. cbn [scrapingJobs set_scrapingJobs].
    rewrite map_lookup_filter_Some. cbn [snd].
    assert (Hold : Is_true (JobManagementService.is_old cutoffDate j) <->
                   is_terminal (job_status j) = true /\
                   exists t, completedAt j = Some t /\ t < cutoffDate).
    { unfold JobManagementService.is_old. rewrite Is_true_true, andb_true_iff.
      destruct (completedAt j) as [t|].
      - rewrite Z.ltb_lt. split.
        + intros [Ht Hlt]. split; [exact Ht|]. exists t. split; [reflexivity|exact Hlt].
        + intros [Ht (t' & [= <-] & Hlt)]. split; assumption.
      - split; [intros [_ [=]]|intros [_ (t' & [=] & _)]]. }
    rewrite Hold. reflexivity.
  - cbn [scrapingJobs set_scrapingJobs].
    pose proof (map_filter_union_complement
                  (fun kv : string * Job => Is_true (JobManagementService.is_old cutoffDate kv.2))
                  (scrapingJobs s)) as Hunion.
    pose proof (map_disjoint_filter_complement
                  (fun kv : string * Job => Is_true (JobManagementService.is_old cutoffDate kv.2))
                  (scrapingJobs s)) as Hdisj.
    rewrite <- Hunion at 3. rewrite (map_size_disj_union _ _ Hdisj). lia.
Qed.

(** X11.  Cleaning up again right away removes nothing: the second call returns
    0 and leaves the job table as the first call left it. *)
Theorem cleanupOldJobs_again_removes_nothing daysToKeep s :
  let s1 := (JobManagementService.cleanupOldJobs daysToKeep s).1.2 in
  let again := JobManagementService.cleanupOldJobs daysToKeep s1 in
  again.1.1 = Ok 0 /\ scrapingJobs again.1.2 = scrapingJobs s1.
Proof.
  intros s1 again. subst again s1. rewrite !cleanupOldJobs_run. cbn [fst snd ext set_scrapingJobs scrapingJobs].
  set (cutoffDate := Date_now (ext s) - daysToKeep * 24 * 60 * 60 * 1000).
  split.
  - match goal with
    | |- context [size ?m] => assert (Hnone : m = ∅)
    end.
    { apply map_empty. intros jobId. apply map_lookup_filter_None. right.
      intros j Hj Hold. apply map_lookup_filter_Some in Hj. destruct Hj as [_ Hnot].
      exact (Hnot Hold). }
    rewrite Hnone, map_size_empty. reflexivity.
  - apply map_filter_id. intros jobId j Hj.
    apply map_lookup_filter_Some in Hj. destruct Hj as [_ Hnot]. exact Hnot.
Qed.

End JobTableFacts.

Lemma updateScrapingJob_stamps_the_transition_witness :
  scrapingJobs (store_with "0" finished_job 5000) !! "0" = Some finished_job /\
  let s' := (JobManagementService.updateScrapingJob (H := clock_world) "0"
               (ScrapingJobService.status_update running) (store_with "0" finished_job 5000)).1.2 in
  exists j',
    scrapingJobs s' !! "0" = Some j' /\
    startedAt j' = Some 5000 /\
    completedAt j' = completedAt finished_job /\
    duration j' = duration finished_job /\
    job_source j' = job_source finished_job /\
    job_config j' = job_config finished_job.
Proof.
  split; [reflexivity|].
  apply (updateScrapingJob_stamps_the_transition (H := clock_world) "0"
           (ScrapingJobService.status_update running) (store_with "0" finished_job 5000)
           finished_job).
  reflexivity.
Defined.

(** Thirty days after the old jobs finished: the two old finished jobs go,
    the recent one, the running one and the failed one without completion
    time stay. *)
Example cleanupOldJobs_on_aged_store :
  let now := 30 * 24 * 60 * 60 * 1000 + 5000 in
  let run := JobManagementService.cleanupOldJobs (H := clock_world) 30 (aged_store now) in
  run.1.1 = Ok 2 /\
  map (fun jobId => job_status <$> scrapingJobs run.1.2 !! jobId) ["0"; "1"; "2"; "3"; "4"]
  = [None; None; Some completed; Some running; Some failed].
Proof. vm_compute. split; reflexivity. Qed.

(** ** The registries *)

Section RegistryFacts.
Context {W : Type} `{World W}.
Implicit Types (s : Sys W) (scrapingJob : ScrapingJobRequest.t).

(** Exporter types that are all registered resolve to their exporters, in
    the order of the request, and nothing changes. *)
Lemma getExporters_found exporterTypes s :
  (forall x, In x exporterTypes -> exporters s !! x <> None) ->
  exists found,
    ExporterFactory.getExporters exporterTypes s = (Ok found, s, []) /\
    Forall2 (fun x exporter => exporters s !! x = Some exporter) exporterTypes found.
Proof.
  unfold ExporterFactory.getExporters.
  induction exporterTypes as [|x rest IH]; intros Hall; simpl.
  - exists []. split; [reflexivity|constructor].
  - destruct (exporters s !! x) as [exporter|] eqn:Hx;
      [|exfalso; apply (Hall x); [left; reflexivity|exact Hx]].
    destruct IH as (found & Hrun & Hall2); [intros y Hy; apply Hall; right; exact Hy|].
    exists (exporter :: found). split.
    + unfold bind. rewrite getExporter_run, Hx. simpl. rewrite Hrun. reflexivity.
    + constructor; assumption.
Qed.

(** X12.  A scraper template that was registered is what [getScraper] copies for
    its code from then on; the other codes resolve as before; and once the
    registry is cleared no code resolves: [getScraper] throws the error
    that names the code. *)
Theorem registered_scraper_is_resolved websiteCode scraper s :
  let s1 := (ScraperFactory.register websiteCode scraper s).1.2 in
  ScraperFactory.getScraper websiteCode s1 = (Ok (copy scraper), s1, []) /\
  (forall other, other <> websiteCode ->
     (ScraperFactory.getScraper other s1).1.1 = (ScraperFactory.getScraper other s).1.1) /\
  (forall code,
     (ScraperFactory.getScraper code (ScraperFactory.clear s1).1.2).1.1
     = Throw (mkError ("No scraper registered for website code: " +:+ code))).
Proof.
  intros s1. subst s1. unfold ScraperFactory.getScraper, ScraperFactory.register,
    ScraperFactory.clear. cbn [fst snd scrapers set_scrapers].
  split; [rewrite lookup_insert_eq; reflexivity|]. split.
  - intros other Hne. rewrite lookup_insert_ne by congruence.
    destruct (scrapers s !! other); reflexivity.
  - intros code. rewrite lookup_empty. reflexivity.
Qed.

(** X13.  [getExporters] is all or nothing.  When every requested type is
    registered it returns the exporters in the order of the request, one
    per requested type (a type requested twice is returned twice).  When
    one is not, it throws the error that names the first such type, after
    logging it, and returns no exporter at all.  The registry is not
    changed either way. *)
Theorem getExporters_all_or_nothing exporterTypes s :
  match first_unregistered s exporterTypes with
  | None =>
      exists found,
        ExporterFactory.getExporters exporterTypes s = (Ok found, s, []) /\
        Forall2 (fun x exporter => exporters s !! x = Some exporter) exporterTypes found
  | Some x =>
      ExporterFactory.getExporters exporterTypes s
      = (Throw (mkError ("No exporter registered for type: " +:+ x)), s,
         [EvLog error ExporterFactory.context ("No exporter registered for type: " +:+ x) None])
  end.
Proof.
  unfold first_unregistered.
  destruct (List.find _ exporterTypes) as [x|] eqn:Hfind.
  - unfold ExporterFactory.getExporters.
    induction exporterTypes as [|y rest IH]; [discriminate|].
    simpl in Hfind. simpl. unfold bind. rewrite getExporter_run.
    destruct (exporters s !! y) as [exporter|] eqn:Hy.
    + rewrite (IH Hfind). reflexivity.
    + injection Hfind as <-. reflexivity.
  - apply getExporters_found. intros x Hin Hx.
    apply (find_none _ _ Hfind) in Hin. rewrite Hx in Hin. discriminate.
Qed.

(** X14.  After [registerComponents], every supported website code and every
    list of supported exporter types resolve: a job request that names only
    supported components gets the copy of the BSD scraper and one exporter
    per requested type, so it cannot stay unresolved. *)
Theorem supported_components_are_registered
    (bsdScraper : ScraperTemplate W) (databaseExporter jsonExporter csvExporter : IExporter W)
    scrapingJob s :
  In (ScrapingJobRequest.websiteCode scrapingJob) Constants.SUPPORTED_WEBSITES ->
  (forall x, In x (ScrapingJobRequest.exporters scrapingJob) ->
             In x Constants.SUPPORTED_EXPORTERS) ->
  let s' := (registerComponents bsdScraper databaseExporter jsonExporter csvExporter s).1.2 in
  ~ unresolved scrapingJob s' /\
  exists found,
    ScrapingJobService.resolveCollaborators scrapingJob s' = (Ok (found, copy bsdScraper), s', []) /\
    length found = length (ScrapingJobRequest.exporters scrapingJob).
Proof.
  intros Hcode Htypes s'.
  assert (Hscraper : scrapers s' !! ScrapingJobRequest.websiteCode scrapingJob = Some bsdScraper).
  { destruct Hcode as [<-|[]]. subst s'. cbn. apply lookup_insert_eq. }
  assert (Hexporters : forall x, In x (ScrapingJobRequest.exporters scrapingJob) ->
                                 exporters s' !! x <> None).
  { intros x Hx. specialize (Htypes x Hx). subst s'. cbn.
    destruct Htypes as [<-|[<-|[<-|[]]]].
    - rewrite lookup_insert_ne by discriminate. rewrite lookup_insert_ne by discriminate.
      rewrite lookup_insert_eq. discriminate.
    - rewrite lookup_insert_ne by discriminate. rewrite lookup_insert_eq. discriminate.
    - rewrite lookup_insert_eq. discriminate. }
  split.
  - intros [Hs|(x & Hin & Hx)]; [congruence|]. exact (Hexporters x Hin Hx).
  - destruct (getExporters_found _ s' Hexporters) as (found & Hrun & Hall).
    exists found. split; [|symmetry; exact (Forall2_length _ _ _ Hall)].
    unfold ScrapingJobService.resolveCollaborators, bind. rewrite Hrun.
    unfold ScraperFactory.getScraper. rewrite Hscraper. reflexivity.
Qed.

End RegistryFacts.

Lemma supported_components_are_registered_witness :
  In (ScrapingJobRequest.websiteCode (sample_request 1 5)) Constants.SUPPORTED_WEBSITES /\
  (forall x, In x (ScrapingJobRequest.exporters (sample_request 1 5)) ->
             In x Constants.SUPPORTED_EXPORTERS) /\
  let s' := (registerComponents (mkScraperTemplate Z (stub_scraper 5))
               json_stub json_stub failing_csv_stub bare_process).1.2 in
  ~ unresolved (sample_request 1 5) s' /\
  exists found,
    ScrapingJobService.resolveCollaborators (sample_request 1 5) s'
    = (Ok (found, copy (mkScraperTemplate Z (stub_scraper 5))), s', []) /\
    length found = length (ScrapingJobRequest.exporters (sample_request 1 5)).
Proof.
  assert (Hcode : In (ScrapingJobRequest.websiteCode (sample_request 1 5))
                     Constants.SUPPORTED_WEBSITES) by (simpl; tauto).
  assert (Htypes : forall x, In x (ScrapingJobRequest.exporters (sample_request 1 5)) ->
                             In x Constants.SUPPORTED_EXPORTERS).
  { intros x Hx. simpl in *. tauto. }
  split; [exact Hcode|]. split; [exact Htypes|].
  apply (supported_components_are_registered (mkScraperTemplate Z (stub_scraper 5))
           json_stub json_stub failing_csv_stub (sample_request 1 5) bare_process Hcode Htypes).
Defined.

(** ** The database exporter on batches *)

Section DatabaseBatchFacts.
Import ScrapedProperties.
Implicit Types (p : PropertyDto.t) (t : table) (rs : list row).

Lemma update_where_other_keys key update rs r' rs' key' :
  key' <> key ->
  update_where key update rs = Some (r', rs') ->
  List.filter (fun r => String.eqb (sourceUrl r) key') rs'
  = List.filter (fun r => String.eqb (sourceUrl r) key') rs.
Proof.
  intros Hne. revert r' rs'. induction rs as [|r rs IH]; intros r' rs'; simpl; [discriminate|].
  destruct (String.eqb_spec (sourceUrl r) key) as [Heq|Hneq].
  - intros [= <- <-]. simpl.
    destruct (String.eqb_spec (sourceUrl r) key') as [Heq'|_]; [congruence|reflexivity].
  - destruct (update_where key update rs) as [[r1 rs1]|]; [|discriminate].
    intros [= <- <-]. simpl. rewrite (IH r1 rs1 eq_refl). reflexivity.
Qed.

(** An upsert leaves the rows of the other keys alone. *)
Lemma upsert_other_keys key update create t key' :
  fst create = key -> key' <> key ->
  with_sourceUrl key' (upsert key update create t).1.2 = with_sourceUrl key' t.
Proof.
  intros Hkey Hne. unfold upsert, with_sourceUrl.
  destruct (update_where key update (rows t)) as [[r' rs']|] eqn:Hup; cbn [fst snd rows].
  - exact (update_where_other_keys _ _ _ _ _ _ Hne Hup).
  - rewrite List.filter_app. cbn [List.filter sourceUrl]. rewrite Hkey.
    destruct (String.eqb_spec key key') as [Heq|_]; [congruence|]. apply app_nil_r.
Qed.

(** The export of a record that has its required fields is its upsert. *)
Lemma exportProperty_valid_state p t :
  DatabaseExporter.missing_required_fields p = false ->
  (DatabaseExporter.exportProperty p t).1.2
  = (upsert (PropertyDto.sourceUrl p) (DatabaseExporter.update_data p)
       (DatabaseExporter.create_data p) t).1.2.
Proof.
  intros Hvalid. unfold DatabaseExporter.exportProperty. rewrite Hvalid.
  unfold try_catch, bind, upsert.
  destruct (update_where _ _ (rows t)) as [[r' rs']|]; reflexivity.
Qed.

(** The batch loop from any table under the unique index. *)
Lemma exportProperties_from_run properties :
  forall propertyIds t,
    unique_sourceUrl t ->
    exists ids t' evs,
      DatabaseExporter.exportProperties_from properties propertyIds t
      = (Ok (propertyIds ++ ids), t', evs) /\
      length ids
      = length (List.filter (fun p => negb (DatabaseExporter.missing_required_fields p))
                  properties) /\
      unique_sourceUrl t' /\
      (forall key r, with_sourceUrl key t = [r] -> exists r', with_sourceUrl key t' = [r']) /\
      (forall p, In p properties -> DatabaseExporter.missing_required_fields p = false ->
                 exists r, with_sourceUrl (PropertyDto.sourceUrl p) t' = [r]) /\
      (forall key,
         (forall p, In p properties -> DatabaseExporter.missing_required_fields p = false ->
                    PropertyDto.sourceUrl p <> key) ->
         with_sourceUrl key t' = with_sourceUrl key t).
Proof.
  induction properties as [|p rest IH]; intros propertyIds t Hnd.
  - exists [], t, []. rewrite app_nil_r. repeat split; eauto. intros p [].
  - cbn [DatabaseExporter.exportProperties_from List.filter].
    destruct (DatabaseExporter.missing_required_fields p) eqn:Hvalid; cbn [negb].
    + destruct (IH propertyIds t Hnd) as (ids & t' & evs & Hrun & Hlen & Hnd' & Hkeep & Hin & Hout).
      eexists ids, t', _. split; [|split; [exact Hlen|split; [exact Hnd'|split; [exact Hkeep|split]]]].
      * unfold bind at 1, try_catch. unfold bind at 1.
        rewrite (exportProperty_rejects p t Hvalid). cbn. rewrite Hrun. reflexivity.
      * intros q [<-|Hq] Hv; [congruence|]. apply Hin; assumption.
      * intros key Hkey. apply Hout. intros q Hq. apply Hkey. right. exact Hq.
    + destruct (exportProperty_upserts p t Hvalid Hnd) as (r & t1 & Hrun1 & Hone & Hr & Hnd1 & Hcase).
      destruct (IH (propertyIds ++ [id r]) t1 Hnd1)
        as (ids & t' & evs & Hrun & Hlen & Hnd' & Hkeep & Hin & Hout).
      assert (Ht1 : t1 = (upsert (PropertyDto.sourceUrl p) (DatabaseExporter.update_data p)
                            (DatabaseExporter.create_data p) t).1.2).
      { rewrite <- (exportProperty_valid_state p t Hvalid), Hrun1. reflexivity. }
      eexists (id r :: ids), t', _. split; [|split; [|split; [exact Hnd'|split; [|split]]]].
      * unfold bind at 1, try_catch. unfold bind at 1. rewrite Hrun1. cbn.
        rewrite Hrun. rewrite <- app_assoc. reflexivity.
      * simpl. rewrite Hlen. reflexivity.
      * intros key r0 Hr0.
        destruct (String.eqb_spec key (PropertyDto.sourceUrl p)) as [->|Hne].
        -- apply (Hkeep _ r). exact Hone.
        -- apply (Hkeep _ r0). rewrite Ht1, upsert_other_keys; [exact Hr0|reflexivity|exact Hne].
      * intros q [<-|Hq] Hv; [|apply Hin; assumption].
        apply (Hkeep _ r). exact Hone.
      * intros key Hkey. rewrite Hout by (intros q Hq; apply Hkey; right; exact Hq).
        rewrite Ht1. apply upsert_other_keys; [reflexivity|].
        intros Heq. apply (Hkey p); [left; reflexivity|exact Hvalid|congruence].
Qed.

(** X15.  The batch export never throws.  It returns one id per record that has
    its required fields, skipping the others; the table keeps its unique
    index; every record that was exported has its entity in the table; and
    the entities under keys that no exported record carries are what they
    were. *)
Theorem exportProperties_skips_rejected_records properties t :
  unique_sourceUrl t ->
  exists ids t' evs,
    DatabaseExporter.exportProperties properties t = (Ok ids, t', evs) /\
    length ids
    = length (List.filter (fun p => negb (DatabaseExporter.missing_required_fields p))
                properties) /\
    unique_sourceUrl t' /\
    (forall p, In p properties -> DatabaseExporter.missing_required_fields p = false ->
               exists r, with_sourceUrl (PropertyDto.sourceUrl p) t' = [r]) /\
    (forall key,
       (forall p, In p properties -> DatabaseExporter.missing_required_fields p = false ->
                  PropertyDto.sourceUrl p <> key) ->
       with_sourceUrl key t' = with_sourceUrl key t).
Proof.
  intros Hnd.
  destruct (exportProperties_from_run properties [] t Hnd)
    as (ids & t' & evs & Hrun & Hlen & Hnd' & _ & Hin & Hout).
  exists ids, t', evs. repeat split; assumption.
Qed.

(** X16.  Values that JavaScript holds false are stored as null.  The entity
    written for a record has no price when the record's price is 0, and its
    [verified] and [expired] flags are either true or empty: a flag the
    scraper read as false is stored as unknown.  A record without currency
    is stored in VND. *)
Theorem exportProperty_stores_falsy_values_as_null p t :
  DatabaseExporter.missing_required_fields p = false ->
  unique_sourceUrl t ->
  exists r,
    with_sourceUrl (PropertyDto.sourceUrl p) (DatabaseExporter.exportProperty p t).1.2 = [r] /\
    price (cols r) = (if PropertyDto.price p =? 0 then None else Some (PropertyDto.price p)) /\
    verified (cols r) = (match PropertyDto.verified p with
                         | Some true => Some true
                         | _ => None
                         end) /\
    expired (cols r) = (match PropertyDto.expired p with
                        | Some true => Some true
                        | _ => None
                        end) /\
    currency (cols r) = (match PropertyDto.currency p with
                         | EmptyString => "VND"
                         | c => c
                         end).
Proof.
  intros Hvalid Hnd.
  destruct (exportProperty_upserts p t Hvalid Hnd) as (r & t1 & Hrun & Hone & Hr & _).
  exists r. rewrite Hrun. cbn [fst snd]. split; [exact Hone|].
  rewrite Hr. cbn [cols]. unfold DatabaseExporter.update_data.
  cbn [price verified expired currency].
  unfold DatabaseExporter.num_or_null, DatabaseExporter.obool_or_null, DatabaseExporter.str_or,
    DatabaseExporter.truthy_str.
  repeat split; try reflexivity.
  destruct (PropertyDto.currency p); reflexivity.
Qed.

End DatabaseBatchFacts.

Lemma exportProperties_skips_rejected_records_witness :
  ScrapedProperties.unique_sourceUrl ScrapedProperties.empty /\
  exists ids t' evs,
    DatabaseExporter.exportProperties [sample_listing; untitled_listing; sample_listing_repriced]
      ScrapedProperties.empty = (Ok ids, t', evs) /\
    length ids = 2%nat /\
    ScrapedProperties.unique_sourceUrl t'.
Proof.
  split; [apply NoDup_nil_2|].
  destruct (exportProperties_skips_rejected_records
              [sample_listing; untitled_listing; sample_listing_repriced]
              ScrapedProperties.empty NoDup_nil_2)
    as (ids & t' & evs & Hrun & Hlen & Hnd & _).
  exists ids, t', evs. split; [exact Hrun|]. split; [exact Hlen|exact Hnd].
Defined.

Lemma exportProperty_stores_falsy_values_as_null_witness :
  DatabaseExporter.missing_required_fields sample_listing = false /\
  ScrapedProperties.unique_sourceUrl ScrapedProperties.empty /\
  exists r,
    ScrapedProperties.with_sourceUrl (PropertyDto.sourceUrl sample_listing)
      (DatabaseExporter.exportProperty sample_listing ScrapedProperties.empty).1.2 = [r] /\
    ScrapedProperties.verified (ScrapedProperties.cols r)
    = (match PropertyDto.verified sample_listing with
       | Some true => Some true
       | _ => None
       end).
Proof.
  split; [reflexivity|]. split; [apply NoDup_nil_2|].
  destruct (exportProperty_stores_falsy_values_as_null sample_listing ScrapedProperties.empty
              eq_refl NoDup_nil_2) as (r & Hone & _ & Hverified & _).
  exists r. split; [exact Hone|exact Hverified].
Defined.

(** ** The BSD scraper: pages, properties and batches *)

Section RetryNeverReturns.
Context {S T : Type}.

(** Retrying an operation that always fails never returns. *)
Lemma withRetry_from_always_fails (operation : M S T) maxRetries name :
  always_fails operation ->
  forall fuel attempt lastError s,
    exists e, (ScraperUtils.withRetry_from fuel operation maxRetries name attempt lastError s).1.1
              = Throw e.
Proof.
  intros Hfail. induction fuel as [|fuel IH]; intros attempt lastError s; simpl.
  - destruct (attempt <=? maxRetries); eexists; reflexivity.
  - destruct (attempt <=? maxRetries); [|eexists; reflexivity].
    unfold try_catch. destruct (Hfail s) as (e & s1 & ev1 & ->).
    unfold bind. destruct (when _ _ s1) as [[[u|e'] s2] ev2] eqn:Hw.
    + destruct (IH (attempt + 1) (Some e) s2) as [e2 He2].
      destruct (ScraperUtils.withRetry_from fuel operation maxRetries name (attempt + 1) (Some e) s2)
        as [[r s3] ev3]. simpl in *. subst r. eexists. reflexivity.
    + eexists. reflexivity.
Qed.

End RetryNeverReturns.

Section PageRoutines.
Context {S A : Type}.

(** A routine of the shape [try { body } catch (error) { log; return
    fallback } finally { close }]: when closing does not throw, it returns
    the value of the body, or the fallback when the body throws. *)
Lemma page_routine_outcome (body : M S A) (line : Error -> M S unit) (fallback : A)
    (close : M S unit) s0 :
  (forall e, never_throws (line e)) ->
  never_throws close ->
  (try_finally (try_catch body (fun e => line e;; ret fallback)) close s0).1.1
  = Ok (match (body s0).1.1 with
        | Ok v => v
        | Throw _ => fallback
        end).
Proof.
  intros Hline Hclose. unfold try_finally, try_catch.
  destruct (body s0) as [[[v|e] s1] ev1]; cbn [fst snd].
  - destruct (Hclose s1) as [[] Hok].
    destruct (close s1) as [[r s2] ev2]. simpl in Hok. subst r. reflexivity.
  - unfold bind, ret. destruct (Hline e s1) as [[] Hok].
    destruct (line e s1) as [[r s2] ev2]. simpl in Hok. subst r. cbn [fst snd].
    destruct (Hclose s2) as [[] Hok2].
    destruct (close s2) as [[r s3] ev3]. simpl in Hok2. subst r. reflexivity.
Qed.

End PageRoutines.

Section BSDPageFacts.
Context {P Browser Page : Type}.
Variable pptr : BSDScraper.Puppeteer P Browser Page.
Variable page_eval_text : Page -> string -> M P string.
Variable page_evaluate_propertyUrls : Page -> M P (list string).
Variable extractPropertyData : Page -> string -> M P (option PropertyDto.t).
Variable allSettled_scrapeProperty :
  list string -> BSDScraper.t P Browser
  -> list (Res (option PropertyDto.t)) * BSDScraper.t P Browser.
Implicit Types (s : BSDScraper.t P Browser).

Lemma never_throws_lift {B} (m : M P B) :
  never_throws m -> never_throws (BSDScraper.lift (Browser := Browser) m).
Proof.
  intros Hm s. unfold BSDScraper.lift, zoom. destruct (Hm (BSDScraper.remote s)) as [a Ha].
  destruct (m (BSDScraper.remote s)) as [[r p'] evs]. simpl in *. subst r. exists a. reflexivity.
Qed.

(** The retried page load of a page that cannot be reached throws. *)
Lemma page_load_throws page url ms name s :
  always_fails (BSDScraper.page_goto pptr page url) ->
  exists e,
    (ScraperUtils.withRetry
       (BSDScraper.lift (Browser := Browser) (BSDScraper.page_goto pptr page url);;
        BSDScraper.lift (BSDScraper.page_waitForSelector pptr page "body");;
        ScraperUtils.sleep ms) 3 name s).1.1 = Throw e.
Proof.
  intros Hfail. apply withRetry_from_always_fails.
  apply page_load_always_fails. exact Hfail.
Qed.

(** X17.  [getTotalPages] on an open browser whose pages open and close: it
    never throws.  Whatever goes wrong while the page is loaded and read is
    logged and answered with 1: so it is when the page cannot be reached,
    after the three attempts at loading it. *)
Theorem getTotalPages_answers_one_on_failure listUrl s b page p1 ev1 :
  BSDScraper.browser s = Some b ->
  BSDScraper.createPage pptr b (BSDScraper.remote s) = (Ok page, p1, ev1) ->
  never_throws (BSDScraper.page_close pptr page) ->
  (exists totalPages, (BSDScraper.getTotalPages pptr listUrl s).1.1 = Ok totalPages) /\
  (always_fails (BSDScraper.page_goto pptr page listUrl) ->
   (BSDScraper.getTotalPages pptr listUrl s).1.1 = Ok 1) /\
  (always_fails (BSDScraper.page_evaluate_totalPages pptr page) ->
   (BSDScraper.getTotalPages pptr listUrl s).1.1 = Ok 1).
Proof.
  intros Hb Hpage Hclose.
  set (s0 := BSDScraper.mk (BSDScraper.browser s) p1).
  set (body := (ScraperUtils.withRetry
                  (BSDScraper.lift (BSDScraper.page_goto pptr page listUrl);;
                   BSDScraper.lift (BSDScraper.page_waitForSelector pptr page "body");;
                   ScraperUtils.sleep 2000) 3 "page loading";;
                totalPages <- BSDScraper.lift (BSDScraper.page_evaluate_totalPages pptr page);;
                ret totalPages) : M (BSDScraper.t P Browser) Z).
  assert (Hrun : (BSDScraper.getTotalPages pptr listUrl s).1.1
                 = Ok (match (body s0).1.1 with
                       | Ok v => v
                       | Throw _ => 1
                       end)).
  { set (line := fun error : Error =>
                    logger_error (S := BSDScraper.t P Browser) BSDScraper.context
                      ("Failed to get total pages from " +:+ listUrl) (Some error)).
    set (close := BSDScraper.lift (Browser := Browser) (BSDScraper.page_close pptr page)).
    assert (Hshape : BSDScraper.getTotalPages pptr listUrl s
                     = let '(r, s2, ev2) :=
                         try_finally (try_catch body (fun e => line e;; ret 1)) close s0 in
                       (r, s2, [] ++ ev1 ++ ev2)).
    { unfold BSDScraper.getTotalPages. unfold bind at 1, BSDScraper.get_browser at 1.
      rewrite Hb. unfold bind at 1, BSDScraper.lift at 1, zoom. cbn [BSDScraper.remote].
      rewrite Hpage. unfold body, line, close, s0. cbv beta.
      destruct (try_finally _ _ _) as [[r s2] ev2]. reflexivity. }
    rewrite Hshape.
    pose proof (page_routine_outcome body line 1 close s0
                  (fun e => never_throws_emit _) (never_throws_lift _ Hclose)) as Hout.
    destruct (try_finally (try_catch body (fun e => line e;; ret 1)) close s0) as [[r s2] ev2].
    exact Hout. }
  split; [eexists; exact Hrun|]. split.
  - intros Hfail. rewrite Hrun. subst body. unfold bind at 1.
    destruct (page_load_throws page listUrl 2000 "page loading" s0 Hfail) as [e He].
    destruct (ScraperUtils.withRetry _ 3 "page loading" s0) as [[r s1] ev].
    simpl in He. subst r. reflexivity.
  - intros Hfail. rewrite Hrun. subst body. unfold bind at 1.
    destruct (ScraperUtils.withRetry _ 3 "page loading" s0) as [[[u|e] s1] ev]; [|reflexivity].
    unfold bind, BSDScraper.lift, zoom.
    destruct (Hfail (BSDScraper.remote s1)) as (e & p' & evs & ->). reflexivity.
Qed.

(** A routine that opens a page: its run on an open browser whose page
    opens. *)
Lemma with_page_run {B} (routine : Page -> M (BSDScraper.t P Browser) B) s b page p1 ev1 :
  BSDScraper.browser s = Some b ->
  BSDScraper.createPage pptr b (BSDScraper.remote s) = (Ok page, p1, ev1) ->
  (this_browser <- BSDScraper.get_browser;;
   match this_browser with
   | None => throw (mkError "Browser not initialized")
   | Some b => page <- BSDScraper.lift (BSDScraper.createPage pptr b);; routine page
   end) s
  = let '(r, s2, ev2) := routine page (BSDScraper.mk (BSDScraper.browser s) p1) in
    (r, s2, ev1 ++ ev2).
Proof.
  intros Hb Hpage. unfold bind at 1, BSDScraper.get_browser at 1. rewrite Hb.
  unfold bind at 1, BSDScraper.lift at 1, zoom. cbn [BSDScraper.remote]. rewrite Hpage.
  rewrite ?Hb. destruct (routine page _) as [[r s2] ev2]. reflexivity.
Qed.

(** X18.  [scrapeProperty] on an open browser whose pages open and close: it
    never throws.  A property page that cannot be reached, after the three
    attempts at loading it, or that cannot be read, is logged and answered
    with [null]. *)
Theorem scrapeProperty_answers_null_on_failure url s b page p1 ev1 :
  BSDScraper.browser s = Some b ->
  BSDScraper.createPage pptr b (BSDScraper.remote s) = (Ok page, p1, ev1) ->
  never_throws (BSDScraper.page_close pptr page) ->
  let run := BSDScraper.scrapeProperty pptr extractPropertyData url s in
  (exists propertyData, run.1.1 = Ok propertyData) /\
  (always_fails (BSDScraper.page_goto pptr page url) -> run.1.1 = Ok None) /\
  (always_fails (extractPropertyData page url) -> run.1.1 = Ok None).
Proof.
  intros Hb Hpage Hclose run. subst run.
  set (s0 := BSDScraper.mk (BSDScraper.browser s) p1).
  set (line := fun error : Error =>
                  logger_error (S := BSDScraper.t P Browser) BSDScraper.context
                    ("Failed to scrape property " +:+ url) (Some error)).
  set (close := BSDScraper.lift (Browser := Browser) (BSDScraper.page_close pptr page)).
  set (load := ScraperUtils.withRetry
                 (BSDScraper.lift (Browser := Browser) (BSDScraper.page_goto pptr page url);;
                  BSDScraper.lift (BSDScraper.page_waitForSelector pptr page "body");;
                  ScraperUtils.sleep 1000) 3 "property page loading").
  set (body := (logger_info BSDScraper.context ("Scraping property: " +:+ url);;
                load;;
                propertyData <- BSDScraper.lift (extractPropertyData page url);;
                match propertyData with
                | Some property =>
                    logger_info BSDScraper.context
                      ("Successfully scraped property: " +:+ PropertyDto.title property)
                | None => ret tt
                end;;
                ret propertyData) : M (BSDScraper.t P Browser) (option PropertyDto.t)).
  assert (Hshape : BSDScraper.scrapeProperty pptr extractPropertyData url s
                   = let '(r, s2, ev2) :=
                       try_finally (try_catch body (fun e => line e;; ret None)) close s0 in
                     (r, s2, ev1 ++ ev2)).
  { exact (with_page_run
             (fun page => try_finally (try_catch
                (logger_info BSDScraper.context ("Scraping property: " +:+ url);;
                 ScraperUtils.withRetry
                   (BSDScraper.lift (BSDScraper.page_goto pptr page url);;
                    BSDScraper.lift (BSDScraper.page_waitForSelector pptr page "body");;
                    ScraperUtils.sleep 1000) 3 "property page loading";;
                 propertyData <- BSDScraper.lift (extractPropertyData page url);;
                 match propertyData with
                 | Some property =>
                     logger_info BSDScraper.context
                       ("Successfully scraped property: " +:+ PropertyDto.title property)
                 | None => ret tt
                 end;;
                 ret propertyData)
                (fun error =>
                   logger_error BSDScraper.context ("Failed to scrape property " +:+ url)
                     (Some error);;
                   ret None))
                (BSDScraper.lift (BSDScraper.page_close pptr page)))
             s b page p1 ev1 Hb Hpage). }
  assert (Hrun : (BSDScraper.scrapeProperty pptr extractPropertyData url s).1.1
                 = Ok (match (body s0).1.1 with
                       | Ok v => v
                       | Throw _ => None
                       end)).
  { rewrite Hshape.
    pose proof (page_routine_outcome body line None close s0
                  (fun e => never_throws_emit _) (never_throws_lift _ Hclose)) as Hout.
    destruct (try_finally (try_catch body (fun e => line e;; ret None)) close s0) as [[r s2] ev2].
    exact Hout. }
  split; [eexists; exact Hrun|]. split.
  - intros Hfail. rewrite Hrun. subst body. unfold bind at 1, logger_info at 1, emit at 1.
    unfold bind at 1.
    destruct (page_load_throws page url 1000 "property page loading" s0 Hfail) as [e He].
    fold load in He. destruct (load s0) as [[r s1] ev]. simpl in He. subst r. reflexivity.
  - intros Hfail. rewrite Hrun. subst body. unfold bind at 1, logger_info at 1, emit at 1.
    unfold bind at 1. destruct (load s0) as [[[u|e] s1] ev]; [|reflexivity].
    unfold bind at 1, BSDScraper.lift at 1, zoom.
    destruct (Hfail (BSDScraper.remote s1)) as (e & p' & evs & ->). reflexivity.
Qed.

(** X19.  A scraper that was not initialised (or was cleaned up) rejects every
    request with the error [Browser not initialized], without touching the
    browser side: so do [getTotalPages], [scrapeProperty] and
    [scrapePropertyList], and so does [scrapeAllPropertiesFromFirstPage],
    whose fallback to the first page fails the same way after the failure
    of the page count is logged. *)
Theorem uninitialised_scraper_rejects url start limit s :
  BSDScraper.browser s = None ->
  let e := mkError "Browser not initialized" in
  let scrapePropertyList :=
    BSDScraper.scrapePropertyList pptr page_evaluate_propertyUrls allSettled_scrapeProperty in
  BSDScraper.getTotalPages pptr url s = (Throw e, s, []) /\
  BSDScraper.scrapeProperty pptr extractPropertyData url s = (Throw e, s, []) /\
  scrapePropertyList url s = (Throw e, s, []) /\
  BSDScraper.scrapeAllPropertiesFromFirstPage pptr scrapePropertyList url start limit s
  = (Throw e, s,
     [EvLog info BSDScraper.context ("Starting to scrape all properties from: " +:+ url) None;
      EvLog error BSDScraper.context "Failed to scrape all properties from first page" (Some e)]).
Proof.
  intros Hb e scrapePropertyList. subst scrapePropertyList.
  assert (H1 : BSDScraper.getTotalPages pptr url s = (Throw e, s, [])).
  { unfold BSDScraper.getTotalPages, bind, BSDScraper.get_browser. rewrite Hb. reflexivity. }
  assert (H3 : BSDScraper.scrapePropertyList pptr page_evaluate_propertyUrls
                 allSettled_scrapeProperty url s = (Throw e, s, [])).
  { unfold BSDScraper.scrapePropertyList, bind, BSDScraper.get_browser. rewrite Hb. reflexivity. }
  split; [exact H1|]. split; [|split; [exact H3|]].
  - unfold BSDScraper.scrapeProperty, bind, BSDScraper.get_browser. rewrite Hb. reflexivity.
  - unfold BSDScraper.scrapeAllPropertiesFromFirstPage, try_catch.
    unfold bind at 1, logger_info at 1, emit at 1. unfold bind at 1. rewrite H1.
    unfold bind, logger_error, emit. cbn [fst snd]. rewrite H3. reflexivity.
Qed.

(** X20.  [cleanup] releases the browser once.  Without a browser it does
    nothing.  With one, it closes it and forgets it, so that a second
    [cleanup] does nothing; when closing throws, the error comes out and the
    browser is kept. *)
Theorem cleanup_releases_the_browser_once s :
  (BSDScraper.browser s = None -> BSDScraper.cleanup pptr s = (Ok tt, s, [])) /\
  (forall b p' evs,
     BSDScraper.browser s = Some b ->
     BSDScraper.browser_close pptr b (BSDScraper.remote s) = (Ok tt, p', evs) ->
     BSDScraper.cleanup pptr s = (Ok tt, BSDScraper.mk None p', evs) /\
     BSDScraper.cleanup pptr (BSDScraper.mk None p') = (Ok tt, BSDScraper.mk None p', [])) /\
  (forall b e p' evs,
     BSDScraper.browser s = Some b ->
     BSDScraper.browser_close pptr b (BSDScraper.remote s) = (Throw e, p', evs) ->
     BSDScraper.cleanup pptr s = (Throw e, BSDScraper.mk (Some b) p', evs)).
Proof.
  split; [|split].
  - intros Hb. unfold BSDScraper.cleanup, bind, BSDScraper.get_browser. rewrite Hb. reflexivity.
  - intros b p' evs Hb Hclose. split; [|reflexivity].
    unfold BSDScraper.cleanup, bind, BSDScraper.get_browser. rewrite Hb.
    unfold BSDScraper.lift, zoom. rewrite Hclose. cbn. rewrite app_nil_r. reflexivity.
  - intros b e p' evs Hb Hclose. apply cleanup_lets_close_error_through; assumption.
Qed.

(** X21.  [extractNumber] never throws, and answers [undefined] whenever it has
    no positive number to give: when the element is not on the page, and
    when the text of the element holds no digit. *)
Theorem extractNumber_is_undefined_without_a_number page selector s :
  let run := BSDScraper.extractNumber (Browser := Browser) page_eval_text page selector s in
  (exists number, run.1.1 = Ok number) /\
  (forall e p' evs,
     page_eval_text page selector (BSDScraper.remote s) = (Throw e, p', evs) ->
     run.1.1 = Ok None) /\
  (forall text p' evs,
     page_eval_text page selector (BSDScraper.remote s) = (Ok text, p', evs) ->
     all_chars (fun c => negb (ScraperUtils.is_digit c)) text = true ->
     run.1.1 = Ok None).
Proof.
  intros run. subst run.
  unfold BSDScraper.extractNumber, BSDScraper.extractText, try_catch, bind, BSDScraper.lift, zoom.
  destruct (page_eval_text page selector (BSDScraper.remote s)) as [[[text|e] p'] evs] eqn:Heval;
    cbn [fst snd ret].
  - split; [eexists; reflexivity|]. split; [intros ? ? ? [=]|].
    intros text' p'' evs' [= <- <- <-] Hnd.
    rewrite (extractNumber_no_digits text Hnd).
    destruct (all_chars (fun c => negb (Ascii.eqb c ","%char)) text); reflexivity.
  - split; [eexists; reflexivity|]. split; [reflexivity|]. intros ? ? ? [=].
Qed.

Lemma collectResults_run i :
  forall results index properties s,
    exists properties' evs,
      BSDScraper.collectResults (P := P) (Browser := Browser) i index results properties s
      = (Ok properties', s, evs) /\
      (length properties' + length (warnings evs) = length properties + length results)%nat /\
      sleeps evs = [].
Proof.
  induction results as [|result rest IH]; intros index properties s.
  - exists properties, []. simpl. repeat split; lia.
  - cbn [BSDScraper.collectResults]. unfold bind at 1.
    assert (Hwarn : forall result',
              (match result' with
               | Ok (Some _) => False
               | _ => True
               end) ->
              exists properties' evs,
                (let '(r, s2, ev2) :=
                   BSDScraper.collectResults i (Datatypes.S index) rest properties s in
                 (r, s2,
                  [EvLog warn BSDScraper.context
                     ("Failed to scrape property at index " +:+ pretty (i + index)%nat) None]
                  ++ ev2))
                = (Ok properties', s, evs) /\
                (length properties' + length (warnings evs)
                 = length properties + length (result' :: rest))%nat /\
                sleeps evs = []).
    { intros result' _.
      destruct (IH (Datatypes.S index) properties s) as (properties' & evs & Hrun & Hlen & Hsl).
      rewrite Hrun. eexists properties', _. split; [reflexivity|].
      simpl. split; [lia|exact Hsl]. }
    destruct result as [[value|]|e].
    + cbn [ret]. destruct (IH (Datatypes.S index) (properties ++ [value]) s)
        as (properties' & evs & Hrun & Hlen & Hsl).
      rewrite Hrun. exists properties', evs. split; [reflexivity|].
      rewrite length_app in Hlen. simpl in Hlen. simpl. split; [lia|exact Hsl].
    + exact (Hwarn (Ok None) I).
    + exact (Hwarn (Throw e) I).
Qed.

(** The batch loop from position [i] of the listing. *)
Lemma scrapeBatches_from_run propertyUrls :
  (forall batch s0, length (allSettled_scrapeProperty batch s0).1 = length batch) ->
  forall fuel i properties s,
    (length propertyUrls - i <= fuel)%nat ->
    exists properties' s' evs,
      BSDScraper.scrapeBatches_from allSettled_scrapeProperty fuel propertyUrls i properties s
      = (Ok properties', s', evs) /\
      (length properties' + length (warnings evs)
       = length properties + (length propertyUrls - i))%nat /\
      sleeps evs = replicate ((length propertyUrls - i + 2) / 3 - 1) 2000.
Proof.
  intros Hsettled. set (n := length propertyUrls).
  induction fuel as [|fuel IH]; intros i properties s Hfuel;
    cbn [BSDScraper.scrapeBatches_from]; fold n;
    destruct (i <? n)%nat eqn:Hlt.
  - apply Nat.ltb_lt in Hlt. lia.
  - apply Nat.ltb_ge in Hlt. exists properties, s, [].
    replace (n - i)%nat with 0%nat by lia. simpl. repeat split; lia.
  - apply Nat.ltb_lt in Hlt. unfold bind at 1.
    pose proof (Hsettled (take 3 (drop i propertyUrls)) s) as Hlen.
    rewrite length_take, length_drop in Hlen. fold n in Hlen.
    destruct (allSettled_scrapeProperty (take 3 (drop i propertyUrls)) s) as [results s1].
    cbn [fst] in Hlen. unfold bind at 1.
    destruct (collectResults_run i results 0%nat properties s1)
      as (properties1 & evs1 & Hrun1 & Hlen1 & Hsl1).
    rewrite Hrun1. unfold bind at 1.
    destruct (i + 3 <? n)%nat eqn:Hmore.
    + apply Nat.ltb_lt in Hmore. cbn [when]. unfold ScraperUtils.sleep at 1, emit at 1.
      destruct (IH (i + 3)%nat properties1 s1 ltac:(lia))
        as (properties' & s' & evs & Hrun & Hlen' & Hsl).
      rewrite Hrun. eexists properties', s', _. split; [reflexivity|]. split.
      * unfold warnings in *. rewrite !omap_app, !length_app. simpl. lia.
      * assert (Hk : ((n - i + 2) / 3 - 1 = Datatypes.S ((n - (i + 3) + 2) / 3 - 1))%nat).
        { replace (n - i + 2)%nat with ((n - (i + 3) + 2) + 1 * 3)%nat by lia.
          rewrite Nat.div_add by lia.
          assert (1 <= (n - (i + 3) + 2) / 3)%nat by (apply Nat.div_le_lower_bound; lia).
          lia. }
        rewrite Hk. set (k := ((n - (i + 3) + 2) / 3 - 1)%nat) in *.
        unfold sleeps in *. rewrite !omap_app, Hsl1, Hsl. reflexivity.
    + apply Nat.ltb_ge in Hmore. cbn [when]. unfold ret at 1.
      destruct (IH (i + 3)%nat properties1 s1 ltac:(lia))
        as (properties' & s' & evs & Hrun & Hlen' & Hsl).
      rewrite Hrun. eexists properties', s', _. split; [reflexivity|]. split.
      * unfold warnings in *. rewrite !omap_app, !length_app. simpl. lia.
      * assert (Hk : ((n - i + 2) / 3 - 1 = 0)%nat).
        { assert ((n - i + 2) / 3 < 2)%nat by (apply Nat.Div0.div_lt_upper_bound; lia). lia. }
        assert (Hk' : ((n - (i + 3) + 2) / 3 - 1 = 0)%nat).
        { replace (n - (i + 3))%nat with 0%nat by lia. reflexivity. }
        rewrite Hk. rewrite Hk' in Hsl.
        unfold sleeps in *. rewrite !omap_app, Hsl1, Hsl. reflexivity.
  - apply Nat.ltb_ge in Hlt. exists properties, s, [].
    replace (n - i)%nat with 0%nat by lia. simpl. repeat split; lia.
Qed.

(** X22.  The batch loop of [scrapePropertyList] accounts for every link of the
    listing and is paced between batches only.  Whatever the scrapes of
    the properties do, the loop returns; each of the [n] links gives either
    a record in the result or a warning with its position; and 2 s are
    slept after every batch of three but the last one, that is
    [ceil(n / 3) - 1] times, never after the last batch. *)
Theorem scrapeBatches_accounts_for_every_link propertyUrls s :
  (forall batch s0, length (allSettled_scrapeProperty batch s0).1 = length batch) ->
  let n := length propertyUrls in
  let run := BSDScraper.scrapeBatches_from allSettled_scrapeProperty n propertyUrls 0 [] s in
  exists properties,
    run.1.1 = Ok properties /\
    (length properties + length (warnings run.2) = n)%nat /\
    sleeps run.2 = replicate ((n + 2) / 3 - 1) 2000.
Proof.
  intros Hsettled n run.
  destruct (scrapeBatches_from_run propertyUrls Hsettled n 0%nat [] s ltac:(lia))
    as (properties & s' & evs & Hrun & Hlen & Hsl).
  subst run n. rewrite Hrun. exists properties. cbn [fst snd].
  rewrite Nat.sub_0_r in Hlen, Hsl. simpl in Hlen. split; [reflexivity|]. split; assumption.
Qed.

(** X23.  [scrapePropertyList] on an open browser whose pages open and close: it
    never throws.  A listing page that cannot be reached, after the three
    attempts at loading it, or whose links cannot be read, is logged and
    answered with the empty list. *)
Theorem scrapePropertyList_answers_empty_on_failure url s b page p1 ev1 :
  BSDScraper.browser s = Some b ->
  BSDScraper.createPage pptr b (BSDScraper.remote s) = (Ok page, p1, ev1) ->
  never_throws (BSDScraper.page_close pptr page) ->
  let run := BSDScraper.scrapePropertyList pptr page_evaluate_propertyUrls
               allSettled_scrapeProperty url s in
  (exists properties, run.1.1 = Ok properties) /\
  (always_fails (BSDScraper.page_goto pptr page url) -> run.1.1 = Ok []) /\
  (always_fails (page_evaluate_propertyUrls page) -> run.1.1 = Ok []).
Proof.
  intros Hb Hpage Hclose run. subst run.
  set (s0 := BSDScraper.mk (BSDScraper.browser s) p1).
  set (line := fun error : Error =>
                  logger_error (S := BSDScraper.t P Browser) BSDScraper.context
                    ("Failed to scrape property list " +:+ url) (Some error)).
  set (close := BSDScraper.lift (Browser := Browser) (BSDScraper.page_close pptr page)).
  set (load := ScraperUtils.withRetry
                 (BSDScraper.lift (Browser := Browser) (BSDScraper.page_goto pptr page url);;
                  BSDScraper.lift (BSDScraper.page_waitForSelector pptr page "body");;
                  ScraperUtils.sleep 2000) 3 "property list page loading").
  set (body := (logger_info BSDScraper.context ("Scraping property list: " +:+ url);;
                load;;
                propertyUrls <- BSDScraper.lift (page_evaluate_propertyUrls page);;
                logger_info BSDScraper.context
                  ("Found " +:+ pretty (length propertyUrls) +:+ " property URLs");;
                BSDScraper.scrapeBatches_from allSettled_scrapeProperty
                  (length propertyUrls) propertyUrls 0 [])
               : M (BSDScraper.t P Browser) (list PropertyDto.t)).
  assert (Hshape : BSDScraper.scrapePropertyList pptr page_evaluate_propertyUrls
                     allSettled_scrapeProperty url s
                   = let '(r, s2, ev2) :=
                       try_finally (try_catch body (fun e => line e;; ret [])) close s0 in
                     (r, s2, ev1 ++ ev2)).
  { exact (with_page_run
             (fun page => try_finally (try_catch
                (logger_info BSDScraper.context ("Scraping property list: " +:+ url);;
                 ScraperUtils.withRetry
                   (BSDScraper.lift (BSDScraper.page_goto pptr page url);;
                    BSDScraper.lift (BSDScraper.page_waitForSelector pptr page "body");;
                    ScraperUtils.sleep 2000) 3 "property list page loading";;
                 propertyUrls <- BSDScraper.lift (page_evaluate_propertyUrls page);;
                 logger_info BSDScraper.context
                   ("Found " +:+ pretty (length propertyUrls) +:+ " property URLs");;
                 BSDScraper.scrapeBatches_from allSettled_scrapeProperty
                   (length propertyUrls) propertyUrls 0 [])
                (fun error =>
                   logger_error BSDScraper.context ("Failed to scrape property list " +:+ url)
                     (Some error);;
                   ret []))
                (BSDScraper.lift (BSDScraper.page_close pptr page)))
             s b page p1 ev1 Hb Hpage). }
  assert (Hrun : (BSDScraper.scrapePropertyList pptr page_evaluate_propertyUrls
                    allSettled_scrapeProperty url s).1.1
                 = Ok (match (body s0).1.1 with
                       | Ok v => v
                       | Throw _ => []
                       end)).
  { rewrite Hshape.
    pose proof (page_routine_outcome body line [] close s0
                  (fun e => never_throws_emit _) (never_throws_lift _ Hclose)) as Hout.
    destruct (try_finally (try_catch body (fun e => line e;; ret [])) close s0) as [[r s2] ev2].
    exact Hout. }
  split; [eexists; exact Hrun|]. split.
  - intros Hfail. rewrite Hrun. subst body. unfold bind at 1, logger_info at 1, emit at 1.
    unfold bind at 1.
    destruct (page_load_throws page url 2000 "property list page loading" s0 Hfail) as [e He].
    fold load in He. destruct (load s0) as [[r s1] ev]. simpl in He. subst r. reflexivity.
  - intros Hfail. rewrite Hrun. subst body. unfold bind at 1, logger_info at 1, emit at 1.
    unfold bind at 1. destruct (load s0) as [[[u|e] s1] ev]; [|reflexivity].
    unfold bind at 1, BSDScraper.lift at 1, zoom.
    destruct (Hfail (BSDScraper.remote s1)) as (e & p' & evs & ->). reflexivity.
Qed.

End BSDPageFacts.

Lemma unreachable_site_closes_pages :
  never_throws (BSDScraper.page_close unreachable_site tt).
Proof. intros n. exists tt. reflexivity. Qed.

Lemma unreachable_site_always_fails url :
  always_fails (BSDScraper.page_goto unreachable_site tt url).
Proof. intros n. eexists _, _, _. reflexivity. Qed.

Lemma getTotalPages_answers_one_on_failure_witness :
  BSDScraper.browser (BSDScraper.mk (Some tt) 0%nat) = Some tt /\
  BSDScraper.createPage unreachable_site tt 0%nat = (Ok tt, 0%nat, []) /\
  never_throws (BSDScraper.page_close unreachable_site tt) /\
  (BSDScraper.getTotalPages unreachable_site listing_url (BSDScraper.mk (Some tt) 0%nat)).1.1
  = Ok 1.
Proof.
  split; [reflexivity|]. split; [reflexivity|]. split; [exact unreachable_site_closes_pages|].
  destruct (getTotalPages_answers_one_on_failure unreachable_site listing_url
              (BSDScraper.mk (Some tt) 0%nat) tt tt 0%nat [] eq_refl eq_refl
              unreachable_site_closes_pages) as (_ & Hunreachable & _).
  apply Hunreachable. apply unreachable_site_always_fails.
Defined.

Lemma scrapeProperty_answers_null_on_failure_witness :
  BSDScraper.browser (BSDScraper.mk (Some tt) 0%nat) = Some tt /\
  BSDScraper.createPage unreachable_site tt 0%nat = (Ok tt, 0%nat, []) /\
  never_throws (BSDScraper.page_close unreachable_site tt) /\
  (BSDScraper.scrapeProperty unreachable_site detail_stub (listing_url +:+ "/a")
     (BSDScraper.mk (Some tt) 0%nat)).1.1 = Ok None.
Proof.
  split; [reflexivity|]. split; [reflexivity|]. split; [exact unreachable_site_closes_pages|].
  destruct (scrapeProperty_answers_null_on_failure unreachable_site detail_stub
              (listing_url +:+ "/a") (BSDScraper.mk (Some tt) 0%nat) tt tt 0%nat [] eq_refl
              eq_refl unreachable_site_closes_pages) as (_ & Hunreachable & _).
  apply Hunreachable. apply unreachable_site_always_fails.
Defined.

Lemma scrapePropertyList_answers_empty_on_failure_witness :
  BSDScraper.browser (BSDScraper.mk (Some tt) 0%nat) = Some tt /\
  BSDScraper.createPage unreachable_site tt 0%nat = (Ok tt, 0%nat, []) /\
  never_throws (BSDScraper.page_close unreachable_site tt) /\
  (BSDScraper.scrapePropertyList unreachable_site three_links first_of_batch_fails listing_url
     (BSDScraper.mk (Some tt) 0%nat)).1.1 = Ok [].
Proof.
  split; [reflexivity|]. split; [reflexivity|]. split; [exact unreachable_site_closes_pages|].
  destruct (scrapePropertyList_answers_empty_on_failure unreachable_site three_links
              first_of_batch_fails listing_url (BSDScraper.mk (Some tt) 0%nat) tt tt 0%nat []
              eq_refl eq_refl unreachable_site_closes_pages) as (_ & Hunreachable & _).
  apply Hunreachable. apply unreachable_site_always_fails.
Defined.

Lemma uninitialised_scraper_rejects_witness :
  BSDScraper.browser (BSDScraper.mk (None : option unit) 0%nat) = None /\
  BSDScraper.scrapeAllPropertiesFromFirstPage (healthy_site 5)
    (BSDScraper.scrapePropertyList (healthy_site 5) three_links first_of_batch_fails)
    listing_url 1 5 (BSDScraper.mk None 0%nat)
  = (Throw (mkError "Browser not initialized"), BSDScraper.mk None 0%nat,
     [EvLog info BSDScraper.context
        ("Starting to scrape all properties from: " +:+ listing_url) None;
      EvLog error BSDScraper.context "Failed to scrape all properties from first page"
        (Some (mkError "Browser not initialized"))]).
Proof.
  split; [reflexivity|].
  destruct (uninitialised_scraper_rejects (healthy_site 5) three_links detail_stub
              first_of_batch_fails listing_url 1 5 (BSDScraper.mk None 0%nat) eq_refl)
    as (_ & _ & _ & Hall).
  exact Hall.
Defined.

Lemma first_of_batch_fails_settles batch s0 :
  length (first_of_batch_fails batch s0).1 = length batch.
Proof. destruct batch; simpl; rewrite ?length_map; reflexivity. Qed.

Lemma scrapeBatches_accounts_for_every_link_witness :
  (forall batch s0, length (first_of_batch_fails batch s0).1 = length batch) /\
  let urls := ["a"; "b"; "c"; "d"; "e"; "f"; "g"] in
  let run := BSDScraper.scrapeBatches_from first_of_batch_fails 7 urls 0 []
               (BSDScraper.mk (Some tt) 0%nat) in
  exists properties,
    run.1.1 = Ok properties /\
    (length properties + length (warnings run.2) = 7)%nat /\
    sleeps run.2 = replicate ((7 + 2) / 3 - 1) 2000.
Proof.
  split; [exact first_of_batch_fails_settles|].
  apply (scrapeBatches_accounts_for_every_link first_of_batch_fails
           ["a"; "b"; "c"; "d"; "e"; "f"; "g"] (BSDScraper.mk (Some tt) 0%nat)
           first_of_batch_fails_settles).
Defined.

(** Seven links, the first scrape of each batch failing: four records, the
    warnings for positions 0, 3 and 6, and two sleeps, none after the last
    batch. *)
Example scrapeBatches_of_seven_links :
  let run := BSDScraper.scrapeBatches_from first_of_batch_fails 7
               ["a"; "b"; "c"; "d"; "e"; "f"; "g"] 0 [] (BSDScraper.mk (Some tt) 0%nat) in
  failure_of run.1.1 = None /\
  warnings run.2 = ["Failed to scrape property at index 0";
                    "Failed to scrape property at index 3";
                    "Failed to scrape property at index 6"] /\
  List.filter (fun ev => match ev with
                         | EvSleep _ => true
                         | _ => false
                         end) run.2 = [EvSleep 2000; EvSleep 2000] /\
  List.last run.2 (EvSleep 0)
  = EvLog warn BSDScraper.context "Failed to scrape property at index 6" None.
Proof. vm_compute. repeat split. Qed.

(** A page whose elements all read [2 phong ngu], and a page without the
    element. *)
Example extractNumber_on_test_pages :
  (BSDScraper.extractNumber (Browser := unit) text_stub tt ".bedrooms"
     (BSDScraper.mk (Some tt) 0%nat)).1.1 = Ok (Some (ScraperUtils.Num 2)) /\
  (BSDScraper.extractNumber (Browser := unit) missing_element tt ".bedrooms"
     (BSDScraper.mk (Some tt) 0%nat)).1.1 = Ok None.
Proof. vm_compute. repeat split. Qed.

(** ** Prices read from text *)

Section PriceFacts.
Import ScraperUtils.
Implicit Types (p : ascii -> bool) (text pre int frac post : string).

Lemma all_chars_app p a b : all_chars p (a +:+ b) = all_chars p a && all_chars p b.
Proof.
  induction a as [|c a IH]; [reflexivity|].
  rewrite string_app_cons. cbn [all_chars]. rewrite IH, andb_assoc. reflexivity.
Qed.

Lemma all_chars_weaken p q text :
  (forall c, p c = true -> q c = true) -> all_chars p text = true -> all_chars q text = true.
Proof.
  intros Hpq. induction text as [|c text IH]; [reflexivity|]. cbn [all_chars].
  intros [Hc Hrest]%andb_true_iff. rewrite (Hpq c Hc), (IH Hrest). reflexivity.
Qed.

Lemma not_starting_with_weaken p q text :
  (forall c, p c = true -> q c = true) ->
  not_starting_with q text = true -> not_starting_with p text = true.
Proof.
  intros Hpq. destruct text as [|c text]; [reflexivity|]. cbn [not_starting_with].
  intros Hq%negb_true_iff. apply negb_true_iff.
  destruct (p c) eqn:Hp; [|reflexivity]. rewrite (Hpq c Hp) in Hq. discriminate.
Qed.

Lemma drop_while_all_stop p run post :
  all_chars p run = true -> not_starting_with p post = true ->
  drop_while p (run +:+ post) = post.
Proof.
  intros Hrun Hpost. rewrite (drop_while_all p run post Hrun). apply drop_while_stops. exact Hpost.
Qed.

Lemma is_digit_is_digit_or_comma c : is_digit c = true -> is_digit_or_comma c = true.
Proof. intros Hc. unfold is_digit_or_comma. rewrite Hc. reflexivity. Qed.

Lemma is_digit_not_comma c : is_digit c = true -> Ascii.eqb c ","%char = false.
Proof.
  intros Hc. destruct (Ascii.eqb_spec c ","%char) as [->|]; [|reflexivity]. discriminate.
Qed.

Lemma is_digit_not_dot c : is_digit c = true -> Ascii.eqb c "."%char = false.
Proof.
  intros Hc. destruct (Ascii.eqb_spec c "."%char) as [->|]; [|reflexivity]. discriminate.
Qed.

Lemma remove_commas_app a b : remove_commas (a +:+ b) = remove_commas a +:+ remove_commas b.
Proof.
  induction a as [|c a IH]; [reflexivity|].
  rewrite string_app_cons. cbn [remove_commas]. destruct (Ascii.eqb c ","%char); [exact IH|].
  rewrite string_app_cons, IH. reflexivity.
Qed.

Lemma remove_commas_digits text : all_chars is_digit text = true -> remove_commas text = text.
Proof.
  induction text as [|c text IH]; [reflexivity|]. cbn [all_chars remove_commas].
  intros [Hc Hrest]%andb_true_iff. rewrite (is_digit_not_comma c Hc), (IH Hrest). reflexivity.
Qed.

(** [parseFloat] on digits, and on digits, a dot and digits. *)
Lemma parseFloat_digits int :
  int <> EmptyString -> all_chars is_digit int = true ->
  BSDScraper.parseFloat int = BSDScraper.FDec (digits_value 0 int) 0.
Proof.
  intros Hne Hint. unfold BSDScraper.parseFloat.
  pose proof (take_while_all is_digit int EmptyString Hint eq_refl) as Htake.
  pose proof (drop_while_all_stop is_digit int EmptyString Hint eq_refl) as Hdrop.
  rewrite string_app_nil_r in Htake, Hdrop. rewrite Htake, Hdrop.
  rewrite string_app_nil_r. destruct int; [congruence|reflexivity].
Qed.

Lemma parseFloat_digits_dot_digits int frac :
  int <> EmptyString -> all_chars is_digit int = true -> all_chars is_digit frac = true ->
  BSDScraper.parseFloat (int +:+ "." +:+ frac)
  = BSDScraper.FDec (digits_value 0 (int +:+ frac)) (String.length frac).
Proof.
  intros Hne Hint Hfrac. unfold BSDScraper.parseFloat.
  rewrite (take_while_all is_digit int ("." +:+ frac) Hint eq_refl).
  rewrite (drop_while_all_stop is_digit int ("." +:+ frac) Hint eq_refl).
  change ("." +:+ frac) with (String "."%char frac). cbv iota. rewrite Ascii.eqb_refl.
  pose proof (take_while_all is_digit frac EmptyString Hfrac eq_refl) as Htake.
  rewrite string_app_nil_r in Htake. rewrite Htake.
  destruct int; [congruence|reflexivity].
Qed.

(** What the price pattern finds in a text whose first run of digits and
    commas is [run]. *)
Lemma match_price_run pre run post :
  all_chars (fun c => negb (is_digit_or_comma c)) pre = true ->
  run <> EmptyString ->
  all_chars is_digit_or_comma run = true ->
  not_starting_with is_digit_or_comma post = true ->
  BSDScraper.match_price (pre +:+ run +:+ post)
  = match post with
    | String c after =>
        if Ascii.eqb c "."%char then
          match take_while is_digit after with
          | EmptyString => Some run
          | digits => Some (run +:+ "." +:+ digits)
          end
        else Some run
    | EmptyString => Some run
    end.
Proof.
  intros Hpre Hne Hrun Hpost. unfold BSDScraper.match_price.
  rewrite (drop_while_all _ pre _ Hpre).
  destruct run as [|c run]; [congruence|].
  pose proof Hrun as Hc. cbn [all_chars] in Hc. apply andb_true_iff in Hc. destruct Hc as [Hc _].
  rewrite (drop_while_stops (fun c => negb (is_digit_or_comma c)) (String c run +:+ post))
    by (rewrite string_app_cons; cbn [not_starting_with]; rewrite Hc; reflexivity).
  change (String c run +:+ post) with (String c (run +:+ post)). cbv iota beta zeta.
  change (String c (run +:+ post)) with (String c run +:+ post).
  rewrite (take_while_all _ (String c run) post Hrun Hpost).
  rewrite (drop_while_all_stop _ (String c run) post Hrun Hpost).
  reflexivity.
Qed.

(** X24.  In a price, a comma groups digits and only a dot marks decimals.  For
    a numeral [int], a comma or a dot, and a numeral [frac], between a text
    without digit or comma and a text that does not go on with the
    numeral: with the comma, as in "1,4", the price read is the integer
    that the digits of [int] and [frac] spell together, 14; with the dot,
    as in "1.4", it is that integer divided by ten to the number of digits
    of [frac], 1.4. *)
Theorem extractPriceNumber_reads_commas_as_grouping pre int frac post :
  all_chars (fun c => negb (is_digit_or_comma c)) pre = true ->
  int <> EmptyString -> all_chars is_digit int = true ->
  frac <> EmptyString -> all_chars is_digit frac = true ->
  not_starting_with is_numeral_char post = true ->
  BSDScraper.extractPriceNumber (pre +:+ (int +:+ "," +:+ frac) +:+ post)
  = BSDScraper.FDec (digits_value 0 (int +:+ frac)) 0 /\
  BSDScraper.extractPriceNumber (pre +:+ (int +:+ "." +:+ frac) +:+ post)
  = BSDScraper.FDec (digits_value 0 (int +:+ frac)) (String.length frac).
Proof.
  intros Hpre Hine Hint Hfne Hfrac Hpost.
  assert (Hpost_dc : not_starting_with is_digit_or_comma post = true).
  { apply (not_starting_with_weaken _ is_numeral_char); [|exact Hpost].
    intros c Hc. unfold is_numeral_char. rewrite Hc. reflexivity. }
  assert (Hpost_d : not_starting_with is_digit post = true).
  { apply (not_starting_with_weaken _ is_digit_or_comma); [|exact Hpost_dc].
    apply is_digit_is_digit_or_comma. }
  assert (Hint_dc : all_chars is_digit_or_comma int = true)
    by (apply (all_chars_weaken is_digit); [apply is_digit_is_digit_or_comma|exact Hint]).
  assert (Hfrac_dc : all_chars is_digit_or_comma frac = true)
    by (apply (all_chars_weaken is_digit); [apply is_digit_is_digit_or_comma|exact Hfrac]).
  assert (Hjoined : int +:+ frac <> EmptyString) by (destruct int; [congruence|discriminate]).
  split.
  - unfold BSDScraper.extractPriceNumber.
    assert (Hrun : all_chars is_digit_or_comma (int +:+ "," +:+ frac) = true).
    { rewrite !all_chars_app, Hint_dc, Hfrac_dc. reflexivity. }
    assert (Hne : int +:+ "," +:+ frac <> EmptyString)
      by (destruct int; [congruence|discriminate]).
    rewrite (match_price_run pre _ post Hpre Hne Hrun Hpost_dc).
    assert (Hparse : BSDScraper.parseFloat (remove_commas (int +:+ "," +:+ frac))
                     = BSDScraper.FDec (digits_value 0 (int +:+ frac)) 0).
    { rewrite !remove_commas_app.
      rewrite (remove_commas_digits _ Hint), (remove_commas_digits _ Hfrac).
      change (remove_commas ",") with EmptyString. rewrite string_app_nil_l.
      apply parseFloat_digits; [exact Hjoined|].
      rewrite all_chars_app, Hint, Hfrac. reflexivity. }
    destruct post as [|d post]; [exact Hparse|].
    cbn [not_starting_with] in Hpost. unfold is_numeral_char in Hpost.
    apply negb_true_iff, orb_false_iff in Hpost. destruct Hpost as [_ Hdot].
    rewrite Hdot. exact Hparse.
  - unfold BSDScraper.extractPriceNumber.
    rewrite !string_app_assoc.
    rewrite (match_price_run pre int ("." +:+ frac +:+ post) Hpre Hine Hint_dc eq_refl).
    change ("." +:+ frac +:+ post) with (String "."%char (frac +:+ post)).
    cbv iota. rewrite Ascii.eqb_refl.
    rewrite (take_while_all _ frac post Hfrac Hpost_d).
    destruct frac as [|d frac]; [congruence|].
    rewrite !remove_commas_app.
    rewrite (remove_commas_digits _ Hint), (remove_commas_digits _ Hfrac).
    change (remove_commas ".") with ".".
    apply parseFloat_digits_dot_digits; [exact Hine|exact Hint|exact Hfrac].
Qed.

End PriceFacts.

Lemma extractPriceNumber_reads_commas_as_grouping_witness :
  all_chars (fun c => negb (ScraperUtils.is_digit_or_comma c)) "Gia: " = true /\
  "1" <> EmptyString /\ all_chars ScraperUtils.is_digit "1" = true /\
  "4" <> EmptyString /\ all_chars ScraperUtils.is_digit "4" = true /\
  not_starting_with is_numeral_char " trieu/thang" = true /\
  BSDScraper.extractPriceNumber ("Gia: " +:+ ("1" +:+ "," +:+ "4") +:+ " trieu/thang")
  = BSDScraper.FDec (ScraperUtils.digits_value 0 ("1" +:+ "4")) 0 /\
  BSDScraper.extractPriceNumber ("Gia: " +:+ ("1" +:+ "." +:+ "4") +:+ " trieu/thang")
  = BSDScraper.FDec (ScraperUtils.digits_value 0 ("1" +:+ "4")) (String.length "4").
Proof.
  split; [reflexivity|]. split; [discriminate|]. split; [reflexivity|].
  split; [discriminate|]. split; [reflexivity|]. split; [reflexivity|].
  apply (extractPriceNumber_reads_commas_as_grouping "Gia: " "1" "4" " trieu/thang");
    [reflexivity|discriminate|reflexivity|discriminate|reflexivity|reflexivity].
Defined.

(** The price format the scraper names in its comment: "1,4" is read as
    14, "1.4" as 1.4, and "3,500,000" as 3500000. *)
Example extractPriceNumber_examples :
  BSDScraper.extractPriceNumber "1,4 trieu/thang" = BSDScraper.FDec 14 0 /\
  BSDScraper.extractPriceNumber "1.4 trieu/thang" = BSDScraper.FDec 14 1 /\
  BSDScraper.extractPriceNumber "3,500,000 dong" = BSDScraper.FDec 3500000 0 /\
  BSDScraper.extractPriceNumber "Thoa thuan" = BSDScraper.FDec 0 0 /\
  BSDScraper.extractPriceNumber ", lien he" = BSDScraper.FNaN.
Proof. vm_compute. repeat split. Qed.

(** ** How a job ends *)

Section JobOutcomeFacts.
Context {W : Type} `{World W}.
Implicit Types (s : Sys W) (scraper : IScraper W) (exporters : list (IExporter W)).
Implicit Types (scrapingJob : ScrapingJobRequest.t) (j : Job).

(** X25.  A job whose collaborators were resolved does not stay [running].
    Whatever the scraper and the exporters do, and also when [cleanup]
    throws, a stored job is left started at the time of the call, with a
    completion time, and either [completed], with [itemsProcessed] equal to
    [itemsFound] (the records found, exported or not), or [failed], with
    the message of the error in [errors] and its counters untouched.  The
    duration is never written, and no other job is touched. *)
Theorem resolved_job_ends_completed_or_failed jobId scrapingJob exporters scraper s j :
  scrapingJobs s !! jobId = Some j ->
  let run := ScrapingJobService.processResolved jobId scrapingJob exporters scraper s in
  exists j',
    scrapingJobs run.1.2 !! jobId = Some j' /\
    startedAt j' = Some (Date_now (ext s)) /\
    (exists t, completedAt j' = Some t) /\
    duration j' = duration j /\
    ((job_status j' = completed /\
      itemsProcessed j' = itemsFound j' /\
      job_errors j' = job_errors j) \/
     (job_status j' = failed /\
      (exists e t, job_errors j' = Some (mkJobErrors (message e) t)) /\
      itemsFound j' = itemsFound j /\
      itemsProcessed j' = itemsProcessed j)) /\
    forall other, other <> jobId -> scrapingJobs run.1.2 !! other = scrapingJobs s !! other.
Proof.
  intros Hj run.
  destruct (processResolved_outcome jobId scrapingJob exporters scraper s j Hj)
    as (j' & Hj' & (Hstarted & Hfinished & Hduration & _ & _ & Hstatus) & Hothers).
  exists j'. repeat split; assumption.
Qed.

(** X26.  When the job is not in the table (its row was removed), the routine
    cannot mark it: the update to [running] throws, the update to [failed]
    in the catch clause throws again, and an error comes out of the
    routine.  The scraper is never initialised and no page is visited, but
    [cleanup] is still called, once: it is the only call made and nothing
    is slept; the job table is not changed. *)
Theorem missing_job_row_fails_the_routine jobId scrapingJob exporters scraper s :
  scrapingJobs s !! jobId = None ->
  let run := ScrapingJobService.processResolved jobId scrapingJob exporters scraper s in
  (exists e, run.1.1 = Throw e) /\
  scrapingJobs run.1.2 = scrapingJobs s /\
  exists failure, calls_and_sleeps run.2 = [EvCall CCleanup failure].
Proof.
  intros Hj run. subst run.
  destruct (processGuarded_missing jobId scrapingJob exporters scraper s Hj)
    as (e & line1 & line2 & line3 & Hguarded).
  unfold ScrapingJobService.processResolved, try_finally. rewrite Hguarded.
  unfold ScrapingJobService.processCleanup, bind, call, logger_debug, emit.
  destruct (cleanup scraper (ext s)) as [[[]|e'] w]; cbn.
  - split; [eexists; reflexivity|]. split; [reflexivity|]. eexists. reflexivity.
  - split; [eexists; reflexivity|]. split; [reflexivity|]. eexists. reflexivity.
Qed.

End JobOutcomeFacts.

Lemma resolved_job_ends_completed_or_failed_witness :
  let s := process_with (stuck_browser_scraper 2) [json_stub; failing_csv_stub] 100 in
  scrapingJobs s !! "0" = Some pending_job /\
  let run := ScrapingJobService.processResolved (H := clock_world) "0" (sample_request 1 5)
               [json_stub; failing_csv_stub] (stuck_browser_scraper 2) s in
  exists j',
    scrapingJobs run.1.2 !! "0" = Some j' /\
    startedAt j' = Some 100 /\
    (exists t, completedAt j' = Some t) /\
    duration j' = None /\
    ((job_status j' = completed /\
      itemsProcessed j' = itemsFound j' /\
      job_errors j' = None) \/
     (job_status j' = failed /\
      (exists e t, job_errors j' = Some (mkJobErrors (message e) t)) /\
      itemsFound j' = 0 /\
      itemsProcessed j' = 0)) /\
    forall other, other <> "0" -> scrapingJobs run.1.2 !! other = scrapingJobs s !! other.
Proof.
  split; [reflexivity|].
  apply (resolved_job_ends_completed_or_failed (H := clock_world) "0" (sample_request 1 5)
           [json_stub; failing_csv_stub] (stuck_browser_scraper 2)
           (process_with (stuck_browser_scraper 2) [json_stub; failing_csv_stub] 100)
           pending_job).
  reflexivity.
Defined.

Lemma missing_job_row_fails_the_routine_witness :
  let s := process_with (stub_scraper 2) [json_stub; failing_csv_stub] 100 in
  scrapingJobs s !! "9" = None /\
  let run := ScrapingJobService.processResolved (H := clock_world) "9" (sample_request 1 5)
               [json_stub; failing_csv_stub] (stub_scraper 2) s in
  (exists e, run.1.1 = Throw e) /\
  scrapingJobs run.1.2 = scrapingJobs s /\
  exists failure, calls_and_sleeps run.2 = [EvCall CCleanup failure].
Proof.
  split; [reflexivity|].
  apply (missing_job_row_fails_the_routine (H := clock_world) "9" (sample_request 1 5)
           [json_stub; failing_csv_stub] (stub_scraper 2)
           (process_with (stub_scraper 2) [json_stub; failing_csv_stub] 100)).
  reflexivity.
Defined.

(** ** The status of a job after its background task *)

Section JobStatusFacts.
Context {W : Type} `{World W}.
Implicit Types (s : Sys W) (scrapingJob : ScrapingJobRequest.t) (j : Job).

(** Registry resolution does not change the state. *)
Lemma resolveCollaborators_keeps_state scrapingJob s :
  exists r evs, ScrapingJobService.resolveCollaborators scrapingJob s = (r, s, evs).
Proof.
  unfold ScrapingJobService.resolveCollaborators. unfold bind at 1.
  destruct (getExporters_run (ScrapingJobRequest.exporters scrapingJob) s)
    as [[found ->]|[e ->]]; [|eexists _, _; reflexivity].
  unfold bind, ScraperFactory.getScraper.
  destruct (scrapers s !! ScrapingJobRequest.websiteCode scrapingJob);
    eexists _, _; reflexivity.
Qed.

(** The background task of a stored job, run to its end: the id is taken
    out of the running-job table, and the job is either as it was (its
    collaborators were not resolved) or settled. *)
Lemma startBackgroundJob_run jobId scrapingJob s :
  exists background evs,
    ScrapingJobService.startBackgroundJob jobId scrapingJob s
    = (Ok background, set_runningJobs ({[jobId]} ∪ runningJobs s) s, evs) /\
    forall s0 j,
      scrapingJobs s0 !! jobId = Some j ->
      (jobId ∉ runningJobs (background s0).1.2) /\
      (scrapingJobs (background s0).1.2 !! jobId = Some j \/
       exists j', scrapingJobs (background s0).1.2 !! jobId = Some j' /\
                  job_settled (Date_now (ext s0)) j j').
Proof.
  destruct (resolveCollaborators_keeps_state scrapingJob s) as (r & evs & Hres).
  unfold ScrapingJobService.startBackgroundJob. unfold bind at 1, attempt.
  rewrite Hres. unfold bind, logger_info, emit, ret. cbn [fst snd].
  eexists _, _. split; [reflexivity|].
  intros s0 j Hj. unfold try_finally.
  destruct r as [[exporters scraper]|e].
  - pose proof (processResolved_outcome jobId scrapingJob exporters scraper s0 j Hj) as Hout.
    cbn zeta in Hout.
    destruct (ScrapingJobService.processResolved jobId scrapingJob exporters scraper s0)
      as [[r' s'] evs'].
    cbn [fst snd] in *. split.
    + cbn [runningJobs set_runningJobs]. intros Hin.
      apply elem_of_difference in Hin as [_ Hin]. apply Hin. apply elem_of_singleton. reflexivity.
    + right. destruct Hout as (j' & Hj' & Hsettled & _). exists j'. split; assumption.
  - cbn. split.
    + cbn [runningJobs set_runningJobs]. intros Hin.
      apply elem_of_difference in Hin as [_ Hin]. apply Hin. apply elem_of_singleton. reflexivity.
    + left. exact Hj.
Qed.

(** A job request followed to the end of its background task. *)
Lemma createScrapingJob_settled_run scrapingJob s :
  let jobId := pretty (nextJobId s) in
  let j0 := mkJob (ScrapingJobRequest.websiteCode scrapingJob) pending
              (Some (ScrapingJobService.request_config scrapingJob)) 0 0 None None None None in
  exists s' evs,
    ScrapingJobService.createScrapingJob_settled scrapingJob s = (Ok jobId, s', evs) /\
    (jobId ∉ runningJobs s') /\
    (scrapingJobs s' !! jobId = Some j0 \/
     exists j', scrapingJobs s' !! jobId = Some j' /\ job_settled (Date_now (ext s)) j0 j').
Proof.
  intros jobId j0.
  pose proof (createScrapingJob_pending_run (ScrapingJobRequest.websiteCode scrapingJob)
                (Some (ScrapingJobService.request_config scrapingJob)) s) as Hcreate.
  fold jobId j0 in Hcreate.
  set (s1 := set_nextJobId (Datatypes.S (nextJobId s))
               (set_scrapingJobs (<[jobId := j0]> (scrapingJobs s)) s)) in Hcreate.
  destruct (startBackgroundJob_run jobId scrapingJob s1)
    as (background & evs & Hstart & Hbackground).
  assert (Hj0 : scrapingJobs (set_runningJobs ({[jobId]} ∪ runningJobs s1) s1) !! jobId = Some j0).
  { cbn. apply lookup_insert_eq. }
  destruct (Hbackground _ j0 Hj0) as [Hnot Hjob].
  unfold ScrapingJobService.createScrapingJob_settled.
  unfold bind at 1. unfold ScrapingJobService.createScrapingJob, try_catch.
  unfold bind at 1. rewrite Hcreate. unfold bind at 1. rewrite Hstart.
  unfold ret at 1. cbn [fst snd]. unfold bind, attempt, ret.
  destruct (background (set_runningJobs ({[jobId]} ∪ runningJobs s1) s1)) as [[r' s'] evs'].
  cbn [fst snd] in *. eexists _, _. split; [reflexivity|]. split; assumption.
Qed.

(** X27.  A job request followed to the end of its background task, and then
    asked for with [getJobStatus]: the job is found, it is not reported as
    currently running, its config is the one built from the request, and
    its status is never [running]: the job is either still [pending] and
    never started (its collaborators were not resolved), or [completed] or
    [failed], started when the request was made and with a completion
    time.  The query itself changes nothing and logs nothing. *)
Theorem finished_job_is_not_reported_running scrapingJob s :
  let jobId := pretty (nextJobId s) in
  let run := ScrapingJobService.createScrapingJob_settled scrapingJob s in
  run.1.1 = Ok jobId /\
  exists view,
    ScrapingJobService.getJobStatus jobId run.1.2 = (Ok (Some view), run.1.2, []) /\
    isCurrentlyRunning view = false /\
    view_config view = ScrapingJobService.request_config scrapingJob /\
    job_source (view_job view) = ScrapingJobRequest.websiteCode scrapingJob /\
    ((job_status (view_job view) = pending /\
      startedAt (view_job view) = None /\ completedAt (view_job view) = None) \/
     ((job_status (view_job view) = completed \/ job_status (view_job view) = failed) /\
      startedAt (view_job view) = Some (Date_now (ext s)) /\
      exists t, completedAt (view_job view) = Some t)).
Proof.
  intros jobId run. subst run.
  destruct (createScrapingJob_settled_run scrapingJob s) as (s' & evs & -> & Hnot & Hjob).
  fold jobId in Hnot, Hjob. cbn [fst snd]. split; [reflexivity|].
  assert (Hstatus : forall j',
            scrapingJobs s' !! jobId = Some j' ->
            ScrapingJobService.getJobStatus jobId s'
            = (Ok (Some (mkJobStatusView j' false (default [] (job_config j')))), s', [])).
  { intros j' Hj'.
    unfold ScrapingJobService.getJobStatus, try_catch, bind,
      JobManagementService.getScrapingJob, JobManagementService.prisma_scrapingJobs_findUnique,
      ScrapingJobService.runningJobs_has, ret.
    cbn. rewrite Hj'. cbn. rewrite bool_decide_eq_false_2 by exact Hnot. reflexivity. }
  destruct Hjob as [Hsame|(j' & Hj' & Hstarted & Hfinished & _ & Hsource & Hconfig & Hcases)].
  - eexists. split; [apply Hstatus; exact Hsame|]. cbn.
    split; [reflexivity|]. split; [reflexivity|]. split; [reflexivity|].
    left. repeat split.
  - eexists. split; [apply Hstatus; exact Hj'|]. cbn.
    split; [reflexivity|]. rewrite Hconfig, Hsource. cbn.
    split; [reflexivity|]. split; [reflexivity|].
    right. split; [|split; assumption].
    destruct Hcases as [[-> _]|[-> _]]; [left|right]; reflexivity.
Qed.

End JobStatusFacts.

(** A request on a site of two pages, with one exporter that fails: the
    job is reported completed with two items, started when the request was
    made, and not running. *)
Example getJobStatus_after_a_finished_job :
  let s := process_with (stub_scraper 2) [json_stub; failing_csv_stub] 100 in
  let run := ScrapingJobService.createScrapingJob_settled (H := clock_world)
               (sample_request 1 5) s in
  run.1.1 = Ok "1" /\
  (exists view,
     (ScrapingJobService.getJobStatus "1" run.1.2).1.1 = Ok (Some view) /\
     job_source (view_job view) = "bsd" /\
     job_status (view_job view) = completed /\
     itemsFound (view_job view) = 2 /\
     itemsProcessed (view_job view) = 2 /\
     job_errors (view_job view) = None /\
     startedAt (view_job view) = Some 100 /\
     duration (view_job view) = None /\
     isCurrentlyRunning view = false /\
     view_config view = ScrapingJobService.request_config (sample_request 1 5)) /\
  (ScrapingJobService.getJobStatus "7" run.1.2).1.1 = Ok None.
Proof. vm_compute. split; [reflexivity|]. split; [|reflexivity]. eexists. repeat split. Qed.

(** ** Addresses *)

Lemma split_commas_free part :
  comma_free part -> BSDScraper.split_commas part = [part].
Proof.
  unfold comma_free. induction part as [|c rest IH]; intros Hfree; [reflexivity|].
  cbn [BSDScraper.split_commas].
  destruct (Z.eqb_spec c BSDScraper.comma_unit) as [->|Hc].
  - exfalso. apply Hfree. left. reflexivity.
  - rewrite IH; [reflexivity|]. intros Hin. apply Hfree. right. exact Hin.
Qed.

Lemma split_commas_app part rest :
  comma_free part ->
  BSDScraper.split_commas (part ++ BSDScraper.comma_unit :: rest)
  = part :: BSDScraper.split_commas rest.
Proof.
  unfold comma_free. induction part as [|c part IH]; intros Hfree.
  - cbn [app BSDScraper.split_commas]. rewrite Z.eqb_refl. reflexivity.
  - cbn [app BSDScraper.split_commas].
    destruct (Z.eqb_spec c BSDScraper.comma_unit) as [->|Hc].
    + exfalso. apply Hfree. left. reflexivity.
    + rewrite IH; [reflexivity|]. intros Hin. apply Hfree. right. exact Hin.
Qed.

(** Splitting at the commas gives back the parts that were written with
    commas between them. *)
Lemma split_commas_with_commas parts :
  parts <> [] -> Forall comma_free parts ->
  BSDScraper.split_commas (with_commas parts) = parts.
Proof.
  induction parts as [|part rest IH]; intros Hne Hfree; [contradiction|].
  inversion Hfree as [|? ? Hpart Hrest]; subst.
  destruct rest as [|part' rest'].
  - apply split_commas_free. exact Hpart.
  - change (with_commas (part :: part' :: rest'))
      with (part ++ BSDScraper.comma_unit :: with_commas (part' :: rest')).
    rewrite split_commas_app by exact Hpart.
    rewrite IH; [reflexivity|discriminate|exact Hrest].
Qed.

Lemma or_else_empty part :
  BSDScraper.or_else (Some part) [] = part.
Proof. destruct part; reflexivity. Qed.

(** X28.  The ward, the district and the city are read from the end: whatever
    comes before them, the last three parts of an address written with
    commas are its ward, its district and its city, each trimmed; when the
    last part is blank the city is Hồ Chí Minh.  The address itself is
    kept as given. *)
Theorem parseAddress_reads_the_last_three_parts before w d c :
  Forall comma_free (before ++ [w; d; c]) ->
  let parsed := BSDScraper.parseAddress (with_commas (before ++ [w; d; c])) in
  BSDScraper.address parsed = with_commas (before ++ [w; d; c]) /\
  BSDScraper.ward parsed = BSDScraper.trim w /\
  BSDScraper.district parsed = BSDScraper.trim d /\
  BSDScraper.city parsed
  = match BSDScraper.trim c with
    | [] => BSDScraper.default_city
    | _ => BSDScraper.trim c
    end.
Proof.
  intros Hfree parsed. subst parsed. unfold BSDScraper.parseAddress.
  rewrite split_commas_with_commas; [|destruct before; discriminate|exact Hfree].
  cbn [BSDScraper.address BSDScraper.ward BSDScraper.district BSDScraper.city].
  rewrite length_map, length_app. cbn [length].
  assert (Hat : forall k part,
            [w; d; c] !! k = Some part ->
            BSDScraper.at_index (map BSDScraper.trim (before ++ [w; d; c]))
              (Z.of_nat (length before + 3) - (3 - Z.of_nat k))
            = Some (BSDScraper.trim part)).
  { intros k part Hk. unfold BSDScraper.at_index.
    pose proof (lookup_lt_Some _ _ _ Hk) as Hlt. cbn [length] in Hlt.
    replace (Z.of_nat (length before + 3) - (3 - Z.of_nat k) <? 0) with false
      by (symmetry; apply Z.ltb_ge; lia).
    replace (Z.to_nat (Z.of_nat (length before + 3) - (3 - Z.of_nat k)))
      with (length before + k)%nat by lia.
    change (map BSDScraper.trim (before ++ [w; d; c]))
      with (BSDScraper.trim <$> (before ++ [w; d; c])).
    rewrite list_lookup_fmap, lookup_app_r by lia.
    replace (length before + k - length before)%nat with k by lia.
    rewrite Hk. reflexivity. }
  split; [reflexivity|].
  pose proof (Hat 0%nat w eq_refl) as Hw. pose proof (Hat 1%nat d eq_refl) as Hd.
  pose proof (Hat 2%nat c eq_refl) as Hc.
  change (3 - Z.of_nat 0) with 3 in Hw. change (3 - Z.of_nat 1) with 2 in Hd.
  change (3 - Z.of_nat 2) with 1 in Hc.
  rewrite Hw, Hd, Hc. rewrite !or_else_empty. repeat split.
  destruct (BSDScraper.trim c); reflexivity.
Qed.

Lemma parseAddress_reads_the_last_three_parts_witness :
  let before := [ascii_units "60/18A"; ascii_units " Duong Huynh Khuong An"] in
  let w := ascii_units " Phuong 5" in
  let d := ascii_units " Go Vap " in
  let c := ascii_units "  " in
  Forall comma_free (before ++ [w; d; c]) /\
  let parsed := BSDScraper.parseAddress
                  (ascii_units "60/18A, Duong Huynh Khuong An, Phuong 5, Go Vap ,  ") in
  BSDScraper.ward parsed = ascii_units "Phuong 5" /\
  BSDScraper.district parsed = ascii_units "Go Vap" /\
  BSDScraper.city parsed = BSDScraper.default_city.
Proof.
  intros before w d c.
  assert (Hfree : Forall comma_free (before ++ [w; d; c])).
  { repeat constructor; unfold comma_free; vm_compute; intuition discriminate. }
  split; [exact Hfree|].
  destruct (parseAddress_reads_the_last_three_parts before w d c Hfree)
    as (_ & Hward & Hdistrict & Hcity).
  split; [exact Hward|]. split; [exact Hdistrict|exact Hcity].
Defined.

(** X29.  The street is read from the front: it is the second part of the
    address, trimmed, wherever that part sits, and the first part when the
    second is blank.  So an address of two parts has its city as its
    street too (and its first part as district), and an address without a
    comma is its own street and its own city, with no district and no
    ward. *)
Theorem parseAddress_street_is_the_second_part first second rest :
  Forall comma_free (first :: second :: rest) ->
  let second_or_first :=
    match BSDScraper.trim second with
    | [] => BSDScraper.trim first
    | _ => BSDScraper.trim second
    end in
  BSDScraper.street (BSDScraper.parseAddress (with_commas (first :: second :: rest)))
  = second_or_first /\
  BSDScraper.parseAddress (with_commas [first; second])
  = BSDScraper.mkParsedAddress (with_commas [first; second])
      match BSDScraper.trim second with
      | [] => BSDScraper.default_city
      | _ => BSDScraper.trim second
      end
      (BSDScraper.trim first) [] second_or_first /\
  BSDScraper.parseAddress first
  = BSDScraper.mkParsedAddress first
      match BSDScraper.trim first with
      | [] => BSDScraper.default_city
      | _ => BSDScraper.trim first
      end
      [] [] (BSDScraper.trim first).
Proof.
  intros Hfree second_or_first. subst second_or_first.
  inversion Hfree as [|? ? Hfirst Hrest]; subst.
  inversion Hrest as [|? ? Hsecond _]; subst.
  split; [|split].
  - unfold BSDScraper.parseAddress.
    rewrite split_commas_with_commas; [|discriminate|exact Hfree].
    unfold BSDScraper.at_index. cbn.
    destruct (BSDScraper.trim second); [|reflexivity].
    destruct (BSDScraper.trim first); reflexivity.
  - unfold BSDScraper.parseAddress.
    rewrite split_commas_with_commas;
      [|discriminate|repeat constructor; assumption].
    unfold BSDScraper.at_index. cbn.
    destruct (BSDScraper.trim second), (BSDScraper.trim first); reflexivity.
  - unfold BSDScraper.parseAddress.
    rewrite split_commas_free by exact Hfirst.
    unfold BSDScraper.at_index. cbn.
    destruct (BSDScraper.trim first); reflexivity.
Qed.

Lemma parseAddress_street_is_the_second_part_witness :
  let first := ascii_units "Phuong 5" in
  let second := ascii_units " Go Vap" in
  let rest := [ascii_units " Ho Chi Minh"] in
  Forall comma_free (first :: second :: rest) /\
  BSDScraper.street (BSDScraper.parseAddress (ascii_units "Phuong 5, Go Vap, Ho Chi Minh"))
  = ascii_units "Go Vap" /\
  BSDScraper.parseAddress (ascii_units "Phuong 5, Go Vap")
  = BSDScraper.mkParsedAddress (ascii_units "Phuong 5, Go Vap")
      (ascii_units "Go Vap") (ascii_units "Phuong 5") [] (ascii_units "Go Vap") /\
  BSDScraper.parseAddress (ascii_units "Phuong 5")
  = BSDScraper.mkParsedAddress (ascii_units "Phuong 5")
      (ascii_units "Phuong 5") [] [] (ascii_units "Phuong 5").
Proof.
  intros first second rest.
  assert (Hfree : Forall comma_free (first :: second :: rest)).
  { repeat constructor; unfold comma_free; vm_compute; intuition discriminate. }
  split; [exact Hfree|].
  exact (parseAddress_street_is_the_second_part first second rest Hfree).
Defined.

(** The address format the scraper is written for, and addresses that are
    shorter or blank. *)
Example parseAddress_examples :
  BSDScraper.parseAddress (ascii_units "60/18A, Duong Huynh Khuong An, Phuong 5, Go Vap, Ho Chi Minh")
  = BSDScraper.mkParsedAddress
      (ascii_units "60/18A, Duong Huynh Khuong An, Phuong 5, Go Vap, Ho Chi Minh")
      (ascii_units "Ho Chi Minh") (ascii_units "Go Vap") (ascii_units "Phuong 5")
      (ascii_units "Duong Huynh Khuong An") /\
  BSDScraper.parseAddress [] = BSDScraper.mkParsedAddress [] BSDScraper.default_city [] [] [] /\
  BSDScraper.parseAddress (ascii_units "Go Vap,")
  = BSDScraper.mkParsedAddress (ascii_units "Go Vap,")
      BSDScraper.default_city (ascii_units "Go Vap") [] (ascii_units "Go Vap").
Proof. vm_compute. repeat split. Qed.
